(** * Decision layer of the Pokemon Emerald speedrun agent

    A shallow embedding of the goal tracker, the action queue, the scene
    classifier and the decision engine found in
    [agent/deprecated/{memory,planning,perception}.py] and
    [agent/openai/{memory,planning,perception}.py], together with the
    properties the design document states about them.

    Python objects are duck-typed, so observations are modelled as values of
    a small universe of Python data ([Py.value]); code that can raise is
    modelled in an exception monad, and methods that mutate the memory
    module in a state-and-exception monad in which mutations made before a
    raise persist, as they do in Python. *)

From Stdlib Require Import String Ascii List ZArith Bool Lia DecimalString.
From Stdlib Require Import DecimalPos Permutation.
From Stdlib Require Import NArith.
Import ListNotations.
Open Scope string_scope.
Open Scope list_scope.
Set Warnings "-register-all".

(* ===================================================================== *)
(** ** Python values and built-ins *)
(* ===================================================================== *)

Module Py.

(** JSON-like Python data: [None], booleans, integers, strings, lists and
    dictionaries with string keys (kept in insertion order, the first
    binding of a key being the live one). *)
Inductive value : Type :=
| VNone
| VBool (b : bool)
| VInt (z : Z)
| VStr (s : string)
| VList (l : list value)
| VDict (d : list (string * value)).

Inductive exn : Type :=
| AttributeError
| TypeError
| ValueError
| KeyError
| RecursionError.

Inductive outcome (A : Type) : Type :=
| Ret (a : A)
| Raise (e : exn).

Arguments Ret {A} a.
Arguments Raise {A} e.

Definition obind {A B} (m : outcome A) (k : A -> outcome B) : outcome B :=
  match m with
  | Ret a => k a
  | Raise e => Raise e
  end.

(** [bool(v)] *)
Definition truthy (v : value) : bool :=
  match v with
  | VNone => false
  | VBool b => b
  | VInt z => negb (z =? 0)%Z
  | VStr s => negb (s =? "")
  | VList l => match l with [] => false | _ => true end
  | VDict d => match d with [] => false | _ => true end
  end.

(** [a or b] *)
Definition py_or (a b : value) : value := if truthy a then a else b.

Definition is_none (v : value) : bool :=
  match v with VNone => true | _ => false end.

Definition is_dict (v : value) : bool :=
  match v with VDict _ => true | _ => false end.

Definition is_str (v : value) : bool :=
  match v with VStr _ => true | _ => false end.

Definition is_list (v : value) : bool :=
  match v with VList _ => true | _ => false end.

Fixpoint lookup (k : string) (d : list (string * value)) : option value :=
  match d with
  | [] => None
  | (k', v) :: d' => if k' =? k then Some v else lookup k d'
  end.

(** [d.get(k, dflt)] on a dictionary *)
Definition dict_get (d : list (string * value)) (k : string) (dflt : value)
  : value :=
  match lookup k d with
  | Some v => v
  | None => dflt
  end.

(** [x.get(k, dflt)] on any object: only dictionaries have [get]. *)
Definition get (x : value) (k : string) (dflt : value) : outcome value :=
  match x with
  | VDict d => Ret (dict_get d k dflt)
  | _ => Raise AttributeError
  end.

(** [d[k] = v] *)
Fixpoint assoc_set {V : Type} (k : string) (v : V) (d : list (string * V))
  : list (string * V) :=
  match d with
  | [] => [(k, v)]
  | (k', v') :: d' =>
      if k' =? k then (k, v) :: d' else (k', v') :: assoc_set k v d'
  end.

Fixpoint assoc_get {V : Type} (k : string) (d : list (string * V))
  : option V :=
  match d with
  | [] => None
  | (k', v) :: d' => if k' =? k then Some v else assoc_get k d'
  end.

(** *** Strings (ASCII) *)

Definition is_space (c : ascii) : bool :=
  let n := nat_of_ascii c in
  ((9 <=? n) && (n <=? 13) || (28 <=? n) && (n <=? 32))%nat.

Definition upper_char (c : ascii) : ascii :=
  let n := nat_of_ascii c in
  if ((97 <=? n) && (n <=? 122))%nat then ascii_of_nat (n - 32) else c.

Definition lower_char (c : ascii) : ascii :=
  let n := nat_of_ascii c in
  if ((65 <=? n) && (n <=? 90))%nat then ascii_of_nat (n + 32) else c.

Fixpoint map_string (f : ascii -> ascii) (s : string) : string :=
  match s with
  | EmptyString => EmptyString
  | String c s' => String (f c) (map_string f s')
  end.

(** [s.upper()], [s.lower()] *)
Definition upper (s : string) : string := map_string upper_char s.
Definition lower (s : string) : string := map_string lower_char s.

Fixpoint lstrip (s : string) : string :=
  match s with
  | EmptyString => EmptyString
  | String c s' => if is_space c then lstrip s' else s
  end.

Fixpoint rstrip (s : string) : string :=
  match s with
  | EmptyString => EmptyString
  | String c s' =>
      match rstrip s' with
      | EmptyString => if is_space c then EmptyString else String c EmptyString
      | r => String c r
      end
  end.

(** [s.strip()] *)
Definition strip (s : string) : string := rstrip (lstrip s).

(** [sub in s] for two strings *)
Fixpoint contains (sub s : string) : bool :=
  prefix sub s ||
  match s with
  | EmptyString => false
  | String _ s' => contains sub s'
  end.

(** [any(c in s for c in subs)] *)
Definition contains_any (subs : list string) (s : string) : bool :=
  existsb (fun c => contains c s) subs.

(** [s in l] for a string and a list (or set, or tuple) of strings *)
Definition mem (s : string) (l : list string) : bool :=
  existsb (String.eqb s) l.

(** The first whitespace-delimited word, [s.split()[0]] for a string that
    has one. *)
Fixpoint take_word (s : string) : string :=
  match s with
  | EmptyString => EmptyString
  | String c s' => if is_space c then EmptyString else String c (take_word s')
  end.

Definition first_word (s : string) : string := take_word (lstrip s).

(** *** Text beyond ASCII

    A [string] holds the UTF-8 bytes of a Python [str].  [strip] and
    [upper] above work byte by byte, which is what Python does on ASCII
    text.  [str_strip] and [str_upper] work on the code points, with the
    white space of [str.isspace] and the case mapping of [str.upper]
    (Unicode 14.0.0, the tables CPython 3.11 carries): a no-break space
    is stripped, and the long s becomes [S].  A byte that belongs to no
    UTF-8 sequence stands for no character and is kept as it is. *)

Definition continuation (b : N) : bool := ((128 <=? b) && (b <? 192))%N.

Definition raw_byte (b : N) : N := (1114112 + b)%N.

(** The code points of a text. *)
Fixpoint code_points (s : string) : list N :=
  match s with
  | EmptyString => []
  | String c0 s1 =>
      let b0 := N_of_ascii c0 in
      let single :=
        (if (b0 <? 128)%N then b0 else raw_byte b0) :: code_points s1 in
      match s1 with
      | EmptyString => single
      | String c1 s2 =>
          let b1 := N_of_ascii c1 in
          let cp2 := ((b0 - 192) * 64 + (b1 - 128))%N in
          if ((192 <=? b0) && (b0 <? 224) && continuation b1
              && (128 <=? cp2))%N
          then cp2 :: code_points s2
          else
            match s2 with
            | EmptyString => single
            | String c2 s3 =>
                let b2 := N_of_ascii c2 in
                let cp3 :=
                  ((b0 - 224) * 4096 + (b1 - 128) * 64 + (b2 - 128))%N in
                if ((224 <=? b0) && (b0 <? 240) && continuation b1
                    && continuation b2 && (2048 <=? cp3))%N
                then cp3 :: code_points s3
                else
                  match s3 with
                  | EmptyString => single
                  | String c3 s4 =>
                      let b3 := N_of_ascii c3 in
                      let cp4 :=
                        ((b0 - 240) * 262144 + (b1 - 128) * 4096
                         + (b2 - 128) * 64 + (b3 - 128))%N in
                      if ((240 <=? b0) && (b0 <? 248) && continuation b1
                          && continuation b2 && continuation b3
                          && (65536 <=? cp4) && (cp4 <? 1114112))%N
                      then cp4 :: code_points s4
                      else single
                  end
            end
      end
  end.

(** The UTF-8 bytes of a code point. *)
Definition utf8_point (c : N) : string :=
  if (c <? 128)%N then String (ascii_of_N c) ""
  else if (c <? 2048)%N
  then String (ascii_of_N (192 + c / 64))
         (String (ascii_of_N (128 + c mod 64)) "")
  else if (c <? 65536)%N
  then String (ascii_of_N (224 + c / 4096))
         (String (ascii_of_N (128 + (c / 64) mod 64))
            (String (ascii_of_N (128 + c mod 64)) ""))
  else if (c <? 1114112)%N
  then String (ascii_of_N (240 + c / 262144))
         (String (ascii_of_N (128 + (c / 4096) mod 64))
            (String (ascii_of_N (128 + (c / 64) mod 64))
               (String (ascii_of_N (128 + c mod 64)) "")))
  else String (ascii_of_N (c - 1114112)) "".

Definition utf8 (l : list N) : string := String.concat "" (map utf8_point l).

(** [c.isspace()] *)
Definition isspace (c : N) : bool :=
  ((9 <=? c) && (c <=? 13) || (28 <=? c) && (c <=? 32)
   || (c =? 133) || (c =? 160) || (c =? 5760)
   || (8192 <=? c) && (c <=? 8202)
   || (c =? 8232) || (c =? 8233) || (c =? 8239) || (c =? 8287)
   || (c =? 12288))%N.

(** The characters [c] for which [c.upper()] is not [c], in the order of
    their code points, each with the code points of [c.upper()]. *)
Definition UPPERCASE : list (N * list N) := Eval cbv in (
 [
  (97, [65]); (98, [66]); (99, [67]); (100, [68]); (101, [69]); (102, [70]);
   (103, [71]); (104, [72]); (105, [73]); (106, [74]); (107, [75]);
   (108, [76]); (109, [77]); (110, [78]); (111, [79]); (112, [80]);
   (113, [81]); (114, [82]); (115, [83]); (116, [84]); (117, [85]);
   (118, [86]); (119, [87]); (120, [88]); (121, [89]); (122, [90]);
   (181, [924]); (223, [83; 83]); (224, [192]); (225, [193]); (226, [194]);
   (227, [195]); (228, [196]); (229, [197]); (230, [198]); (231, [199]);
   (232, [200]); (233, [201]); (234, [202]); (235, [203]); (236, [204]);
   (237, [205]); (238, [206]); (239, [207]); (240, [208]); (241, [209]);
   (242, [210]); (243, [211]); (244, [212]); (245, [213]); (246, [214]);
   (248, [216]); (249, [217]); (250, [218]); (251, [219]); (252, [220]);
   (253, [221]); (254, [222]); (255, [376]); (257, [256]); (259, [258]);
   (261, [260]); (263, [262]); (265, [264]); (267, [266]); (269, [268]);
   (271, [270]); (273, [272]); (275, [274]); (277, [276]); (279, [278]);
   (281, [280]); (283, [282]); (285, [284]); (287, [286]); (289, [288]);
   (291, [290]); (293, [292]); (295, [294]); (297, [296]); (299, [298]);
   (301, [300]); (303, [302]); (305, [73]); (307, [306]); (309, [308]);
   (311, [310]); (314, [313]); (316, [315]); (318, [317]); (320, [319]);
   (322, [321]); (324, [323]); (326, [325]); (328, [327]); (329, [700; 78]);
   (331, [330]); (333, [332]); (335, [334]); (337, [336]); (339, [338]);
   (341, [340]); (343, [342]); (345, [344]); (347, [346]); (349, [348]);
   (351, [350]); (353, [352]); (355, [354]); (357, [356]); (359, [358]);
   (361, [360]); (363, [362]); (365, [364]); (367, [366]); (369, [368]);
   (371, [370]); (373, [372]); (375, [374]); (378, [377]); (380, [379]);
   (382, [381]); (383, [83]); (384, [579]); (387, [386]); (389, [388]);
   (392, [391]); (396, [395]); (402, [401]); (405, [502]); (409, [408]);
   (410, [573]); (414, [544]); (417, [416]); (419, [418]); (421, [420]);
   (424, [423]); (429, [428]); (432, [431]); (436, [435]); (438, [437]);
   (441, [440]); (445, [444]); (447, [503]); (453, [452]); (454, [452]);
   (456, [455]); (457, [455]); (459, [458]); (460, [458]); (462, [461]);
   (464, [463]); (466, [465]); (468, [467]); (470, [469]); (472, [471]);
   (474, [473]); (476, [475]); (477, [398]); (479, [478]); (481, [480]);
   (483, [482]); (485, [484]); (487, [486]); (489, [488]); (491, [490]);
   (493, [492]); (495, [494]); (496, [74; 780]); (498, [497]); (499, [497]);
   (501, [500]); (505, [504]); (507, [506]); (509, [508]); (511, [510]);
   (513, [512]); (515, [514]); (517, [516]); (519, [518]); (521, [520]);
   (523, [522]); (525, [524]); (527, [526]); (529, [528]); (531, [530]);
   (533, [532]); (535, [534]); (537, [536]); (539, [538]); (541, [540]);
   (543, [542]); (547, [546]); (549, [548]); (551, [550]); (553, [552]);
   (555, [554]); (557, [556]); (559, [558]); (561, [560]); (563, [562]);
   (572, [571]); (575, [11390]); (576, [11391]); (578, [577]); (583, [582]);
   (585, [584]); (587, [586]); (589, [588]); (591, [590]); (592, [11375]);
   (593, [11373]); (594, [11376]); (595, [385]); (596, [390]); (598, [393]);
   (599, [394]); (601, [399]); (603, [400]); (604, [42923]); (608, [403]);
   (609, [42924]); (611, [404]); (613, [42893]); (614, [42922]); (616, [407]);
   (617, [406]); (618, [42926]); (619, [11362]); (620, [42925]); (623, [412]);
   (625, [11374]); (626, [413]); (629, [415]); (637, [11364]); (640, [422]);
   (642, [42949]); (643, [425]); (647, [42929]); (648, [430]); (649, [580]);
   (650, [433]); (651, [434]); (652, [581]); (658, [439]); (669, [42930]);
   (670, [42928]); (837, [921]); (881, [880]); (883, [882]); (887, [886]);
   (891, [1021]); (892, [1022]); (893, [1023]); (912, [921; 776; 769]);
   (940, [902]); (941, [904]); (942, [905]); (943, [906]);
   (944, [933; 776; 769]); (945, [913]); (946, [914]); (947, [915]);
   (948, [916]); (949, [917]); (950, [918]); (951, [919]); (952, [920]);
   (953, [921]); (954, [922]); (955, [923]); (956, [924]); (957, [925]);
   (958, [926]); (959, [927]); (960, [928]); (961, [929]); (962, [931]);
   (963, [931]); (964, [932]); (965, [933]); (966, [934]); (967, [935]);
   (968, [936]); (969, [937]); (970, [938]); (971, [939]); (972, [908]);
   (973, [910]); (974, [911]); (976, [914]); (977, [920]); (981, [934]);
   (982, [928]); (983, [975]); (985, [984]); (987, [986]); (989, [988]);
   (991, [990]); (993, [992]); (995, [994]); (997, [996]); (999, [998]);
   (1001, [1000]); (1003, [1002]); (1005, [1004]); (1007, [1006]);
   (1008, [922]); (1009, [929]); (1010, [1017]); (1011, [895]); (1013, [917]);
   (1016, [1015]); (1019, [1018]); (1072, [1040]); (1073, [1041]);
   (1074, [1042]); (1075, [1043]); (1076, [1044]); (1077, [1045]);
   (1078, [1046]); (1079, [1047]); (1080, [1048]); (1081, [1049]);
   (1082, [1050]); (1083, [1051]); (1084, [1052]); (1085, [1053]);
   (1086, [1054]); (1087, [1055]); (1088, [1056]); (1089, [1057]);
   (1090, [1058]); (1091, [1059]); (1092, [1060]); (1093, [1061]);
   (1094, [1062]); (1095, [1063]); (1096, [1064]); (1097, [1065]);
   (1098, [1066]); (1099, [1067]); (1100, [1068]); (1101, [1069]);
   (1102, [1070]); (1103, [1071]); (1104, [1024]); (1105, [1025]);
   (1106, [1026]); (1107, [1027]); (1108, [1028]); (1109, [1029]);
   (1110, [1030]); (1111, [1031]); (1112, [1032]); (1113, [1033]);
   (1114, [1034]); (1115, [1035]); (1116, [1036]); (1117, [1037]);
   (1118, [1038]); (1119, [1039]); (1121, [1120]); (1123, [1122]);
   (1125, [1124]); (1127, [1126]); (1129, [1128]); (1131, [1130]);
   (1133, [1132]); (1135, [1134]); (1137, [1136]); (1139, [1138]);
   (1141, [1140]); (1143, [1142]); (1145, [1144]); (1147, [1146]);
   (1149, [1148]); (1151, [1150]); (1153, [1152]); (1163, [1162]);
   (1165, [1164]); (1167, [1166]); (1169, [1168]); (1171, [1170]);
   (1173, [1172]); (1175, [1174]); (1177, [1176]); (1179, [1178]);
   (1181, [1180]); (1183, [1182]); (1185, [1184]); (1187, [1186]);
   (1189, [1188]); (1191, [1190]); (1193, [1192]); (1195, [1194]);
   (1197, [1196]); (1199, [1198]); (1201, [1200]); (1203, [1202]);
   (1205, [1204]); (1207, [1206]); (1209, [1208]); (1211, [1210]);
   (1213, [1212]); (1215, [1214]); (1218, [1217]); (1220, [1219]);
   (1222, [1221]); (1224, [1223]); (1226, [1225]); (1228, [1227]);
   (1230, [1229]); (1231, [1216]); (1233, [1232]); (1235, [1234]);
   (1237, [1236]); (1239, [1238]); (1241, [1240]); (1243, [1242]);
   (1245, [1244]); (1247, [1246]); (1249, [1248]); (1251, [1250]);
   (1253, [1252]); (1255, [1254]); (1257, [1256]); (1259, [1258]);
   (1261, [1260]); (1263, [1262]); (1265, [1264]); (1267, [1266]);
   (1269, [1268]); (1271, [1270]); (1273, [1272]); (1275, [1274]);
   (1277, [1276]); (1279, [1278]); (1281, [1280]); (1283, [1282]);
   (1285, [1284]); (1287, [1286]); (1289, [1288]); (1291, [1290]);
   (1293, [1292]); (1295, [1294]); (1297, [1296]); (1299, [1298]);
   (1301, [1300]); (1303, [1302]); (1305, [1304]); (1307, [1306]);
   (1309, [1308]); (1311, [1310]); (1313, [1312]); (1315, [1314]);
   (1317, [1316]); (1319, [1318]); (1321, [1320]); (1323, [1322]);
   (1325, [1324]); (1327, [1326]); (1377, [1329]); (1378, [1330]);
   (1379, [1331]); (1380, [1332]); (1381, [1333]); (1382, [1334]);
   (1383, [1335]); (1384, [1336]); (1385, [1337]); (1386, [1338]);
   (1387, [1339]); (1388, [1340]); (1389, [1341]); (1390, [1342]);
   (1391, [1343]); (1392, [1344]); (1393, [1345]); (1394, [1346]);
   (1395, [1347]); (1396, [1348]); (1397, [1349]); (1398, [1350]);
   (1399, [1351]); (1400, [1352]); (1401, [1353]); (1402, [1354]);
   (1403, [1355]); (1404, [1356]); (1405, [1357]); (1406, [1358]);
   (1407, [1359]); (1408, [1360]); (1409, [1361]); (1410, [1362]);
   (1411, [1363]); (1412, [1364]); (1413, [1365]); (1414, [1366]);
   (1415, [1333; 1362]); (4304, [7312]); (4305, [7313]); (4306, [7314]);
   (4307, [7315]); (4308, [7316]); (4309, [7317]); (4310, [7318]);
   (4311, [7319]); (4312, [7320]); (4313, [7321]); (4314, [7322]);
   (4315, [7323]); (4316, [7324]); (4317, [7325]); (4318, [7326]);
   (4319, [7327]); (4320, [7328]); (4321, [7329]); (4322, [7330]);
   (4323, [7331]); (4324, [7332]); (4325, [7333]); (4326, [7334]);
   (4327, [7335]); (4328, [7336]); (4329, [7337]); (4330, [7338]);
   (4331, [7339]); (4332, [7340]); (4333, [7341]); (4334, [7342]);
   (4335, [7343]); (4336, [7344]); (4337, [7345]); (4338, [7346]);
   (4339, [7347]); (4340, [7348]); (4341, [7349]); (4342, [7350]);
   (4343, [7351]); (4344, [7352]); (4345, [7353]); (4346, [7354]);
   (4349, [7357]); (4350, [7358]); (4351, [7359]); (5112, [5104]);
   (5113, [5105]); (5114, [5106]); (5115, [5107]); (5116, [5108]);
   (5117, [5109]); (7296, [1042]); (7297, [1044]); (7298, [1054]);
   (7299, [1057]); (7300, [1058]); (7301, [1058]); (7302, [1066]);
   (7303, [1122]); (7304, [42570]); (7545, [42877]); (7549, [11363]);
   (7566, [42950]); (7681, [7680]); (7683, [7682]); (7685, [7684]);
   (7687, [7686]); (7689, [7688]); (7691, [7690]); (7693, [7692]);
   (7695, [7694]); (7697, [7696]); (7699, [7698]); (7701, [7700]);
   (7703, [7702]); (7705, [7704]); (7707, [7706]); (7709, [7708]);
   (7711, [7710]); (7713, [7712]); (7715, [7714]); (7717, [7716]);
   (7719, [7718]); (7721, [7720]); (7723, [7722]); (7725, [7724]);
   (7727, [7726]); (7729, [7728]); (7731, [7730]); (7733, [7732]);
   (7735, [7734]); (7737, [7736]); (7739, [7738]); (7741, [7740]);
   (7743, [7742]); (7745, [7744]); (7747, [7746]); (7749, [7748]);
   (7751, [7750]); (7753, [7752]); (7755, [7754]); (7757, [7756]);
   (7759, [7758]); (7761, [7760]); (7763, [7762]); (7765, [7764]);
   (7767, [7766]); (7769, [7768]); (7771, [7770]); (7773, [7772]);
   (7775, [7774]); (7777, [7776]); (7779, [7778]); (7781, [7780]);
   (7783, [7782]); (7785, [7784]); (7787, [7786]); (7789, [7788]);
   (7791, [7790]); (7793, [7792]); (7795, [7794]); (7797, [7796]);
   (7799, [7798]); (7801, [7800]); (7803, [7802]); (7805, [7804]);
   (7807, [7806]); (7809, [7808]); (7811, [7810]); (7813, [7812]);
   (7815, [7814]); (7817, [7816]); (7819, [7818]); (7821, [7820]);
   (7823, [7822]); (7825, [7824]); (7827, [7826]); (7829, [7828]);
   (7830, [72; 817]); (7831, [84; 776]); (7832, [87; 778]); (7833, [89; 778]);
   (7834, [65; 702]); (7835, [7776]); (7841, [7840]); (7843, [7842]);
   (7845, [7844]); (7847, [7846]); (7849, [7848]); (7851, [7850]);
   (7853, [7852]); (7855, [7854]); (7857, [7856]); (7859, [7858]);
   (7861, [7860]); (7863, [7862]); (7865, [7864]); (7867, [7866]);
   (7869, [7868]); (7871, [7870]); (7873, [7872]); (7875, [7874]);
   (7877, [7876]); (7879, [7878]); (7881, [7880]); (7883, [7882]);
   (7885, [7884]); (7887, [7886]); (7889, [7888]); (7891, [7890]);
   (7893, [7892]); (7895, [7894]); (7897, [7896]); (7899, [7898]);
   (7901, [7900]); (7903, [7902]); (7905, [7904]); (7907, [7906]);
   (7909, [7908]); (7911, [7910]); (7913, [7912]); (7915, [7914]);
   (7917, [7916]); (7919, [7918]); (7921, [7920]); (7923, [7922]);
   (7925, [7924]); (7927, [7926]); (7929, [7928]); (7931, [7930]);
   (7933, [7932]); (7935, [7934]); (7936, [7944]); (7937, [7945]);
   (7938, [7946]); (7939, [7947]); (7940, [7948]); (7941, [7949]);
   (7942, [7950]); (7943, [7951]); (7952, [7960]); (7953, [7961]);
   (7954, [7962]); (7955, [7963]); (7956, [7964]); (7957, [7965]);
   (7968, [7976]); (7969, [7977]); (7970, [7978]); (7971, [7979]);
   (7972, [7980]); (7973, [7981]); (7974, [7982]); (7975, [7983]);
   (7984, [7992]); (7985, [7993]); (7986, [7994]); (7987, [7995]);
   (7988, [7996]); (7989, [7997]); (7990, [7998]); (7991, [7999]);
   (8000, [8008]); (8001, [8009]); (8002, [8010]); (8003, [8011]);
   (8004, [8012]); (8005, [8013]); (8016, [933; 787]); (8017, [8025]);
   (8018, [933; 787; 768]); (8019, [8027]); (8020, [933; 787; 769]);
   (8021, [8029]); (8022, [933; 787; 834]); (8023, [8031]); (8032, [8040]);
   (8033, [8041]); (8034, [8042]); (8035, [8043]); (8036, [8044]);
   (8037, [8045]); (8038, [8046]); (8039, [8047]); (8048, [8122]);
   (8049, [8123]); (8050, [8136]); (8051, [8137]); (8052, [8138]);
   (8053, [8139]); (8054, [8154]); (8055, [8155]); (8056, [8184]);
   (8057, [8185]); (8058, [8170]); (8059, [8171]); (8060, [8186]);
   (8061, [8187]); (8064, [7944; 921]); (8065, [7945; 921]);
   (8066, [7946; 921]); (8067, [7947; 921]); (8068, [7948; 921]);
   (8069, [7949; 921]); (8070, [7950; 921]); (8071, [7951; 921]);
   (8072, [7944; 921]); (8073, [7945; 921]); (8074, [7946; 921]);
   (8075, [7947; 921]); (8076, [7948; 921]); (8077, [7949; 921]);
   (8078, [7950; 921]); (8079, [7951; 921]); (8080, [7976; 921]);
   (8081, [7977; 921]); (8082, [7978; 921]); (8083, [7979; 921]);
   (8084, [7980; 921]); (8085, [7981; 921]); (8086, [7982; 921]);
   (8087, [7983; 921]); (8088, [7976; 921]); (8089, [7977; 921]);
   (8090, [7978; 921]); (8091, [7979; 921]); (8092, [7980; 921]);
   (8093, [7981; 921]); (8094, [7982; 921]); (8095, [7983; 921]);
   (8096, [8040; 921]); (8097, [8041; 921]); (8098, [8042; 921]);
   (8099, [8043; 921]); (8100, [8044; 921]); (8101, [8045; 921]);
   (8102, [8046; 921]); (8103, [8047; 921]); (8104, [8040; 921]);
   (8105, [8041; 921]); (8106, [8042; 921]); (8107, [8043; 921]);
   (8108, [8044; 921]); (8109, [8045; 921]); (8110, [8046; 921]);
   (8111, [8047; 921]); (8112, [8120]); (8113, [8121]); (8114, [8122; 921]);
   (8115, [913; 921]); (8116, [902; 921]); (8118, [913; 834]);
   (8119, [913; 834; 921]); (8124, [913; 921]); (8126, [921]);
   (8130, [8138; 921]); (8131, [919; 921]); (8132, [905; 921]);
   (8134, [919; 834]); (8135, [919; 834; 921]); (8140, [919; 921]);
   (8144, [8152]); (8145, [8153]); (8146, [921; 776; 768]);
   (8147, [921; 776; 769]); (8150, [921; 834]); (8151, [921; 776; 834]);
   (8160, [8168]); (8161, [8169]); (8162, [933; 776; 768]);
   (8163, [933; 776; 769]); (8164, [929; 787]); (8165, [8172]);
   (8166, [933; 834]); (8167, [933; 776; 834]); (8178, [8186; 921]);
   (8179, [937; 921]); (8180, [911; 921]); (8182, [937; 834]);
   (8183, [937; 834; 921]); (8188, [937; 921]); (8526, [8498]);
   (8560, [8544]); (8561, [8545]); (8562, [8546]); (8563, [8547]);
   (8564, [8548]); (8565, [8549]); (8566, [8550]); (8567, [8551]);
   (8568, [8552]); (8569, [8553]); (8570, [8554]); (8571, [8555]);
   (8572, [8556]); (8573, [8557]); (8574, [8558]); (8575, [8559]);
   (8580, [8579]); (9424, [9398]); (9425, [9399]); (9426, [9400]);
   (9427, [9401]); (9428, [9402]); (9429, [9403]); (9430, [9404]);
   (9431, [9405]); (9432, [9406]); (9433, [9407]); (9434, [9408]);
   (9435, [9409]); (9436, [9410]); (9437, [9411]); (9438, [9412]);
   (9439, [9413]); (9440, [9414]); (9441, [9415]); (9442, [9416]);
   (9443, [9417]); (9444, [9418]); (9445, [9419]); (9446, [9420]);
   (9447, [9421]); (9448, [9422]); (9449, [9423]); (11312, [11264]);
   (11313, [11265]); (11314, [11266]); (11315, [11267]); (11316, [11268]);
   (11317, [11269]); (11318, [11270]); (11319, [11271]); (11320, [11272]);
   (11321, [11273]); (11322, [11274]); (11323, [11275]); (11324, [11276]);
   (11325, [11277]); (11326, [11278]); (11327, [11279]); (11328, [11280]);
   (11329, [11281]); (11330, [11282]); (11331, [11283]); (11332, [11284]);
   (11333, [11285]); (11334, [11286]); (11335, [11287]); (11336, [11288]);
   (11337, [11289]); (11338, [11290]); (11339, [11291]); (11340, [11292]);
   (11341, [11293]); (11342, [11294]); (11343, [11295]); (11344, [11296]);
   (11345, [11297]); (11346, [11298]); (11347, [11299]); (11348, [11300]);
   (11349, [11301]); (11350, [11302]); (11351, [11303]); (11352, [11304]);
   (11353, [11305]); (11354, [11306]); (11355, [11307]); (11356, [11308]);
   (11357, [11309]); (11358, [11310]); (11359, [11311]); (11361, [11360]);
   (11365, [570]); (11366, [574]); (11368, [11367]); (11370, [11369]);
   (11372, [11371]); (11379, [11378]); (11382, [11381]); (11393, [11392]);
   (11395, [11394]); (11397, [11396]); (11399, [11398]); (11401, [11400]);
   (11403, [11402]); (11405, [11404]); (11407, [11406]); (11409, [11408]);
   (11411, [11410]); (11413, [11412]); (11415, [11414]); (11417, [11416]);
   (11419, [11418]); (11421, [11420]); (11423, [11422]); (11425, [11424]);
   (11427, [11426]); (11429, [11428]); (11431, [11430]); (11433, [11432]);
   (11435, [11434]); (11437, [11436]); (11439, [11438]); (11441, [11440]);
   (11443, [11442]); (11445, [11444]); (11447, [11446]); (11449, [11448]);
   (11451, [11450]); (11453, [11452]); (11455, [11454]); (11457, [11456]);
   (11459, [11458]); (11461, [11460]); (11463, [11462]); (11465, [11464]);
   (11467, [11466]); (11469, [11468]); (11471, [11470]); (11473, [11472]);
   (11475, [11474]); (11477, [11476]); (11479, [11478]); (11481, [11480]);
   (11483, [11482]); (11485, [11484]); (11487, [11486]); (11489, [11488]);
   (11491, [11490]); (11500, [11499]); (11502, [11501]); (11507, [11506]);
   (11520, [4256]); (11521, [4257]); (11522, [4258]); (11523, [4259]);
   (11524, [4260]); (11525, [4261]); (11526, [4262]); (11527, [4263]);
   (11528, [4264]); (11529, [4265]); (11530, [4266]); (11531, [4267]);
   (11532, [4268]); (11533, [4269]); (11534, [4270]); (11535, [4271]);
   (11536, [4272]); (11537, [4273]); (11538, [4274]); (11539, [4275]);
   (11540, [4276]); (11541, [4277]); (11542, [4278]); (11543, [4279]);
   (11544, [4280]); (11545, [4281]); (11546, [4282]); (11547, [4283]);
   (11548, [4284]); (11549, [4285]); (11550, [4286]); (11551, [4287]);
   (11552, [4288]); (11553, [4289]); (11554, [4290]); (11555, [4291]);
   (11556, [4292]); (11557, [4293]); (11559, [4295]); (11565, [4301]);
   (42561, [42560]); (42563, [42562]); (42565, [42564]); (42567, [42566]);
   (42569, [42568]); (42571, [42570]); (42573, [42572]); (42575, [42574]);
   (42577, [42576]); (42579, [42578]); (42581, [42580]); (42583, [42582]);
   (42585, [42584]); (42587, [42586]); (42589, [42588]); (42591, [42590]);
   (42593, [42592]); (42595, [42594]); (42597, [42596]); (42599, [42598]);
   (42601, [42600]); (42603, [42602]); (42605, [42604]); (42625, [42624]);
   (42627, [42626]); (42629, [42628]); (42631, [42630]); (42633, [42632]);
   (42635, [42634]); (42637, [42636]); (42639, [42638]); (42641, [42640]);
   (42643, [42642]); (42645, [42644]); (42647, [42646]); (42649, [42648]);
   (42651, [42650]); (42787, [42786]); (42789, [42788]); (42791, [42790]);
   (42793, [42792]); (42795, [42794]); (42797, [42796]); (42799, [42798]);
   (42803, [42802]); (42805, [42804]); (42807, [42806]); (42809, [42808]);
   (42811, [42810]); (42813, [42812]); (42815, [42814]); (42817, [42816]);
   (42819, [42818]); (42821, [42820]); (42823, [42822]); (42825, [42824]);
   (42827, [42826]); (42829, [42828]); (42831, [42830]); (42833, [42832]);
   (42835, [42834]); (42837, [42836]); (42839, [42838]); (42841, [42840]);
   (42843, [42842]); (42845, [42844]); (42847, [42846]); (42849, [42848]);
   (42851, [42850]); (42853, [42852]); (42855, [42854]); (42857, [42856]);
   (42859, [42858]); (42861, [42860]); (42863, [42862]); (42874, [42873]);
   (42876, [42875]); (42879, [42878]); (42881, [42880]); (42883, [42882]);
   (42885, [42884]); (42887, [42886]); (42892, [42891]); (42897, [42896]);
   (42899, [42898]); (42900, [42948]); (42903, [42902]); (42905, [42904]);
   (42907, [42906]); (42909, [42908]); (42911, [42910]); (42913, [42912]);
   (42915, [42914]); (42917, [42916]); (42919, [42918]); (42921, [42920]);
   (42933, [42932]); (42935, [42934]); (42937, [42936]); (42939, [42938]);
   (42941, [42940]); (42943, [42942]); (42945, [42944]); (42947, [42946]);
   (42952, [42951]); (42954, [42953]); (42961, [42960]); (42967, [42966]);
   (42969, [42968]); (42998, [42997]); (43859, [42931]); (43888, [5024]);
   (43889, [5025]); (43890, [5026]); (43891, [5027]); (43892, [5028]);
   (43893, [5029]); (43894, [5030]); (43895, [5031]); (43896, [5032]);
   (43897, [5033]); (43898, [5034]); (43899, [5035]); (43900, [5036]);
   (43901, [5037]); (43902, [5038]); (43903, [5039]); (43904, [5040]);
   (43905, [5041]); (43906, [5042]); (43907, [5043]); (43908, [5044]);
   (43909, [5045]); (43910, [5046]); (43911, [5047]); (43912, [5048]);
   (43913, [5049]); (43914, [5050]); (43915, [5051]); (43916, [5052]);
   (43917, [5053]); (43918, [5054]); (43919, [5055]); (43920, [5056]);
   (43921, [5057]); (43922, [5058]); (43923, [5059]); (43924, [5060]);
   (43925, [5061]); (43926, [5062]); (43927, [5063]); (43928, [5064]);
   (43929, [5065]); (43930, [5066]); (43931, [5067]); (43932, [5068]);
   (43933, [5069]); (43934, [5070]); (43935, [5071]); (43936, [5072]);
   (43937, [5073]); (43938, [5074]); (43939, [5075]); (43940, [5076]);
   (43941, [5077]); (43942, [5078]); (43943, [5079]); (43944, [5080]);
   (43945, [5081]); (43946, [5082]); (43947, [5083]); (43948, [5084]);
   (43949, [5085]); (43950, [5086]); (43951, [5087]); (43952, [5088]);
   (43953, [5089]); (43954, [5090]); (43955, [5091]); (43956, [5092]);
   (43957, [5093]); (43958, [5094]); (43959, [5095]); (43960, [5096]);
   (43961, [5097]); (43962, [5098]); (43963, [5099]); (43964, [5100]);
   (43965, [5101]); (43966, [5102]); (43967, [5103]); (64256, [70; 70]);
   (64257, [70; 73]); (64258, [70; 76]); (64259, [70; 70; 73]);
   (64260, [70; 70; 76]); (64261, [83; 84]); (64262, [83; 84]);
   (64275, [1348; 1350]); (64276, [1348; 1333]); (64277, [1348; 1339]);
   (64278, [1358; 1350]); (64279, [1348; 1341]); (65345, [65313]);
   (65346, [65314]); (65347, [65315]); (65348, [65316]); (65349, [65317]);
   (65350, [65318]); (65351, [65319]); (65352, [65320]); (65353, [65321]);
   (65354, [65322]); (65355, [65323]); (65356, [65324]); (65357, [65325]);
   (65358, [65326]); (65359, [65327]); (65360, [65328]); (65361, [65329]);
   (65362, [65330]); (65363, [65331]); (65364, [65332]); (65365, [65333]);
   (65366, [65334]); (65367, [65335]); (65368, [65336]); (65369, [65337]);
   (65370, [65338]); (66600, [66560]); (66601, [66561]); (66602, [66562]);
   (66603, [66563]); (66604, [66564]); (66605, [66565]); (66606, [66566]);
   (66607, [66567]); (66608, [66568]); (66609, [66569]); (66610, [66570]);
   (66611, [66571]); (66612, [66572]); (66613, [66573]); (66614, [66574]);
   (66615, [66575]); (66616, [66576]); (66617, [66577]); (66618, [66578]);
   (66619, [66579]); (66620, [66580]); (66621, [66581]); (66622, [66582]);
   (66623, [66583]); (66624, [66584]); (66625, [66585]); (66626, [66586]);
   (66627, [66587]); (66628, [66588]); (66629, [66589]); (66630, [66590]);
   (66631, [66591]); (66632, [66592]); (66633, [66593]); (66634, [66594]);
   (66635, [66595]); (66636, [66596]); (66637, [66597]); (66638, [66598]);
   (66639, [66599]); (66776, [66736]); (66777, [66737]); (66778, [66738]);
   (66779, [66739]); (66780, [66740]); (66781, [66741]); (66782, [66742]);
   (66783, [66743]); (66784, [66744]); (66785, [66745]); (66786, [66746]);
   (66787, [66747]); (66788, [66748]); (66789, [66749]); (66790, [66750]);
   (66791, [66751]); (66792, [66752]); (66793, [66753]); (66794, [66754]);
   (66795, [66755]); (66796, [66756]); (66797, [66757]); (66798, [66758]);
   (66799, [66759]); (66800, [66760]); (66801, [66761]); (66802, [66762]);
   (66803, [66763]); (66804, [66764]); (66805, [66765]); (66806, [66766]);
   (66807, [66767]); (66808, [66768]); (66809, [66769]); (66810, [66770]);
   (66811, [66771]); (66967, [66928]); (66968, [66929]); (66969, [66930]);
   (66970, [66931]); (66971, [66932]); (66972, [66933]); (66973, [66934]);
   (66974, [66935]); (66975, [66936]); (66976, [66937]); (66977, [66938]);
   (66979, [66940]); (66980, [66941]); (66981, [66942]); (66982, [66943]);
   (66983, [66944]); (66984, [66945]); (66985, [66946]); (66986, [66947]);
   (66987, [66948]); (66988, [66949]); (66989, [66950]); (66990, [66951]);
   (66991, [66952]); (66992, [66953]); (66993, [66954]); (66995, [66956]);
   (66996, [66957]); (66997, [66958]); (66998, [66959]); (66999, [66960]);
   (67000, [66961]); (67001, [66962]); (67003, [66964]); (67004, [66965]);
   (68800, [68736]); (68801, [68737]); (68802, [68738]); (68803, [68739]);
   (68804, [68740]); (68805, [68741]); (68806, [68742]); (68807, [68743]);
   (68808, [68744]); (68809, [68745]); (68810, [68746]); (68811, [68747]);
   (68812, [68748]); (68813, [68749]); (68814, [68750]); (68815, [68751]);
   (68816, [68752]); (68817, [68753]); (68818, [68754]); (68819, [68755]);
   (68820, [68756]); (68821, [68757]); (68822, [68758]); (68823, [68759]);
   (68824, [68760]); (68825, [68761]); (68826, [68762]); (68827, [68763]);
   (68828, [68764]); (68829, [68765]); (68830, [68766]); (68831, [68767]);
   (68832, [68768]); (68833, [68769]); (68834, [68770]); (68835, [68771]);
   (68836, [68772]); (68837, [68773]); (68838, [68774]); (68839, [68775]);
   (68840, [68776]); (68841, [68777]); (68842, [68778]); (68843, [68779]);
   (68844, [68780]); (68845, [68781]); (68846, [68782]); (68847, [68783]);
   (68848, [68784]); (68849, [68785]); (68850, [68786]); (71872, [71840]);
   (71873, [71841]); (71874, [71842]); (71875, [71843]); (71876, [71844]);
   (71877, [71845]); (71878, [71846]); (71879, [71847]); (71880, [71848]);
   (71881, [71849]); (71882, [71850]); (71883, [71851]); (71884, [71852]);
   (71885, [71853]); (71886, [71854]); (71887, [71855]); (71888, [71856]);
   (71889, [71857]); (71890, [71858]); (71891, [71859]); (71892, [71860]);
   (71893, [71861]); (71894, [71862]); (71895, [71863]); (71896, [71864]);
   (71897, [71865]); (71898, [71866]); (71899, [71867]); (71900, [71868]);
   (71901, [71869]); (71902, [71870]); (71903, [71871]); (93792, [93760]);
   (93793, [93761]); (93794, [93762]); (93795, [93763]); (93796, [93764]);
   (93797, [93765]); (93798, [93766]); (93799, [93767]); (93800, [93768]);
   (93801, [93769]); (93802, [93770]); (93803, [93771]); (93804, [93772]);
   (93805, [93773]); (93806, [93774]); (93807, [93775]); (93808, [93776]);
   (93809, [93777]); (93810, [93778]); (93811, [93779]); (93812, [93780]);
   (93813, [93781]); (93814, [93782]); (93815, [93783]); (93816, [93784]);
   (93817, [93785]); (93818, [93786]); (93819, [93787]); (93820, [93788]);
   (93821, [93789]); (93822, [93790]); (93823, [93791]); (125218, [125184]);
   (125219, [125185]); (125220, [125186]); (125221, [125187]);
   (125222, [125188]); (125223, [125189]); (125224, [125190]);
   (125225, [125191]); (125226, [125192]); (125227, [125193]);
   (125228, [125194]); (125229, [125195]); (125230, [125196]);
   (125231, [125197]); (125232, [125198]); (125233, [125199]);
   (125234, [125200]); (125235, [125201]); (125236, [125202]);
   (125237, [125203]); (125238, [125204]); (125239, [125205]);
   (125240, [125206]); (125241, [125207]); (125242, [125208]);
   (125243, [125209]); (125244, [125210]); (125245, [125211]);
   (125246, [125212]); (125247, [125213]); (125248, [125214]);
   (125249, [125215]); (125250, [125216]); (125251, [125217])
 ])%N.

Fixpoint find_sorted (c : N) (t : list (N * list N)) : option (list N) :=
  match t with
  | [] => None
  | (k, u) :: t' =>
      if (c =? k)%N then Some u
      else if (c <? k)%N then None
      else find_sorted c t'
  end.

Definition upper_point (c : N) : list N :=
  match find_sorted c UPPERCASE with
  | Some u => u
  | None => [c]
  end.

Fixpoint lstrip_points (l : list N) : list N :=
  match l with
  | [] => []
  | c :: l' => if isspace c then lstrip_points l' else l
  end.

Definition rstrip_points (l : list N) : list N :=
  rev (lstrip_points (rev l)).

(** [s.strip()] and [s.upper()] on any text *)
Definition str_strip (s : string) : string :=
  utf8 (rstrip_points (lstrip_points (code_points s))).

Definition str_upper (s : string) : string :=
  utf8 (flat_map upper_point (code_points s)).

(** *** [str] and [repr]

    Strings inside containers are shown between single quotes; the escapes
    Python adds for quotes and control characters are not modelled, nor is
    the limit CPython puts on the digits of an integer it prints (4300). *)

Definition str_of_Z (z : Z) : string := NilZero.string_of_int (Z.to_int z).

Fixpoint repr (v : value) : string :=
  match v with
  | VNone => "None"
  | VBool true => "True"
  | VBool false => "False"
  | VInt z => str_of_Z z
  | VStr s => ("'" ++ s ++ "'")%string
  | VList l => ("[" ++ String.concat ", " (map repr l) ++ "]")%string
  | VDict d =>
      ("{" ++ String.concat ", "
                (map (fun kv => "'" ++ fst kv ++ "': " ++ repr (snd kv)) d)
           ++ "}")%string
  end.

(** [str(v)] *)
Definition py_str (v : value) : string :=
  match v with
  | VStr s => s
  | _ => repr v
  end.

(** [v.lower()]: only strings have the method. *)
Definition str_lower (v : value) : outcome string :=
  match v with
  | VStr s => Ret (lower s)
  | _ => Raise AttributeError
  end.

(** *** Equality and membership *)

(** [a == b].  Booleans compare as the integers 0 and 1; dictionaries
    compare by content, whatever the insertion order. *)
Fixpoint py_eq (a b : value) {struct a} : bool :=
  match a, b with
  | VNone, VNone => true
  | VBool x, VBool y => Bool.eqb x y
  | VBool x, VInt y => ((if x then 1 else 0) =? y)%Z
  | VInt x, VBool y => (x =? (if y then 1 else 0))%Z
  | VInt x, VInt y => (x =? y)%Z
  | VStr x, VStr y => (x =? y)
  | VList x, VList y =>
      (fix all2 (x y : list value) {struct x} : bool :=
         match x, y with
         | [], [] => true
         | u :: x', w :: y' => py_eq u w && all2 x' y'
         | _, _ => false
         end) x y
  | VDict x, VDict y =>
      (length x =? length y)%nat &&
      (fix sub (x : list (string * value)) {struct x} : bool :=
         match x with
         | [] => true
         | (k, u) :: x' =>
             match lookup k y with
             | Some w => py_eq u w && sub x'
             | None => false
             end
         end) x
  | _, _ => false
  end.

(** [v in l] where [l] is a list (or tuple) of string literals *)
Definition in_strs (v : value) (l : list string) : bool :=
  existsb (fun s => py_eq v (VStr s)) l.

(** [s in v] where [s] is a string literal and [v] any object that is
    expected to be a string *)
Definition str_in (x : value) (s : string) : outcome bool :=
  match x with
  | VStr t => Ret (contains t s)
  | _ => Raise TypeError
  end.

End Py.

(* ===================================================================== *)
(** ** State-and-exception monad *)
(* ===================================================================== *)

Module Eff.
Import Py.

Section Monad.
Context {S : Type}.

(** A method of an object of type [S]: it returns or raises, and leaves the
    object in a new state either way. *)
Definition M (A : Type) : Type := S -> outcome A * S.

Definition ret {A} (a : A) : M A := fun s => (Ret a, s).

Definition raise {A} (e : exn) : M A := fun s => (Raise e, s).

Definition bind {A B} (m : M A) (k : A -> M B) : M B :=
  fun s =>
    match m s with
    | (Ret a, s') => k a s'
    | (Raise e, s') => (Raise e, s')
    end.

Definition gets {A} (f : S -> A) : M A := fun s => (Ret (f s), s).

Definition modify (f : S -> S) : M unit := fun s => (Ret tt, f s).

Definition lift {A} (o : outcome A) : M A := fun s => (o, s).

(** [try: m  except Exception: h] *)
Definition try_except {A} (m : M A) (h : exn -> M A) : M A :=
  fun s =>
    match m s with
    | (Ret a, s') => (Ret a, s')
    | (Raise e, s') => h e s'
    end.

Definition when (b : bool) (m : M unit) : M unit :=
  if b then m else ret tt.

End Monad.

End Eff.

Notation "x <- m ;; k" := (Eff.bind m (fun x => k))
  (at level 61, m at next level, right associativity).
Notation "m ;;; k" := (Eff.bind m (fun _ => k))
  (at level 61, right associativity).
Notation "x <-? m ;; k" := (Py.obind m (fun x => k))
  (at level 61, m at next level, right associativity).

(* ===================================================================== *)
(** ** Goal tracker and action queue: [agent/deprecated/memory.py] *)
(* ===================================================================== *)

Module Deprecated.
Import Py Eff.

(** A goal of the long-term plan: a dictionary with the keys [id], [goal],
    [status], [completion_cues] and, for some goals, [movement_only]
    (read with the default [False]). *)
Record Goal : Type := mkGoal {
  id : string;
  goal : string;
  status : string;
  completion_cues : list string;
  movement_only : bool
}.

(** [g["status"] = s] *)
Definition set_status (s : string) (g : Goal) : Goal :=
  mkGoal (id g) (goal g) s (completion_cues g) (movement_only g).

(** [state["current_goal"]] holds a reference to a goal dictionary.  The
    goals the tracker activates are the dictionaries of the plan
    themselves ([InPlan i], the [i]-th entry); a state restored from disk
    holds a dictionary of its own ([Detached g]). *)
Inductive GoalRef : Type :=
| InPlan (i : nat)
| Detached (g : Goal).

(** [memory._runtime_flags]; a key that is absent reads as its default
    ([False], [0], [None]). *)
Record RuntimeFlags : Type := mkFlags {
  clock_sequence_queued : bool;
  set_clock_sequence_queued : bool;
  downstairs_sequence_queued : bool;
  step_counter : Z;
  last_scene : value;
  dialogue_streak : Z;
  post_dialogue_escape_done : bool
}.

(** The memory module together with the module-level queue
    [_GLOBAL_PENDING] it shares with every other instance. *)
Record MemoryModule : Type := mkMemory {
  location : value;
  long_term_plan : list Goal;
  current_goal : option GoalRef;
  last_action : value;
  naming_handled : bool;
  _entry_coords_by_map : list (string * (value * value));
  _runtime_flags : RuntimeFlags;
  failed_movements : list (string * list value);
  _last_coords : option (value * value);
  _GLOBAL_PENDING : list string
}.

Definition MemM (A : Type) : Type := @M MemoryModule A.

Definition set_location (v : value) (m : MemoryModule) : MemoryModule :=
  mkMemory v (long_term_plan m) (current_goal m) (last_action m)
    (naming_handled m) (_entry_coords_by_map m) (_runtime_flags m)
    (failed_movements m) (_last_coords m) (_GLOBAL_PENDING m).

Definition set_long_term_plan (p : list Goal) (m : MemoryModule)
  : MemoryModule :=
  mkMemory (location m) p (current_goal m) (last_action m)
    (naming_handled m) (_entry_coords_by_map m) (_runtime_flags m)
    (failed_movements m) (_last_coords m) (_GLOBAL_PENDING m).

Definition set_current_goal (c : option GoalRef) (m : MemoryModule)
  : MemoryModule :=
  mkMemory (location m) (long_term_plan m) c (last_action m)
    (naming_handled m) (_entry_coords_by_map m) (_runtime_flags m)
    (failed_movements m) (_last_coords m) (_GLOBAL_PENDING m).

Definition set_last_action (v : value) (m : MemoryModule) : MemoryModule :=
  mkMemory (location m) (long_term_plan m) (current_goal m) v
    (naming_handled m) (_entry_coords_by_map m) (_runtime_flags m)
    (failed_movements m) (_last_coords m) (_GLOBAL_PENDING m).

Definition set_naming_handled (b : bool) (m : MemoryModule) : MemoryModule :=
  mkMemory (location m) (long_term_plan m) (current_goal m) (last_action m)
    b (_entry_coords_by_map m) (_runtime_flags m)
    (failed_movements m) (_last_coords m) (_GLOBAL_PENDING m).

Definition set_entry_coords (e : list (string * (value * value)))
  (m : MemoryModule) : MemoryModule :=
  mkMemory (location m) (long_term_plan m) (current_goal m) (last_action m)
    (naming_handled m) e (_runtime_flags m)
    (failed_movements m) (_last_coords m) (_GLOBAL_PENDING m).

Definition set_runtime_flags (f : RuntimeFlags) (m : MemoryModule)
  : MemoryModule :=
  mkMemory (location m) (long_term_plan m) (current_goal m) (last_action m)
    (naming_handled m) (_entry_coords_by_map m) f
    (failed_movements m) (_last_coords m) (_GLOBAL_PENDING m).

Definition set_failed_movements (f : list (string * list value))
  (m : MemoryModule) : MemoryModule :=
  mkMemory (location m) (long_term_plan m) (current_goal m) (last_action m)
    (naming_handled m) (_entry_coords_by_map m) (_runtime_flags m)
    f (_last_coords m) (_GLOBAL_PENDING m).

Definition set_last_coords (c : option (value * value)) (m : MemoryModule)
  : MemoryModule :=
  mkMemory (location m) (long_term_plan m) (current_goal m) (last_action m)
    (naming_handled m) (_entry_coords_by_map m) (_runtime_flags m)
    (failed_movements m) c (_GLOBAL_PENDING m).

Definition set_pending (q : list string) (m : MemoryModule) : MemoryModule :=
  mkMemory (location m) (long_term_plan m) (current_goal m) (last_action m)
    (naming_handled m) (_entry_coords_by_map m) (_runtime_flags m)
    (failed_movements m) (_last_coords m) q.

(** *** The action queue *)

Definition _ALLOWED_BTNS : list string :=
  ["UP"; "DOWN"; "LEFT"; "RIGHT"; "A"; "B"; "START"].

(** What one token becomes at the boundary: [str(a).strip().upper()], on
    any text. *)
Definition normal_form (a : value) : string :=
  str_upper (str_strip (py_str a)).

Definition _normalize_primitives (actions : value) : list string :=
  if negb (truthy actions) then []
  else
    let actions := match actions with VList l => l | a => [a] end in
    filter (fun s => mem s _ALLOWED_BTNS) (map normal_form actions).

Definition enqueue_actions (actions : value) : MemM unit :=
  let items := _normalize_primitives actions in
  match items with
  | [] => ret tt
  | _ => modify (fun m => set_pending (_GLOBAL_PENDING m ++ items) m)
  end.

Definition pop_next_action : MemM value :=
  fun m =>
    match _GLOBAL_PENDING m with
    | act :: rest =>
        (Ret (VStr act), set_last_action (VStr act) (set_pending rest m))
    | [] => (Ret VNone, m)
    end.

Definition peek_next_action : MemM value :=
  fun m =>
    match _GLOBAL_PENDING m with
    | act :: _ => (Ret (VStr act), m)
    | [] => (Ret VNone, m)
    end.

Definition skip_next_action : MemM value :=
  fun m =>
    match _GLOBAL_PENDING m with
    | skipped :: rest => (Ret (VStr skipped), set_pending rest m)
    | [] => (Ret VNone, m)
    end.

(** *** Coordinates and movement memory *)

(** [MemoryModule._get_coords]: any exception on the way yields [None]. *)
Definition _get_coords (observation : value) : option (value * value) :=
  match
    (state <-? get observation "state" (VDict []) ;;
     player <-? get state "player" (VDict []) ;;
     pos <-? get player "position" (VDict []) ;;
     x <-? get pos "x" VNone ;;
     y <-? get pos "y" VNone ;;
     Ret (if negb (is_none x) && negb (is_none y)
          then Some (x, y) else None))
  with
  | Ret r => r
  | Raise _ => None
  end.

(** [f"{coords[0]}_{coords[1]}"] *)
Definition coord_key (coords : value * value) : string :=
  (py_str (fst coords) ++ "_" ++ py_str (snd coords))%string.

Definition record_failed_movement (coords : option (value * value))
  (direction : value) : MemM unit :=
  match coords with
  | None => ret tt
  | Some c =>
      let key := coord_key c in
      modify (fun m =>
        let seen :=
          match assoc_get key (failed_movements m) with
          | Some l => l
          | None => []
          end in
        if existsb (py_eq direction) seen
        then m
        else set_failed_movements
               (assoc_set key (seen ++ [direction]) (failed_movements m)) m)
  end.

(** [a == b] for two coordinate pairs *)
Definition coords_eq (a b : value * value) : bool :=
  py_eq (fst a) (fst b) && py_eq (snd a) (snd b).

(** *** [MemoryModule.update] *)

(** The location the observation reports: [state.player.location] when the
    observation, its [state] and its [player] are dictionaries. *)
Definition reported_location (observation : value) : option value :=
  match observation with
  | VDict o =>
      match dict_get o "state" (VDict []) with
      | VDict s =>
          match dict_get s "player" (VDict []) with
          | VDict p => Some (dict_get p "location" VNone)
          | _ => None
          end
      | _ => None
      end
  | _ => None
  end.

Definition update (observation : value) (last_action : value) : MemM unit :=
  when (truthy last_action) (modify (set_last_action last_action)) ;;;
  match reported_location observation with
  | Some loc =>
      when (truthy loc)
        (prev_loc <- gets location ;;
         when (truthy prev_loc && negb (py_eq prev_loc loc))
           (modify (set_pending []) ;;;
            match _get_coords observation with
            | Some coords =>
                modify (fun m =>
                  set_entry_coords
                    (assoc_set (py_str loc) coords (_entry_coords_by_map m))
                    m)
            | None => ret tt
            end) ;;;
         modify (set_location loc))
  | None => ret tt
  end ;;;
  when (truthy last_action &&
        in_strs last_action ["UP"; "DOWN"; "LEFT"; "RIGHT"])
    (let current_coords := _get_coords observation in
     last <- gets _last_coords ;;
     match last, current_coords with
     | Some l, Some c =>
         when (coords_eq c l)
           (record_failed_movement current_coords last_action)
     | _, _ => ret tt
     end ;;;
     modify (set_last_coords current_coords)).

(** *** The goal tracker *)

Definition deref (m : MemoryModule) (r : GoalRef) : option Goal :=
  match r with
  | InPlan i => nth_error (long_term_plan m) i
  | Detached g => Some g
  end.

(** The first index [j >= i] of a goal whose status is ["pending"], where
    [plan] is the part of the plan that starts at index [i]. *)
Fixpoint first_pending_from (i : nat) (plan : list Goal) : option nat :=
  match plan with
  | [] => None
  | g :: rest =>
      if status g =? "pending" then Some i
      else first_pending_from (S i) rest
  end.

(** The first index [j >= i] of a goal whose id is [goal_id]. *)
Fixpoint index_of_id (goal_id : string) (i : nat) (plan : list Goal)
  : option nat :=
  match plan with
  | [] => None
  | g :: rest =>
      if id g =? goal_id then Some i else index_of_id goal_id (S i) rest
  end.

(** [plan[i]["status"] = "completed"] *)
Fixpoint mark_completed (i : nat) (plan : list Goal) {struct plan}
  : list Goal :=
  match plan, i with
  | [], _ => []
  | g :: rest, O => set_status "completed" g :: rest
  | g :: rest, S i' => g :: mark_completed i' rest
  end.

Definition get_active_goal : MemM (option GoalRef) :=
  fun m =>
    match current_goal m with
    | Some current => (Ret (Some current), m)
    | None =>
        match first_pending_from 0 (long_term_plan m) with
        | Some i => (Ret (Some (InPlan i)), set_current_goal (Some (InPlan i)) m)
        | None => (Ret None, m)
        end
    end.

(** The dictionary a reference returned by [get_active_goal] denotes. *)
Definition goal_of (m : MemoryModule) (r : option GoalRef) : option Goal :=
  match r with
  | Some r => deref m r
  | None => None
  end.

(** The goal [get_active_goal()] returns in a given state. *)
Definition active_goal (m : MemoryModule) : option Goal :=
  match get_active_goal m with
  | (Ret r, m') => goal_of m' r
  | (Raise _, _) => None
  end.

Definition complete_current_goal (goal_id : string) : MemM unit :=
  current <- get_active_goal ;;
  g <- gets (fun m => goal_of m current) ;;
  match g with
  | None => ret tt
  | Some g =>
      if negb (id g =? goal_id) then ret tt
      else
        plan <- gets long_term_plan ;;
        match index_of_id goal_id 0 plan with
        | None => ret tt
        | Some i =>
            modify (set_long_term_plan (mark_completed i plan)) ;;;
            match first_pending_from (S i) (skipn (S i) plan) with
            | Some j => modify (set_current_goal (Some (InPlan j)))
            | None => modify (set_current_goal None)
            end
        end
  end.

(** The text a goal's completion cues are matched against: the lowered
    summary followed by the lowered key elements. *)
Definition cue_text (summary_lower : string) (key_elements : value) : string :=
  match key_elements with
  | VDict d =>
      (summary_lower ++ " " ++
       String.concat " " (map (fun kv => lower (py_str (snd kv))) d))%string
  | _ =>
      if truthy key_elements
      then (summary_lower ++ " " ++ lower (py_str key_elements))%string
      else summary_lower
  end.

(** The hand-written completion predicate of each goal id. *)
Definition goal_rule (goal_id text loc : string) (scene_type : value)
  (party_count : Z) (clock_set : bool) : bool :=
  (goal_id =? "start_game") &&
    (py_eq scene_type (VStr "MAP") &&
     (contains "truck" text || contains "moving box" text))
  || (goal_id =? "leave_the_truck") &&
       contains_any ["your room is upstairs"; "player's house"; "mom";
                     "arrived"] text
  || (goal_id =? "go_upstairs") && contains "2f" loc
  || (goal_id =? "player_bedroom_entered") &&
       (contains "2f" loc &&
        contains_any ["this is your room"; "your bedroom";
                      "nintendo gamecube"; "clock"] text)
  || (goal_id =? "set_bedroom_clock") &&
       ((py_eq scene_type (VStr "DIALOGUE") && clock_set)
        || (py_eq scene_type (VStr "MAP") && clock_set))
  || (goal_id =? "return_downstairs") && (contains "1f" loc && clock_set)
  || (goal_id =? "exit_player_house") &&
       (contains "littleroot town" loc && negb (contains "house" loc))
  || (goal_id =? "go_to_birch_lab") &&
       (contains "lab" loc && contains "birch" loc)
  || (goal_id =? "find_route_101") &&
       (contains "route 101" loc || contains "route101" loc)
  || (goal_id =? "find_professor_birch") &&
       (contains "professor" text &&
        (contains "help" text || contains "pokemon" text
         || contains "birch" text))
  || (goal_id =? "choose_starter") && (1 <=? party_count)%Z.

(** A non-dictionary observation is wrapped when it is a string and
    ignored otherwise. *)
Definition as_observation (observation : value) : option value :=
  match observation with
  | VDict _ => Some observation
  | VStr s =>
      Some (VDict [("summary", VStr s); ("key_elements", VDict []);
                   ("state", VDict [])])
  | _ => None
  end.

Definition update_goal_status (observation : value) : MemM unit :=
  match as_observation observation with
  | None => ret tt
  | Some observation =>
      current <- get_active_goal ;;
      g <- gets (fun m => goal_of m current) ;;
      match g with
      | None => ret tt
      | Some current =>
          let goal_id := id current in
          if goal_id =? "" then ret tt
          else
            summary <- lift (get observation "summary" (VStr "")) ;;
            key_elements <- lift (get observation "key_elements" (VDict [])) ;;
            state <- lift (get observation "state" (VDict [])) ;;
            summary_lower <- lift (str_lower summary) ;;
            let text := cue_text summary_lower key_elements in
            scene_type <- lift (get observation "scene_type" (VStr "")) ;;
            let player :=
              match state with
              | VDict s => dict_get s "player" (VDict [])
              | _ => VDict []
              end in
            let loc :=
              match player with
              | VDict p => lower (py_str (dict_get p "location" (VStr "")))
              | _ => ""
              end in
            let party_count :=
              match player with
              | VDict p =>
                  match dict_get p "party" (VList []) with
                  | VList l => Z.of_nat (length l)
                  | _ => 0%Z
                  end
              | _ => 0%Z
              end in
            clock_set <-
              gets (fun m => set_clock_sequence_queued (_runtime_flags m)) ;;
            if goal_rule goal_id text loc scene_type party_count clock_set
            then complete_current_goal goal_id
            else ret tt
      end
  end.

(* ===================================================================== *)
(** ** Decision engine: [agent/deprecated/planning.py] *)
(* ===================================================================== *)

Module Planning.

Definition DEFAULT_EMERALD_LT_PLAN : list Goal :=
  [ mkGoal "start_game" "Start game and complete intro" "pending"
      ["your very own adventure"; "well, i'll be expecting you"] false;
    mkGoal "leave_the_truck" "Exit the truck by moving RIGHT" "pending"
      ["your room is upstairs"; "player's house"; "mom"] true;
    mkGoal "go_upstairs" "Go upstairs to second floor" "pending"
      ["2f"; "second floor"] false;
    mkGoal "player_bedroom_entered" "Find clock in bedroom" "pending"
      ["this is your room"; "nintendo gamecube"] false;
    mkGoal "set_bedroom_clock" "Set the clock" "pending"
      ["set the time"; "set the clock"; "better set it"] false;
    mkGoal "return_downstairs" "Go back downstairs" "pending" ["1f"] false;
    mkGoal "exit_player_house" "Leave house to Littleroot Town" "pending"
      ["littleroot"] true;
    mkGoal "go_to_birch_lab" "Go to Professor Birch's lab" "pending"
      ["professor"; "lab"; "birch"] false;
    mkGoal "find_route_101" "Find Route 101" "pending"
      ["route 101"; "route101"] false;
    mkGoal "find_professor_birch" "Find Professor Birch being chased"
      "pending" ["professor"; "help"; "birch"] false;
    mkGoal "choose_starter" "Choose Mudkip as starter" "pending"
      ["chose mudkip"; "received pokemon"] false;
    mkGoal "rustboro_gym_challenge" "Defeat Roxanne for badge" "pending"
      ["roxanne"; "stone badge"] false ].

(** The dictionary [decide] returns: [{"action": ..., "reason": ...}]. *)
Record Decision : Type := mkDecision {
  action : value;
  reason : string
}.

(** [PlanningModule._get_coords]: the top-level [player] keys first, then
    [state.player.position]; any exception yields [None]. *)
Definition _get_coords (observation : value) : option (value * value) :=
  match
    (player <-? get observation "player" (VDict []) ;;
     x <-? get player "x" VNone ;;
     y <-? get player "y" VNone ;;
     if negb (is_none x) && negb (is_none y) then Ret (Some (x, y))
     else
       state <-? get observation "state" (VDict []) ;;
       player <-? get state "player" (VDict []) ;;
       pos <-? get player "position" (VDict []) ;;
       x <-? get pos "x" VNone ;;
       y <-? get pos "y" VNone ;;
       Ret (if negb (is_none x) && negb (is_none y)
            then Some (x, y) else None))
  with
  | Ret r => r
  | Raise _ => None
  end.

(** [coords and coords == (x, y)] *)
Definition at_coords (coords : option (value * value)) (x y : Z) : bool :=
  match coords with
  | Some c => coords_eq c (VInt x, VInt y)
  | None => false
  end.

Definition DIRECTIONS : list string := ["UP"; "DOWN"; "LEFT"; "RIGHT"].

(** *** Validation of the proposed action (the [try] block that ends the
    map-navigation path) *)

Definition validate (active_goal : option Goal) (is_navigation_goal : bool)
  (recommended_direction : value) (restrict_to_movement : bool)
  (walkable : list string) (action : value) : Decision :=
  let action :=
    if match active_goal with
       | Some g => id g =? "go_upstairs"
       | None => false
       end
    then
      (* hard constraint *)
      if in_strs action ["DOWN"; "A"] then VStr "UP" else action
    else if is_navigation_goal && truthy recommended_direction
            && negb (py_eq action recommended_direction)
    then
      (* soft override *)
      if py_eq action (VStr "A")
         || (in_strs action DIRECTIONS && in_strs action walkable)
      then
        if match walkable with [] => true | _ => false end
           || existsb (fun w => py_eq recommended_direction (VStr w)) walkable
        then recommended_direction
        else action
      else action
    else action in
  if in_strs action DIRECTIONS then
    if match walkable with [] => false | _ => true end
       && negb (in_strs action walkable)
    then
      match walkable with
      | w :: _ => mkDecision (VStr w) "validated_navigation"
      | [] =>
          if restrict_to_movement
          then mkDecision (VStr "WAIT") "no_walkable_movement_only_goal"
          else mkDecision (VStr "A") "validated_navigation"
      end
    else mkDecision action "validated_navigation"
  else
    let action_upper := strip (upper (py_str action)) in
    let base_action :=
      if contains " " action_upper then first_word action_upper
      else action_upper in
    if mem base_action ["A"; "B"; "START"; "SELECT"] && restrict_to_movement
    then
      match walkable with
      | w :: _ => mkDecision (VStr w) "validated_navigation"
      | [] => mkDecision (VStr "WAIT") "movement_required_but_blocked"
      end
    else mkDecision action "validated_navigation".

(** *** Runtime flags *)

Definition with_flags (f : RuntimeFlags -> RuntimeFlags) : MemM unit :=
  modify (fun m => set_runtime_flags (f (_runtime_flags m)) m).

Definition set_clock_queued (b : bool) (f : RuntimeFlags) : RuntimeFlags :=
  mkFlags b (set_clock_sequence_queued f) (downstairs_sequence_queued f)
    (step_counter f) (last_scene f) (dialogue_streak f)
    (post_dialogue_escape_done f).

Definition set_set_clock_queued (b : bool) (f : RuntimeFlags) : RuntimeFlags :=
  mkFlags (clock_sequence_queued f) b (downstairs_sequence_queued f)
    (step_counter f) (last_scene f) (dialogue_streak f)
    (post_dialogue_escape_done f).

Definition set_downstairs_queued (b : bool) (f : RuntimeFlags)
  : RuntimeFlags :=
  mkFlags (clock_sequence_queued f) (set_clock_sequence_queued f) b
    (step_counter f) (last_scene f) (dialogue_streak f)
    (post_dialogue_escape_done f).

Definition set_step_counter (n : Z) (f : RuntimeFlags) : RuntimeFlags :=
  mkFlags (clock_sequence_queued f) (set_clock_sequence_queued f)
    (downstairs_sequence_queued f) n (last_scene f) (dialogue_streak f)
    (post_dialogue_escape_done f).

Definition set_last_scene (v : value) (f : RuntimeFlags) : RuntimeFlags :=
  mkFlags (clock_sequence_queued f) (set_clock_sequence_queued f)
    (downstairs_sequence_queued f) (step_counter f) v (dialogue_streak f)
    (post_dialogue_escape_done f).

Definition set_dialogue_streak (n : Z) (f : RuntimeFlags) : RuntimeFlags :=
  mkFlags (clock_sequence_queued f) (set_clock_sequence_queued f)
    (downstairs_sequence_queued f) (step_counter f) (last_scene f) n
    (post_dialogue_escape_done f).

Definition set_escape_done (b : bool) (f : RuntimeFlags) : RuntimeFlags :=
  mkFlags (clock_sequence_queued f) (set_clock_sequence_queued f)
    (downstairs_sequence_queued f) (step_counter f) (last_scene f)
    (dialogue_streak f) b.

Definition DIALOGUE_LIKE : list string := ["DIALOGUE"; "CUTSCENE"].

(** [return {"action": a, "reason": r}] after [rf["last_scene"] = scene_type] *)
Definition commit (scene_type : value) (a r : string)
  : MemM (option Decision) :=
  with_flags (set_last_scene scene_type) ;;;
  ret (Some (mkDecision (VStr a) r)).

(** *** [PlanningModule.decide]

    Three steps of the map-navigation path rest on collaborators that live
    outside the decision layer (the state formatter and the language-model
    oracle); they enter the model as parameters:
    - [_analyze_movement_preview]: the walkable and blocked directions the
      method of that name derives from the observation;
    - [target_direction]: the direction named by [target_info], or [None],
      i.e. [recommended_direction];
    - [oracle_actions]: the list [_parse_actions] extracts from the
      oracle's reply to the prompt built for this step.
    The explored-map store, which [update_explored_map] fills and which
    only feeds [target_info] and the prompt, is not kept in the memory
    record; its contribution is what [target_direction] returns. *)

Record MovementInfo : Type := mkMovementInfo {
  walkable : list string;
  blocked : list string
}.

Section Decide.

Variable _analyze_movement_preview : value -> outcome MovementInfo.
Variable target_direction : value -> MemoryModule -> string -> outcome value.
Variable oracle_actions :
  value -> MemoryModule -> list string -> outcome (list string).

Definition goal_is (g : option Goal) (s : string) : bool :=
  match g with
  | Some g => id g =? s
  | None => false
  end.

(** The scripted bursts of the tutorial goals: queue once, complete the
    goal at once. *)
Definition hardcoded_sequences (observation scene_type : value)
  (g_early : option Goal) : MemM unit :=
  when (goal_is g_early "player_bedroom_entered"
        && py_eq scene_type (VStr "MAP"))
    (clock_queued <-
       gets (fun m => clock_sequence_queued (_runtime_flags m)) ;;
     when (negb clock_queued && at_coords (_get_coords observation) 7 2)
       (enqueue_actions
          (VList [VStr "LEFT"; VStr "LEFT"; VStr "UP"; VStr "A"; VStr "A"]) ;;;
        with_flags (set_clock_queued true) ;;;
        complete_current_goal "player_bedroom_entered")) ;;;
  when (goal_is g_early "set_bedroom_clock" && py_eq scene_type (VStr "MAP"))
    (already_queued <-
       gets (fun m => set_clock_sequence_queued (_runtime_flags m)) ;;
     when (negb already_queued && at_coords (_get_coords observation) 5 2)
       (enqueue_actions
          (VList [VStr "A"; VStr "UP"; VStr "A"; VStr "UP"; VStr "A";
                  VStr "UP"; VStr "A"; VStr "UP"]) ;;;
        with_flags (set_set_clock_queued true) ;;;
        complete_current_goal "set_bedroom_clock")) ;;;
  when (goal_is g_early "return_downstairs" && py_eq scene_type (VStr "MAP"))
    (downstairs_queued <-
       gets (fun m => downstairs_sequence_queued (_runtime_flags m)) ;;
     when (negb downstairs_queued)
       (enqueue_actions
          (VList [VStr "RIGHT"; VStr "DOWN"; VStr "DOWN"; VStr "DOWN";
                  VStr "DOWN"]) ;;;
        with_flags (set_downstairs_queued true) ;;;
        complete_current_goal "return_downstairs")).

(** The dialogue and cutscene handler with its escalation ladder. *)
Definition dialogue_handler (scene_type prev_scene : value)
  : MemM (option Decision) :=
  with_flags (fun f => set_dialogue_streak (dialogue_streak f + 1) f) ;;;
  when (negb (in_strs prev_scene DIALOGUE_LIKE))
    (enqueue_actions (VList [VStr "A"; VStr "A"; VStr "A"; VStr "A"])) ;;;
  streak <- gets (fun m => dialogue_streak (_runtime_flags m)) ;;
  if (60 <=? streak)%Z
  then commit scene_type "START" "dialogue_escalation_start"
  else if (40 <=? streak)%Z
  then commit scene_type "B" "dialogue_escalation_b"
  else
    nxt <- peek_next_action ;;
    if py_eq nxt (VStr "A")
    then pop_next_action ;;; commit scene_type "A" "dialogue_queue"
    else commit scene_type "A" "dialogue".

(** One escape step queued on leaving a dialogue for the map. *)
Definition post_dialogue_escape (observation : value) : MemM unit :=
  match _analyze_movement_preview observation with
  | Ret movement_info_pd =>
      match walkable movement_info_pd with
      | [] => ret tt
      | w0 :: _ =>
          let escape_dir :=
            match find (fun d => mem d (walkable movement_info_pd))
                       ["RIGHT"; "DOWN"; "LEFT"; "UP"] with
            | Some d => d
            | None => w0
            end in
          enqueue_actions (VList [VStr escape_dir]) ;;;
          with_flags (set_escape_done true)
      end
  | Raise _ => ret tt
  end.

(** The map-navigation path. *)
Definition map_navigation (observation : value) (summary_lower : string)
  : MemM (option Decision) :=
  active_goal <- get_active_goal ;;
  active_goal <- gets (fun m => goal_of m active_goal) ;;
  let goal_text :=
    match active_goal with
    | Some g => goal g
    | None => "Progress the game"
    end in
  let goal_id :=
    match active_goal with
    | Some g => id g
    | None => "no_goal"
    end in
  let is_navigation_goal :=
    contains_any ["go"; "upstairs"; "downstairs"; "exit"; "leave"; "enter";
                  "find"; "reach"] (lower goal_text) in
  if mem goal_id ["leave_the_truck"; "start_game"]
     && (contains "truck" summary_lower || contains "box" summary_lower)
  then ret (Some (mkDecision (VStr "RIGHT") "truck_exit"))
  else
    movement_info <- lift (_analyze_movement_preview observation) ;;
    let walkable := walkable movement_info in
    memory <- gets (fun m => m) ;;
    recommended_direction <-
      lift (target_direction observation memory goal_text) ;;
    let restrict_to_movement :=
      match active_goal with
      | Some g => movement_only g
      | None => false
      end in
    actions <- lift (oracle_actions observation memory walkable) ;;
    action <-
      match actions with
      | a :: _ :: _ =>
          enqueue_actions (VList (map VStr (tl actions))) ;;; ret (VStr a)
      | [a] => ret (VStr a)
      | [] => ret (VList [])
      end ;;
    ret (Some (validate active_goal is_navigation_goal recommended_direction
                 restrict_to_movement walkable action)).

Definition decide (observation : value) : MemM (option Decision) :=
  let observation :=
    if is_dict observation then observation
    else VDict [("scene_type", VStr "UNKNOWN");
                ("summary", VStr (py_str observation));
                ("key_elements", VDict [])] in
  scene_type <- lift (get observation "scene_type" (VStr "UNKNOWN")) ;;
  summary <- lift (get observation "summary" (VStr "")) ;;
  summary_lower <- lift (str_lower summary) ;;
  map_info <- lift (get observation "map" (VDict [])) ;;
  let map_info := py_or map_info (VDict []) in
  name <- lift (get map_info "name" VNone) ;;
  current_map <- lift (get map_info "current_map" VNone) ;;
  (* runtime flags *)
  with_flags (fun f => set_step_counter (step_counter f + 1) f) ;;;
  prev_scene <- gets (fun m => last_scene (_runtime_flags m)) ;;
  (* update goals; a failure is logged and ignored *)
  try_except (update_goal_status observation) (fun _ => ret tt) ;;;
  active_goal_early <- get_active_goal ;;
  g_early <- gets (fun m => goal_of m active_goal_early) ;;
  hardcoded_sequences observation scene_type g_early ;;;
  (* PRIORITY 1: scene-based overrides, before the queue *)
  if py_eq scene_type (VStr "TITLE")
  then commit scene_type "A" "title"
  else if py_eq scene_type (VStr "UNKNOWN")
          && contains_any ["press start"; "main menu"; "pokemon emerald";
                           "new game"; "continue"] summary_lower
  then commit scene_type "A" "title_fallback"
  else if py_eq scene_type (VStr "BATTLE")
  then commit scene_type "A" "battle"
  else if in_strs scene_type DIALOGUE_LIKE
  then dialogue_handler scene_type prev_scene
  else
    (* reset dialogue tracking on leaving dialogue or cutscene *)
    when (in_strs prev_scene DIALOGUE_LIKE
          && negb (in_strs scene_type DIALOGUE_LIKE))
      (with_flags (fun f => set_escape_done false (set_dialogue_streak 0 f))) ;;;
    escape_done <-
      gets (fun m => post_dialogue_escape_done (_runtime_flags m)) ;;
    when (py_eq scene_type (VStr "MAP") && in_strs prev_scene DIALOGUE_LIKE
          && negb escape_done)
      (post_dialogue_escape observation) ;;;
    (* PRIORITY 2: the queue *)
    nxt_peek <- peek_next_action ;;
    if truthy nxt_peek
    then
      nxt <- pop_next_action ;;
      with_flags (set_last_scene scene_type) ;;;
      ret (Some (mkDecision nxt "queued"))
    else
      (* PRIORITY 3: menu handling *)
      naming <- gets naming_handled ;;
      if py_eq scene_type (VStr "MENU") && negb naming
         && contains_any ["name"; "keyboard"; "character"; "enter"]
              summary_lower
      then
        modify (set_naming_handled true) ;;;
        enqueue_actions
          (VList [VStr "A"; VStr "A"; VStr "A"; VStr "A"; VStr "START"]) ;;;
        commit scene_type "START" "naming"
      else if py_eq scene_type (VStr "TRANSITION")
      then commit scene_type "WAIT" "transition"
      else if py_eq scene_type (VStr "MAP")
      then map_navigation observation summary_lower
      else ret None.

End Decide.

End Planning.

End Deprecated.

(* ===================================================================== *)
(** ** Scene classifier: [PerceptionModule._infer_scene_from_state] *)
(* ===================================================================== *)

(** [agent/openai/perception.py] and [agent/deprecated/perception.py]
    carry the same method (the deprecated copy adds a debug print). *)

Module Perception.
Import Py.

(** The dictionary the method returns. *)
Record SceneResult : Type := mkScene {
  scene_type : string;
  summary : string;
  key_elements : string
}.

(** The signals the method reads from the observation, in the order it
    reads them. *)
Record Signals : Type := mkSignals {
  is_title : bool;
  in_battle : bool;
  dialogue_open : bool;
  menu_open : bool;
  cutscene : bool;
  map_name : value;
  px : value;
  py : value;
  party_count : Z;
  opp_name : value
}.

Definition read_signals (obs : value) : outcome Signals :=
  let obs := py_or obs (VDict []) in
  st <-? get obs "state" VNone ;;
  let state := if is_dict st then st else VDict [] in
  (* is_title *)
  title_screen <-? get obs "title_screen" VNone ;;
  s_is_title <-? get state "is_title" VNone ;;
  s_title <-? get state "title" VNone ;;
  let is_title := truthy (py_or (py_or title_screen s_is_title) s_title) in
  (* in_battle *)
  battle <-? get obs "battle" (VDict []) ;;
  b_in_battle <-? get battle "in_battle" VNone ;;
  s_in_battle <-? get state "in_battle" VNone ;;
  s_battle <-? get state "battle" VNone ;;
  let in_battle := truthy (py_or (py_or b_in_battle s_in_battle) s_battle) in
  (* dialogue_open *)
  dialogue <-? get obs "dialogue" (VDict []) ;;
  d_open <-? get dialogue "open" VNone ;;
  s_dialogue_open <-? get state "dialogue_open" VNone ;;
  textbox_open <-? get obs "textbox_open" VNone ;;
  s_textbox_open <-? get state "textbox_open" VNone ;;
  let dialogue_open :=
    truthy (py_or (py_or (py_or d_open s_dialogue_open) textbox_open)
              s_textbox_open) in
  (* menu_open *)
  menu <-? get obs "menu" (VDict []) ;;
  m_open <-? get menu "open" VNone ;;
  s_menu_open <-? get state "menu_open" VNone ;;
  s_in_menu <-? get state "in_menu" VNone ;;
  let menu_open := truthy (py_or (py_or m_open s_menu_open) s_in_menu) in
  (* cutscene *)
  o_cutscene <-? get obs "cutscene" VNone ;;
  s_cutscene <-? get state "cutscene" VNone ;;
  s_script_active <-? get state "script_active" VNone ;;
  let cutscene :=
    truthy (py_or (py_or o_cutscene s_cutscene) s_script_active) in
  (* map / location *)
  o_map <-? get obs "map" VNone ;;
  m_name <-? get (py_or o_map (VDict [])) "name" VNone ;;
  s_map_name <-? get state "map_name" VNone ;;
  o_location <-? get obs "location" VNone ;;
  let map_name := py_or (py_or m_name s_map_name) o_location in
  o_player <-? get obs "player" VNone ;;
  s_player_x <-? get state "player_x" VNone ;;
  px <-? get (py_or o_player (VDict [])) "x" s_player_x ;;
  s_player_y <-? get state "player_y" VNone ;;
  py <-? get (py_or o_player (VDict [])) "y" s_player_y ;;
  (* party *)
  o_party <-? get obs "party" VNone ;;
  s_party <-? get state "party" VNone ;;
  let party := py_or (py_or o_party s_party) (VList []) in
  let party_count :=
    match party with
    | VList l => Z.of_nat (length l)
    | _ => 0%Z
    end in
  (* opponent *)
  o_battle <-? get obs "battle" VNone ;;
  opp1 <-? (if is_dict o_battle then get o_battle "opponent_name" VNone
            else Ret VNone) ;;
  s_battle_state <-? get state "battle_state" VNone ;;
  opp_name <-? (if negb (truthy opp1) && is_dict s_battle_state
                then get s_battle_state "opponent_name" VNone
                else Ret opp1) ;;
  Ret (mkSignals is_title in_battle dialogue_open menu_open cutscene
         map_name px py party_count opp_name).

Definition party_key (party_count : Z) : string :=
  ("Party=" ++ str_of_Z party_count)%string.

(** The priority chain: 1) title 2) battle 3) dialogue 4) menu
    5) cutscene 6) map 7) unknown. *)
Definition classify (s : Signals) : SceneResult :=
  if is_title s then mkScene "TITLE" "Main menu visible." "Screen=Title"
  else if in_battle s then
    mkScene "BATTLE"
      (if truthy (opp_name s)
       then ("Battle in progress vs " ++ py_str (opp_name s))%string
       else "Battle in progress")
      (party_key (party_count s))
  else if dialogue_open s then
    mkScene "DIALOGUE" "Dialogue textbox visible." (party_key (party_count s))
  else if menu_open s then
    mkScene "MENU" "Menu open." (party_key (party_count s))
  else if cutscene s then
    mkScene "CUTSCENE" "Scripted scene." (party_key (party_count s))
  else if negb (dialogue_open s) && negb (menu_open s) && negb (cutscene s)
          && (truthy (map_name s)
              || (negb (is_none (px s)) && negb (is_none (py s))))
  then
    let loc := py_str (py_or (map_name s) (VStr "Overworld")) in
    let pos :=
      if negb (is_none (px s)) && negb (is_none (py s))
      then ("(" ++ py_str (px s) ++ "," ++ py_str (py s) ++ ")")%string
      else "" in
    mkScene "MAP" (strip (loc ++ " " ++ pos)%string) (party_key (party_count s))
  else mkScene "UNKNOWN" "" "".

Definition _infer_scene_from_state (obs : value) : outcome SceneResult :=
  s <-? read_signals obs ;;
  Ret (classify s).

(** *** [PerceptionModule.analyze]: when the oracle is asked

    [analyze] classifies from the state first.  It asks the oracle (the
    vision-language model) only for a screen the state leaves [UNKNOWN],
    and only when the observation carries an image; without an image it
    answers [CUTSCENE].  The images, their extraction from the
    observation and the oracle are parameters, and so are the two
    continuations of [analyze]: what it makes of a scene it knows (the
    key elements it adds) and of the oracle's text (its parsing).  The
    result comes with the images sent to the oracle, in order. *)

Section Analyze.

Variable image : Type.

(** [self._extract_frame_from_observation(observation)]
    ([self._extract_frame(observation)] in [agent/deprecated]); [None]
    when the observation carries no image. *)
Variable _extract_frame : value -> option image.

(** [self.vlm.get_query(img, prompt, module_name="perception")] *)
Variable get_query : image -> outcome value.

(** What [analyze] returns for a scene the state gave: the scene with
    its key elements normalised and the player's position and location
    added to them. *)
Variable enrich : value -> SceneResult -> outcome value.

(** What [analyze] returns for the text of the oracle: the scene type,
    summary and key elements read from its lines. *)
Variable read_reply : value -> value -> outcome value.

Definition CUTSCENE_FALLBACK : value :=
  VDict [("scene_type", VStr "CUTSCENE");
         ("summary", VStr "Scripted scene.");
         ("key_elements", VStr "")].


Definition analyze_from (override : value -> SceneResult -> SceneResult)
  (observation : value) : list image * outcome value :=
  let img := _extract_frame observation in
  match
    _infer_scene_from_state
      (if is_dict observation then observation else VDict [])
  with
  | Raise e => ([], Raise e)
  | Ret inferred =>
      let inferred := override observation inferred in
      if negb (scene_type inferred =? "UNKNOWN")
      then ([], enrich observation inferred)
      else
        match img with
        | None => ([], Ret CUTSCENE_FALLBACK)
        | Some img =>
            match get_query img with
            | Ret text => ([img], read_reply observation (py_or text (VStr "")))
            | Raise _ => ([img], Ret CUTSCENE_FALLBACK)
            end
        end
  end.

(** [analyze] of [agent/openai/perception.py] *)
Definition analyze : value -> list image * outcome value :=
  analyze_from (fun _ inferred => inferred).


End Analyze.

End Perception.

(* ===================================================================== *)
(** ** Memory and planning of [agent/openai] *)
(* ===================================================================== *)

Module OpenAI.
Import Py Eff.

Definition Goal : Type := Deprecated.Goal.
Definition id : Goal -> string := Deprecated.id.
Definition goal : Goal -> string := Deprecated.goal.
Definition status : Goal -> string := Deprecated.status.
Definition completion_cues : Goal -> list string := Deprecated.completion_cues.

(** The memory module: the entries of [self.state] other than the plan
    ([state]), the plan and the current goal, the naming flag and the
    module-level queue. *)
Record MemoryModule : Type := mkMemory {
  state : list (string * value);
  long_term_plan : list Goal;
  current_goal : value;
  _naming_handled : bool;
  _GLOBAL_PENDING : list string
}.

Definition MemM (A : Type) : Type := @M MemoryModule A.

Definition set_state (s : list (string * value)) (m : MemoryModule)
  : MemoryModule :=
  mkMemory s (long_term_plan m) (current_goal m) (_naming_handled m)
    (_GLOBAL_PENDING m).

Definition set_long_term_plan (p : list Goal) (m : MemoryModule)
  : MemoryModule :=
  mkMemory (state m) p (current_goal m) (_naming_handled m)
    (_GLOBAL_PENDING m).

Definition set_current_goal (c : value) (m : MemoryModule) : MemoryModule :=
  mkMemory (state m) (long_term_plan m) c (_naming_handled m)
    (_GLOBAL_PENDING m).

Definition set_naming_handled (b : bool) (m : MemoryModule) : MemoryModule :=
  mkMemory (state m) (long_term_plan m) (current_goal m) b
    (_GLOBAL_PENDING m).

Definition set_pending (q : list string) (m : MemoryModule) : MemoryModule :=
  mkMemory (state m) (long_term_plan m) (current_goal m) (_naming_handled m)
    q.

(** [self.state[k] = v] *)
Definition state_set (k : string) (v : value) : MemM unit :=
  modify (fun m => set_state (assoc_set k v (state m)) m).

(** [self.state.get(k)] *)
Definition state_get (k : string) : MemM value :=
  gets (fun m => dict_get (state m) k VNone).

(** *** The queue *)

Definition enqueue_actions (actions : value) : MemM unit :=
  let items := Deprecated._normalize_primitives actions in
  match items with
  | [] => ret tt
  | _ => modify (fun m => set_pending (_GLOBAL_PENDING m ++ items) m)
  end.

(** [act in {"UP","DOWN","LEFT","RIGHT"}]: membership in a set hashes
    [act]. *)
Definition in_direction_set (act : value) : outcome bool :=
  match act with
  | VList _ | VDict _ => Raise TypeError
  | _ => Ret (in_strs act ["UP"; "DOWN"; "LEFT"; "RIGHT"])
  end.

Definition pop_next_action : MemM value :=
  pending <- gets _GLOBAL_PENDING ;;
  match pending with
  | act :: rest =>
      modify (set_pending rest) ;;;
      state_set "last_action" (VStr act) ;;;
      when (mem act ["UP"; "DOWN"; "LEFT"; "RIGHT"])
        (state_set "last_move_dir" (VStr act)) ;;;
      ret (VStr act)
  | [] =>
      (* the legacy per-instance queue *)
      q <- state_get "pending_actions" ;;
      let q := py_or q (VList []) in
      match q with
      | VList (act :: rest) =>
          state_set "pending_actions" (VList rest) ;;;
          state_set "last_action" act ;;;
          is_dir <- lift (in_direction_set act) ;;
          when is_dir (state_set "last_move_dir" act) ;;;
          ret act
      | VList [] => ret VNone
      | VDict _ => raise KeyError
      | _ => raise AttributeError
      end
  end.

(** *** Goals *)

Fixpoint first_not_completed (i : nat) (plan : list Goal) : option nat :=
  match plan with
  | [] => None
  | g :: rest =>
      if negb (status g =? "completed") then Some i
      else first_not_completed (S i) rest
  end.

(** [get_active_goal]: the next incomplete goal, as an index into the
    plan ([None] when every goal is completed). *)
Definition get_active_goal : MemM (option nat) :=
  gets (fun m => first_not_completed 0 (long_term_plan m)).

Definition mark_in_lt_plan (goal_id : string) : MemM unit :=
  modify (fun m =>
    match Deprecated.index_of_id goal_id 0 (long_term_plan m) with
    | Some i =>
        set_long_term_plan (Deprecated.mark_completed i (long_term_plan m)) m
    | None => m
    end).

(** The three statements every rule runs when it fires:
    [current["status"] = "completed"], [self.mark_in_lt_plan(goal_id)],
    [self.state["current_goal"] = None]. *)
Definition complete (current : nat) (goal_id : string) : MemM unit :=
  modify (fun m =>
    set_long_term_plan (Deprecated.mark_completed current (long_term_plan m))
      m) ;;;
  mark_in_lt_plan goal_id ;;;
  modify (set_current_goal VNone).

(** [a + b] where [b] is a string literal *)
Definition add_str (a : value) (b : string) : outcome string :=
  match a with
  | VStr s => Ret (s ++ b)%string
  | _ => Raise TypeError
  end.

(** [(v or "").lower()] *)
Definition lower_or_empty (v : value) : outcome string :=
  str_lower (py_or v (VStr "")).

Definition is_digit (c : ascii) : bool :=
  let n := nat_of_ascii c in ((48 <=? n) && (n <=? 57))%nat.

Fixpoint digits_value (s : string) (acc : Z) : option Z :=
  match s with
  | EmptyString => Some acc
  | String c s' =>
      if is_digit c
      then digits_value s' (10 * acc + Z.of_nat (nat_of_ascii c - 48))%Z
      else None
  end.

(** [int(s)] for a string: surrounding blanks, a sign and decimal digits
    (digit-group underscores are not modelled, nor is the limit CPython
    puts on the number of digits: the texts read here are counts and
    coordinates the program wrote itself). *)
Definition parse_int (s : string) : option Z :=
  match strip s with
  | EmptyString => None
  | String "-" (String c r) => option_map Z.opp (digits_value (String c r) 0)
  | String "+" (String c r) => digits_value (String c r) 0
  | String "-" EmptyString => None
  | String "+" EmptyString => None
  | t => digits_value t 0
  end.

(** [int(v)] *)
Definition py_int (v : value) : outcome Z :=
  match v with
  | VInt z => Ret z
  | VBool b => Ret (if b then 1 else 0)%Z
  | VStr s =>
      match parse_int s with
      | Some z => Ret z
      | None => Raise ValueError
      end
  | _ => Raise TypeError
  end.

Definition upstairs_loc_cues : list string :=
  ["2f"; "player_house_2f"; "player house 2f"; "player's house 2f"].

(** The fallback after the state-based rules: the goal's own completion
    cues against the text. *)
Definition fallback (current : nat) (g : Goal) (text : string) : MemM unit :=
  if existsb (fun cue => negb (cue =? "") && contains (lower cue) text)
       (completion_cues g)
  then complete current (id g)
  else ret tt.

Definition update_goal_status (observation : value) : MemM unit :=
  let observation :=
    if is_dict observation then observation
    else VDict [("summary", VStr (py_str observation));
                ("key_elements", VStr "")] in
  summary <- lift (get observation "summary" (VStr "")) ;;
  ke <- lift (get observation "key_elements" (VStr "")) ;;
  sum_sp <- lift (add_str summary " ") ;;
  let text := lower (sum_sp ++ py_str ke)%string in
  s_location <- state_get "location" ;;
  loc <- lift (lower_or_empty s_location) ;;
  raw_ke <- lift (get observation "key_elements" VNone) ;;
  let mem_ke := if is_dict raw_ke then raw_ke else VDict [] in
  ke_location <- lift (get mem_ke "Location" VNone) ;;
  obs_loc <- lift (lower_or_empty ke_location) ;;
  party <- state_get "party" ;;
  party_count <-
    match party with
    | VList l => ret (Z.of_nat (length l))
    | _ =>
        pc <- state_get "party_count" ;;
        lift (py_int (py_or pc (VInt 0)))
    end ;;
  s_map_id <- state_get "map_id" ;;
  ke_map_id <- lift (get mem_ke "map_id" VNone) ;;
  let map_id := py_or s_map_id ke_map_id in
  current <- get_active_goal ;;
  plan <- gets long_term_plan ;;
  match current with
  | None => ret tt
  | Some current =>
      match nth_error plan current with
      | None => ret tt
      | Some g =>
          let goal_id := id g in
          scene_type <- lift (get observation "scene_type" (VStr "")) ;;
          let done := complete current goal_id in
          let rest :=
            if (goal_id =? "route_101")
               && (contains "route 101" loc || contains "route 101" obs_loc
                   || (py_str map_id =? "3"))
            then done
            else fallback current g text in
          if goal_id =? "start_game" then
            if py_eq scene_type (VStr "MAP") then
              if contains_any ["your very own adventure";
                               "well, i'll be expecting you later";
                               "come see me"] text
              then done
              else if contains "box" text || contains "truck" text
                      || contains "storage" text
              then done
              else ret tt
            else ret tt
          else if (goal_id =? "leave_the_truck")
                  && contains_any ["your room is upstairs"; "player's house";
                                   "mom"; "welcome home";
                                   "arrived at your new home"; "downstairs"]
                       text
          then done
          else if (goal_id =? "boot_intro")
                  && (contains "house" loc || contains "room is upstairs" text
                      || contains "your room is upstairs" text)
          then done
          else if (goal_id =? "house_downstairs_free")
                  && (contains "house" loc || contains "1f" loc
                      || contains "downstairs" text)
          then done
          else if goal_id =? "go_upstairs" then
            if contains_any upstairs_loc_cues loc
               || contains_any upstairs_loc_cues obs_loc
            then done
            else ret tt
          else if (goal_id =? "player_bedroom_entered")
                  && (contains "this is your room" text
                      || contains "this is your bedroom" text
                      || contains "nintendo gamecube" text)
          then done
          else if (goal_id =? "set_bedroom_clock")
                  && (contains "set the time" text
                      || contains "set the clock" text
                      || contains "better set it" text
                      || contains "clock is set" text)
          then done
          else if (goal_id =? "return_downstairs")
                  && (contains "1f" loc || contains "downstairs" text
                      || (contains "house" loc && negb (contains "2f" loc)))
          then done
          else if (goal_id =? "exit_player_house")
                  && (contains "littleroot" loc || contains "outside" text
                      || contains "route 101" text)
          then done
          else if (goal_id =? "choose_starter") && (1 <=? party_count)%Z
          then done
          else if goal_id =? "littleroot_town_explore" then
            (* [("littleroot_town", "outside_littleroot", "littleroot") in loc]:
               the left operand of [in] is a tuple *)
            in_loc <-
              lift (str_in (VList [VStr "littleroot_town";
                                   VStr "outside_littleroot";
                                   VStr "littleroot"]) loc) ;;
            if in_loc || contains "littleroot" obs_loc then done else rest
          else rest
      end
  end.

(** *** [agent/openai/planning.py] *)

Definition pending_goal (i g : string) (cues : list string) : Goal :=
  Deprecated.mkGoal i g "pending" cues false.

Definition DEFAULT_EMERALD_LT_PLAN : list Goal :=
  [ pending_goal "start_game"
      "Start a New Game and complete the initial Professor Birch introduction dialogue."
      ["your very own adventure"; "well, i'll be expecting you later";
       "come see me"];
    pending_goal "leave_the_truck"
      "Exit the moving truck by pressing RIGHT to move to the door."
      ["your room is upstairs"; "player's house";
       "you've arrived at your new home"; "mom"; "downstairs"];
    pending_goal "go_upstairs"
      "Go upstairs to the second floor of your house by walking straight ahead."
      ["2f"; "second floor"];
    pending_goal "player_bedroom_entered"
      "Find the clock in the bedroom and interact with it. It should be along an upper wall to the left of the stairs that you came up."
      ["it's a nintendo gamecube"; "this is your room";
       "this is your bedroom"];
    pending_goal "set_bedroom_clock"
      "Set the bedroom clock by progressing through the dialogue."
      ["better set it"; "set the time"; "set the clock";
       "it's a pokémon brand clock"; "clock is stopped"];
    pending_goal "return_downstairs"
      "Go downstairs to the first floor using the stairs to your right. It will be along the top wall."
      ["downstairs"; "1f"];
    pending_goal "exit_player_house"
      "Leave the player's house and go outside."
      ["littleroot"; "outside"; "route 101"];
    pending_goal "littleroot_town_explore"
      "Find Professor Birch's lab which is next door to your house."
      ["birch's lab"; "go visit prof. birch"];
    pending_goal "route_101"
      "Proceed to Route 101 to encounter Professor Birch."
      ["route 101"; "oldale town"; "birch's bag"; "map_id=3"];
    pending_goal "choose_starter"
      "Help Professor Birch and choose a Mudkip."
      ["chose torchic"; "chose treecko"; "chose mudkip"; "received pokemon";
       "party_count=1"];
    pending_goal "first_rival_battle"
      "Battle the rival on Route 103 and win."
      ["defeated may"; "route 103"; "winner"; "battle_result=win"];
    pending_goal "oldale_town_visit"
      "Visit Oldale Town, heal up, and get any useful items."
      ["oldale town"; "pokecenter"; "healed"; "map_id=2"];
    pending_goal "petalburg_city_reach"
      "Reach Petalburg City and visit the Petalburg Gym."
      ["petalburg city"; "norman's gym"; "map_id=4"];
    pending_goal "petalb_woods_navigate"
      "Navigate through Petalburg Woods to Rustboro City."
      ["petalburg woods"; "devon corp"; "map_id=5"];
    pending_goal "rustboro_city_reach"
      "Arrive in Rustboro City and interact with the Devon Researcher."
      ["rustboro city"; "devon goods"; "map_id=6"];
    pending_goal "rustboro_gym_challenge"
      "Challenge and defeat Gym Leader Roxanne for the Stone Badge."
      ["roxanne"; "stone badge"; "gym_id=1"; "battle_result=win"];
    pending_goal "route_116_explore"
      "Explore Route 116 and help the old man find his Peeko."
      ["route 116"; "rusturf tunnel"; "map_id=7"];
    pending_goal "rusturf_tunnel_clear"
      "Clear Rusturf Tunnel and recover the Devon Goods."
      ["rusturf tunnel"; "team aqua"; "devon goods recovered"; "map_id=8"] ].

(** The dictionary [decide] returns; the oracle path returns one without a
    ["reason"]. *)
Record Decision : Type := mkDecision {
  action : value;
  reason : option string
}.

Record PlanningModule : Type := mkPlanning {
  context_cache : list (string * Decision);
  _PENDING_SHADOW : list string
}.

(** What a call of [decide] can read and change: the memory module, the
    planning module, the prompts sent to the oracle so far, and the number
    of the call (which indexes the replies of the oracle and the draws of
    [random.choice], neither being a function of the prompt alone). *)
Record World : Type := mkWorld {
  memory : MemoryModule;
  planner : PlanningModule;
  oracle_log : list string;
  tick : nat
}.

Definition WM (A : Type) : Type := @M World A.

(** A method of the memory module run from the planner. *)
Definition on_memory {A} (m : MemM A) : WM A :=
  fun w =>
    match m (memory w) with
    | (r, mem') => (r, mkWorld mem' (planner w) (oracle_log w) (tick w))
    end.

Definition set_planner (p : PlanningModule) (w : World) : World :=
  mkWorld (memory w) p (oracle_log w) (tick w).

Fixpoint insert_sorted (s : string) (l : list string) : list string :=
  match l with
  | [] => [s]
  | x :: l' => if String.leb s x then s :: l else x :: insert_sorted s l'
  end.

(** [sorted(keys)] *)
Definition sorted (l : list string) : list string :=
  fold_right insert_sorted [] l.

(** [sorted(memory.state.keys())] *)
Definition mem_keys (m : MemoryModule) : list string :=
  sorted (map fst (state m) ++ ["long_term_plan"; "current_goal"]).

Section Decide.

(** [hashlib.sha1(key.encode()).hexdigest()] *)
Variable sha1 : string -> string.
(** [eval(s)] *)
Variable py_eval : string -> outcome value.
(** The hints [_build_navigation_context] returns, joined. *)
Variable _build_navigation_context :
  value -> value -> MemoryModule -> string -> string -> outcome string.
(** The prompt: goal text, the observation as JSON, the hints and the
    planning prompt. *)
Variable render_prompt : string -> value -> string -> string.
(** [vlm.get_text_query(prompt, module_name="planning")] at a given call *)
Variable vlm_get_text_query : string -> nat -> outcome value.
(** [random.choice(l)] at a given call *)
Variable random_choice : nat -> list string -> string.
(** The regular-expression reading of the reply (sections after the oracle
    call): the batches it hands to [memory.enqueue_actions], in order, and
    the action it returns. *)
Variable interpret_reply : string -> value -> nat -> list (list string) * value.

Definition _hash_context (observation : value) (m : MemoryModule) : string :=
  let scene_type :=
    match observation with
    | VDict d => dict_get d "scene_type" (VStr "")
    | _ => VStr ""
    end in
  let summary :=
    match observation with
    | VDict d => dict_get d "summary" (VStr "")
    | _ => VStr (py_str observation)
    end in
  let active_goal_id :=
    match first_not_completed 0 (long_term_plan m) with
    | Some i =>
        match nth_error (long_term_plan m) i with
        | Some ag => id ag
        | None => "no_goal"
        end
    | None => "no_goal"
    end in
  let key :=
    (py_str scene_type ++ "|" ++ py_str summary ++ "|" ++ active_goal_id
       ++ "|" ++ repr (VList (map VStr (mem_keys m))))%string in
  sha1 key.

Definition dialog_keywords : list string :=
  ["dialogue box"; "dialog box"; "speech bubble"; "text box"; "message box";
   "conversation"; "talking"; "is speaking"; "is saying"].

Definition decide (observation : value) : WM Decision :=
  modify (fun w => mkWorld (memory w) (planner w) (oracle_log w) (S (tick w))) ;;;
  (* 0) read the observation *)
  let obs := py_or observation (VDict []) in
  scene_type <- lift (get obs "scene_type" (VStr "UNKNOWN")) ;;
  summary <- lift (get obs "summary" VNone) ;;
  let summary := py_or summary (VStr "") in
  ctx_hash <- gets (fun w => _hash_context observation (memory w)) ;;
  cached <- gets (fun w => assoc_get ctx_hash (context_cache (planner w))) ;;
  match cached with
  | Some cached => ret cached
  | None =>
      try_except (on_memory (update_goal_status observation))
        (fun _ => ret tt) ;;;
      summary_lower <- lift (str_lower summary) ;;
      obs_state <- lift (get obs "state" VNone) ;;
      let obs_state := py_or obs_state (VDict []) in
      key_elements <- lift (get obs "key_elements" VNone) ;;
      let key_elements := py_or key_elements (VDict []) in
      let key_elements :=
        match key_elements with
        | VDict _ => key_elements
        | VStr s =>
            match py_eval s with
            | Ret v => v
            | Raise _ => VDict []
            end
        | _ => VDict []
        end in
      (* A) queued actions *)
      nxt <- on_memory pop_next_action ;;
      if truthy nxt then ret (mkDecision nxt (Some "queued"))
      else
        shadow <- gets (fun w => _PENDING_SHADOW (planner w)) ;;
        shadowed <-
          match shadow with
          | a :: rest =>
              modify (fun w =>
                set_planner (mkPlanning (context_cache (planner w)) rest) w) ;;;
              ret (VStr a)
          | [] => ret VNone
          end ;;
        if truthy shadowed then ret (mkDecision shadowed (Some "shadow_queue"))
        (* B) title screen *)
        else if py_eq scene_type (VStr "TITLE") then
          on_memory (enqueue_actions (VList (repeat (VStr "A") 9))) ;;;
          ret (mkDecision (VStr "A") (Some "title_screen"))
        (* C) battle *)
        else if py_eq scene_type (VStr "BATTLE") then
          ret (mkDecision (VStr "A") (Some "autoA_battle"))
        else
          (* D) menu / naming fast path *)
          naming_handled <- gets (fun w => _naming_handled (memory w)) ;;
          if py_eq scene_type (VStr "MENU") && negb naming_handled
             && (contains_any ["name"; "enter"; "keyboard"; "character";
                               "nickname"; "input"] summary_lower
                 || (is_dict key_elements
                     && contains_any ["name"; "keyboard"; "input"; "naming";
                                      "nickname"; "character"]
                          (lower (py_str key_elements))))
          then
            on_memory (modify (set_naming_handled true)) ;;;
            on_memory
              (enqueue_actions
                 (VList [VStr "A"; VStr "A"; VStr "A"; VStr "START"])) ;;;
            ret (mkDecision (VStr "START") (Some "naming_completion"))
          else
            (* E) dialogue / cutscene *)
            let st_upper :=
              match py_or scene_type (VStr "UNKNOWN") with
              | VStr s => upper s
              | _ => "UNKNOWN"
              end in
            let is_dialog_like :=
              if mem st_upper ["DIALOGUE"; "CUTSCENE"] then true
              else
                contains_any dialog_keywords summary_lower
                || (is_dict key_elements
                    && contains_any ["dialogue_box"; "speech_bubble";
                                     "text_box"]
                         (lower (py_str key_elements))) in
            if is_dialog_like
            then ret (mkDecision (VStr "A") (Some "autoA_dialogue_or_cutscene"))
            else
              (* F) the goal, for the prompt *)
              active_goal <- on_memory get_active_goal ;;
              plan <- gets (fun w => long_term_plan (memory w)) ;;
              let active_goal :=
                match active_goal with
                | Some i => nth_error plan i
                | None => None
                end in
              let goal_name :=
                match active_goal with
                | Some g => if goal g =? "" then "Progress the game" else goal g
                | None => "Progress the game"
                end in
              let goal_id :=
                match active_goal with
                | Some g => if id g =? "" then "no_goal" else id g
                | None => "no_goal"
                end in
              (* G) navigation and map hints *)
              mem_now <- gets memory ;;
              extra <-
                lift (_build_navigation_context obs_state key_elements mem_now
                        goal_name goal_id) ;;
              (* H) truck / storage exit heuristic *)
              if contains "truck" summary_lower
                 || (contains "box" summary_lower
                     && contains "storage" summary_lower)
              then
                if mem goal_id ["leave_the_truck"; "start_game"]
                then ret (mkDecision (VStr "RIGHT") (Some "truck_exit"))
                else
                  now <- gets tick ;;
                  ret (mkDecision
                         (VStr (random_choice now
                                  ["RIGHT"; "RIGHT"; "DOWN"; "LEFT"]))
                         (Some "truck_explore"))
              else
                (* I) ask the oracle *)
                let goal_text :=
                  match active_goal with
                  | Some g => ("CURRENT GOAL: " ++ goal g)%string
                  | None => ""
                  end in
                let prompt := render_prompt goal_text observation extra in
                now <- gets tick ;;
                modify (fun w =>
                  mkWorld (memory w) (planner w) (oracle_log w ++ [prompt])
                    (tick w)) ;;;
                let out :=
                  match vlm_get_text_query prompt now with
                  | Ret out => py_str out
                  | Raise _ => "A"
                  end in
                let parsed := interpret_reply out scene_type now in
                fold_right
                  (fun batch k =>
                     on_memory (enqueue_actions (VList (map VStr batch))) ;;; k)
                  (ret tt) (fst parsed) ;;;
                ret (mkDecision (snd parsed) None)
  end.

End Decide.

End OpenAI.

(* ===================================================================== *)
(** ** Runs of operations *)
(* ===================================================================== *)

Module Runs.
Import Py Eff.

(** The memory module as [__init__] leaves it when no state file exists,
    over a given plan. *)
Definition fresh_flags : Deprecated.RuntimeFlags :=
  Deprecated.mkFlags false false false 0 VNone 0 false.

Definition fresh_memory (plan : list Deprecated.Goal)
  : Deprecated.MemoryModule :=
  Deprecated.mkMemory VNone plan None VNone false [] fresh_flags [] None [].

(** The tokens one call of [enqueue_actions] looks at. *)
Definition tokens_of (actions : value) : list value :=
  if truthy actions
  then match actions with VList l => l | a => [a] end
  else [].

(** [enqueue_actions(c)] for each [c] of [calls], in order. *)
Fixpoint enqueue_all (calls : list value) : Deprecated.MemM unit :=
  match calls with
  | [] => ret tt
  | c :: cs => Deprecated.enqueue_actions c ;;; enqueue_all cs
  end.

(** [n] calls of [pop_next_action], with their results in order. *)
Fixpoint pop_n (n : nat) : Deprecated.MemM (list value) :=
  match n with
  | O => ret []
  | S n' =>
      a <- Deprecated.pop_next_action ;;
      rest <- pop_n n' ;;
      ret (a :: rest)
  end.

(** [n] calls of [get_active_goal], with their results in order. *)
Fixpoint get_active_goal_n (n : nat)
  : Deprecated.MemM (list (option Deprecated.GoalRef)) :=
  match n with
  | O => ret []
  | S n' =>
      r <- Deprecated.get_active_goal ;;
      rest <- get_active_goal_n n' ;;
      ret (r :: rest)
  end.

(** [n] calls of the [get_active_goal] of [agent/openai], with their
    results in order. *)
Fixpoint next_goal_n (n : nat) : OpenAI.MemM (list (option nat)) :=
  match n with
  | O => ret []
  | S n' =>
      r <- OpenAI.get_active_goal ;;
      rest <- next_goal_n n' ;;
      ret (r :: rest)
  end.

(** How the statuses of a plan may differ after an operation: same goals
    at the same places, each status either kept or set to ["completed"],
    and a completed goal still completed. *)
Definition statuses_monotone (p p' : list Deprecated.Goal) : Prop :=
  length p' = length p /\
  forall i g,
    nth_error p i = Some g ->
    exists g',
      nth_error p' i = Some g' /\
      Deprecated.id g' = Deprecated.id g /\
      (Deprecated.status g' = Deprecated.status g
       \/ Deprecated.status g' = "completed") /\
      (Deprecated.status g = "completed" ->
       Deprecated.status g' = "completed").

(** An observation the decision engine accepts as a dialogue or cutscene
    step: a dictionary whose scene type is one of the two, whose summary is
    a string and whose [map] entry, if any, is a dictionary or falsy. *)
Definition dialogue_observation (observation : value) : bool :=
  match observation with
  | VDict o =>
      in_strs (dict_get o "scene_type" (VStr "UNKNOWN"))
        Deprecated.Planning.DIALOGUE_LIKE
      && is_str (dict_get o "summary" (VStr ""))
      && is_dict (py_or (dict_get o "map" (VDict [])) (VDict []))
  | _ => false
  end.

(** An observation the decision engine answers as a battle step. *)
Definition battle_observation (observation : value) : bool :=
  match observation with
  | VDict o =>
      py_eq (dict_get o "scene_type" (VStr "UNKNOWN")) (VStr "BATTLE")
      && is_str (dict_get o "summary" (VStr ""))
      && is_dict (py_or (dict_get o "map" (VDict [])) (VDict []))
  | _ => false
  end.

(** The dialogue streak the runtime flags record. *)
Definition streak (m : Deprecated.MemoryModule) : Z :=
  Deprecated.dialogue_streak (Deprecated._runtime_flags m).

(** The action of the escalation ladder at a given streak. *)
Definition ladder (streak : Z) : string :=
  if (60 <=? streak)%Z then "START"
  else if (40 <=? streak)%Z then "B"
  else "A".

Section DecideRun.

Variable _analyze_movement_preview :
  value -> outcome Deprecated.Planning.MovementInfo.
Variable target_direction :
  value -> Deprecated.MemoryModule -> string -> outcome value.
Variable oracle_actions :
  value -> Deprecated.MemoryModule -> list string -> outcome (list string).

(** One call of [decide] per observation, with the actions returned. *)
Fixpoint decide_run (observations : list value)
  : Deprecated.MemM (list value) :=
  match observations with
  | [] => ret []
  | o :: os =>
      d <- Deprecated.Planning.decide _analyze_movement_preview
             target_direction oracle_actions o ;;
      rest <- decide_run os ;;
      ret (match d with
           | Some d => Deprecated.Planning.action d
           | None => VNone
           end :: rest)
  end.

End DecideRun.











(** The state a successful completion of the plan entry [i] leaves, from
    the state [m1] in which the active goal was looked up. *)
Definition completed_at (i : nat) (m1 : Deprecated.MemoryModule)
  : Deprecated.MemoryModule :=
  Deprecated.set_current_goal
    (option_map Deprecated.InPlan
       (Deprecated.first_pending_from (S i)
          (skipn (S i) (Deprecated.long_term_plan m1))))
    (Deprecated.set_long_term_plan
       (Deprecated.mark_completed i (Deprecated.long_term_plan m1)) m1).

(** Two goals of a plan, for examples. *)
Definition goal_x : Deprecated.Goal :=
  Deprecated.mkGoal "x" "First milestone" "pending" [] false.
Definition goal_y : Deprecated.Goal :=
  Deprecated.mkGoal "y" "Second milestone" "pending" [] false.

(** Stand-ins for the collaborators of [decide], for examples. *)
Definition no_preview (_ : value) : outcome Deprecated.Planning.MovementInfo :=
  Ret (Deprecated.Planning.mkMovementInfo [] []).

Definition no_target (_ : value) (_ : Deprecated.MemoryModule) (_ : string)
  : outcome value := Ret VNone.

Definition oracle_says (l : list string) (_ : value)
  (_ : Deprecated.MemoryModule) (_ : list string) : outcome (list string) :=
  Ret l.

Definition walkable_up_left (_ : value)
  : outcome Deprecated.Planning.MovementInfo :=
  Ret (Deprecated.Planning.mkMovementInfo ["UP"; "LEFT"] ["DOWN"; "RIGHT"]).

Definition dialogue_obs : value :=
  VDict [("scene_type", VStr "DIALOGUE");
         ("summary", VStr "Dialogue textbox visible.")].

Definition battle_obs : value :=
  VDict [("scene_type", VStr "BATTLE");
         ("summary", VStr "Battle in progress")].

Definition upstairs_memory : Deprecated.MemoryModule :=
  fresh_memory
    [Deprecated.mkGoal "go_upstairs" "Go upstairs to second floor" "pending"
       ["2f"; "second floor"] false].

(** A memory module of [agent/openai] over the default plan with its
    first seven goals completed, so that the next incomplete goal is
    [littleroot_town_explore]; and an observation made in that town. *)
Definition littleroot_memory : OpenAI.MemoryModule :=
  OpenAI.mkMemory []
    (map (Deprecated.set_status "completed")
       (firstn 7 OpenAI.DEFAULT_EMERALD_LT_PLAN)
     ++ skipn 7 OpenAI.DEFAULT_EMERALD_LT_PLAN)
    VNone false [].

Definition littleroot_obs : value :=
  VDict [("scene_type", VStr "MAP");
         ("summary", VStr "LITTLEROOT TOWN (5,8)");
         ("key_elements", VDict [("Location", VStr "LITTLEROOT TOWN")])].

(** A planner of [agent/openai] as [__init__] leaves it, over a memory
    with no goal and no queued action; a map observation; and stand-ins
    for the collaborators of [decide]. *)
Definition openai_world : OpenAI.World :=
  OpenAI.mkWorld (OpenAI.mkMemory [] [] VNone false [])
    (OpenAI.mkPlanning [] []) [] 0.

Definition map_obs : value :=
  VDict [("scene_type", VStr "MAP");
         ("summary", VStr "Grass path north of town")].

Definition same_key (key : string) : string := key.
Definition eval_fails (_ : string) : outcome value := Raise ValueError.
Definition no_hints (_ _ : value) (_ : OpenAI.MemoryModule) (_ _ : string)
  : outcome string := Ret "".
Definition fixed_prompt (_ : string) (_ : value) (_ : string) : string :=
  "PROMPT".
Definition vlm_says_up (_ : string) (_ : nat) : outcome value :=
  Ret (VStr "UP").
Definition first_choice (_ : nat) (l : list string) : string := hd "" l.
Definition reply_as_action (out : string) (_ : value) (_ : nat)
  : list (list string) * value := ([], VStr out).


End Runs.

(* ===================================================================== *)
(** ** More string built-ins *)
(* ===================================================================== *)

(** Strings are sequences of bytes (UTF-8 for the few non-ASCII literals of
    the code); blanks, digits and letter case are those of ASCII. *)

Module PyStr.
Import Py.

(** [s.startswith(p)] *)
Definition startswith (s p : string) : bool := prefix p s.

(** [s[n:]] *)
Fixpoint drop (n : nat) (s : string) : string :=
  match n, s with
  | O, _ => s
  | S n', String _ s' => drop n' s'
  | S _, EmptyString => EmptyString
  end.

(** [s.endswith(p)] *)
Definition endswith (s p : string) : bool :=
  (String.length p <=? String.length s)%nat
  && (drop (String.length s - String.length p) s =? p).

(** [s.split()]: the maximal runs of characters that are not blanks. *)
Fixpoint split_ws_from (cur : string) (s : string) : list string :=
  match s with
  | EmptyString => if cur =? "" then [] else [cur]
  | String c s' =>
      if is_space c
      then (if cur =? "" then [] else [cur]) ++ split_ws_from "" s'
      else split_ws_from (cur ++ String c "")%string s'
  end.

Definition split_ws (s : string) : list string := split_ws_from "" s.

(** [s.split(sep)] for a separator that is not empty: [skip] counts the
    characters of a separator still to be passed over, [cur] is the part
    being read. *)
Fixpoint split_from (sep : string) (skip : nat) (cur : string) (s : string)
  : list string :=
  match s with
  | EmptyString => [cur]
  | String c s' =>
      match skip with
      | S k => split_from sep k cur s'
      | O =>
          if prefix sep s
          then cur :: split_from sep (String.length sep - 1) "" s'
          else split_from sep 0 (cur ++ String c "")%string s'
      end
  end.

Definition split (s sep : string) : list string := split_from sep 0 "" s.

(** [s.split(sep, 1)] *)
Fixpoint split_once_from (sep : string) (cur : string) (s : string)
  : list string :=
  match s with
  | EmptyString => [cur]
  | String c s' =>
      if prefix sep s then [cur; drop (String.length sep) s]
      else split_once_from sep (cur ++ String c "")%string s'
  end.

Definition split_once (s sep : string) : list string :=
  split_once_from sep "" s.

(** [s.replace(old, new)] for an [old] that is not empty *)
Fixpoint replace_from (old new : string) (skip : nat) (s : string) : string :=
  match s with
  | EmptyString => EmptyString
  | String c s' =>
      match skip with
      | S k => replace_from old new k s'
      | O =>
          if prefix old s
          then (new ++ replace_from old new (String.length old - 1) s')%string
          else String c (replace_from old new 0 s')
      end
  end.

Definition replace (s old new : string) : string := replace_from old new 0 s.

(** [sep.join(l)] *)
Definition join (sep : string) (l : list string) : string :=
  String.concat sep l.

(** [s.strip(chars)] for a one-character [chars] *)
Fixpoint lstrip_char (c : ascii) (s : string) : string :=
  match s with
  | EmptyString => EmptyString
  | String x s' => if Ascii.eqb x c then lstrip_char c s' else s
  end.

Fixpoint rstrip_char (c : ascii) (s : string) : string :=
  match s with
  | EmptyString => EmptyString
  | String x s' =>
      match rstrip_char c s' with
      | EmptyString => if Ascii.eqb x c then EmptyString else String x EmptyString
      | r => String x r
      end
  end.

Definition strip_char (c : ascii) (s : string) : string :=
  rstrip_char c (lstrip_char c s).

(** [all(p(c) for c in s)] *)
Fixpoint all_chars (p : ascii -> bool) (s : string) : bool :=
  match s with
  | EmptyString => true
  | String c s' => p c && all_chars p s'
  end.

(** The characters of a string, [list(s)], and back, ["".join(l)]. *)
Definition chars (s : string) : list ascii := list_ascii_of_string s.
Definition of_chars (l : list ascii) : string := string_of_list_ascii l.

(** [int(s)] of a text that may be long.  CPython (3.11, and the security
    releases of the versions before it) refuses a text of more than
    [sys.get_int_max_str_digits()] digits, 4300 unless it is configured
    otherwise, with the [ValueError] it raises for a text that is no
    number. *)
Definition int_max_str_digits : Z := 4300.

Fixpoint digit_count (s : string) : nat :=
  match s with
  | EmptyString => O
  | String c s' =>
      if OpenAI.is_digit c then S (digit_count s') else digit_count s'
  end.

Definition int_of_text (s : string) : outcome Z :=
  if (int_max_str_digits <? Z.of_nat (digit_count s))%Z
  then Raise ValueError
  else OpenAI.py_int (VStr s).

(** Text made of ASCII characters and of the arrow of the menu directive:
    the text in which blanks, digits and letter case are those of ASCII,
    also for the regular expressions that ignore case. *)
Definition plain (s : string) : bool :=
  forallb (fun c => (c <? 128)%N || (c =? 8594)%N) (code_points s).

End PyStr.

(* ===================================================================== *)
(** ** Regular expressions *)
(* ===================================================================== *)

(** The patterns of the code, matched as [re] matches them: leftmost, by
    backtracking, alternatives in order, repetitions greedy. *)

Module Re.
Import Py.

Inductive regex : Type :=
| Eps
| Class (p : ascii -> bool)
| Seq (a b : regex)
| Alt (a b : regex)
| Star (a : regex)
| Group (i : nat) (a : regex).

(** The groups closed so far, the last one first. *)
Definition captures : Type := list (nat * string).

(** The loop of a greedy repetition: one more round of [step] if it can
    be made (and consumes something), the continuation [k] otherwise and
    on backtracking. *)
Fixpoint star_loop {A : Type}
  (step : string -> captures -> (string -> captures -> option A) -> option A)
  (k : string -> captures -> option A) (n : nat) (s : string) (c : captures)
  {struct n} : option A :=
  match n with
  | O => k s c
  | S n' =>
      match
        step s c
          (fun s' c' =>
             if (String.length s' <? String.length s)%nat
             then star_loop step k n' s' c'
             else None)
      with
      | Some x => Some x
      | None => k s c
      end
  end.

(** [run r s c k]: match [r] at the head of [s], then go on with [k] on the
    rest; a failure of [k] makes [r] try its next way of matching. *)
Fixpoint run {A : Type} (r : regex) (s : string) (c : captures)
  (k : string -> captures -> option A) {struct r} : option A :=
  match r with
  | Eps => k s c
  | Class p =>
      match s with
      | String x s' => if p x then k s' c else None
      | EmptyString => None
      end
  | Seq a b => run a s c (fun s' c' => run b s' c' k)
  | Alt a b =>
      match run a s c k with
      | Some x => Some x
      | None => run b s c k
      end
  | Star a =>
      star_loop (fun s c k' => run a s c k') k (S (String.length s)) s c
  | Group i a =>
      run a s c
        (fun s' c' =>
           k s' ((i, substring 0 (String.length s - String.length s') s) :: c'))
  end.

(** The ways [r] matches a word, each with the groups it closes. *)
Inductive parses : regex -> string -> captures -> Prop :=
| parses_eps : parses Eps "" []
| parses_class p x : p x = true -> parses (Class p) (String x "") []
| parses_seq a b u v cu cv :
    parses a u cu -> parses b v cv ->
    parses (Seq a b) (u ++ v)%string (cv ++ cu)
| parses_alt_l a b u c : parses a u c -> parses (Alt a b) u c
| parses_alt_r a b u c : parses b u c -> parses (Alt a b) u c
| parses_star_nil a : parses (Star a) "" []
| parses_star_cons a u v cu cv :
    parses a u cu -> parses (Star a) v cv ->
    parses (Star a) (u ++ v)%string (cv ++ cu)
| parses_group i a u c : parses a u c -> parses (Group i a) u ((i, u) :: c).

(** [m.group(i)]: [None] when the group took no part in the match. *)
Fixpoint group (c : captures) (i : nat) : option string :=
  match c with
  | [] => None
  | (j, t) :: c' => if Nat.eqb j i then Some t else group c' i
  end.

(** [pattern.match(s)]: the groups of the match, and what follows it. *)
Definition re_match (r : regex) (s : string) : option (captures * string) :=
  run r s [] (fun rest c => Some (c, rest)).

(** [pattern.search(s)] *)
Fixpoint re_search (r : regex) (s : string) : option (captures * string) :=
  match re_match r s with
  | Some m => Some m
  | None =>
      match s with
      | String _ s' => re_search r s'
      | EmptyString => None
      end
  end.

(** What a match at the head of [s] consumed. *)
Definition consumed (r : regex) (s : string) : option string :=
  match re_match r s with
  | Some (_, rest) => Some (substring 0 (String.length s - String.length rest) s)
  | None => None
  end.

(** [pattern.findall(s)] for a pattern without groups that matches no
    empty string. *)
Fixpoint findall_from (r : regex) (skip : nat) (s : string) : list string :=
  match s with
  | EmptyString => []
  | String _ s' =>
      match skip with
      | S k => findall_from r k s'
      | O =>
          match consumed r s with
          | Some (String x w) =>
              String x w :: findall_from r (String.length w) s'
          | _ => findall_from r 0 s'
          end
      end
  end.

Definition findall (r : regex) (s : string) : list string :=
  findall_from r 0 s.

(** [pattern.split(s)] for a pattern without groups that matches no empty
    string. *)
Fixpoint split_from (r : regex) (skip : nat) (cur : string) (s : string)
  : list string :=
  match s with
  | EmptyString => [cur]
  | String x s' =>
      match skip with
      | S k => split_from r k cur s'
      | O =>
          match consumed r s with
          | Some (String _ w) => cur :: split_from r (String.length w) "" s'
          | _ => split_from r 0 (cur ++ String x "")%string s'
          end
      end
  end.

Definition re_split (r : regex) (s : string) : list string :=
  split_from r 0 "" s.

(** Patterns without groups. *)
Fixpoint groupless (r : regex) : bool :=
  match r with
  | Eps | Class _ => true
  | Seq a b | Alt a b => groupless a && groupless b
  | Star a => groupless a
  | Group _ _ => false
  end.

(** *** Writing patterns *)

(** A literal; with [re.IGNORECASE], a literal up to the case of the
    ASCII letters (on text beyond ASCII Python lets a few more characters
    match a letter, the dotted capital I for one: see [PyStr.plain]). *)
Fixpoint lit (s : string) : regex :=
  match s with
  | EmptyString => Eps
  | String c s' => Seq (Class (Ascii.eqb c)) (lit s')
  end.

Fixpoint lit_i (s : string) : regex :=
  match s with
  | EmptyString => Eps
  | String c s' =>
      Seq (Class (fun x => Ascii.eqb (upper_char x) (upper_char c))) (lit_i s')
  end.

(** [a+], [a?], [a|b|...] *)
Definition plus (a : regex) : regex := Seq a (Star a).
Definition opt (a : regex) : regex := Alt a Eps.

Fixpoint alts (l : list regex) : regex :=
  match l with
  | [] => Class (fun _ => false)
  | [a] => a
  | a :: l' => Alt a (alts l')
  end.

(** [\s], [\d], [[A-Z]], [.] *)
Definition space : regex := Class is_space.
Definition digit : regex := Class OpenAI.is_digit.

Definition is_upper (c : ascii) : bool :=
  let n := nat_of_ascii c in ((65 <=? n) && (n <=? 90))%nat.

Definition is_lower (c : ascii) : bool :=
  let n := nat_of_ascii c in ((97 <=? n) && (n <=? 122))%nat.

Definition dot : regex := Class (fun c => negb (Ascii.eqb c "010")).

End Re.

(* ===================================================================== *)
(** ** Button execution: [agent/deprecated/action.py] *)
(* ===================================================================== *)

Module ActionDeprecated.
Import Py PyStr.

Definition VALID_BUTTONS : list string :=
  ["A"; "B"; "START"; "SELECT"; "UP"; "DOWN"; "LEFT"; "RIGHT"].

Definition _parse_action (action_str : value) : list string :=
  if negb (truthy action_str) then ["A"]
  else
    let action := upper (strip (py_str action_str)) in
    if mem action VALID_BUTTONS then [action]
    else
      match filter (fun token => mem token VALID_BUTTONS) (split_ws action) with
      | [] => ["A"]
      | buttons => buttons
      end.

(** The action a plan carries: the ["action"] entry of a dictionary, a
    string itself, the empty string otherwise. *)
Definition raw_action_of (plan : value) : value :=
  match plan with
  | VDict d => dict_get d "action" (VStr "")
  | VStr _ => plan
  | _ => VStr ""
  end.



(** [action_step(vlm, game_state, planning_output, perception_output)]:
    the list under ["action"] of the dictionary it returns. *)
Definition action_step (planning_output : value) : list string :=
  filter (fun b => mem b VALID_BUTTONS)
    (_parse_action (raw_action_of planning_output)).

End ActionDeprecated.

(* ===================================================================== *)
(** ** Button execution: [agent/openai/action.py] *)
(* ===================================================================== *)

Module ActionOpenAI.
Import Py PyStr Re.

Definition VALID_BUTTONS : list string :=
  ["A"; "B"; "START"; "SELECT"; "UP"; "DOWN"; "LEFT"; "RIGHT"].

(** [MOVE\s+(UP|DOWN|LEFT|RIGHT)\s+(\d+)], ignoring case *)
Definition MOVE_PATTERN : regex :=
  Seq (lit_i "MOVE")
    (Seq (plus space)
       (Seq (Group 1 (alts [lit_i "UP"; lit_i "DOWN"; lit_i "LEFT";
                            lit_i "RIGHT"]))
          (Seq (plus space) (Group 2 (plus digit))))).

(** [PRESS\s+([A-Z]+)], ignoring case *)
Definition PRESS_PATTERN : regex :=
  Seq (lit_i "PRESS")
    (Seq (plus space)
       (Group 1 (plus (Class (fun c => is_upper c || is_lower c))))).

(** [MENU\s*→\s*(.+)], ignoring case *)
Definition MENU_PATTERN : regex :=
  Seq (lit_i "MENU")
    (Seq (Star space)
       (Seq (lit "→") (Seq (Star space) (Group 1 (plus dot))))).

(** [[,\s]+] *)
Definition SEPARATORS : regex :=
  plus (Class (fun c => Ascii.eqb c "," || is_space c)).

Definition normalize_button_name (button : string) : string :=
  upper (strip (replace button "PRESS " "")).

(** One step of a menu path. *)
Definition menu_step (step : string) : list string :=
  let step := upper (strip step) in
  if mem step VALID_BUTTONS then [step]
  else if mem step ["BAG"; "POKEMON"; "SAVE"] then ["START"; "A"]
  else ["A"].

Definition _parse_action (action : string) : outcome (list string) :=
  let action := upper (strip action) in
  if mem action VALID_BUTTONS then Ret [action]
  else
    match re_match MOVE_PATTERN action with
    | Some (move_match, _) =>
        match group move_match 1, group move_match 2 with
        | Some direction, Some steps =>
            steps <-? int_of_text steps ;;
            let steps := Z.min steps 8 in
            Ret (repeat direction (Z.to_nat steps))
        | _, _ => Raise TypeError
        end
    | None =>
        let after_press :=
          if startswith action "INTERACT" then Ret ["A"]
          else
            match re_match MENU_PATTERN action with
            | Some (menu_match, _) =>
                match group menu_match 1 with
                | Some path => Ret (flat_map menu_step (split path "→"))
                | None => Raise AttributeError
                end
            | None =>
                let tokens := re_split SEPARATORS action in
                match filter (fun t => mem t VALID_BUTTONS) tokens with
                | [] => Ret ["A"]
                | buttons => Ret buttons
                end
            end in
        match re_match PRESS_PATTERN action with
        | Some (press_match, _) =>
            match group press_match 1 with
            | Some g =>
                let button := normalize_button_name g in
                if mem button VALID_BUTTONS then Ret [button]
                else after_press
            | None => Raise AttributeError
            end
        | None => after_press
        end
    end.

(** [action_step(vlm, game_state, planning_output, perception_output)]:
    the list under ["action"] of the dictionary it returns. *)
Definition action_step (planning_output perception_output : value)
  : outcome (list string) :=
  let raw_action :=
    match planning_output with
    | VDict d => py_or (dict_get d "action" (VStr "")) (VStr "")
    | VStr _ => planning_output
    | _ => VStr ""
    end in
  buttons <-? match raw_action with
              | VStr s => _parse_action s
              | _ => Raise AttributeError
              end ;;
  let buttons := filter (fun b => mem b VALID_BUTTONS) buttons in
  summary <-? get (py_or perception_output (VDict [])) "summary" (VStr "") ;;
  _ <-? str_lower summary ;;
  Ret buttons.

End ActionOpenAI.

(* ===================================================================== *)
(** ** Reading the oracle's reply: [agent/deprecated/planning.py] *)
(* ===================================================================== *)

Module ReplyDeprecated.
Import Py PyStr Re.

Definition DIRS : regex := alts [lit "UP"; lit "DOWN"; lit "LEFT"; lit "RIGHT"].

(** [(UP|DOWN|LEFT|RIGHT)\s+(\d+)] *)
Definition DIR_STEPS : regex :=
  Seq (Group 1 DIRS) (Seq (plus space) (Group 2 (plus digit))).

(** [MOVE\s+(UP|DOWN|LEFT|RIGHT)(?:\s+(\d+))?] *)
Definition MOVE_STEPS : regex :=
  Seq (lit "MOVE")
    (Seq (plus space)
       (Seq (Group 1 DIRS) (opt (Seq (plus space) (Group 2 (plus digit)))))).

(** [PRESS\s+(A|B|START|SELECT|UP|DOWN|LEFT|RIGHT)] *)
Definition PRESS_BUTTON : regex :=
  Seq (lit "PRESS")
    (Seq (plus space)
       (Group 1 (alts [lit "A"; lit "B"; lit "START"; lit "SELECT";
                       lit "UP"; lit "DOWN"; lit "LEFT"; lit "RIGHT"]))).

(** [[direction] * steps] *)
Definition times (direction : string) (steps : Z) : value :=
  VList (repeat (VStr direction) (Z.to_nat steps)).

(** [_normalize_action(action_str, walkable_dirs)]: a string or a list of
    strings ([walkable_dirs] is not read). *)
Definition _normalize_action (action_str : string) : outcome value :=
  let action_str := strip (upper action_str) in
  match re_match DIR_STEPS action_str with
  | Some (dir_step_match, _) =>
      match group dir_step_match 1, group dir_step_match 2 with
      | Some direction, Some steps =>
          steps <-? int_of_text steps ;;
          Ret (times direction (Z.min steps 3))
      | _, _ => Raise TypeError
      end
  | None =>
      if mem action_str ["UP"; "DOWN"; "LEFT"; "RIGHT"] then Ret (VStr action_str)
      else if mem action_str ["A"; "B"; "START"; "SELECT"]
      then Ret (VStr action_str)
      else
        match re_match MOVE_STEPS action_str with
        | Some (m, _) =>
            match group m 1 with
            | Some direction =>
                steps <-? match group m 2 with
                          | Some g => int_of_text g
                          | None => Ret 1%Z
                          end ;;
                let steps := Z.min steps 3 in
                if (1 <? steps)%Z then Ret (times direction steps)
                else Ret (VStr direction)
            | None => Raise TypeError
            end
        | None =>
            match re_match PRESS_BUTTON action_str with
            | Some (m, _) =>
                match group m 1 with
                | Some b => Ret (VStr b)
                | None => Ret VNone
                end
            | None => Ret (VStr "A")
            end
        end
  end.

Section ParseActions.

(** [json.loads(s)]: the value read, or the exception raised, which is a
    [ValueError] ([json.JSONDecodeError] is one) for a text that is no
    JSON and [RecursionError] for one nested too deeply. *)
Variable json_loads : string -> outcome value.

(** [validated.extend(v)] for a list, [validated.append(v)] otherwise *)
Definition extend_or_append (validated : list value) (v : value) : list value :=
  match v with
  | VList l => validated ++ l
  | _ => validated ++ [v]
  end.

(** The loop over [parsed[:3]]. *)
Fixpoint normalize_all (parsed : list value) (validated : list value)
  : outcome (list value) :=
  match parsed with
  | [] => Ret validated
  | act :: rest =>
      validated_act <-? _normalize_action (py_str act) ;;
      normalize_all rest (extend_or_append validated validated_act)
  end.

(** The [try] block of the multi-action path: [Ret (Some l)] when it
    returns [l], [Ret None] when it falls through. *)
Definition parse_multi (response : string) : outcome (option (list value)) :=
  let clean := strip response in
  let clean :=
    if startswith clean "```" && endswith clean "```"
    then join (String "010" "") (removelast (tl (split clean (String "010" ""))))
    else clean in
  match json_loads (strip clean) with
  | Ret (VList (p :: parsed)) =>
      match normalize_all (firstn 3 (p :: parsed)) [] with
      | Ret validated => Ret (Some (firstn 3 validated))
      | Raise ValueError => Ret None
      | Raise e => Raise e
      end
  | Ret _ => Ret None
  | Raise ValueError => Ret None
  | Raise e => Raise e
  end.

Definition _parse_actions (response : value) (allow_multi : bool)
  : outcome (list value) :=
  if negb (truthy response) then Ret [VStr "A"]
  else
    match response with
    | VStr response =>
        multi <-? (if allow_multi then parse_multi response else Ret None) ;;
        match multi with
        | Some l => Ret l
        | None =>
            result <-? _normalize_action response ;;
            match result with
            | VList l => Ret l
            | _ => Ret [result]
            end
        end
    | _ => Raise AttributeError
    end.

End ParseActions.

(** What [_normalize_action] can return: one of the eight buttons, or at
    most three copies of one direction. *)
Definition normalized (v : value) : Prop :=
  (exists b, v = VStr b /\ In b ActionDeprecated.VALID_BUTTONS)
  \/ (exists d n,
        v = VList (repeat (VStr d) n)
        /\ In d ["UP"; "DOWN"; "LEFT"; "RIGHT"] /\ n <= 3).

(** A value that is one of the eight buttons. *)
Definition is_button (v : value) : Prop :=
  exists b, v = VStr b /\ In b ActionDeprecated.VALID_BUTTONS.

End ReplyDeprecated.

(* ===================================================================== *)
(** ** Numbers and containers *)
(* ===================================================================== *)

Module PyNum.
Import Py.

(** The integer a value stands for in arithmetic ([True] is 1, [False]
    is 0); other values are not numbers. *)
Definition as_int (v : value) : option Z :=
  match v with
  | VInt z => Some z
  | VBool b => Some (if b then 1 else 0)%Z
  | _ => None
  end.

(** [a + b], [a - b], [a * b], [a < b], [a >= b] and [a > b] raise
    [TypeError] unless both operands are numbers. *)
Definition arith (f : Z -> Z -> Z) (a b : value) : outcome value :=
  match as_int a, as_int b with
  | Some x, Some y => Ret (VInt (f x y))
  | _, _ => Raise TypeError
  end.

Definition compare (f : Z -> Z -> bool) (a b : value) : outcome bool :=
  match as_int a, as_int b with
  | Some x, Some y => Ret (f x y)
  | _, _ => Raise TypeError
  end.

Definition add : value -> value -> outcome value := arith Z.add.
Definition sub : value -> value -> outcome value := arith Z.sub.
Definition mul : value -> value -> outcome value := arith Z.mul.
Definition lt : value -> value -> outcome bool := compare Z.ltb.
Definition ge : value -> value -> outcome bool := compare Z.geb.
Definition gt : value -> value -> outcome bool := compare Z.gtb.

(** [len(v)] *)
Definition len (v : value) : outcome Z :=
  match v with
  | VList l => Ret (Z.of_nat (length l))
  | VStr s => Ret (Z.of_nat (String.length s))
  | VDict d => Ret (Z.of_nat (length d))
  | _ => Raise TypeError
  end.

(** [v[i]] for an index [0 <= i < len(v)]: an element of a list, a
    character of a string; a dictionary has no integer key. *)
Definition item (v : value) (i : Z) : outcome value :=
  match v with
  | VList l => Ret (nth (Z.to_nat i) l VNone)
  | VStr s =>
      Ret (VStr (match String.get (Z.to_nat i) s with
                 | Some c => String c ""
                 | None => ""
                 end))
  | VDict _ => Raise KeyError
  | _ => Raise TypeError
  end.

End PyNum.

(* ===================================================================== *)
(** ** Walkable directions from the map grid:
       [agent/deprecated/planning.py] *)
(* ===================================================================== *)

Module MapGrid.
Import Py PyNum.

(** [PlanningModule._extract_map_grid]: the tiles with the width and the
    height of the grid, or [(None, 0, 0)]. *)
Definition _extract_map_grid (observation : value) : value * value * value :=
  match
    (state <-? get observation "state" (VDict []) ;;
     map_data <-? get state "map" (VDict []) ;;
     tiles <-? get map_data "tiles" (VList []) ;;
     width <-? get map_data "width" (VInt 0) ;;
     height <-? get map_data "height" (VInt 0) ;;
     if truthy tiles then
       w_ok <-? gt width (VInt 0) ;;
       if w_ok then
         h_ok <-? gt height (VInt 0) ;;
         Ret (if h_ok then Some (tiles, width, height) else None)
       else Ret None
     else Ret None)
  with
  | Ret (Some r) => r
  | _ => (VNone, VInt 0, VInt 0)
  end.

Definition WALKABLE_BEHAVIORS : list string :=
  ["NORMAL"; "DOOR"; "STAIRS"; "WARP"; "LEDGE"; "TALL_GRASS"; "WATER"; "ICE";
   "SAND"].

Definition BLOCKED_BEHAVIORS : list string := ["WALL"; "BARRIER"; "IMPASSABLE"].

Definition directions : list (string * Z * Z) :=
  [("UP", 0, -1); ("DOWN", 0, 1); ("LEFT", -1, 0); ("RIGHT", 1, 0)]%Z.

(** The test on the behaviour and the collision flag of a tile. *)
Definition behavior_walkable (behavior collision : value) : bool :=
  if truthy behavior
     && contains_any WALKABLE_BEHAVIORS (upper (py_str behavior))
  then true
  else
    py_eq collision (VInt 0)
    && negb (contains_any BLOCKED_BEHAVIORS (upper (py_str behavior))).

(** [is_walkable] for a tile: a dictionary, a list of at least three
    entries, or anything else. *)
Definition tile_walkable (tile : value) : bool :=
  match tile with
  | VDict t =>
      behavior_walkable (dict_get t "behavior" (VStr ""))
        (dict_get t "collision" (VInt 0))
  | VList (_ :: behavior :: collision :: _) =>
      behavior_walkable behavior collision
  | _ => false
  end.

(** One round of the loop over the directions: [true] when the direction
    is appended to [walkable], [false] when it is appended to [blocked]. *)
Definition direction_walkable (px py tiles width height : value)
  (dx dy : Z) : outcome bool :=
  nx <-? add px (VInt dx) ;;
  ny <-? add py (VInt dy) ;;
  out_left <-? lt nx (VInt 0) ;;
  out_right <-? (if out_left then Ret true else ge nx width) ;;
  out_up <-? (if out_right then Ret true else lt ny (VInt 0)) ;;
  out_down <-? (if out_up then Ret true else ge ny height) ;;
  if out_down then Ret false
  else
    row <-? mul ny width ;;
    tile_idx <-? add row nx ;;
    n <-? len tiles ;;
    match as_int tile_idx with
    | Some i =>
        if (n <=? i)%Z then Ret false
        else
          tile <-? item tiles i ;;
          Ret (tile_walkable tile)
    | None => Raise TypeError
    end.

Fixpoint scan (px py tiles width height : value)
  (todo : list (string * Z * Z)) (walkable blocked : list string)
  : outcome (list string * list string) :=
  match todo with
  | [] => Ret (walkable, blocked)
  | (dir_name, dx, dy) :: rest =>
      ok <-? direction_walkable px py tiles width height dx dy ;;
      if ok
      then scan px py tiles width height rest (walkable ++ [dir_name]) blocked
      else scan px py tiles width height rest walkable (blocked ++ [dir_name])
  end.

(** [PlanningModule._calculate_walkable_from_map]: the pair
    [(walkable, blocked)]. *)
Definition _calculate_walkable_from_map (observation : value)
  : outcome (list string * list string) :=
  match Deprecated.Planning._get_coords observation with
  | None => Ret ([], [])
  | Some (px, py) =>
      match _extract_map_grid observation with
      | (tiles, width, height) =>
          if negb (truthy tiles) || py_eq width (VInt 0)
             || py_eq height (VInt 0)
          then Ret ([], [])
          else scan px py tiles width height directions [] []
      end
  end.

(** A two-by-two grid with the player in its upper left corner: the tile
    to the right is a wall, the tile below is free. *)
Definition corner_obs : value :=
  VDict
    [("player", VDict [("x", VInt 0); ("y", VInt 0)]);
     ("state",
      VDict
        [("map",
          VDict
            [("tiles",
              VList
                [VDict [("behavior", VStr "NORMAL"); ("collision", VInt 0)];
                 VDict [("behavior", VStr "WALL"); ("collision", VInt 1)];
                 VDict [("behavior", VStr ""); ("collision", VInt 0)];
                 VList [VInt 7; VStr "Barrier"; VInt 0]]);
             ("width", VInt 2);
             ("height", VInt 2)])])].

End MapGrid.

(* ===================================================================== *)
(** ** Invariants of stateful methods *)
(* ===================================================================== *)

Module Hoare.
Import Py Eff.

(** A method keeps [P]: the state it leaves satisfies [P] whenever the
    state it starts from does, whether it returns or raises. *)
Definition preserves {S A : Type} (P : S -> Prop) (c : @M S A) : Prop :=
  forall s, P s -> P (snd (c s)).

End Hoare.

(* ===================================================================== *)
(** ** The explored map and the movement memory:
       [agent/deprecated/memory.py] *)
(* ===================================================================== *)

Module MemoryDeprecated.
Import Py Eff PyNum PyStr.

(** *** [state["explored_map"]]

    The store is the one the module builds itself, from the empty
    dictionary of [__init__]: each map name is bound to the tiles seen so
    far (a dictionary from ["x_y"] to the symbol of the tile) with the
    width and the height last reported.  Names are compared as dictionary
    keys are, and a name that cannot be hashed raises [TypeError]. *)
Record MapEntry : Type := mkMapEntry {
  tiles : list (string * string);
  width : value;
  height : value
}.

Definition ExploredMap : Type := list (value * MapEntry).

Definition MapM (A : Type) : Type := @M ExploredMap A.

Definition hashable (v : value) : bool :=
  match v with
  | VList _ | VDict _ => false
  | _ => true
  end.

Fixpoint find_entry (map_name : value) (e : ExploredMap) : option MapEntry :=
  match e with
  | [] => None
  | (k, entry) :: e' =>
      if py_eq k map_name then Some entry else find_entry map_name e'
  end.

(** [explored_map[map_name] = entry] *)
Fixpoint set_entry (map_name : value) (entry : MapEntry) (e : ExploredMap)
  : ExploredMap :=
  match e with
  | [] => [(map_name, entry)]
  | (k, old) :: e' =>
      if py_eq k map_name then (k, entry) :: e'
      else (k, old) :: set_entry map_name entry e'
  end.

(** [f"{x}_{y}"] *)
Definition tile_key (x y : Z) : string :=
  (str_of_Z x ++ "_" ++ str_of_Z y)%string.

(** [range(n)] *)
Definition range (n : value) : outcome (list Z) :=
  match as_int n with
  | Some n => Ret (map Z.of_nat (seq 0 (Z.to_nat n)))
  | None => Raise TypeError
  end.

(** [for a in l: body(a)] *)
Fixpoint for_each {S A : Type} (l : list A) (body : A -> @M S unit)
  : @M S unit :=
  match l with
  | [] => ret tt
  | a :: l' => body a ;;; for_each l' body
  end.

(** [stored["tiles"][key] = symbol] for the entry of [map_name] *)
Definition store_tile (map_name : value) (key symbol : string) : MapM unit :=
  modify (fun e =>
    match find_entry map_name e with
    | Some stored =>
        set_entry map_name
          (mkMapEntry (assoc_set key symbol (tiles stored)) (width stored)
             (height stored)) e
    | None => e
    end).

(** The body of the two loops of [update_explored_map]. *)
Definition explore_tile (map_name tiles_seen width : value) (y x : Z)
  : MapM unit :=
  row <- lift (mul (VInt y) width) ;;
  idx <- lift (add row (VInt x)) ;;
  n <- lift (len tiles_seen) ;;
  match as_int idx with
  | Some i =>
      if (i <? n)%Z then
        tile <- lift (item tiles_seen i) ;;
        when (truthy tile) (store_tile map_name (tile_key x y) (py_str tile))
      else ret tt
  | None => raise TypeError
  end.

Definition update_explored_map (observation : value) : MapM unit :=
  match observation with
  | VDict o =>
      match dict_get o "state" (VDict []) with
      | VDict st =>
          let map_data := dict_get st "map" (VDict []) in
          if negb (truthy map_data) then ret tt
          else
            name <- lift (get map_data "name" VNone) ;;
            current_map <- lift (get map_data "current_map" VNone) ;;
            let map_name := py_or name current_map in
            if negb (truthy map_name) then ret tt
            else
              (if hashable map_name then ret tt else raise TypeError) ;;;
              known <- gets (find_entry map_name) ;;
              w0 <- lift (get map_data "width" (VInt 0)) ;;
              h0 <- lift (get map_data "height" (VInt 0)) ;;
              when (match known with None => true | Some _ => false end)
                (modify (set_entry map_name (mkMapEntry [] w0 h0))) ;;;
              tiles_seen <- lift (get map_data "tiles" (VList [])) ;;
              width <- lift (get map_data "width" (VInt 0)) ;;
              height <- lift (get map_data "height" (VInt 0)) ;;
              when (truthy tiles_seen && truthy width && truthy height)
                (modify (fun e =>
                   match find_entry map_name e with
                   | Some stored =>
                       set_entry map_name
                         (mkMapEntry (tiles stored) width height) e
                   | None => e
                   end) ;;;
                 ys <- lift (range height) ;;
                 for_each ys (fun y =>
                   xs <- lift (range width) ;;
                   for_each xs (fun x =>
                     explore_tile map_name tiles_seen width y x)))
      | _ => ret tt
      end
  | _ => ret tt
  end.

Definition get_explored_map (map_name : value) : MapM (option MapEntry) :=
  (if hashable map_name then ret tt else raise TypeError) ;;;
  gets (find_entry map_name).

(** [x, y = coord_key.split("_")] followed by [(int(x), int(y))] *)
Definition decode_key (coord_key : string) : outcome (Z * Z) :=
  match split coord_key "_" with
  | [x; y] =>
      x <-? OpenAI.py_int (VStr x) ;;
      y <-? OpenAI.py_int (VStr y) ;;
      Ret (x, y)
  | _ => Raise ValueError
  end.

(** The loop of [find_tiles_of_type] over the items of the tiles. *)
Fixpoint collect (tile_types : list string) (items : list (string * string))
  : outcome (list (Z * Z)) :=
  match items with
  | [] => Ret []
  | (coord_key, symbol) :: rest =>
      if mem symbol tile_types then
        xy <-? decode_key coord_key ;;
        found <-? collect tile_types rest ;;
        Ret (xy :: found)
      else collect tile_types rest
  end.

Definition find_tiles_of_type (map_name : value) (tile_types : list string)
  : MapM (list (Z * Z)) :=
  explored <- get_explored_map map_name ;;
  match explored with
  | None => ret []
  | Some explored => lift (collect tile_types (tiles explored))
  end.

(** The store after one call of [update_explored_map] per observation,
    from the empty store of [__init__]; a call that raises leaves what it
    had stored so far. *)
Definition explored_after (observations : list value) : ExploredMap :=
  fold_left (fun e o => snd (update_explored_map o e)) observations [].

(** A key of the form ["x_y"]. *)
Definition tile_keyed (key : string) : Prop :=
  exists x y : Z, key = tile_key x y.

(** Every key of every map of the store has that form. *)
Definition well_keyed (e : ExploredMap) : Prop :=
  Forall (fun entry => Forall (fun kv => tile_keyed (fst kv)) (tiles (snd entry)))
    e.

(** The tile [key] of the map [map_name] is known, with some symbol. *)
Definition knows (map_name : value) (key : string) (e : ExploredMap) : Prop :=
  exists entry symbol,
    find_entry map_name e = Some entry /\ In (key, symbol) (tiles entry).




(** A view of a map of two by two tiles with a door in its upper right
    corner. *)
Definition house_obs : value :=
  VDict
    [("state",
      VDict
        [("map",
          VDict
            [("name", VStr "HOUSE 1F");
             ("tiles", VList [VStr "#"; VStr "D"; VStr "."; VStr "."]);
             ("width", VInt 2);
             ("height", VInt 2)])])].

(** *** The movement memory and the entry coordinates *)

Definition MemM (A : Type) : Type := Deprecated.MemM A.




(** [initialize_long_term_plan(plan_list)]: the current goal, when it is a
    goal of the plan that is replaced, is from then on a dictionary of its
    own. *)
Definition initialize_long_term_plan (plan_list : list Deprecated.Goal)
  : MemM unit :=
  modify (fun m =>
    let kept :=
      match Deprecated.current_goal m with
      | Some r => option_map Deprecated.Detached (Deprecated.deref m r)
      | None => None
      end in
    Deprecated.set_current_goal
      (match Deprecated.first_pending_from 0 plan_list with
       | Some i => Some (Deprecated.InPlan i)
       | None => kept
       end)
      (Deprecated.set_long_term_plan plan_list m)).

(** The dictionary [summarize] returns. *)
Record Summary : Type := mkSummary {
  summary_location : value;
  summary_current_goal : string;
  summary_last_action : value;
  queue_size : nat
}.

Definition summarize : MemM Summary :=
  current_goal <- Deprecated.get_active_goal ;;
  g <- gets (fun m => Deprecated.goal_of m current_goal) ;;
  let goal_text :=
    match g with
    | Some g => Deprecated.goal g
    | None => "None"
    end in
  gets (fun m =>
    mkSummary (Deprecated.location m) goal_text (Deprecated.last_action m)
      (length (Deprecated._GLOBAL_PENDING m))).

(** [memory_step] for a [memory] that is a [MemoryModule]: the action the
    planner's output carries, then [update] and [summarize]. *)
Definition last_action_of (planning_output : value) : value :=
  match planning_output with
  | VDict d => dict_get d "action" VNone
  | VList (a :: _) => a
  | VStr _ => planning_output
  | _ => VNone
  end.

Definition memory_step (perception_output planning_output : value)
  : MemM Summary :=
  Deprecated.update perception_output (last_action_of planning_output) ;;;
  summarize.

(** [complete_current_goal(i)] for each [i] of [ids], in order. *)
Fixpoint complete_each (ids : list string) : MemM unit :=
  match ids with
  | [] => ret tt
  | i :: rest => Deprecated.complete_current_goal i ;;; complete_each rest
  end.

(** *** Statements about the movement memory *)




End MemoryDeprecated.

(* ===================================================================== *)
(** ** Maps, visited tiles and the short-term plan:
       [agent/openai/memory.py] *)
(* ===================================================================== *)

Module MemoryOpenAI.
Import Py Eff PyStr.

(** The memory module with the two attributes [OpenAI.MemoryModule] leaves
    out: the cache of map snapshots and the log of events.  Of an event
    the log keeps the type; its time stamp and its payload, which no
    method reads, are not part of the model. *)
Record Memory : Type := mkMem {
  module : OpenAI.MemoryModule;
  map_cache : list (string * value);
  entries : list string
}.

Definition MemM (A : Type) : Type := @M Memory A.

Definition set_module (m : OpenAI.MemoryModule) (s : Memory) : Memory :=
  mkMem m (map_cache s) (entries s).

Definition set_map_cache (c : list (string * value)) (s : Memory) : Memory :=
  mkMem (module s) c (entries s).

(** A method of [OpenAI.MemoryModule], run on the module. *)
Definition on_module {A : Type} (c : OpenAI.MemM A) : MemM A :=
  fun s => let (r, m') := c (module s) in (r, set_module m' s).

(** [self.state.get(k)] and [self.state[k] = v] *)
Definition state_get (k : string) : MemM value :=
  on_module (OpenAI.state_get k).

Definition state_set (k : string) (v : value) : MemM unit :=
  on_module (OpenAI.state_set k v).

(** [self._record_event(key, value)] *)
Definition _record_event (key : string) : MemM unit :=
  modify (fun s => mkMem (module s) (map_cache s) (entries s ++ [key])).

(** *** Locations and map snapshots *)

(** [_normalize_location_name(name)]: only strings have [strip]. *)
Definition _normalize_location_name (name : value) : outcome string :=
  if negb (truthy name) then Ret "unknown"
  else
    match name with
    | VStr s => Ret (replace (lower (strip s)) " " "_")
    | _ => Raise AttributeError
    end.

(** [store_map_snapshot(location_name, map_payload)] *)
Definition store_map_snapshot (location_name map_payload : value)
  : MemM unit :=
  if negb (truthy map_payload) then ret tt
  else
    key <- lift (_normalize_location_name location_name) ;;
    let key := if key =? "unknown" then "unknown_area" else key in
    modify (fun s => set_map_cache (assoc_set key map_payload (map_cache s)) s).

(** [a.get(k1) or a.get(k2) or ""] *)
Definition first_of (d : value) (k1 k2 : string) : outcome value :=
  v1 <-? get d k1 VNone ;;
  if truthy v1 then Ret v1
  else
    v2 <-? get d k2 VNone ;;
    Ret (py_or v2 (VStr "")).

(** [get_best_map_for_observation(observation)]: the map of the
    observation's location, else the map of the location the state holds,
    else the map under the key inserted last. *)
Definition get_best_map_for_observation (observation : value) : MemM value :=
  ke <- lift (get observation "key_elements" VNone) ;;
  let ke := py_or ke (VDict []) in
  obs_loc <- lift (first_of ke "Location" "location") ;;
  key <- lift (_normalize_location_name obs_loc) ;;
  cache <- gets map_cache ;;
  match assoc_get key cache with
  | Some payload => ret payload
  | None =>
      state <- gets (fun s => OpenAI.state (module s)) ;;
      last_loc <- lift (first_of (VDict state) "location" "last_seen_location") ;;
      key2 <- lift (_normalize_location_name last_loc) ;;
      match assoc_get key2 cache with
      | Some payload => ret payload
      | None =>
          match cache with
          | [] => ret VNone
          | entry :: rest =>
              let last_key := fst (last rest entry) in
              match assoc_get last_key cache with
              | Some payload => ret payload
              | None => raise KeyError
              end
          end
      end
  end.

(** *** Visited tiles *)

(** [container[key]] for a string [key] *)
Definition item_str (container : value) (key : string) : outcome value :=
  match container with
  | VDict d =>
      match lookup key d with
      | Some v => Ret v
      | None => Raise KeyError
      end
  | _ => Raise TypeError
  end.

(** [s in container] for a string [s] *)
Definition str_member (s : string) (container : value) : outcome bool :=
  match container with
  | VList l => Ret (existsb (py_eq (VStr s)) l)
  | VStr t => Ret (contains s t)
  | VDict d =>
      Ret (match lookup s d with Some _ => true | None => false end)
  | _ => Raise TypeError
  end.






(** *** The last map shown and the move planned on it *)

(** [set_last_ascii_map(ascii_map, location)] *)
Definition set_last_ascii_map (ascii_map location : value) : MemM unit :=
  state_set "last_ascii_map" ascii_map ;;;
  when (truthy location) (state_set "last_location" location).

(** [set_last_planned_move_dir(move_dir)] *)
Definition set_last_planned_move_dir (move_dir : value) : MemM unit :=
  match move_dir with
  | VStr d => state_set "last_move_dir" (VStr (upper d))
  | _ => raise AttributeError
  end.

(** [get_last_ascii_map()] *)
Definition get_last_ascii_map : MemM value := state_get "last_ascii_map".

Definition newline : ascii := "010"%char.

(** [ch in ("P", "A")] *)
Definition is_player (ch : ascii) : bool :=
  Ascii.eqb ch "P" || Ascii.eqb ch "A".

Fixpoint find_in_row (x : nat) (row : list ascii) : option nat :=
  match row with
  | [] => None
  | ch :: row' => if is_player ch then Some x else find_in_row (S x) row'
  end.

(** The first player character, rows from the top, each from the left. *)
Fixpoint find_player (y : nat) (grid : list (list ascii))
  : option (nat * nat) :=
  match grid with
  | [] => None
  | row :: grid' =>
      match find_in_row 0 row with
      | Some x => Some (x, y)
      | None => find_player (S y) grid'
      end
  end.

(** [l[n] = a] for an index within the list *)
Fixpoint set_item {A : Type} (n : nat) (a : A) (l : list A) : list A :=
  match l, n with
  | [], _ => []
  | _ :: l', O => a :: l'
  | b :: l', S n' => b :: set_item n' a l'
  end.

(** [grid[y][x] = ch] *)
Definition set_cell (x y : nat) (ch : ascii) (grid : list (list ascii))
  : list (list ascii) :=
  match nth_error grid y with
  | Some row => set_item y (set_item x ch row) grid
  | None => grid
  end.

(** The movement delta of [move_dir]. *)
Definition delta (move_dir : value) : Z * Z :=
  if py_eq move_dir (VStr "UP") then (0, -1)%Z
  else if py_eq move_dir (VStr "DOWN") then (0, 1)%Z
  else if py_eq move_dir (VStr "LEFT") then (-1, 0)%Z
  else if py_eq move_dir (VStr "RIGHT") then (1, 0)%Z
  else (0, 0)%Z.

(** [0 <= ny < len(grid) and 0 <= nx < len(grid[ny])] *)
Definition in_bounds (nx ny : Z) (grid : list (list ascii)) : bool :=
  (0 <=? ny)%Z && (ny <? Z.of_nat (length grid))%Z
  && match nth_error grid (Z.to_nat ny) with
     | Some row => (0 <=? nx)%Z && (nx <? Z.of_nat (length row))%Z
     | None => false
     end.

(** The grid of a map: [[list(line) for line in
    ascii_map.strip("\n").split("\n")]]. *)
Definition grid_of (ascii_map : string) : list (list ascii) :=
  map chars (split (strip_char newline ascii_map) (String newline "")).

(** ["\n".join("".join(row) for row in grid)] *)
Definition text_of (grid : list (list ascii)) : string :=
  join (String newline "") (map of_chars grid).

(** The player moved on the grid: the old cell becomes ["O"], the new
    one ["P"], also when the new one is a wall. *)
Definition move_player (px py : nat) (nx ny : Z) (grid : list (list ascii))
  : list (list ascii) :=
  if in_bounds nx ny grid then
    let old_char := nth px (nth py grid []) "P"%char in
    let grid := set_cell px py (if is_player old_char then "O"%char
                                else old_char) grid in
    set_cell (Z.to_nat nx) (Z.to_nat ny) "P"%char grid
  else grid.

(** [predict_ascii_after_move()] on the map and the direction the state
    holds. *)
Definition predict (ascii_map move_dir : value) : outcome value :=
  if negb (truthy ascii_map) || negb (truthy move_dir) then Ret ascii_map
  else
    match ascii_map with
    | VStr s =>
        let grid := grid_of s in
        match find_player 0 grid with
        | None => Ret ascii_map
        | Some (px, py) =>
            let (dx, dy) := delta move_dir in
            let nx := (Z.of_nat px + dx)%Z in
            let ny := (Z.of_nat py + dy)%Z in
            Ret (VStr (text_of (move_player px py nx ny grid)))
        end
    | _ => Raise AttributeError
    end.

Definition predict_ascii_after_move : MemM value :=
  ascii_map <- state_get "last_ascii_map" ;;
  move_dir <- state_get "last_move_dir" ;;
  lift (predict ascii_map move_dir).

(** *** Action strings *)

Definition btns : list string :=
  ["A"; "B"; "START"; "SELECT"; "UP"; "DOWN"; "LEFT"; "RIGHT"].

(** [_normalize_action_string(s)] *)
Definition _normalize_action_string (s : value) : outcome string :=
  match py_or s (VStr "") with
  | VStr t =>
      let s := upper (strip t) in
      if s =? "" then Ret ""
      else if startswith s "MOVE " then Ret s
      else if startswith s "PRESS " || startswith s "INTERACT"
              || startswith s "MENU"
      then Ret s
      else if mem s btns then Ret ("PRESS " ++ s)%string
      else Ret s
  | _ => Raise AttributeError
  end.

(** *** Goals and the short-term plan *)





(** *** Reading a map by lines and cells *)

(** The lines of a text, each as its characters, and the character in
    column [x] of line [y]. *)
Definition lines (text : string) : list (list ascii) :=
  map chars (split text (String newline "")).


(** *** Statements about the visited tiles *)




End MemoryOpenAI.

(* ===================================================================== *)
(** ** Reading the oracle's reply: [agent/openai/planning.py] *)
(* ===================================================================== *)

(** The part of [PlanningModule.decide] after the oracle call: the reply
    is upper-cased and read with regular expressions; what it queues goes
    to [memory.enqueue_actions], one batch per call. *)

Module ReplyOpenAI.
Import Py PyStr Re.

(** [ACTION:\s*([A-Z0-9\s,]+)] *)
Definition ACTION_PATTERN : regex :=
  Seq (lit "ACTION:")
    (Seq (Star space)
       (Group 1
          (plus (Class (fun c => is_upper c || OpenAI.is_digit c
                                 || is_space c || Ascii.eqb c ","))))).

(** [MOVE\s+(UP|DOWN|LEFT|RIGHT)\s+(\d+)] *)
Definition MOVE_PATTERN : regex :=
  Seq (lit "MOVE")
    (Seq (plus space)
       (Seq (Group 1 ReplyDeprecated.DIRS)
          (Seq (plus space) (Group 2 (plus digit))))).

(** [[A-Z]+] *)
Definition WORD : regex := plus (Class is_upper).

Definition allowed : list string :=
  ["UP"; "DOWN"; "LEFT"; "RIGHT"; "A"; "B"; "START"].

(** The direction and the number of steps of the first [MOVE] directive
    of [p], the number brought between 1 and 3. *)
Definition move_directive (p : string) : outcome (option (string * Z)) :=
  match re_search MOVE_PATTERN p with
  | Some (m, _) =>
      match group m 1, group m 2 with
      | Some d, Some digits =>
          n <-? int_of_text digits ;;
          Ret (Some (d, Z.max 1 (Z.min 3 n)))
      | _, _ => Raise TypeError
      end
  | None => Ret None
  end.

(** What one of the later parts of a reply adds to the queue: the steps
    of its [MOVE], else its first allowed word. *)
Definition queued_of (p : string) : outcome (list string) :=
  move_m <-? move_directive p ;;
  match move_m with
  | Some (d, n) => Ret (repeat d (Z.to_nat n))
  | None =>
      Ret match find (fun t => mem t allowed) (findall WORD p) with
          | Some t => [t]
          | None => []
          end
  end.

Fixpoint queue_actions (parts : list string) : outcome (list string) :=
  match parts with
  | [] => Ret []
  | p :: parts' =>
      q <-? queued_of p ;;
      rest <-? queue_actions parts' ;;
      Ret (q ++ rest)
  end.

Section Reply.

(** [random.choice(l)] at a given call *)
Variable random_choice : nat -> list string -> string.

(** The batches handed to [memory.enqueue_actions], in order, and the
    action returned (or the exception raised after these batches). *)
Definition interpret_reply (out : string) (scene_type : value) (now : nat)
  : list (list string) * outcome value :=
  let txt := strip (upper out) in
  let action_txt :=
    match re_search ACTION_PATTERN txt with
    | Some (m, _) =>
        match group m 1 with
        | Some g => Ret (strip g)
        | None => Raise AttributeError
        end
    | None => Ret txt
    end in
  match action_txt with
  | Raise e => ([], Raise e)
  | Ret txt =>
      let parts := map strip (split txt ",") in
      let queued :=
        if contains "," txt then queue_actions (tl parts) else Ret [] in
      match queued with
      | Raise e => ([], Raise e)
      | Ret queue =>
          let batches := match queue with [] => [] | _ => [queue] end in
          let txt := if contains "," txt then hd "" parts else txt in
          match move_directive txt with
          | Raise e => (batches, Raise e)
          | Ret (Some (d, n)) =>
              (batches
                 ++ (if (1 <? n)%Z then [repeat d (Z.to_nat (n - 1))]
                     else []),
               Ret (VStr d))
          | Ret None =>
              match find (fun t => mem t allowed) (findall WORD txt) with
              | Some t =>
                  if py_eq scene_type (VStr "MAP") && (t =? "A")
                  then (batches,
                        Ret (VStr (random_choice now
                                     ["UP"; "DOWN"; "LEFT"; "RIGHT"])))
                  else (batches, Ret (VStr t))
              | None =>
                  (batches,
                   Ret (VStr (if py_eq scene_type (VStr "MAP")
                              then random_choice now
                                     ["UP"; "DOWN"; "LEFT"; "RIGHT"]
                              else "A")))
              end
          end
      end
  end.

End Reply.

End ReplyOpenAI.

(* ===================================================================== *)
(** ** Key elements: [agent/openai/perception.py] and
       [agent/deprecated/perception.py] *)
(* ===================================================================== *)

(** Both perception modules have the same [_normalize_key_elements]. *)

Module KeyElements.
Import Py PyStr.

(** One part of the text: [k=v] binds the stripped [k] to the stripped
    [v], any other part is bound to [True]. *)
Definition add_part (out : list (string * value)) (p : string)
  : list (string * value) :=
  if contains "=" p then
    match split_once p "=" with
    | [k; v] => assoc_set (strip k) (VStr (strip v)) out
    | _ => out
    end
  else assoc_set p (VBool true) out.

(** [[p.strip() for p in raw.replace(";", ",").split(",") if p.strip()]] *)
Definition parts_of (raw : string) : list string :=
  filter (fun p => negb (p =? ""))
    (map strip (split (replace raw ";" ",") ",")).

(** [_normalize_key_elements(key_elements)]: the dictionary it returns. *)
Definition _normalize_key_elements (key_elements : value)
  : list (string * value) :=
  match key_elements with
  | VDict d => d
  | _ =>
      if negb (truthy key_elements) then []
      else fold_left add_part (parts_of (py_str key_elements)) []
  end.

(** *** Statements about keys and values *)

(** A text without blanks around it and without the separators [,] and
    [;]. *)
Definition clean (t : string) : Prop :=
  strip t = t
  /\ all_chars (fun c => negb (Ascii.eqb "," c) && negb (Ascii.eqb ";" c)) t
     = true.

Definition clean_entry (kv : string * value) : Prop :=
  clean (fst kv)
  /\ ((snd kv = VBool true
       /\ fst kv <> ""
       /\ all_chars (fun c => negb (Ascii.eqb "=" c)) (fst kv) = true)
      \/ (exists t,
            snd kv = VStr t /\ clean t
            /\ all_chars (fun c => negb (Ascii.eqb "=" c)) (fst kv) = true)).

End KeyElements.

(* ===================================================================== *)
(** ** The movement preview: [agent/deprecated/planning.py] *)
(* ===================================================================== *)

(** [_analyze_movement_preview] tries four sources in turn: the
    [walkable] dictionary of the state, the map grid, the
    [MOVEMENT PREVIEW] section of the formatted state and the ASCII map of
    [_build_map_context]. *)

Module MovementPreview.
Import Py PyStr.

(** The dictionary [_analyze_movement_preview] returns. *)
Record Preview : Type := mkPreview {
  walkable : list string;
  blocked : list string;
  special : list (string * string)
}.

Definition DIRECTIONS : list string := ["UP"; "DOWN"; "LEFT"; "RIGHT"].

(** [v.upper()]: only strings have the method. *)
Definition str_upper (v : value) : outcome string :=
  match v with
  | VStr s => Ret (upper s)
  | _ => Raise AttributeError
  end.

(** *** First: [state["walkable"]] *)

Definition special_of_behavior (behavior : string) : option string :=
  if contains "STAIRS" behavior || contains "WARP" behavior then Some "stairs"
  else if contains "DOOR" behavior then Some "door"
  else if contains "GRASS" behavior then Some "grass"
  else None.

Definition mark (direction : string) (kind : option string)
  (special : list (string * string)) : list (string * string) :=
  match kind with
  | Some kind => assoc_set direction kind special
  | None => special
  end.

(** The loop over [walkable_dict.items()]. *)
Fixpoint from_walkable_dict (items : list (string * value))
  (walkable : list string) (special : list (string * string))
  : outcome (list string * list (string * string)) :=
  match items with
  | [] => Ret (walkable, special)
  | (direction, tile_info) :: rest =>
      let direction_upper := upper direction in
      if mem direction_upper DIRECTIONS then
        let walkable := walkable ++ [direction_upper] in
        match tile_info with
        | VDict d =>
            behavior <-? str_upper (py_or (dict_get d "behavior" VNone)
                                      (VStr "")) ;;
            from_walkable_dict rest walkable
              (mark direction_upper (special_of_behavior behavior) special)
        | _ => from_walkable_dict rest walkable special
        end
      else from_walkable_dict rest walkable special
  end.

(** *** Third: the [MOVEMENT PREVIEW] section *)

Definition special_of_rest (rest : string) : option string :=
  if contains "Stairs/Warp" rest then Some "stairs"
  else if contains "Door/Entrance" rest then Some "door"
  else if contains "Tall grass" rest then Some "grass"
  else if contains "Jump ledge" rest && contains "can jump" rest
  then Some "ledge"
  else None.

(** One line of the section. *)
Definition preview_line (line : string) (acc : Preview) : Preview :=
  if contains ":" line then
    match split (strip line) ":" with
    | p0 :: p1 :: _ =>
        let direction := strip p0 in
        let rest := strip p1 in
        if mem direction DIRECTIONS then
          if contains "WALKABLE" rest then
            mkPreview (walkable acc ++ [direction]) (blocked acc)
              (mark direction (special_of_rest rest) (special acc))
          else if contains "BLOCKED" rest then
            mkPreview (walkable acc) (blocked acc ++ [direction])
              (special acc)
          else acc
        else acc
    | _ => acc
    end
  else acc.

(** The loop over the lines of the formatted state. *)
Fixpoint read_preview (in_preview : bool) (lines : list string)
  (acc : Preview) : Preview :=
  match lines with
  | [] => acc
  | line :: rest =>
      if contains "MOVEMENT PREVIEW:" line then read_preview true rest acc
      else if in_preview then
        if (strip line =? "") || startswith line "---" then acc
        else read_preview true rest (preview_line line acc)
      else read_preview false rest acc
  end.

(** *** Fourth: the ASCII map *)

(** The lines of the map section of the formatted state. *)
Fixpoint map_section (in_map : bool) (lines : list string) : list string :=
  match lines with
  | [] => []
  | line :: rest =>
      if contains "--- MAP:" line then line :: map_section true rest
      else if in_map then
        if startswith line "---" then [] else line :: map_section true rest
      else map_section false rest
  end.

(** The line that tells the position, when the state has one. *)
Definition position_line (state : value) : outcome (option string) :=
  player <-? get state "player" (VDict []) ;;
  pos <-? get player "position" (VDict []) ;;
  if truthy pos then
    x <-? get pos "x" (VStr "?") ;;
    y <-? get pos "y" (VStr "?") ;;
    Ret (Some (String "010" "You are at (" ++ py_str x ++ ", " ++ py_str y
                 ++ ")")%string)
  else Ret None.

(** The rows of tokens of the map. *)
Definition tokens_of (ln : string) : list string :=
  filter (fun tok => negb (tok =? "")) (split (strip ln) " ").

Fixpoint grid_rows (reading_grid : bool) (map_lines : list string)
  : list (list string) :=
  match map_lines with
  | [] => []
  | ln :: rest =>
      if startswith (strip ln) "--- MAP:" then grid_rows true rest
      else if reading_grid then
        if strip ln =? "" then []
        else if startswith (strip ln) "Legend:" then []
        else
          match tokens_of ln with
          | [] => grid_rows true rest
          | tokens => tokens :: grid_rows true rest
          end
      else grid_rows false rest
  end.

Fixpoint find_in_row (ci : nat) (row : list string) : option nat :=
  match row with
  | [] => None
  | tok :: row' => if tok =? "P" then Some ci else find_in_row (S ci) row'
  end.

(** The first ["P"]: its row and its column. *)
Fixpoint find_p (ri : nat) (rows : list (list string)) : option (nat * nat) :=
  match rows with
  | [] => None
  | row :: rows' =>
      match find_in_row 0 row with
      | Some ci => Some (ri, ci)
      | None => find_p (S ri) rows'
      end
  end.

(** [tok_at(dy, dx)] *)
Definition tok_at (rows : list (list string)) (p_y p_x : nat) (dy dx : Z)
  : option string :=
  let y := (Z.of_nat p_y + dy)%Z in
  let x := (Z.of_nat p_x + dx)%Z in
  if (y <? 0)%Z || (Z.of_nat (length rows) <=? y)%Z then None
  else
    let row := nth (Z.to_nat y) rows [] in
    if (x <? 0)%Z || (Z.of_nat (length row) <=? x)%Z then None
    else Some (nth (Z.to_nat x) row "").

Definition neighbors : list (string * Z * Z) :=
  [("UP", -1, 0); ("DOWN", 1, 0); ("LEFT", 0, -1); ("RIGHT", 0, 1)]%Z.

(** The loop over the four neighbours: [.] and [D] are walkable, anything
    else is blocked. *)
Fixpoint read_neighbors (rows : list (list string)) (p_y p_x : nat)
  (todo : list (string * Z * Z)) (acc : Preview) : Preview :=
  match todo with
  | [] => acc
  | (d, dy, dx) :: rest =>
      read_neighbors rows p_y p_x rest
        match tok_at rows p_y p_x dy dx with
        | Some tok =>
            if mem tok ["."; "D"] then
              mkPreview (walkable acc ++ [d]) (blocked acc)
                (if tok =? "D" then assoc_set d "door" (special acc)
                 else special acc)
            else mkPreview (walkable acc) (blocked acc ++ [d]) (special acc)
        | None => mkPreview (walkable acc) (blocked acc ++ [d]) (special acc)
        end
  end.

Section Preview.

(** [format_state_for_llm(state)] and [format_state_for_llm(state,
    include_debug_info=False, include_npcs=False)], of
    [utils.state_formatter]: a text, or an exception. *)
Variable format_state_for_llm : value -> outcome string.
Variable format_state_for_llm_map : value -> outcome string.

(** [_build_map_context(observation)]: a failure after the map section
    was read leaves the lines read. *)
Definition _build_map_context (observation : value) : outcome (list string) :=
  state <-? get observation "state" VNone ;;
  let state := py_or state (VDict []) in
  if negb (truthy state) then Ret []
  else
    match format_state_for_llm_map state with
    | Raise _ => Ret []
    | Ret full_context =>
        match map_section false (split full_context (String "010" "")) with
        | [] => Ret []
        | context_lines =>
            match position_line state with
            | Ret (Some line) => Ret (context_lines ++ [line])
            | _ => Ret context_lines
            end
        end
    end.

(** The fourth source, tried when the third gave nothing. *)
Definition from_ascii_map (observation : value) (acc : Preview) : Preview :=
  match _build_map_context observation with
  | Raise _ => acc
  | Ret map_lines =>
      let rows := grid_rows false map_lines in
      match find_p 0 rows with
      | Some (p_y, p_x) => read_neighbors rows p_y p_x neighbors acc
      | None => acc
      end
  end.

Definition _analyze_movement_preview (observation : value)
  : outcome Preview :=
  state <-? get observation "state" (VDict []) ;;
  if negb (truthy state) then Ret (mkPreview [] [] [])
  else
    walkable_dict <-? get state "walkable" (VDict []) ;;
    first <-? match walkable_dict with
              | VDict (item :: items) =>
                  from_walkable_dict (item :: items) [] []
              | _ => Ret ([], [])
              end ;;
    let (walkable1, special) := first in
    match walkable1 with
    | _ :: _ => Ret (mkPreview walkable1 [] special)
    | [] =>
        let calculated :=
          match MapGrid._calculate_walkable_from_map observation with
          | Ret ([], []) => None
          | Ret (walkable_calc, blocked_calc) =>
              Some (walkable_calc, blocked_calc)
          | Raise _ => None
          end in
        match calculated with
        | Some (walkable_calc, blocked_calc) =>
            Ret (mkPreview walkable_calc blocked_calc special)
        | None =>
            let third :=
              match format_state_for_llm state with
              | Ret formatted_state =>
                  read_preview false
                    (split formatted_state (String "010" ""))
                    (mkPreview [] [] special)
              | Raise _ => mkPreview [] [] special
              end in
            match walkable third, blocked third with
            | [], [] => Ret (from_ascii_map observation third)
            | _, _ => Ret third
            end
        end
    end.

End Preview.

(** *** Statements about a preview *)

(** The lists name directions only, and what is special is walkable. *)
Definition well_formed (p : Preview) : Prop :=
  Forall (fun d => In d DIRECTIONS) (walkable p)
  /\ Forall (fun d => In d DIRECTIONS) (blocked p)
  /\ Forall (fun kv => In (fst kv) (walkable p)) (special p).

End MovementPreview.

(* ===================================================================== *)
(** ** The target of a navigation goal: [agent/deprecated/planning.py] *)
(* ===================================================================== *)

(** The part of [PlanningModule.decide] that picks, among the stairs and
    doors the memory has seen on the map, the tile to walk to. *)

Module Target.
Import Py PyNum PyStr.

(** [abs(t[0] - c[0]) + abs(t[1] - c[1])] for a tile [t] and coordinates
    [c] as the observation or the memory gives them. *)
Definition dist (t : Z * Z) (c : value * value) : outcome Z :=
  match as_int (fst c), as_int (snd c) with
  | Some x, Some y => Ret (Z.abs (fst t - x) + Z.abs (snd t - y))%Z
  | _, _ => Raise TypeError
  end.

(** [[t for t in targets_list if abs(t[0]-ex) + abs(t[1]-ey) > 1]] *)
Fixpoint far_from (entry : value * value) (targets_list : list (Z * Z))
  : outcome (list (Z * Z)) :=
  match targets_list with
  | [] => Ret []
  | t :: rest =>
      d <-? dist t entry ;;
      rest <-? far_from entry rest ;;
      Ret (if (1 <? d)%Z then t :: rest else rest)
  end.

(** [filter_away_entry(targets_list)] *)
Definition filter_away_entry (entry_coords : option (value * value))
  (targets_list : list (Z * Z)) : outcome (list (Z * Z)) :=
  match targets_list, entry_coords with
  | [], _ => Ret []
  | _, None => Ret targets_list
  | _, Some entry => far_from entry targets_list
  end.

(** [min(targets, key=...)]: the first of the nearest, [best] being the
    nearest so far, at the distance [best_d]. *)
Fixpoint nearest (coords : value * value) (best : Z * Z) (best_d : Z)
  (targets : list (Z * Z)) : outcome (Z * Z) :=
  match targets with
  | [] => Ret best
  | t :: rest =>
      d <-? dist t coords ;;
      if (d <? best_d)%Z then nearest coords t d rest
      else nearest coords best best_d rest
  end.

Definition closest_of (coords : value * value) (targets : list (Z * Z))
  : outcome (option (Z * Z)) :=
  match targets with
  | [] => Ret None
  | t :: rest =>
      d <-? dist t coords ;;
      closest <-? nearest coords t d rest ;;
      Ret (Some closest)
  end.

(** The direction towards a tile that is [dx] to the right and [dy]
    below. *)
Definition direction_of (dx dy : Z) : string :=
  if (Z.abs dy <? Z.abs dx)%Z then (if (0 <? dx)%Z then "RIGHT" else "LEFT")
  else (if (0 <? dy)%Z then "DOWN" else "UP").

(** What [target_info] tells: the tile, its kind, the direction and the
    distance. *)
Record Target : Type := mkTarget {
  tile : Z * Z;
  kind : string;
  direction : string;
  distance : Z
}.

(** The text of [target_info]. *)
Definition target_info (t : Target) : string :=
  (String "010" "🎯 TARGET: " ++ upper (kind t) ++ " at ("
     ++ str_of_Z (fst (tile t)) ++ "," ++ str_of_Z (snd (tile t))
     ++ ") - move " ++ direction t ++ " (distance: "
     ++ str_of_Z (distance t) ++ " tiles)")%string.

(** The nearest of [targets] that is not at or next to the entry. *)
Definition pick (targets stairs : list (Z * Z))
  (entry_coords coords : option (value * value)) (door_only : bool)
  : outcome (option Target) :=
  targets <-? filter_away_entry entry_coords targets ;;
  match targets, coords with
  | _ :: _, Some c =>
      closest <-? closest_of c targets ;;
      match closest, as_int (fst c), as_int (snd c) with
      | Some closest, Some x, Some y =>
          let dx := (fst closest - x)%Z in
          let dy := (snd closest - y)%Z in
          let target_type :=
            if door_only then "door"
            else if existsb (fun s => (fst s =? fst closest)%Z
                                      && (snd s =? snd closest)%Z) stairs
            then "stairs" else "door" in
          Ret (Some (mkTarget closest target_type (direction_of dx dy)
                       (Z.abs dx + Z.abs dy)))
      | _, _, _ => Raise TypeError
      end
  | _, _ => Ret None
  end.

(** The target for a goal text, given the stairs and the doors seen, the
    coordinates of the entry and those of the player. *)
Definition target_of (goal_text : string) (stairs doors : list (Z * Z))
  (entry_coords coords : option (value * value)) : outcome (option Target) :=
  let g := lower goal_text in
  if contains "upstairs" g || contains "downstairs" g then
    pick (match stairs with [] => doors | _ => stairs end) stairs
      entry_coords coords false
  else if contains "exit" g || contains "leave" g then
    pick doors stairs entry_coords coords true
  else Ret None.

(** The player's move in a direction: [RIGHT] is [+x], [LEFT] is [-x],
    [DOWN] is [+y], [UP] is [-y]. *)
Definition step_of (direction : string) : Z * Z :=
  if direction =? "RIGHT" then (1, 0)%Z
  else if direction =? "LEFT" then (-1, 0)%Z
  else if direction =? "DOWN" then (0, 1)%Z
  else if direction =? "UP" then (0, -1)%Z
  else (0, 0)%Z.

End Target.

(* ===================================================================== *)
(** ** [MemoryModule.update] of [agent/openai/memory.py] *)
(* ===================================================================== *)

Module UpdateOpenAI.
Import Py Eff PyStr PyNum MemoryOpenAI.

(** [x in container] *)
Definition member (x container : value) : outcome bool :=
  match container with
  | VList l => Ret (existsb (py_eq x) l)
  | VStr t =>
      match x with
      | VStr s => Ret (contains s t)
      | _ => Raise TypeError
      end
  | VDict d =>
      match x with
      | VStr s => Ret (match lookup s d with Some _ => true | None => false end)
      | VList _ | VDict _ => Raise TypeError
      | _ => Ret false
      end
  | _ => Raise TypeError
  end.

(** [l[-n:]] *)
Definition last_n {A : Type} (n : nat) (l : list A) : list A :=
  match n with
  | O => l
  | S _ => skipn (length l - n) l
  end.

(** [if len(self.entries) > self.max_entries:
       self.entries = self.entries[-self.max_entries:]] *)
Definition trim (max_entries : nat) (s : Memory) : Memory :=
  if (max_entries <? length (entries s))%nat
  then mkMem (module s) (map_cache s) (last_n max_entries (entries s))
  else s.

(** The statements of [update] before the log is trimmed. *)
Definition track (observation last_action : value) : MemM unit :=
  scene <- lift (get observation "scene_type" VNone) ;;
  summary <- lift (get observation "summary" (VStr "")) ;;
  key_elements <- lift (get observation "key_elements" (VDict [])) ;;
  (* the location *)
  has_location <- lift (str_member "Location" key_elements) ;;
  when has_location
    (new_location <- lift (item_str key_elements "Location") ;;
     location <- state_get "location" ;;
     when (negb (py_eq new_location location))
       (state_set "location" new_location ;;; _record_event "location")) ;;;
  (* badges *)
  summary_lower <- lift (str_lower summary) ;;
  when (contains_any ["badge"; "gym leader"; "victory"; "defeated"]
          summary_lower)
    (state <- gets (fun s => OpenAI.state (module s)) ;;
     badges <- lift (item_str (VDict state) "badges") ;;
     match as_int badges with
     | Some n => state_set "badges" (VInt (n + 1)) ;;; _record_event "badge"
     | None => raise TypeError
     end) ;;;
  (* blockers *)
  has_blocker <- lift (str_member "Blocker" key_elements) ;;
  when has_blocker
    (blocker <- lift (item_str key_elements "Blocker") ;;
     state <- gets (fun s => OpenAI.state (module s)) ;;
     blockers <- lift (item_str (VDict state) "blockers") ;;
     seen <- lift (member blocker blockers) ;;
     when (negb seen)
       match blockers with
       | VList l =>
           state_set "blockers" (VList (l ++ [blocker])) ;;;
           _record_event "blocker"
       | _ => raise AttributeError
       end) ;;;
  (* the team *)
  has_hp <- lift (str_member "PlayerHP" key_elements) ;;
  has_lead <- (if has_hp then ret true
               else lift (str_member "Lead" key_elements)) ;;
  when has_lead
    (lead_status <- lift (get key_elements "PlayerHP" (VStr "?")) ;;
     state <- gets (fun s => OpenAI.state (module s)) ;;
     team <- lift (item_str (VDict state) "team") ;;
     match team with
     | VDict t =>
         state_set "team" (VDict (assoc_set "lead_status" lead_status t))
     | _ => raise TypeError
     end) ;;;
  (* the last scene and the last action *)
  state_set "last_seen_scene" scene ;;;
  when (truthy last_action) (state_set "last_action" last_action).

(** The body of [update]; the save to disk every fifth entry changes
    nothing of the memory and is left out. *)
Definition update_body (max_entries : nat) (observation last_action : value)
  : MemM unit :=
  track observation last_action ;;; modify (trim max_entries).

(** [update(observation, last_action)]: an exception is logged and
    dropped, what was changed before it stays changed. *)
Definition update (max_entries : nat) (observation last_action : value)
  : MemM unit :=
  try_except (update_body max_entries observation last_action)
    (fun _ => ret tt).

(** *** Statements about the log *)

(** A method that adds at most [k] entries to the log and leaves the map
    cache alone. *)
Definition logs_at_most {A : Type} (k : nat) (c : MemM A) : Prop :=
  forall s,
    length (entries (snd (c s))) <= length (entries s) + k
    /\ map_cache (snd (c s)) = map_cache s.

End UpdateOpenAI.

(* ===================================================================== *)
(** ** Properties of the action queue *)
(* ===================================================================== *)

Import Py Eff.

Section QueueProperties.
Import Deprecated Runs.

Lemma mem_In (s : string) (l : list string) : mem s l = true <-> In s l.
Proof.
  unfold mem. rewrite existsb_exists. split.
  - intros [x [Hx He]]. apply String.eqb_eq in He. now subst.
  - intros H. exists s. split; [exact H | apply String.eqb_refl].
Qed.

Lemma mem_false (a : string) (l : list string) : ~ In a l -> mem a l = false.
Proof.
  intros H. destruct (mem a l) eqn:E; [|reflexivity].
  apply mem_In in E. contradiction.
Qed.










(** The normal form is that of Python text: a no-break space (the bytes
    194 and 160) before a token is stripped, the long s of the second
    token is upper-cased to [S], and the dotted capital I of the third
    keeps the token out of the alphabet. *)
Example queue_normalises_text :
  let nbsp := String (ascii_of_nat 194) (String (ascii_of_nat 160) "") in
  fst ((enqueue_all [VList [VStr (nbsp ++ "up"); VStr "ſtart"; VStr "RİGHT"]]
        ;;; pop_n 3) (fresh_memory [])) =
    Ret [VStr "UP"; VStr "START"; VNone].
Proof. reflexivity. Qed.

End QueueProperties.

(* ===================================================================== *)
(** ** Properties of the goal tracker *)
(* ===================================================================== *)

Section GoalProperties.
Import Deprecated Runs.

Lemma first_pending_from_found (plan : list Goal) :
  forall i j,
    first_pending_from i plan = Some j ->
    i <= j /\
    (exists g, nth_error plan (j - i) = Some g /\ status g = "pending") /\
    (forall k g, k < j - i -> nth_error plan k = Some g ->
                 status g <> "pending").
Proof.
  induction plan as [|g0 rest IH]; intros i j H; cbn in H; [discriminate|].
  destruct (status g0 =? "pending") eqn:Hs.
  - injection H as <-. rewrite Nat.sub_diag. split; [lia|]. split.
    + exists g0. split; [reflexivity | now apply String.eqb_eq].
    + intros k g Hk. lia.
  - apply IH in H. destruct H as [Hle [[g [Hg Hp]] Hbefore]].
    split; [lia|].
    replace (j - i) with (S (j - S i)) by lia. split.
    + exists g. split; assumption.
    + intros k g' Hk Hn. destruct k as [|k]; cbn in Hn.
      * injection Hn as <-. intros Hc. apply String.eqb_neq in Hs.
        contradiction.
      * apply (Hbefore k g'); [lia | exact Hn].
Qed.

Lemma first_pending_from_none (plan : list Goal) :
  forall i,
    first_pending_from i plan = None ->
    forall g, In g plan -> status g <> "pending".
Proof.
  induction plan as [|g0 rest IH]; intros i H g Hin; [destruct Hin|].
  cbn in H. destruct (status g0 =? "pending") eqn:Hs; [discriminate|].
  destruct Hin as [<-|Hin].
  - now apply String.eqb_neq.
  - eapply IH; eauto.
Qed.

Lemma get_active_goal_again (m : MemoryModule) :
  forall a m1,
    get_active_goal m = (Ret a, m1) -> get_active_goal m1 = (Ret a, m1).
Proof.
  intros a m1. unfold get_active_goal.
  destruct (current_goal m) as [c|] eqn:Hc.
  - intros H. injection H as <- <-. now rewrite Hc.
  - destruct (first_pending_from 0 (long_term_plan m)) as [i|] eqn:Hf.
    + intros H. injection H as <- <-. reflexivity.
    + intros H. injection H as <- <-. now rewrite Hc, Hf.
Qed.

Lemma get_active_goal_total (m : MemoryModule) :
  exists a, get_active_goal m = (Ret a, snd (get_active_goal m)).
Proof.
  unfold get_active_goal. destruct (current_goal m).
  - eauto.
  - destruct (first_pending_from 0 (long_term_plan m)); eauto.
Qed.

Lemma get_active_goal_plan (m : MemoryModule) :
  long_term_plan (snd (get_active_goal m)) = long_term_plan m.
Proof.
  unfold get_active_goal. destruct (current_goal m).
  - reflexivity.
  - destruct (first_pending_from 0 (long_term_plan m)); reflexivity.
Qed.

Lemma get_active_goal_flags (m : MemoryModule) :
  _runtime_flags (snd (get_active_goal m)) = _runtime_flags m.
Proof.
  unfold get_active_goal. destruct (current_goal m); [reflexivity|].
  destruct (first_pending_from 0 (long_term_plan m)); reflexivity.
Qed.

Lemma get_active_goal_state (m : MemoryModule) :
  (forall c, current_goal m = Some c -> snd (get_active_goal m) = m) /\
  (current_goal m = None ->
   snd (get_active_goal m) =
     match first_pending_from 0 (long_term_plan m) with
     | Some i => set_current_goal (Some (InPlan i)) m
     | None => m
     end).
Proof.
  unfold get_active_goal. split.
  - intros c Hc. now rewrite Hc.
  - intros Hc. rewrite Hc.
    destruct (first_pending_from 0 (long_term_plan m)); reflexivity.
Qed.

Lemma get_active_goal_n_fixed (n : nat) :
  forall m a, get_active_goal m = (Ret a, m) ->
              get_active_goal_n n m = (Ret (repeat a n), m).
Proof.
  induction n as [|n IH]; intros m a H; cbn [get_active_goal_n repeat].
  - reflexivity.
  - unfold bind. rewrite H. rewrite (IH m a H). reflexivity.
Qed.

Lemma first_not_completed_found (plan : list Goal) :
  forall i j,
    OpenAI.first_not_completed i plan = Some j ->
    i <= j /\
    (exists g, nth_error plan (j - i) = Some g /\ status g <> "completed") /\
    (forall k g, k < j - i -> nth_error plan k = Some g ->
                 status g = "completed").
Proof.
  induction plan as [|g0 rest IH]; intros i j H; cbn in H; [discriminate|].
  unfold OpenAI.status in H.
  destruct (status g0 =? "completed") eqn:Hs; cbn [negb] in H.
  - apply IH in H. destruct H as [Hle [[g [Hg Hp]] Hbefore]].
    split; [lia|].
    replace (j - i) with (S (j - S i)) by lia. split.
    + exists g. split; assumption.
    + intros k g' Hk Hn. destruct k as [|k]; cbn in Hn.
      * injection Hn as <-. now apply String.eqb_eq.
      * apply (Hbefore k g'); [lia | exact Hn].
  - injection H as <-. rewrite Nat.sub_diag. split; [lia|]. split.
    + exists g0. split; [reflexivity | now apply String.eqb_neq].
    + intros k g Hk. lia.
Qed.

Lemma first_not_completed_none (plan : list Goal) :
  forall i,
    OpenAI.first_not_completed i plan = None ->
    forall g, In g plan -> status g = "completed".
Proof.
  induction plan as [|g0 rest IH]; intros i H g Hin; [destruct Hin|].
  cbn in H. unfold OpenAI.status in H.
  destruct (status g0 =? "completed") eqn:Hs; cbn [negb] in H;
    [|discriminate].
  destruct Hin as [<-|Hin].
  - now apply String.eqb_eq.
  - eapply IH; eauto.
Qed.

Lemma next_goal_n_fixed (n : nat) (om : OpenAI.MemoryModule) :
  next_goal_n n om =
  (Ret (repeat (OpenAI.first_not_completed 0 (OpenAI.long_term_plan om)) n),
   om).
Proof.
  induction n as [|n IH]; cbn [next_goal_n repeat]; [reflexivity|].
  unfold bind at 1. unfold OpenAI.get_active_goal at 1. unfold gets.
  unfold bind. rewrite IH. reflexivity.
Qed.

(** C8, as amended.  [get_active_goal] is idempotent: once it has
    returned, any number of further calls return the same goal and leave
    the state as it is.  In [agent/deprecated] a goal that is already
    current is returned without any change; when none is current the call
    returns, and installs as current, the first goal of the plan whose
    status is ["pending"] (or returns [None] when no goal is pending).
    In [agent/openai] nothing is installed: the call leaves the state as
    it is, the current goal included, and returns the first goal of the
    plan whose status is not ["completed"] ([None] when all are). *)
Theorem get_active_goal_idempotent :
  forall (m : MemoryModule) (n : nat),
    (exists a,
        let m1 := snd (get_active_goal m) in
        get_active_goal m = (Ret a, m1) /\
        get_active_goal_n n m1 = (Ret (repeat a n), m1) /\
        (forall c, current_goal m = Some c -> a = Some c /\ m1 = m) /\
        (current_goal m = None ->
         current_goal m1 = a /\
         match a with
         | Some (InPlan i) =>
             (exists g, nth_error (long_term_plan m) i = Some g /\
                        status g = "pending") /\
             (forall k g, k < i -> nth_error (long_term_plan m) k = Some g ->
                          status g <> "pending")
         | Some (Detached _) => False
         | None => forall g, In g (long_term_plan m) -> status g <> "pending"
         end))
    /\ (forall om : OpenAI.MemoryModule,
          exists r,
            OpenAI.get_active_goal om = (Ret r, om) /\
            next_goal_n n om = (Ret (repeat r n), om) /\
            match r with
            | Some i =>
                (exists g, nth_error (OpenAI.long_term_plan om) i = Some g /\
                           status g <> "completed") /\
                (forall k g,
                    k < i -> nth_error (OpenAI.long_term_plan om) k = Some g ->
                    status g = "completed")
            | None =>
                forall g, In g (OpenAI.long_term_plan om) ->
                          status g = "completed"
            end).
Proof.
  intros m n. split.
  2:{ intros om.
      exists (OpenAI.first_not_completed 0 (OpenAI.long_term_plan om)).
      split; [reflexivity|]. split; [apply next_goal_n_fixed|].
      destruct (OpenAI.first_not_completed 0 (OpenAI.long_term_plan om))
        as [i|] eqn:Hf.
      - apply first_not_completed_found in Hf.
        rewrite Nat.sub_0_r in Hf. destruct Hf as [_ [H1 H2]].
        split; assumption.
      - eapply first_not_completed_none; eauto. }
  destruct (get_active_goal_total m) as [a Ha].
  exists a. cbv zeta. split; [exact Ha|]. split.
  - apply get_active_goal_n_fixed. eapply get_active_goal_again. exact Ha.
  - revert Ha. unfold get_active_goal.
    destruct (current_goal m) as [c|] eqn:Hc.
    + cbn. intros H. injection H as <-. split.
      * intros c' Hc'. injection Hc' as <-. split; reflexivity.
      * discriminate.
    + destruct (first_pending_from 0 (long_term_plan m)) as [i|] eqn:Hf;
        cbn; intros H; injection H as <-.
      * split; [discriminate|]. intros _. split; [reflexivity|].
        apply first_pending_from_found in Hf.
        rewrite Nat.sub_0_r in Hf. destruct Hf as [_ [H1 H2]].
        split; assumption.
      * split; [discriminate|]. intros _. split; [exact Hc|].
        eapply first_pending_from_none; eauto.
Qed.

Lemma get_active_goal_idempotent_witness :
  let m := fresh_memory [set_status "completed" goal_x; goal_y] in
  current_goal m = None /\
  get_active_goal m = (Ret (Some (InPlan 1)), set_current_goal (Some (InPlan 1)) m)
  /\ get_active_goal_n 3 (snd (get_active_goal m)) =
       (Ret (repeat (Some (InPlan 1)) 3), snd (get_active_goal m)).
Proof.
  cbv zeta. split; [reflexivity|]. split; [reflexivity|].
  destruct (proj1 (get_active_goal_idempotent
                     (fresh_memory [set_status "completed" goal_x; goal_y]) 3))
    as [a [Ha [Hn _]]].
  cbv zeta in Ha, Hn.
  assert (E : a = Some (InPlan 1)).
  { assert (H : fst (get_active_goal
                       (fresh_memory [set_status "completed" goal_x; goal_y]))
                = Ret a) by (rewrite Ha; reflexivity).
    injection H as <-. reflexivity. }
  rewrite E in Hn. exact Hn.
Defined.

(** C8 as stated fails for [agent/openai]: with no goal current, the call
    returns the first goal of the plan but does not set it as current;
    the current goal is [None] after the call as it was before. *)
Lemma openai_get_active_goal_counterexample :
  let om := OpenAI.mkMemory [] [goal_x; goal_y] VNone false [] in
  OpenAI.current_goal om = VNone /\
  fst (OpenAI.get_active_goal om) = Ret (Some 0) /\
  OpenAI.current_goal (snd (OpenAI.get_active_goal om)) = VNone /\
  OpenAI.current_goal (snd (next_goal_n 3 om)) = VNone.
Proof. cbv zeta. repeat split; reflexivity. Qed.

Lemma active_goal_eq (m : MemoryModule) a :
  get_active_goal m = (Ret a, snd (get_active_goal m)) ->
  active_goal m = goal_of (snd (get_active_goal m)) a.
Proof.
  intros H. unfold active_goal. rewrite H. reflexivity.
Qed.

Lemma complete_current_goal_cases (m : MemoryModule) (y : string) :
  let m1 := snd (get_active_goal m) in
  (complete_current_goal y m = (Ret tt, m1) /\
   (active_goal m = None
    \/ (exists g, active_goal m = Some g /\ id g <> y)
    \/ (exists g, active_goal m = Some g /\ id g = y /\
                  index_of_id y 0 (long_term_plan m) = None)))
  \/ (exists g i,
        active_goal m = Some g /\ id g = y /\
        index_of_id y 0 (long_term_plan m) = Some i /\
        complete_current_goal y m = (Ret tt, completed_at i m1)).
Proof.
  cbv zeta.
  destruct (get_active_goal_total m) as [a Ha].
  pose proof (active_goal_eq m a Ha) as Hact.
  pose proof (get_active_goal_plan m) as Hplan.
  remember (snd (get_active_goal m)) as m1 eqn:Hm1.
  unfold complete_current_goal, bind, gets. rewrite Ha.
  rewrite <- Hact.
  destruct (active_goal m) as [g|].
  - destruct (id g =? y) eqn:Hid; cbn [negb].
    + apply String.eqb_eq in Hid. rewrite Hplan.
      destruct (index_of_id y 0 (long_term_plan m)) as [i|] eqn:Hi.
      * right. exists g, i. repeat split; try assumption; try reflexivity.
        unfold completed_at, modify, ret. rewrite Hplan.
        destruct (first_pending_from (S i) (skipn (S i) (long_term_plan m)));
          reflexivity.
      * left. split; [reflexivity|]. right. right. exists g. auto.
    + apply String.eqb_neq in Hid. left. split; [reflexivity|].
      right. left. exists g. auto.
  - left. split; [reflexivity|]. now left.
Qed.

Lemma complete_current_goal_flags (y : string) (m : MemoryModule) :
  _runtime_flags (snd (complete_current_goal y m)) = _runtime_flags m.
Proof.
  destruct (complete_current_goal_cases m y)
    as [[H _] | [g [i [_ [_ [_ H]]]]]]; rewrite H; cbn [snd].
  - apply get_active_goal_flags.
  - unfold completed_at. cbn. apply get_active_goal_flags.
Qed.

Lemma mark_completed_monotone (p : list Goal) :
  forall i, statuses_monotone p (mark_completed i p).
Proof.
  induction p as [|g0 rest IH]; intros i.
  - split; [reflexivity|]. intros k g H. destruct k; discriminate.
  - destruct i as [|i]; cbn [mark_completed].
    + split; [reflexivity|]. intros k g H. destruct k as [|k]; cbn in H |- *.
      * injection H as <-. eexists. split; [reflexivity|].
        cbn. auto.
      * exists g. auto.
    + destruct (IH i) as [Hlen Hnth]. split; [cbn; now rewrite Hlen|].
      intros k g H. destruct k as [|k]; cbn in H |- *.
      * injection H as <-. exists g0. auto.
      * apply Hnth. exact H.
Qed.

Lemma nth_error_mark_completed_other (p : list Goal) :
  forall i j, i <> j -> nth_error (mark_completed i p) j = nth_error p j.
Proof.
  induction p as [|g rest IH]; intros i j Hij; [reflexivity|].
  destruct i as [|i], j as [|j]; cbn; try reflexivity; try lia.
  apply IH. lia.
Qed.

Lemma statuses_monotone_refl (p : list Goal) : statuses_monotone p p.
Proof.
  split; [reflexivity|]. intros i g H. exists g. auto.
Qed.

Lemma complete_current_goal_monotone (m : MemoryModule) (y : string) :
  statuses_monotone (long_term_plan m)
    (long_term_plan (snd (complete_current_goal y m))).
Proof.
  destruct (complete_current_goal_cases m y)
    as [[H _] | [g [i [_ [_ [_ H]]]]]]; rewrite H; cbn [snd].
  - rewrite get_active_goal_plan. apply statuses_monotone_refl.
  - unfold completed_at. cbn. rewrite get_active_goal_plan.
    apply mark_completed_monotone.
Qed.

Lemma update_goal_status_cases (m : MemoryModule) (observation : value) :
  exists r m',
    update_goal_status observation m = (r, m') /\
    (m' = m
     \/ m' = snd (get_active_goal m)
     \/ exists y, m' = snd (complete_current_goal y (snd (get_active_goal m)))).
Proof.
  unfold update_goal_status.
  destruct (as_observation observation) as [o|] eqn:Ho;
    [|do 2 eexists; split; [reflexivity | now left]].
  assert (Hd : exists d, o = VDict d).
  { destruct observation; cbn in Ho; try discriminate;
      injection Ho as <-; eauto. }
  destruct Hd as [d ->].
  destruct (get_active_goal_total m) as [a Ha].
  remember (snd (get_active_goal m)) as m1 eqn:Hm1.
  unfold bind, gets, lift. rewrite Ha.
  destruct (goal_of m1 a) as [g|];
    [|do 2 eexists; split; [reflexivity | now right; left]].
  destruct (id g =? "");
    [do 2 eexists; split; [reflexivity | now right; left]|].
  cbn [get].
  destruct (str_lower (dict_get d "summary" (VStr ""))) as [sl|e];
    [|do 2 eexists; split; [reflexivity | now right; left]].
  match goal with
  | |- context [if ?c then _ else _] => destruct c
  end.
  - do 2 eexists. split; [apply surjective_pairing|].
    right. right. eexists. reflexivity.
  - do 2 eexists; split; [reflexivity | now right; left].
Qed.

Lemma update_goal_status_monotone (m : MemoryModule) (observation : value) :
  statuses_monotone (long_term_plan m)
    (long_term_plan (snd (update_goal_status observation m))).
Proof.
  destruct (update_goal_status_cases m observation)
    as [r [m' [E [H | [H | [y H]]]]]]; rewrite E; cbn [snd]; subst m'.
  - apply statuses_monotone_refl.
  - rewrite get_active_goal_plan. apply statuses_monotone_refl.
  - rewrite <- (get_active_goal_plan m) at 1.
    apply complete_current_goal_monotone.
Qed.

Lemma update_goal_status_guarded (observation : value) (m : MemoryModule) :
  exists m1,
    try_except (update_goal_status observation) (fun _ => ret tt) m
      = (Ret tt, m1)
    /\ _runtime_flags m1 = _runtime_flags m.
Proof.
  destruct (update_goal_status_cases m observation)
    as [r [m' [E H]]].
  exists m'. unfold try_except. rewrite E. split.
  - destruct r as [[]|e]; reflexivity.
  - destruct H as [-> | [-> | [y ->]]].
    + reflexivity.
    + apply get_active_goal_flags.
    + rewrite complete_current_goal_flags. apply get_active_goal_flags.
Qed.

(** C2, as amended.  When [y] is not the id of the goal
    [get_active_goal()] yields (the current goal or, when none is current,
    the first pending goal, which the lookup itself installs as current),
    [complete_current_goal(y)] does nothing beyond that lookup: the plan
    and every status in it are unchanged, a pointer that was set is
    unchanged and so is the whole state, and a pointer that was not set
    now designates the first pending goal, nothing else being touched. *)
Theorem complete_non_active_goal_is_rejected :
  forall (m : MemoryModule) (y : string),
    (forall g, active_goal m = Some g -> id g <> y) ->
    let m1 := snd (get_active_goal m) in
    complete_current_goal y m = (Ret tt, m1)
    /\ long_term_plan m1 = long_term_plan m
    /\ (forall c, current_goal m = Some c -> m1 = m)
    /\ (current_goal m = None ->
        m1 = match first_pending_from 0 (long_term_plan m) with
             | Some i => set_current_goal (Some (InPlan i)) m
             | None => m
             end).
Proof.
  intros m y Hy m1.
  destruct (get_active_goal_state m) as [Hsome Hnone].
  repeat split; try assumption; [|apply get_active_goal_plan].
  destruct (complete_current_goal_cases m y)
    as [[H _] | [g [i [Hact [Hid _]]]]]; [exact H|].
  exfalso. exact (Hy g Hact Hid).
Qed.

Lemma complete_non_active_goal_is_rejected_witness :
  let m := set_current_goal (Some (InPlan 0)) (fresh_memory [goal_x; goal_y]) in
  (forall g, active_goal m = Some g -> id g <> "y") /\
  complete_current_goal "y" m = (Ret tt, m) /\
  nth_error (long_term_plan (snd (complete_current_goal "y" m))) 1
    = Some goal_y.
Proof.
  cbv zeta.
  assert (H : forall g,
             active_goal
               (set_current_goal (Some (InPlan 0))
                  (fresh_memory [goal_x; goal_y])) = Some g ->
             id g <> "y").
  { intros g Hg. injection Hg as <-. discriminate. }
  split; [exact H|]. split.
  - exact (proj1 (complete_non_active_goal_is_rejected _ "y" H)).
  - reflexivity.
Defined.

(** C2 as stated fails: with no goal current yet and [x] the first pending
    goal, [complete_current_goal("y")] is rejected but does not leave the
    active-goal pointer unchanged: it goes from [None] to [x]. *)
Lemma complete_non_active_goal_counterexample :
  let m := fresh_memory [goal_x; goal_y] in
  active_goal m = Some goal_x /\
  current_goal m = None /\
  current_goal (snd (complete_current_goal "y" m)) = Some (InPlan 0) /\
  current_goal (snd (complete_current_goal "y" m)) <> current_goal m.
Proof.
  cbv zeta. repeat split. discriminate.
Qed.

(** C10, as amended.  Each of [get_active_goal], [complete_current_goal]
    and [update_goal_status] leaves every goal of the plan at its place
    with its status either kept or set to ["completed"], so a completed
    goal stays completed.  [complete_current_goal(y)] either leaves the
    state as the lookup of the active goal leaves it (the id is rejected,
    or no plan entry carries it), or completes the first entry [i] whose
    id is [y] and leaves [current_goal] null or at a pending goal strictly
    after [i]. *)
Theorem goal_statuses_only_advance :
  forall (m : MemoryModule) (y : string) (observation : value),
    statuses_monotone (long_term_plan m)
      (long_term_plan (snd (get_active_goal m)))
    /\ statuses_monotone (long_term_plan m)
         (long_term_plan (snd (complete_current_goal y m)))
    /\ statuses_monotone (long_term_plan m)
         (long_term_plan (snd (update_goal_status observation m)))
    /\ (let m' := snd (complete_current_goal y m) in
        m' = snd (get_active_goal m)
        \/ exists i,
             index_of_id y 0 (long_term_plan m) = Some i /\
             long_term_plan m' = mark_completed i (long_term_plan m) /\
             (current_goal m' = None
              \/ exists j g,
                   current_goal m' = Some (InPlan j) /\ i < j /\
                   nth_error (long_term_plan m') j = Some g /\
                   status g = "pending")).
Proof.
  intros m y observation. split; [|split; [|split]].
  - rewrite get_active_goal_plan. apply statuses_monotone_refl.
  - apply complete_current_goal_monotone.
  - apply update_goal_status_monotone.
  - cbv zeta.
    destruct (complete_current_goal_cases m y)
      as [[H _] | [g [i [_ [_ [Hi H]]]]]]; rewrite H; cbn [snd].
    + now left.
    + right. exists i. split; [exact Hi|].
      unfold completed_at.
      cbn [long_term_plan current_goal set_current_goal set_long_term_plan].
      rewrite get_active_goal_plan.
      split; [reflexivity|].
      destruct (first_pending_from (S i) (skipn (S i) (long_term_plan m)))
        as [j|] eqn:Hj; cbn [option_map]; [|now left].
      right. apply first_pending_from_found in Hj.
      destruct Hj as [Hle [[g' [Hn Hp]] _]].
      exists j, g'. split; [reflexivity|]. split; [lia|]. split; [|exact Hp].
      rewrite nth_error_mark_completed_other by lia.
      rewrite nth_error_skipn in Hn.
      replace (S i + (j - S i)) with j in Hn by lia. exact Hn.
Qed.

Lemma goal_statuses_only_advance_witness :
  let m := fresh_memory [goal_x; goal_y] in
  let m' := snd (complete_current_goal "x" m) in
  statuses_monotone (long_term_plan m) (long_term_plan m') /\
  long_term_plan m' = [set_status "completed" goal_x; goal_y] /\
  current_goal m' = Some (InPlan 1).
Proof.
  cbv zeta. split; [|split; reflexivity].
  exact (proj1 (proj2 (goal_statuses_only_advance
                         (fresh_memory [goal_x; goal_y]) "x" VNone))).
Defined.

(** C10 as stated fails: a rejected [complete_current_goal] leaves
    [current_goal] where it was, at the active goal [x], which is neither
    null nor a goal strictly later in the plan. *)
Lemma rejected_completion_keeps_pointer_counterexample :
  let m := set_current_goal (Some (InPlan 0)) (fresh_memory [goal_x; goal_y]) in
  let m' := snd (complete_current_goal "y" m) in
  current_goal m = Some (InPlan 0) /\
  current_goal m' = Some (InPlan 0) /\
  current_goal m' <> None /\
  ~ (exists j, current_goal m' = Some (InPlan j) /\ 0 < j).
Proof.
  cbv zeta. repeat split; try discriminate.
  intros [j [Hj Hlt]]. cbn in Hj. injection Hj as <-. lia.
Qed.

End GoalProperties.

(* ===================================================================== *)
(** ** Map change and the queue *)
(* ===================================================================== *)

Section UpdateProperties.
Import Deprecated Runs.







End UpdateProperties.

(* ===================================================================== *)
(** ** Priority of the scene flags *)
(* ===================================================================== *)

Section SceneProperties.
Import Perception Runs.








Section Escalation.

Variable image : Type.
Variable _extract_frame : value -> option image.
Variable get_query : image -> outcome value.
Variable enrich : value -> SceneResult -> outcome value.
Variable read_reply : value -> value -> outcome value.




End Escalation.



(** An UNKNOWN scene without an image is not sent to the oracle. *)
Example unknown_without_image :
  analyze unit (fun _ => None) (fun _ => Ret (VStr "SceneType: MAP"))
    (fun _ _ => Ret VNone) (fun _ _ => Ret VNone) (VDict [])
  = ([], Ret (CUTSCENE_FALLBACK)).
Proof. reflexivity. Qed.

End SceneProperties.

(* ===================================================================== *)
(** ** [agent/openai]: goal update and decision cache *)
(* ===================================================================== *)

Section OpenAIProperties.
Import Runs.

Ltac eval_closed_eqb :=
  repeat match goal with
         | |- context [String.eqb ?a ?b] =>
             let v := eval vm_compute in (String.eqb a b) in
             match v with
             | true => change (String.eqb a b) with true
             | false => change (String.eqb a b) with false
             end
         end.

(** C9 fails on the code.  Whenever [littleroot_town_explore] is the next
    incomplete goal, [update_goal_status] raises, whatever the
    observation: either an earlier field read raises, or the rule of that
    goal does, its test [(..., ..., ...) in loc] having a tuple on the left
    of a string membership.  Nothing is written before the exception, so
    the goal cannot be completed by this method. *)
Theorem update_goal_status_raises_on_littleroot :
  forall (m : OpenAI.MemoryModule) (observation : value) (i : nat)
         (g : OpenAI.Goal),
    OpenAI.first_not_completed 0 (OpenAI.long_term_plan m) = Some i ->
    nth_error (OpenAI.long_term_plan m) i = Some g ->
    OpenAI.id g = "littleroot_town_explore" ->
    exists e, OpenAI.update_goal_status observation m = (Raise e, m).
Proof.
  intros m observation i g Hfirst Hnth Hid.
  unfold OpenAI.update_goal_status.
  set (obs := if is_dict observation then observation else _).
  assert (Hobs : exists d, obs = VDict d).
  { unfold obs. destruct observation; cbn; eauto. }
  destruct Hobs as [d ->].
  unfold bind, lift, OpenAI.state_get, OpenAI.get_active_goal, gets.
  cbn [get].
  repeat first
    [ progress cbv beta iota
    | match goal with
      | |- exists e, (match ?E with Ret _ => _ | Raise _ => _ end) = _ =>
          destruct E; [|eexists; reflexivity]
      | |- context [dict_get (OpenAI.state m) "party" VNone] =>
          destruct (dict_get (OpenAI.state m) "party" VNone); unfold ret
      end ].
  all: rewrite Hfirst, Hnth, Hid; eval_closed_eqb; cbn [andb];
    eexists; reflexivity.
Qed.

Lemma update_goal_status_raises_on_littleroot_witness :
  OpenAI.first_not_completed 0 (OpenAI.long_term_plan littleroot_memory)
    = Some 7 /\
  OpenAI.update_goal_status littleroot_obs littleroot_memory
    = (Raise TypeError, littleroot_memory).
Proof.
  split; [reflexivity|].
  destruct (update_goal_status_raises_on_littleroot littleroot_memory
              littleroot_obs 7 _ eq_refl eq_refl eq_refl) as [e He].
  rewrite He. f_equal.
  assert (H : fst (OpenAI.update_goal_status littleroot_obs littleroot_memory)
              = Raise e) by (rewrite He; reflexivity).
  vm_compute in H. injection H as <-. reflexivity.
Defined.

End OpenAIProperties.

Section CacheProperties.
Import OpenAI.

Variable sha1 : string -> string.
Variable py_eval : string -> outcome value.
Variable _build_navigation_context :
  value -> value -> MemoryModule -> string -> string -> outcome string.
Variable render_prompt : string -> value -> string -> string.
Variable vlm_get_text_query : string -> nat -> outcome value.
Variable random_choice : nat -> list string -> string.
Variable interpret_reply : string -> value -> nat -> list (list string) * value.

Lemma enqueue_batches_frame (batches : list (list string)) :
  forall w : World,
    exists mem',
      fold_right
        (fun batch k =>
           on_memory (enqueue_actions (VList (map VStr batch))) ;;; k)
        (ret tt) batches w
      = (Ret tt, mkWorld mem' (planner w) (oracle_log w) (tick w)).
Proof.
  induction batches as [|b bs IH]; intros w; cbn [fold_right].
  - exists (memory w). destruct w; reflexivity.
  - unfold bind at 1. unfold on_memory at 1.
    assert (H : exists mem1, enqueue_actions (VList (map VStr b)) (memory w)
                             = (Ret tt, mem1)).
    { unfold enqueue_actions, modify, ret.
      destruct (Deprecated._normalize_primitives _); eauto. }
    destruct H as [mem1 ->].
    destruct (IH (mkWorld mem1 (planner w) (oracle_log w) (tick w)))
      as [mem' H'].
    exists mem'. exact H'.
Qed.

(** The scrutinee at the head of a computation. *)
Ltac scrutinee t :=
  lazymatch t with
  | ?f _ => scrutinee f
  | match ?E with Ret _ => _ | Raise _ => _ end => inner E
  | match ?E with Some _ => _ | None => _ end => inner E
  | match ?E with nil => _ | cons _ _ => _ end => inner E
  | match ?E with pair _ _ => _ end => inner E
  | if ?E then _ else _ => inner E
  | match ?E with
    | VNone => _ | VBool _ => _ | VInt _ => _ | VStr _ => _
    | VList _ => _ | VDict _ => _
    end => inner E
  end
with inner E := first [ scrutinee E | destruct E ].

Ltac simplify_world :=
  cbv beta iota zeta;
  cbn [memory planner oracle_log tick fst snd set_planner context_cache
         _PENDING_SHADOW].

(** Two calls of [decide] on the same observation, memory and planner
    send the same prompts to the oracle, whatever was sent before and
    whatever the call numbers are; and no call writes the cache. *)
Lemma decide_in_lockstep (observation : value) (mem : MemoryModule)
  (pl : PlanningModule) (L L' : list string) (T T' : nat) :
  exists ext,
    oracle_log
      (snd (decide sha1 py_eval _build_navigation_context render_prompt
              vlm_get_text_query random_choice interpret_reply observation
              (mkWorld mem pl L T))) = L ++ ext /\
    oracle_log
      (snd (decide sha1 py_eval _build_navigation_context render_prompt
              vlm_get_text_query random_choice interpret_reply observation
              (mkWorld mem pl L' T'))) = L' ++ ext /\
    context_cache
      (planner
         (snd (decide sha1 py_eval _build_navigation_context render_prompt
                 vlm_get_text_query random_choice interpret_reply observation
                 (mkWorld mem pl L T))))
      = context_cache pl.
Proof.
  unfold decide.
  unfold bind, lift, gets, modify, try_except, on_memory, ret.
  repeat (simplify_world;
          first
            [ match goal with
              | |- context [fold_right ?f ?z ?b ?w] =>
                  let H := fresh in
                  destruct (enqueue_batches_frame b w) as [? H];
                  unfold bind, on_memory, ret in H; rewrite H; clear H
              end
            | match goal with
              | |- exists ext, oracle_log (snd ?t) = _ /\ _ => scrutinee t
              end ]).
  all: simplify_world.
  all: try (exists []; rewrite !app_nil_r; repeat split; reflexivity).
  all: try (eexists; repeat split; reflexivity).
Qed.

(** C6 fails on the code.  [decide] looks its context hash up in
    [context_cache] but nothing ever stores a decision there: the cache is
    the same after every call as before it.  So when a call has consulted
    the oracle and left memory and planner as they were, the next call on
    the same observation, whose context hash is the same, consults the
    oracle again with the same prompt. *)
Theorem decide_never_short_circuits :
  forall (observation : value) (w : World),
    context_cache
      (planner
         (snd (decide sha1 py_eval _build_navigation_context render_prompt
                 vlm_get_text_query random_choice interpret_reply
                 observation w)))
      = context_cache (planner w)
    /\ (forall prompt,
          let w1 :=
            snd (decide sha1 py_eval _build_navigation_context render_prompt
                   vlm_get_text_query random_choice interpret_reply
                   observation w) in
          memory w1 = memory w ->
          planner w1 = planner w ->
          oracle_log w1 = oracle_log w ++ [prompt] ->
          oracle_log
            (snd (decide sha1 py_eval _build_navigation_context render_prompt
                    vlm_get_text_query random_choice interpret_reply
                    observation w1))
            = oracle_log w1 ++ [prompt]).
Proof.
  intros observation [mem pl L T]. split.
  - destruct (decide_in_lockstep observation mem pl L L T T)
      as [ext [_ [_ H]]]. exact H.
  - intros prompt w1. destruct w1 as [mem1 pl1 L1 T1] eqn:Ew1.
    cbn [memory planner oracle_log]. intros -> -> HL.
    destruct (decide_in_lockstep observation mem pl L L1 T T1)
      as [ext [H1 [H2 _]]].
    unfold w1 in Ew1. rewrite Ew1 in H1. cbn [oracle_log] in H1.
    rewrite HL in H1. apply app_inv_head in H1. subst ext. exact H2.
Qed.

End CacheProperties.

Lemma decide_never_short_circuits_witness :
  let decide :=
    OpenAI.decide Runs.same_key Runs.eval_fails Runs.no_hints
      Runs.fixed_prompt Runs.vlm_says_up Runs.first_choice
      Runs.reply_as_action in
  let w1 := snd (decide Runs.map_obs Runs.openai_world) in
  OpenAI.memory w1 = OpenAI.memory Runs.openai_world /\
  OpenAI.planner w1 = OpenAI.planner Runs.openai_world /\
  OpenAI.oracle_log w1 = ["PROMPT"] /\
  OpenAI.oracle_log (snd (decide Runs.map_obs w1)) = ["PROMPT"; "PROMPT"].
Proof.
  cbv zeta. split; [reflexivity|]. split; [reflexivity|].
  split; [reflexivity|].
  exact (proj2 (decide_never_short_circuits Runs.same_key Runs.eval_fails
                  Runs.no_hints Runs.fixed_prompt Runs.vlm_says_up
                  Runs.first_choice Runs.reply_as_action
                  Runs.map_obs Runs.openai_world)
           "PROMPT" eq_refl eq_refl eq_refl).
Defined.

(* ===================================================================== *)
(** ** Decision engine of [agent/deprecated] *)
(* ===================================================================== *)

Section DecisionProperties.
Import Deprecated Deprecated.Planning Runs.

Variable _analyze_movement_preview : value -> outcome MovementInfo.
Variable target_direction : value -> MemoryModule -> string -> outcome value.
Variable oracle_actions :
  value -> MemoryModule -> list string -> outcome (list string).

Lemma in_dialogue_like (v : value) :
  in_strs v DIALOGUE_LIKE = true -> v = VStr "DIALOGUE" \/ v = VStr "CUTSCENE".
Proof.
  unfold in_strs, DIALOGUE_LIKE. cbn [existsb].
  destruct v; cbn; try discriminate.
  intros H. apply orb_prop in H. destruct H as [H|H].
  - left. f_equal. now apply String.eqb_eq.
  - rewrite orb_false_r in H. right. f_equal. now apply String.eqb_eq.
Qed.

Lemma dialogue_handler_step (scene_type prev_scene : value)
  (m : MemoryModule) :
  exists d m',
    dialogue_handler scene_type prev_scene m = (Ret (Some d), m')
    /\ action d = VStr (ladder (streak m + 1))
    /\ streak m' = (streak m + 1)%Z.
Proof.
  unfold dialogue_handler, ladder, streak.
  unfold bind at 1. unfold with_flags at 1. unfold modify at 1.
  unfold bind at 1.
  assert (He : exists m1,
             when (negb (in_strs prev_scene DIALOGUE_LIKE))
               (enqueue_actions
                  (VList [VStr "A"; VStr "A"; VStr "A"; VStr "A"]))
               (set_runtime_flags
                  (set_dialogue_streak (dialogue_streak (_runtime_flags m) + 1)
                     (_runtime_flags m)) m) = (Ret tt, m1)
             /\ dialogue_streak (_runtime_flags m1)
                = (dialogue_streak (_runtime_flags m) + 1)%Z).
  { unfold when, enqueue_actions, modify, ret.
    destruct (negb (in_strs prev_scene DIALOGUE_LIKE));
      [destruct (_normalize_primitives _)|]; eexists; split; reflexivity. }
  destruct He as [m1 [-> Hs]].
  unfold bind, gets, commit, with_flags, modify, ret.
  rewrite Hs.
  destruct (60 <=? dialogue_streak (_runtime_flags m) + 1)%Z;
    [do 2 eexists; repeat split; exact Hs|].
  destruct (40 <=? dialogue_streak (_runtime_flags m) + 1)%Z;
    [do 2 eexists; repeat split; exact Hs|].
  unfold peek_next_action, pop_next_action.
  destruct (_GLOBAL_PENDING m1) as [|a q] eqn:Hq; cbn [py_eq].
  - do 2 eexists; repeat split; exact Hs.
  - destruct (a =? "A");
      unfold bind, modify, ret; cbv beta iota; rewrite ?Hq; cbv beta iota;
      do 2 eexists; repeat split; cbn; exact Hs.
Qed.

Lemma hardcoded_sequences_skip (observation scene_type : value)
  (g : option Goal) (m : MemoryModule) :
  py_eq scene_type (VStr "MAP") = false ->
  hardcoded_sequences observation scene_type g m = (Ret tt, m).
Proof.
  intros H. unfold hardcoded_sequences. rewrite H, !andb_false_r.
  reflexivity.
Qed.

(** What [decide] does before its scene-based overrides, on a well-shaped
    observation whose scene is not the map: the step counter moves, the
    goals may be updated, and the dialogue streak is as it was. *)
Lemma decide_prelude (o : list (string * value)) (m : MemoryModule) :
  is_str (dict_get o "summary" (VStr "")) = true ->
  is_dict (py_or (dict_get o "map" (VDict [])) (VDict [])) = true ->
  py_eq (dict_get o "scene_type" (VStr "UNKNOWN")) (VStr "MAP") = false ->
  exists m2 summary,
    dict_get o "summary" (VStr "") = VStr summary /\
    streak m2 = streak m /\
    decide _analyze_movement_preview target_direction oracle_actions
      (VDict o) m =
    (let scene_type := dict_get o "scene_type" (VStr "UNKNOWN") in
     let prev_scene := last_scene (_runtime_flags m) in
     if py_eq scene_type (VStr "TITLE")
     then commit scene_type "A" "title"
     else if py_eq scene_type (VStr "UNKNOWN")
             && contains_any ["press start"; "main menu"; "pokemon emerald";
                              "new game"; "continue"] (lower summary)
     then commit scene_type "A" "title_fallback"
     else if py_eq scene_type (VStr "BATTLE")
     then commit scene_type "A" "battle"
     else if in_strs scene_type DIALOGUE_LIKE
     then dialogue_handler scene_type prev_scene
     else
       when (in_strs prev_scene DIALOGUE_LIKE
             && negb (in_strs scene_type DIALOGUE_LIKE))
         (with_flags
            (fun f => set_escape_done false (set_dialogue_streak 0 f))) ;;;
       escape_done <-
         gets (fun m => post_dialogue_escape_done (_runtime_flags m)) ;;
       when (py_eq scene_type (VStr "MAP")
             && in_strs prev_scene DIALOGUE_LIKE && negb escape_done)
         (post_dialogue_escape _analyze_movement_preview (VDict o)) ;;;
       nxt_peek <- peek_next_action ;;
       if truthy nxt_peek
       then
         nxt <- pop_next_action ;;
         with_flags (set_last_scene scene_type) ;;;
         ret (Some (mkDecision nxt "queued"))
       else
         naming <- gets naming_handled ;;
         if py_eq scene_type (VStr "MENU") && negb naming
            && contains_any ["name"; "keyboard"; "character"; "enter"]
                 (lower summary)
         then
           modify (set_naming_handled true) ;;;
           enqueue_actions
             (VList [VStr "A"; VStr "A"; VStr "A"; VStr "A"; VStr "START"]) ;;;
           commit scene_type "START" "naming"
         else if py_eq scene_type (VStr "TRANSITION")
         then commit scene_type "WAIT" "transition"
         else if py_eq scene_type (VStr "MAP")
         then map_navigation _analyze_movement_preview target_direction
                oracle_actions (VDict o) (lower summary)
         else ret None) m2.
Proof.
  intros Hsum Hmap Hnm.
  destruct (dict_get o "summary" (VStr "")) as [| | |summary| |] eqn:Es;
    try discriminate.
  destruct (py_or (dict_get o "map" (VDict [])) (VDict [])) as [| | | | |mp]
    eqn:Em; try discriminate.
  unfold decide. cbn [is_dict get lift].
  rewrite Es. cbn [str_lower get].
  unfold bind at 1. unfold lift at 1.
  unfold bind at 1. unfold lift at 1.
  unfold bind at 1. unfold lift at 1.
  unfold bind at 1. unfold lift at 1.
  cbv beta iota zeta. rewrite Em. cbn [get].
  unfold bind at 1. unfold lift at 1.
  unfold bind at 1. unfold lift at 1.
  unfold bind at 1. unfold with_flags at 1. unfold modify at 1.
  unfold bind at 1. unfold gets at 1.
  cbn [_runtime_flags set_runtime_flags last_scene set_step_counter].
  set (m0 := set_runtime_flags _ m).
  assert (Hs0 : streak m0 = streak m) by reflexivity.
  unfold bind at 1.
  destruct (update_goal_status_guarded (VDict o) m0) as [m1 [-> Hf1]].
  unfold bind at 1.
  destruct (get_active_goal_total m1) as [a Ha]. rewrite Ha.
  pose proof (get_active_goal_flags m1) as Hf2.
  set (m2 := snd (get_active_goal m1)) in *.
  unfold bind at 1. unfold gets at 1.
  unfold bind at 1. rewrite (hardcoded_sequences_skip _ _ _ _ Hnm).
  exists m2, summary. split; [reflexivity|]. split.
  - unfold streak. rewrite Hf2, Hf1. exact Hs0.
  - reflexivity.
Qed.

Lemma decide_dialogue_step (observation : value) (m : MemoryModule) :
  dialogue_observation observation = true ->
  exists d m',
    decide _analyze_movement_preview target_direction oracle_actions
      observation m = (Ret (Some d), m')
    /\ action d = VStr (ladder (streak m + 1))
    /\ streak m' = (streak m + 1)%Z.
Proof.
  unfold dialogue_observation. destruct observation as [| | | | |o];
    try discriminate.
  intros H. apply andb_prop in H. destruct H as [H Hmap].
  apply andb_prop in H. destruct H as [Hscene Hsum].
  assert (Hnm : py_eq (dict_get o "scene_type" (VStr "UNKNOWN")) (VStr "MAP")
                = false).
  { destruct (in_dialogue_like _ Hscene) as [-> | ->]; reflexivity. }
  destruct (decide_prelude o m Hsum Hmap Hnm)
    as [m2 [summary [_ [Hstreak ->]]]].
  destruct (dialogue_handler_step (dict_get o "scene_type" (VStr "UNKNOWN"))
              (last_scene (_runtime_flags m)) m2) as [d [m' [Hd [Hact Hst]]]].
  exists d, m'. rewrite Hstreak in Hact, Hst.
  split; [|split; assumption].
  cbv zeta. rewrite Hscene.
  destruct (in_dialogue_like _ Hscene) as [E | E]; rewrite E in *;
    cbn [py_eq]; exact Hd.
Qed.

(** A battle step is answered by its fast path before the place where the
    streak is reset, so it leaves the dialogue streak as it was and
    records itself as the last scene. *)
Lemma battle_step_keeps_streak (o : list (string * value))
  (m : MemoryModule) :
  dict_get o "scene_type" (VStr "UNKNOWN") = VStr "BATTLE" ->
  is_str (dict_get o "summary" (VStr "")) = true ->
  is_dict (py_or (dict_get o "map" (VDict [])) (VDict [])) = true ->
  exists m',
    decide _analyze_movement_preview target_direction oracle_actions
      (VDict o) m = (Ret (Some (mkDecision (VStr "A") "battle")), m')
    /\ streak m' = streak m
    /\ last_scene (_runtime_flags m') = VStr "BATTLE".
Proof.
  intros Hscene Hsum Hmap.
  assert (Hnm : py_eq (dict_get o "scene_type" (VStr "UNKNOWN")) (VStr "MAP")
                = false) by (rewrite Hscene; reflexivity).
  destruct (decide_prelude o m Hsum Hmap Hnm)
    as [m2 [summary [_ [Hstreak ->]]]].
  cbv zeta. rewrite Hscene. cbn [py_eq String.eqb Ascii.eqb Bool.eqb andb].
  eexists. split; [reflexivity|]. split; [exact Hstreak | reflexivity].
Qed.

Lemma ladder_shift (s : Z) (n : nat) :
  map (fun k => VStr (ladder (s + Z.of_nat k))) (seq 2 n) =
  map (fun k => VStr (ladder (s + 1 + Z.of_nat k))) (seq 1 n).
Proof.
  rewrite <- (seq_shift n 1), map_map. apply map_ext. intros k.
  do 2 f_equal. lia.
Qed.

(** Over a run of consecutive dialogue or cutscene steps each call of
    [decide] adds one to the streak counter and returns the action of the
    ladder at the new count: [A] below 40, [B] from 40 to 59, [START]
    from 60 on.  From a streak of 0 the [k]-th step of the run therefore
    returns [A] for [k < 40], [B] for [40 <= k < 60] and [START] for
    [k >= 60]. *)
Theorem dialogue_escalation_ladder :
  forall (observations : list value) (m : MemoryModule),
    forallb dialogue_observation observations = true ->
    exists m',
      decide_run _analyze_movement_preview target_direction oracle_actions
        observations m =
        (Ret (map (fun k => VStr (ladder (streak m + Z.of_nat k)))
                (seq 1 (length observations))), m')
      /\ streak m' = (streak m + Z.of_nat (length observations))%Z
      /\ (forall s, (s < 40)%Z -> ladder s = "A")
      /\ (forall s, (40 <= s < 60)%Z -> ladder s = "B")
      /\ (forall s, (60 <= s)%Z -> ladder s = "START").
Proof.
  assert (Hladder :
            (forall s, (s < 40)%Z -> ladder s = "A")
            /\ (forall s, (40 <= s < 60)%Z -> ladder s = "B")
            /\ (forall s, (60 <= s)%Z -> ladder s = "START")).
  { unfold ladder. repeat split; intros s Hs.
    - destruct (Z.leb_spec 60 s); [lia|].
      destruct (Z.leb_spec 40 s); [lia | reflexivity].
    - destruct (Z.leb_spec 60 s); [lia|].
      destruct (Z.leb_spec 40 s); [reflexivity | lia].
    - destruct (Z.leb_spec 60 s); [reflexivity | lia]. }
  induction observations as [|o os IH]; intros m H.
  - exists m. cbn. split; [reflexivity | split; [lia | exact Hladder]].
  - cbn [forallb] in H. apply andb_prop in H. destruct H as [Ho Hos].
    destruct (decide_dialogue_step o m Ho) as [d [m1 [Hd [Hact Hst]]]].
    destruct (IH m1 Hos) as [m' [Hrun [Hst' _]]].
    exists m'. cbn [decide_run length seq map]. unfold bind.
    rewrite Hd, Hrun. unfold ret. split; [|split; [|exact Hladder]].
    + rewrite Hact, Hst. rewrite <- ladder_shift.
      replace (streak m + Z.of_nat 1)%Z with (streak m + 1)%Z by lia.
      reflexivity.
    + rewrite Hst', Hst. lia.
Qed.

Lemma decide_run_app (l1 l2 : list value) :
  forall (m m1 : MemoryModule) (r1 : list value),
    decide_run _analyze_movement_preview target_direction oracle_actions
      l1 m = (Ret r1, m1) ->
    decide_run _analyze_movement_preview target_direction oracle_actions
      (l1 ++ l2) m =
    (r2 <- decide_run _analyze_movement_preview target_direction
             oracle_actions l2 ;;
     ret (r1 ++ r2)) m1.
Proof.
  induction l1 as [|o os IH]; intros m m1 r1 H.
  - cbn in H. injection H as <- <-. cbn [app]. unfold bind, ret.
    destruct (decide_run _ _ _ l2 m) as [[r2|e] m2]; reflexivity.
  - cbn [decide_run app] in H |- *. unfold bind at 1 in H. unfold bind at 1.
    destruct (decide _ _ _ o m) as [[d|e] m0]; [|discriminate].
    unfold bind at 1 in H. unfold bind at 1.
    destruct (decide_run _ _ _ os m0) as [[rest|e] m0'] eqn:Hos;
      [|discriminate].
    unfold ret in H. injection H as <- <-.
    rewrite (IH m0 m0' rest Hos). unfold bind, ret.
    destruct (decide_run _ _ _ l2 m0') as [[r2|e] m2]; reflexivity.
Qed.

Lemma battle_observation_step (battle : value) (m : MemoryModule) :
  battle_observation battle = true ->
  exists m',
    decide _analyze_movement_preview target_direction oracle_actions
      battle m = (Ret (Some (mkDecision (VStr "A") "battle")), m')
    /\ streak m' = streak m.
Proof.
  unfold battle_observation. destruct battle as [| | | | |o]; try discriminate.
  intros H. apply andb_prop in H. destruct H as [H Hmap].
  apply andb_prop in H. destruct H as [Hscene Hsum].
  assert (Hb : dict_get o "scene_type" (VStr "UNKNOWN") = VStr "BATTLE").
  { destruct (dict_get o "scene_type" (VStr "UNKNOWN")); try discriminate.
    cbn [py_eq] in Hscene. apply String.eqb_eq in Hscene. now subst. }
  destruct (battle_step_keeps_streak o m Hb Hsum Hmap) as [m' [Hd [Hs _]]].
  now exists m'.
Qed.

(** C5: the streak is not reset by a change to a battle.  A battle step
    between two runs of dialogue or cutscene steps is answered [A] and
    leaves the streak counter as it is (it returns before the statement
    that resets the counter, and records itself as the last scene, so
    that no later step resets it either): the steps of the second run go
    on counting where the first run stopped.  After 39 dialogue steps and
    a battle, the first step of a new dialogue is answered [B]. *)
Theorem dialogue_streak_survives_battle :
  forall (before after : list value) (battle : value) (m : MemoryModule),
    forallb dialogue_observation before = true ->
    battle_observation battle = true ->
    forallb dialogue_observation after = true ->
    let n1 := Z.of_nat (length before) in
    exists m',
      decide_run _analyze_movement_preview target_direction oracle_actions
        (before ++ battle :: after) m =
        (Ret (map (fun k => VStr (ladder (streak m + Z.of_nat k)))
                (seq 1 (length before))
              ++ VStr "A"
              :: map (fun k => VStr (ladder (streak m + n1 + Z.of_nat k)))
                   (seq 1 (length after))), m')
      /\ streak m' = (streak m + n1 + Z.of_nat (length after))%Z
      /\ (forall s, (s < 40)%Z -> ladder s = "A")
      /\ (forall s, (40 <= s < 60)%Z -> ladder s = "B")
      /\ (forall s, (60 <= s)%Z -> ladder s = "START").
Proof.
  intros before after battle m Hb Hbattle Ha n1.
  destruct (dialogue_escalation_ladder before m Hb)
    as [m1 [Hrun1 [Hst1 Hladder]]].
  destruct (battle_observation_step battle m1 Hbattle) as [m2 [Hd Hst2]].
  destruct (dialogue_escalation_ladder after m2 Ha)
    as [m3 [Hrun3 [Hst3 _]]].
  exists m3. split; [|split; [|exact Hladder]].
  - rewrite (decide_run_app before (battle :: after) m m1 _ Hrun1).
    cbn [decide_run]. unfold bind. rewrite Hd, Hrun3. unfold ret.
    cbn [action]. rewrite Hst2, Hst1. reflexivity.
  - rewrite Hst3, Hst2, Hst1. reflexivity.
Qed.

End DecisionProperties.

Lemma dialogue_streak_survives_battle_witness :
  forallb Runs.dialogue_observation (repeat Runs.dialogue_obs 39) = true /\
  Runs.battle_observation Runs.battle_obs = true /\
  exists m',
    Runs.decide_run Runs.no_preview Runs.no_target (Runs.oracle_says ["A"])
      (repeat Runs.dialogue_obs 39 ++ [Runs.battle_obs; Runs.dialogue_obs])
      (Runs.fresh_memory Deprecated.Planning.DEFAULT_EMERALD_LT_PLAN) =
      (Ret (repeat (VStr "A") 40 ++ [VStr "B"]), m')
    /\ Runs.streak m' = 40%Z.
Proof.
  split; [reflexivity|]. split; [reflexivity|].
  destruct (dialogue_streak_survives_battle Runs.no_preview Runs.no_target
              (Runs.oracle_says ["A"]) (repeat Runs.dialogue_obs 39)
              [Runs.dialogue_obs] Runs.battle_obs
              (Runs.fresh_memory Deprecated.Planning.DEFAULT_EMERALD_LT_PLAN)
              eq_refl eq_refl eq_refl) as [m' [Hrun [Hst _]]].
  exists m'. split; [exact Hrun | exact Hst].
Defined.

Lemma dialogue_escalation_ladder_witness :
  forallb Runs.dialogue_observation (repeat Runs.dialogue_obs 61) = true /\
  exists m',
    Runs.decide_run Runs.no_preview Runs.no_target (Runs.oracle_says ["A"])
      (repeat Runs.dialogue_obs 61)
      (Runs.fresh_memory Deprecated.Planning.DEFAULT_EMERALD_LT_PLAN) =
      (Ret (repeat (VStr "A") 39 ++ repeat (VStr "B") 20
            ++ repeat (VStr "START") 2), m')
    /\ Runs.streak m' = 61%Z.
Proof.
  split; [reflexivity|].
  destruct (dialogue_escalation_ladder Runs.no_preview Runs.no_target
              (Runs.oracle_says ["A"]) (repeat Runs.dialogue_obs 61)
              (Runs.fresh_memory Deprecated.Planning.DEFAULT_EMERALD_LT_PLAN)
              eq_refl) as [m' [Hrun [Hst _]]].
  exists m'. split; [exact Hrun | exact Hst].
Defined.

Section ValidationProperties.
Import Deprecated Deprecated.Planning Runs.

Lemma in_strs_mem (a : string) (l : list string) : in_strs (VStr a) l = mem a l.
Proof. reflexivity. Qed.

Ltac eval_closed_in_strs :=
  repeat match goal with
         | |- context [in_strs (VStr ?a) ?l] =>
             let v := eval vm_compute in (in_strs (VStr a) l) in
             match v with
             | true => change (in_strs (VStr a) l) with true
             | false => change (in_strs (VStr a) l) with false
             end
         end.

(** The validation block on a proposed direction that is blocked while
    something is walkable: the direction is replaced, by the first
    walkable direction or, under the hard constraint of [go_upstairs], by
    [UP] when [DOWN] was proposed and [UP] is walkable. *)
Lemma validate_blocked_direction (g : option Goal) (nav : bool)
  (recommended : value) (restrict : bool) (walkable : list string)
  (a : string) :
  In a DIRECTIONS -> ~ In a walkable -> walkable <> [] ->
  exists a',
    validate g nav recommended restrict walkable (VStr a)
      = mkDecision (VStr a') "validated_navigation"
    /\ a' <> a /\ In a' walkable
    /\ (a' = hd "" walkable
        \/ (goal_is g "go_upstairs" = true /\ a = "DOWN" /\ a' = "UP")).
Proof.
  intros Hdir Hblocked Hne.
  destruct walkable as [|w ws]; [contradiction|].
  pose proof (mem_false a (w :: ws) Hblocked) as Hmem.
  assert (Hw : w <> a).
  { intros ->. apply Hblocked. now left. }
  unfold validate. fold (goal_is g "go_upstairs").
  destruct (goal_is g "go_upstairs") eqn:Hg.
  - (* hard constraint *)
    cbn in Hdir. destruct Hdir as [<- | [<- | [<- | [<- | []]]]];
      unfold DIRECTIONS; eval_closed_in_strs; cbv beta iota;
      eval_closed_in_strs; rewrite ?in_strs_mem.
    + rewrite Hmem. cbn. exists w.
      split; [reflexivity|]. split; [exact Hw|]. split; [now left | now left].
    + destruct (mem "UP" (w :: ws)) eqn:Hup; cbn.
      * exists "UP". split; [reflexivity|]. split; [discriminate|].
        split; [exact (proj1 (mem_In "UP" (w :: ws)) Hup)|]. right. auto.
      * exists w.
        split; [reflexivity|]. split; [exact Hw|]. split; [now left | now left].
    + rewrite Hmem. cbn. exists w.
      split; [reflexivity|]. split; [exact Hw|]. split; [now left | now left].
    + rewrite Hmem. cbn. exists w.
      split; [reflexivity|]. split; [exact Hw|]. split; [now left | now left].
  - (* soft override: a blocked direction is not a candidate *)
    assert (Hkeep :
      (if nav && truthy recommended && negb (py_eq (VStr a) recommended)
       then
         if py_eq (VStr a) (VStr "A")
            || (in_strs (VStr a) DIRECTIONS && in_strs (VStr a) (w :: ws))
         then
           if false || existsb (fun w0 => py_eq recommended (VStr w0)) (w :: ws)
           then recommended else VStr a
         else VStr a
       else VStr a) = VStr a).
    { destruct (nav && truthy recommended && negb (py_eq (VStr a) recommended));
        [|reflexivity].
      rewrite !in_strs_mem, Hmem, andb_false_r.
      cbn in Hdir. destruct Hdir as [<- | [<- | [<- | [<- | []]]]];
        reflexivity. }
    rewrite Hkeep.
    assert (Hd : in_strs (VStr a) DIRECTIONS = true).
    { rewrite in_strs_mem. now apply mem_In. }
    rewrite Hd, in_strs_mem, Hmem. cbn.
    exists w.
    split; [reflexivity|]. split; [exact Hw|]. split; [now left | now left].
Qed.

Variable _analyze_movement_preview : value -> outcome MovementInfo.
Variable target_direction : value -> MemoryModule -> string -> outcome value.
Variable oracle_actions :
  value -> MemoryModule -> list string -> outcome (list string).

(** C1.  On the map-navigation path, when the oracle is consulted and the
    first action it proposes is a direction that is not in the computed
    walkable set, and that set is not empty, [decide] returns a different
    action, one that is walkable: the first walkable direction, or [UP]
    under the hard constraint of [go_upstairs] when [DOWN] was proposed and
    [UP] is walkable.  The blocked direction is never returned. *)
Theorem blocked_direction_is_never_committed :
  forall (observation : value) (summary_lower : string) (m : MemoryModule)
         (info : MovementInfo) (recommended : value) (a : string)
         (rest : list string),
    let m1 := snd (get_active_goal m) in
    let g := active_goal m in
    let goal_text :=
      match g with Some g => goal g | None => "Progress the game" end in
    let goal_id := match g with Some g => id g | None => "no_goal" end in
    mem goal_id ["leave_the_truck"; "start_game"]
      && (contains "truck" summary_lower || contains "box" summary_lower)
      = false ->
    _analyze_movement_preview observation = Ret info ->
    target_direction observation m1 goal_text = Ret recommended ->
    oracle_actions observation m1 (walkable info) = Ret (a :: rest) ->
    In a DIRECTIONS -> ~ In a (walkable info) -> walkable info <> [] ->
    exists a' m',
      map_navigation _analyze_movement_preview target_direction oracle_actions
        observation summary_lower m
        = (Ret (Some (mkDecision (VStr a') "validated_navigation")), m')
      /\ a' <> a /\ In a' (walkable info)
      /\ (a' = hd "" (walkable info)
          \/ (goal_is g "go_upstairs" = true /\ a = "DOWN" /\ a' = "UP")).
Proof.
  intros observation summary_lower m info recommended a rest m1 g goal_text
    goal_id Htruck Hinfo Htarget Horacle Hdir Hblocked Hne.
  destruct (validate_blocked_direction g
              (contains_any ["go"; "upstairs"; "downstairs"; "exit"; "leave";
                             "enter"; "find"; "reach"] (lower goal_text))
              recommended
              (match g with Some g => movement_only g | None => false end)
              (walkable info) a Hdir Hblocked Hne)
    as [a' [Hv Hrest]].
  exists a'.
  destruct (get_active_goal_total m) as [r Hr].
  pose proof (active_goal_eq m r Hr) as Hact.
  unfold map_navigation.
  unfold bind at 1. rewrite Hr. fold m1.
  unfold bind at 1. unfold gets at 1. fold m1 in Hact. rewrite <- Hact.
  fold g. fold goal_text. fold goal_id. rewrite Htruck.
  unfold bind at 1. unfold lift at 1. rewrite Hinfo.
  unfold bind at 1. unfold gets at 1.
  unfold bind at 1. unfold lift at 1. rewrite Htarget.
  unfold bind at 1. unfold lift at 1. rewrite Horacle.
  unfold bind at 1.
  assert (He : exists m',
             match a :: rest with
             | [] => ret (VList [])
             | [a0] => ret (VStr a0)
             | a0 :: _ :: _ =>
                 enqueue_actions (VList (map VStr (tl (a :: rest)))) ;;;
                 ret (VStr a0)
             end m1 = (Ret (VStr a), m')).
  { destruct rest as [|b rest']; [eexists; reflexivity|].
    unfold bind, enqueue_actions, modify, ret.
    destruct (_normalize_primitives _); eexists; reflexivity. }
  destruct He as [m' ->].
  exists m'. unfold ret. rewrite Hv. split; [reflexivity | exact Hrest].
Qed.

End ValidationProperties.

Lemma blocked_direction_is_never_committed_witness :
  In "DOWN" Deprecated.Planning.DIRECTIONS /\
  ~ In "DOWN" ["UP"; "LEFT"] /\
  exists a' m',
    Deprecated.Planning.map_navigation Runs.walkable_up_left Runs.no_target
      (Runs.oracle_says ["DOWN"; "DOWN"])
      (VDict [("scene_type", VStr "MAP")]) "" Runs.upstairs_memory
    = (Ret (Some (Deprecated.Planning.mkDecision (VStr a')
                    "validated_navigation")), m')
    /\ a' <> "DOWN" /\ In a' ["UP"; "LEFT"]
    /\ (a' = "UP"
        \/ (Deprecated.Planning.goal_is
              (Deprecated.active_goal Runs.upstairs_memory) "go_upstairs"
            = true
            /\ "DOWN" = "DOWN" /\ a' = "UP")).
Proof.
  assert (Hin : In "DOWN" Deprecated.Planning.DIRECTIONS).
  { right. left. reflexivity. }
  assert (Hout : ~ In "DOWN" ["UP"; "LEFT"]).
  { intros [H | [H | []]]; discriminate. }
  assert (Hne : ["UP"; "LEFT"] <> []) by discriminate.
  split; [exact Hin|]. split; [exact Hout|].
  exact (blocked_direction_is_never_committed Runs.walkable_up_left
           Runs.no_target (Runs.oracle_says ["DOWN"; "DOWN"])
           (VDict [("scene_type", VStr "MAP")]) "" Runs.upstairs_memory
           (Deprecated.Planning.mkMovementInfo ["UP"; "LEFT"]
              ["DOWN"; "RIGHT"])
           VNone "DOWN" ["DOWN"]
           eq_refl eq_refl eq_refl eq_refl Hin Hout Hne).
Defined.

(* ===================================================================== *)
(** ** Scenarios of the design document, run on the model *)
(* ===================================================================== *)

(** Scenario A: on the map with goal [leave_the_truck] active and a summary
    that mentions the truck, [decide] returns [RIGHT] with reason
    [truck_exit]; the oracle stand-in, which would answer [A], is not
    consulted. *)
Example scenario_truck_exit :
  fst (Deprecated.Planning.decide Runs.no_preview Runs.no_target
         (Runs.oracle_says ["A"])
         (VDict [("scene_type", VStr "MAP");
                 ("summary", VStr "Inside the moving truck")])
         (Deprecated.set_current_goal (Some (Deprecated.InPlan 1))
            (Runs.fresh_memory Deprecated.Planning.DEFAULT_EMERALD_LT_PLAN)))
  = Ret (Some (Deprecated.Planning.mkDecision (VStr "RIGHT") "truck_exit")).
Proof. reflexivity. Qed.

(** Scenario B: with [UP, A] queued, two map steps return [UP] then [A],
    and the queue is empty afterwards. *)
Example scenario_queue_drain :
  let m := Deprecated.set_pending ["UP"; "A"] (Runs.fresh_memory []) in
  let run :=
    Runs.decide_run Runs.no_preview Runs.no_target (Runs.oracle_says ["B"])
      [VDict [("scene_type", VStr "MAP")]; VDict [("scene_type", VStr "MAP")]]
      m in
  fst run = Ret [VStr "UP"; VStr "A"] /\
  Deprecated._GLOBAL_PENDING (snd run) = [].
Proof. split; reflexivity. Qed.

(** The streak is reset by a step that reaches the reset statement (here
    a transition screen after three dialogue steps), and survives a battle
    step, which returns before it. *)
Example streak_reset_after_dialogue :
  Runs.streak
    (snd (Runs.decide_run Runs.no_preview Runs.no_target
            (Runs.oracle_says ["A"])
            (repeat Runs.dialogue_obs 3
             ++ [VDict [("scene_type", VStr "TRANSITION")]])
            (Runs.fresh_memory []))) = 0%Z.
Proof. reflexivity. Qed.

Example streak_survives_battle :
  Runs.streak
    (snd (Runs.decide_run Runs.no_preview Runs.no_target
            (Runs.oracle_says ["A"])
            (repeat Runs.dialogue_obs 3
             ++ [VDict [("scene_type", VStr "BATTLE")]; Runs.dialogue_obs])
            (Runs.fresh_memory []))) = 4%Z.
Proof. reflexivity. Qed.

(** Scenario C: goal [go_upstairs], the oracle answers [DOWN], walkable is
    [UP, DOWN]: the hard override returns [UP]. *)
Example scenario_hard_override :
  Deprecated.Planning.validate
    (Some (Deprecated.mkGoal "go_upstairs" "Go upstairs to second floor"
             "pending" ["2f"; "second floor"] false))
    true VNone false ["UP"; "DOWN"] (VStr "DOWN")
  = Deprecated.Planning.mkDecision (VStr "UP") "validated_navigation".
Proof. reflexivity. Qed.

(* ===================================================================== *)
(** ** Facts about strings and patterns *)
(* ===================================================================== *)

Section StringFacts.
Import PyStr.

Lemma string_app_nil_r (s : string) : (s ++ "")%string = s.
Proof. induction s; cbn; congruence. Qed.

Lemma string_app_assoc (a b c : string) :
  ((a ++ b) ++ c)%string = (a ++ (b ++ c))%string.
Proof. induction a; cbn; congruence. Qed.

Lemma string_length_app (a b : string) :
  String.length (a ++ b) = String.length a + String.length b.
Proof. induction a; cbn; congruence. Qed.

Lemma substring_prefix (u v : string) :
  substring 0 (String.length (u ++ v) - String.length v) (u ++ v) = u.
Proof.
  rewrite string_length_app.
  replace (String.length u + String.length v - String.length v)
    with (String.length u) by lia.
  induction u as [|x u IH]; cbn.
  - destruct v; reflexivity.
  - now rewrite IH.
Qed.

Lemma map_string_app f (a b : string) :
  map_string f (a ++ b) = (map_string f a ++ map_string f b)%string.
Proof. induction a; cbn; congruence. Qed.

Lemma map_string_length f (a : string) :
  String.length (map_string f a) = String.length a.
Proof. induction a; cbn; congruence. Qed.

Lemma string_app_inj_length (a b c d : string) :
  String.length a = String.length c ->
  (a ++ b)%string = (c ++ d)%string -> a = c /\ b = d.
Proof.
  revert c. induction a as [|x a IH]; intros [|y c] Hl H; cbn in *;
    try discriminate.
  - now split.
  - injection H as -> H. injection Hl as Hl.
    destruct (IH c Hl H) as [-> ->]. now split.
Qed.

Lemma upper_char_idem (c : ascii) : upper_char (upper_char c) = upper_char c.
Proof.
  destruct c as [[] [] [] [] [] [] [] []]; reflexivity.
Qed.

Lemma upper_idem (s : string) : upper (upper s) = upper s.
Proof.
  unfold upper. induction s; cbn; [reflexivity|].
  now rewrite upper_char_idem, IHs.
Qed.

(** A part of a string that [upper] leaves alone is left alone too. *)
Lemma upper_fixed_app (a b : string) :
  upper (a ++ b) = (a ++ b)%string -> upper a = a /\ upper b = b.
Proof.
  unfold upper. rewrite map_string_app. intros H.
  apply string_app_inj_length in H; [exact H|apply map_string_length].
Qed.

End StringFacts.

Section PatternFacts.
Import PyStr Re.

(** What the matcher finds is a way the pattern matches: the word it
    consumed, with the groups of that way in front of the earlier ones. *)
Lemma run_sound (r : regex) :
  forall (A : Type) (s : string) (c : captures)
         (k : string -> captures -> option A) (x : A),
    run r s c k = Some x ->
    exists w s' n,
      s = (w ++ s')%string /\ parses r w n /\ k s' (n ++ c) = Some x.
Proof.
  induction r as [|p|a IHa b IHb|a IHa b IHb|a IHa|i a IHa];
    intros A s c k x H; cbn [run] in H.
  - exists "", s, []. repeat split; [constructor | exact H].
  - destruct s as [|y s']; [discriminate|].
    destruct (p y) eqn:Hp; [|discriminate].
    exists (String y ""), s', []. repeat split; [now constructor | exact H].
  - apply IHa in H. destruct H as (u & s1 & cu & -> & Hu & H).
    apply IHb in H. destruct H as (v & s2 & cv & -> & Hv & H).
    exists (u ++ v)%string, s2, (cv ++ cu). repeat split.
    + now rewrite string_app_assoc.
    + now constructor.
    + now rewrite <- app_assoc.
  - destruct (run a s c k) eqn:Ha.
    + injection H as ->. apply IHa in Ha.
      destruct Ha as (u & s1 & cu & -> & Hu & H).
      exists u, s1, cu. repeat split; [now apply parses_alt_l | exact H].
    + apply IHb in H. destruct H as (u & s1 & cu & -> & Hu & H).
      exists u, s1, cu. repeat split; [now apply parses_alt_r | exact H].
  - remember (S (String.length s)) as n eqn:Hn. clear Hn.
    revert s c H. induction n as [|n IHn]; intros s c H; cbn [star_loop] in H.
    + exists "", s, []. repeat split; [constructor | exact H].
    + match type of H with
      | match ?e with _ => _ end = _ => destruct e eqn:Ha
      end.
      * injection H as ->. apply IHa in Ha.
        destruct Ha as (u & s1 & cu & -> & Hu & H).
        destruct (String.length s1 <? String.length (u ++ s1))%nat;
          [|discriminate].
        apply IHn in H. destruct H as (v & s2 & cv & -> & Hv & H).
        exists (u ++ v)%string, s2, (cv ++ cu). repeat split.
        -- now rewrite string_app_assoc.
        -- now constructor.
        -- now rewrite <- app_assoc.
      * exists "", s, []. repeat split; [constructor | exact H].
  - apply IHa in H. destruct H as (u & s1 & cu & -> & Hu & H).
    rewrite substring_prefix in H.
    exists u, s1, ((i, u) :: cu). repeat split; [now constructor | exact H].
Qed.

Lemma re_match_sound (r : regex) (s : string) (c : captures) (rest : string) :
  re_match r s = Some (c, rest) ->
  exists w, s = (w ++ rest)%string /\ parses r w c.
Proof.
  unfold re_match. intros H. apply run_sound in H.
  destruct H as (w & s' & n & -> & Hw & H).
  injection H as <- <-. exists w. now rewrite app_nil_r.
Qed.

Lemma parses_seq_inv (a b : regex) (w : string) (c : captures) :
  parses (Seq a b) w c ->
  exists u v cu cv,
    w = (u ++ v)%string /\ c = cv ++ cu /\ parses a u cu /\ parses b v cv.
Proof. inversion 1; subst. now exists u, v, cu, cv. Qed.

Lemma parses_alt_inv (a b : regex) (w : string) (c : captures) :
  parses (Alt a b) w c -> parses a w c \/ parses b w c.
Proof. inversion 1; subst; auto. Qed.

Lemma parses_group_inv (i : nat) (a : regex) (w : string) (c : captures) :
  parses (Group i a) w c -> exists c', c = (i, w) :: c' /\ parses a w c'.
Proof. inversion 1; subst. now exists c0. Qed.

Lemma parses_class_inv (p : ascii -> bool) (w : string) (c : captures) :
  parses (Class p) w c -> exists x, w = String x "" /\ p x = true /\ c = [].
Proof. inversion 1; subst. now exists x. Qed.

Lemma parses_eps_inv (w : string) (c : captures) :
  parses Eps w c -> w = "" /\ c = [].
Proof. inversion 1; now subst. Qed.

Lemma parses_groupless (r : regex) (w : string) (c : captures) :
  groupless r = true -> parses r w c -> c = [].
Proof.
  intros Hg H. induction H; cbn in Hg; try reflexivity;
    try (apply andb_prop in Hg; destruct Hg as [Ha Hb]); auto.
  - now rewrite IHparses1, IHparses2.
  - now rewrite IHparses1, IHparses2.
  - discriminate.
Qed.

Lemma parses_star_class (p : ascii -> bool) (w : string) (c : captures) :
  parses (Star (Class p)) w c -> all_chars p w = true.
Proof.
  remember (Star (Class p)) as r eqn:Hr. intros H.
  induction H; try discriminate; [reflexivity|].
  injection Hr as ->. apply parses_class_inv in H.
  destruct H as (x & -> & Hx & _). cbn. rewrite Hx. now apply IHparses2.
Qed.

Lemma parses_plus_class (p : ascii -> bool) (w : string) (c : captures) :
  parses (plus (Class p)) w c ->
  c = [] /\ w <> "" /\ all_chars p w = true.
Proof.
  intros H. split; [now apply (parses_groupless (plus (Class p)) w c)|].
  apply parses_seq_inv in H. destruct H as (u & v & cu & cv & -> & _ & Hu & Hv).
  apply parses_class_inv in Hu. destruct Hu as (x & -> & Hx & _).
  apply parses_star_class in Hv. cbn. rewrite Hx, Hv. now split.
Qed.

Lemma groupless_lit (t : string) : groupless (lit t) = true.
Proof. induction t; cbn; auto. Qed.

Lemma groupless_lit_i (t : string) : groupless (lit_i t) = true.
Proof. induction t; cbn; auto. Qed.

Lemma parses_lit (t w : string) (c : captures) :
  parses (lit t) w c -> w = t /\ c = [].
Proof.
  intros H. split; [|now apply (parses_groupless _ _ _ (groupless_lit t) H)].
  revert w c H. induction t as [|x t IH]; intros w c H; cbn in H.
  - now apply parses_eps_inv in H.
  - apply parses_seq_inv in H.
    destruct H as (u & v & cu & cv & -> & _ & Hu & Hv).
    apply parses_class_inv in Hu. destruct Hu as (y & -> & Hy & _).
    apply Ascii.eqb_eq in Hy. subst y. cbn. f_equal. eauto.
Qed.

Lemma parses_lit_i (t w : string) (c : captures) :
  parses (lit_i t) w c -> upper w = upper t /\ c = [].
Proof.
  intros H. split; [|now apply (parses_groupless _ _ _ (groupless_lit_i t) H)].
  revert w c H. induction t as [|x t IH]; intros w c H; cbn in H.
  - apply parses_eps_inv in H. now destruct H as [-> _].
  - apply parses_seq_inv in H.
    destruct H as (u & v & cu & cv & -> & _ & Hu & Hv).
    apply parses_class_inv in Hu. destruct Hu as (y & -> & Hy & _).
    apply Ascii.eqb_eq in Hy. unfold upper in *. cbn. rewrite Hy. f_equal.
    eauto.
Qed.

(** A match of [a|b|...] is a match of one of the alternatives. *)
Lemma parses_alts (l : list regex) (w : string) (c : captures) :
  parses (alts l) w c -> exists a, In a l /\ parses a w c.
Proof.
  induction l as [|a l IH]; cbn.
  - intros H. apply parses_class_inv in H. destruct H as (_ & _ & H & _).
    discriminate.
  - destruct l as [|b l].
    + intros H. exists a. auto.
    + intros H. apply parses_alt_inv in H. destruct H as [H|H].
      * exists a. auto.
      * destruct (IH H) as (a' & Hin & Ha'). exists a'. auto.
Qed.

End PatternFacts.

Section NumeralFacts.
Import PyStr Re.

Lemma digit_not_space (c : ascii) :
  OpenAI.is_digit c = true -> is_space c = false.
Proof.
  destruct c as [[] [] [] [] [] [] [] []]; vm_compute; congruence.
Qed.

Lemma lstrip_head (c : ascii) (s : string) :
  is_space c = false -> lstrip (String c s) = String c s.
Proof. intros H. cbn. now rewrite H. Qed.

Lemma rstrip_no_space (s : string) :
  all_chars (fun c => negb (is_space c)) s = true -> rstrip s = s.
Proof.
  induction s as [|c s IH]; cbn; [reflexivity|].
  intros H. apply andb_prop in H. destruct H as [Hc Hs].
  rewrite (IH Hs). destruct s; [|reflexivity].
  now rewrite (negb_true_iff _) in Hc; rewrite Hc.
Qed.

Lemma strip_no_space (s : string) :
  all_chars (fun c => negb (is_space c)) s = true -> strip s = s.
Proof.
  intros H. unfold strip.
  destruct s as [|c s]; [reflexivity|].
  assert (Hc : is_space c = false).
  { cbn in H. apply andb_prop in H. now apply negb_true_iff. }
  rewrite (lstrip_head c s Hc). now apply rstrip_no_space.
Qed.

Lemma all_chars_impl (p q : ascii -> bool) (s : string) :
  (forall c, p c = true -> q c = true) ->
  all_chars p s = true -> all_chars q s = true.
Proof.
  intros Hpq. induction s as [|c s IH]; cbn; [reflexivity|].
  intros H. apply andb_prop in H. destruct H as [Hc Hs].
  now rewrite (Hpq c Hc), (IH Hs).
Qed.

Lemma digits_value_total (s : string) :
  all_chars OpenAI.is_digit s = true ->
  forall acc, (0 <= acc)%Z ->
  exists n, OpenAI.digits_value s acc = Some n /\ (0 <= n)%Z.
Proof.
  induction s as [|c s IH]; cbn [OpenAI.digits_value all_chars];
    intros H acc Hacc.
  - now exists acc.
  - apply andb_prop in H. destruct H as [Hc Hs]. rewrite Hc.
    apply (IH Hs).
    pose proof (Nat2Z.is_nonneg (nat_of_ascii c - 48)). lia.
Qed.

(** [int(d)] of a run of digits: a number that is not negative. *)
Lemma int_of_digits (d : string) :
  d <> "" -> all_chars OpenAI.is_digit d = true ->
  exists n, OpenAI.py_int (VStr d) = Ret n /\ (0 <= n)%Z.
Proof.
  intros Hne Hd. unfold OpenAI.py_int, OpenAI.parse_int.
  rewrite strip_no_space.
  2:{ apply (all_chars_impl OpenAI.is_digit); [|exact Hd].
      intros c Hc. now rewrite (digit_not_space c Hc). }
  destruct (digits_value_total d Hd 0%Z) as (n & Hn & Hpos); [lia|].
  exists n. split; [|exact Hpos].
  destruct d as [|c r]; [congruence|].
  assert (Hc : OpenAI.is_digit c = true).
  { cbn in Hd. now apply andb_prop in Hd. }
  destruct c as [[] [] [] [] [] [] [] []]; try discriminate Hc;
    destruct r; rewrite Hn; reflexivity.
Qed.

Lemma digit_count_all (s : string) :
  all_chars OpenAI.is_digit s = true -> digit_count s = String.length s.
Proof.
  induction s as [|c s IH]; cbn [all_chars digit_count String.length];
    [reflexivity|].
  intros H. apply andb_prop in H. destruct H as [Hc Hs].
  now rewrite Hc, (IH Hs).
Qed.

(** [int] of a run of digits: a number that is not negative when the run
    has at most 4300 digits, [ValueError] when it has more. *)
Lemma int_of_text_digits (d : string) :
  d <> "" -> all_chars OpenAI.is_digit d = true ->
  (exists n, int_of_text d = Ret n /\ (0 <= n)%Z
             /\ (Z.of_nat (String.length d) <= 4300)%Z)
  \/ (int_of_text d = Raise ValueError
      /\ (4300 < Z.of_nat (String.length d))%Z).
Proof.
  intros Hne Hd. unfold int_of_text, int_max_str_digits.
  rewrite (digit_count_all d Hd).
  destruct (Z.ltb_spec 4300 (Z.of_nat (String.length d))) as [Hl|Hl].
  - right. now split.
  - left. destruct (int_of_digits d Hne Hd) as (n & Hn & Hpos).
    exists n. repeat split; assumption.
Qed.

Lemma lstrip_length (s : string) :
  String.length (lstrip s) <= String.length s.
Proof.
  induction s as [|c s IH]; cbn [lstrip String.length]; [lia|].
  destruct (is_space c); cbn [String.length]; lia.
Qed.

Lemma rstrip_length (s : string) :
  String.length (rstrip s) <= String.length s.
Proof.
  induction s as [|c s IH]; cbn [rstrip String.length]; [lia|].
  destruct (rstrip s); [destruct (is_space c)|]; cbn [String.length] in *; lia.
Qed.

Lemma strip_length (s : string) :
  String.length (strip s) <= String.length s.
Proof.
  unfold strip. pose proof (rstrip_length (lstrip s)).
  pose proof (lstrip_length s). lia.
Qed.

Lemma upper_length (s : string) :
  String.length (upper s) = String.length s.
Proof. apply map_string_length. Qed.

End NumeralFacts.

(* ===================================================================== *)
(** ** Properties of the action modules *)
(* ===================================================================== *)

Section ActionProperties.
Import PyStr Re.


Lemma Forall_filter_true {A : Type} (f : A -> bool) (l : list A) :
  Forall (fun x => f x = true) (filter f l).
Proof.
  induction l as [|x l IH]; cbn; [constructor|].
  destruct (f x) eqn:Hx; [now constructor | exact IH].
Qed.

Lemma Forall_mem_In (l valid : list string) :
  Forall (fun b => mem b valid = true) l -> Forall (fun b => In b valid) l.
Proof.
  apply Forall_impl. intros b. apply mem_In.
Qed.



End ActionProperties.

Section OpenAIActionProperties.
Import PyStr Re.

Ltac seq_inv H u v cu cv Hu Hv :=
  apply parses_seq_inv in H;
  destruct H as (u & v & cu & cv & ? & ? & Hu & Hv); subst.

Lemma Forall_repeat {A : Type} (P : A -> Prop) (x : A) (n : nat) :
  P x -> Forall P (repeat x n).
Proof. intros H. induction n; cbn; auto. Qed.

(** What a match of [MOVE_PATTERN] captures: a direction up to case and a
    run of digits. *)
Lemma move_pattern_groups (w : string) (c : captures) :
  parses ActionOpenAI.MOVE_PATTERN w c ->
  exists pre direction mid steps,
    w = (pre ++ direction ++ mid ++ steps)%string
    /\ c = [(2, steps); (1, direction)]
    /\ In (upper direction) ["UP"; "DOWN"; "LEFT"; "RIGHT"]
    /\ steps <> "" /\ all_chars OpenAI.is_digit steps = true.
Proof.
  unfold ActionOpenAI.MOVE_PATTERN. intros H.
  seq_inv H u1 v1 cu1 cv1 H1 H.
  seq_inv H u2 v2 cu2 cv2 H2 H.
  seq_inv H u3 v3 cu3 cv3 H3 H.
  seq_inv H u4 v4 cu4 cv4 H4 H.
  apply parses_lit_i in H1. destruct H1 as [_ ->].
  apply parses_plus_class in H2. destruct H2 as (-> & _ & _).
  apply parses_plus_class in H4. destruct H4 as (-> & _ & _).
  apply parses_group_inv in H3. destruct H3 as (c3 & -> & H3).
  apply parses_group_inv in H. destruct H as (c5 & -> & H).
  apply parses_plus_class in H. destruct H as (-> & Hne & Hd).
  apply parses_alts in H3. destruct H3 as (a & Hin & Ha).
  exists (u1 ++ u2)%string, u3, u4, v4.
  assert (Hdir : c3 = [] /\ In (upper u3) ["UP"; "DOWN"; "LEFT"; "RIGHT"]).
  { cbn [In] in Hin.
    destruct Hin as [<-|[<-|[<-|[<-|[]]]]];
      apply parses_lit_i in Ha; destruct Ha as [Hu ->]; rewrite Hu;
      split; try reflexivity; cbn; auto. }
  destruct Hdir as [-> Hdir].
  repeat split; auto.
  now rewrite string_app_assoc.
Qed.

Lemma press_pattern_groups (w : string) (c : captures) :
  parses ActionOpenAI.PRESS_PATTERN w c -> exists g, c = [(1, g)].
Proof.
  unfold ActionOpenAI.PRESS_PATTERN. intros H.
  seq_inv H u1 v1 cu1 cv1 H1 H.
  seq_inv H u2 v2 cu2 cv2 H2 H.
  apply parses_lit_i in H1. destruct H1 as [_ ->].
  apply parses_plus_class in H2. destruct H2 as (-> & _ & _).
  apply parses_group_inv in H. destruct H as (c3 & -> & H).
  apply parses_plus_class in H. destruct H as (-> & _ & _).
  now exists v2.
Qed.

Lemma menu_pattern_groups (w : string) (c : captures) :
  parses ActionOpenAI.MENU_PATTERN w c -> exists g, c = [(1, g)].
Proof.
  unfold ActionOpenAI.MENU_PATTERN. intros H.
  seq_inv H u1 v1 cu1 cv1 H1 H.
  seq_inv H u2 v2 cu2 cv2 H2 H.
  seq_inv H u3 v3 cu3 cv3 H3 H.
  seq_inv H u4 v4 cu4 cv4 H4 H.
  apply parses_lit_i in H1. destruct H1 as [_ ->].
  apply (parses_groupless (Star space)) in H2; [subst|reflexivity].
  apply parses_lit in H3. destruct H3 as [_ ->].
  apply (parses_groupless (Star space)) in H4; [subst|reflexivity].
  apply parses_group_inv in H. destruct H as (c3 & -> & H).
  apply parses_plus_class in H. destruct H as (-> & _ & _).
  now exists v4.
Qed.

Lemma menu_step_valid (step : string) :
  Forall (fun b => In b ActionOpenAI.VALID_BUTTONS)
    (ActionOpenAI.menu_step step).
Proof.
  unfold ActionOpenAI.menu_step.
  destruct (mem (upper (strip step)) ActionOpenAI.VALID_BUTTONS) eqn:Hm.
  - constructor; [now apply mem_In | constructor].
  - destruct (mem (upper (strip step)) ["BAG"; "POKEMON"; "SAVE"]);
      repeat (apply Forall_cons; [now apply mem_In|]); apply Forall_nil.
Qed.

(** X2.  On a text made of ASCII characters and of the arrow of the
    menu directive, every command [_parse_action] of the openai action
    module returns is a button of [VALID_BUTTONS], whatever the
    directive: a button, [MOVE], [PRESS], [INTERACT], a [MENU] path or a
    list of tokens.  It raises for one reason only: [ValueError] from
    [int] on the count of a [MOVE] of more than 4300 digits, so never on
    a text of at most 4300 bytes. *)
Theorem openai_parse_action_valid (action : string) :
  plain action = true ->
  match ActionOpenAI._parse_action action with
  | Ret commands => Forall (fun b => In b ActionOpenAI.VALID_BUTTONS) commands
  | Raise e => e = ValueError /\ (4300 < Z.of_nat (String.length action))%Z
  end.
Proof.
  intros _. unfold ActionOpenAI._parse_action.
  set (a := upper (strip action)).
  assert (Hlen : String.length a <= String.length action).
  { unfold a. rewrite upper_length. apply strip_length. }
  assert (Hup : upper a = a) by apply upper_idem.
  cbv zeta.
  destruct (mem a ActionOpenAI.VALID_BUTTONS) eqn:Hv.
  { constructor; [now apply mem_In | constructor]. }
  destruct (re_match ActionOpenAI.MOVE_PATTERN a) as [[mm rest]|] eqn:Hmove.
  { apply re_match_sound in Hmove. destruct Hmove as (w & Ha & Hw).
    apply move_pattern_groups in Hw.
    destruct Hw as (pre & direction & mid & steps & -> & -> & Hdir & Hne & Hd).
    cbn [group Nat.eqb].
    destruct (int_of_text_digits steps Hne Hd)
      as [(n & -> & _ & _)|[-> Hlong]]; cbn [obind].
    - apply Forall_repeat.
      rewrite Ha in Hup. rewrite !string_app_assoc in Hup.
      apply upper_fixed_app in Hup. destruct Hup as [_ Hup].
      apply upper_fixed_app in Hup. destruct Hup as [Hup _].
      rewrite Hup in Hdir. cbn in Hdir |- *. intuition.
    - split; [reflexivity|].
      rewrite Ha, !string_length_app in Hlen. lia. }
  match goal with
  | |- context [match re_match ActionOpenAI.PRESS_PATTERN a with
                | Some _ => _
                | None => ?ap
                end] =>
      assert (Hafter :
                exists commands,
                  ap = Ret commands
                  /\ Forall (fun b => In b ActionOpenAI.VALID_BUTTONS) commands)
  end.
  { destruct (startswith a "INTERACT").
    { exists ["A"]. split; [reflexivity|].
      apply Forall_cons; [now apply mem_In | apply Forall_nil]. }
    destruct (re_match ActionOpenAI.MENU_PATTERN a) as [[m rest]|] eqn:Hmenu.
    { apply re_match_sound in Hmenu. destruct Hmenu as (w & _ & Hw).
      apply menu_pattern_groups in Hw. destruct Hw as (g & ->).
      cbn [group Nat.eqb]. eexists. split; [reflexivity|].
      induction (split g "→") as [|step l IH]; cbn; [constructor|].
      apply Forall_app. split; [apply menu_step_valid | exact IH]. }
    pose proof
      (Forall_filter_true (fun t => mem t ActionOpenAI.VALID_BUTTONS)
         (re_split ActionOpenAI.SEPARATORS a)) as Hf.
    destruct (filter _ _) as [|b l].
    - exists ["A"]. split; [reflexivity|].
      apply Forall_cons; [now apply mem_In | apply Forall_nil].
    - exists (b :: l). split; [reflexivity|]. now apply Forall_mem_In. }
  destruct Hafter as (commands & Hafter & Hvalid).
  destruct (re_match ActionOpenAI.PRESS_PATTERN a) as [[pm rest]|] eqn:Hpress;
    [|rewrite Hafter; exact Hvalid].
  apply re_match_sound in Hpress. destruct Hpress as (w & _ & Hw).
  apply press_pattern_groups in Hw. destruct Hw as (g & ->).
  cbn [group Nat.eqb].
  destruct (mem (ActionOpenAI.normalize_button_name g)
              ActionOpenAI.VALID_BUTTONS) eqn:Hb;
    [|rewrite Hafter; exact Hvalid].
  constructor; [now apply mem_In | constructor].
Qed.

Lemma openai_parse_action_valid_witness :
  plain "MENU → BAG → a" = true /\
  match ActionOpenAI._parse_action "MENU → BAG → a" with
  | Ret commands => Forall (fun b => In b ActionOpenAI.VALID_BUTTONS) commands
  | Raise e => e = ValueError
               /\ (4300 < Z.of_nat (String.length "MENU → BAG → a"))%Z
  end.
Proof.
  split; [reflexivity|].
  apply (openai_parse_action_valid "MENU → BAG → a"). reflexivity.
Defined.

(** What the menu directive of the witness is read as. *)
Example parse_menu_path :
  ActionOpenAI._parse_action "MENU → BAG → a" = Ret ["START"; "A"; "A"].
Proof. reflexivity. Qed.

End OpenAIActionProperties.

(* ===================================================================== *)
(** ** Properties of the reading of the oracle's reply *)
(* ===================================================================== *)

Section ReplyProperties.
Import PyStr Re ReplyDeprecated.

Ltac seq_inv H u v cu cv Hu Hv :=
  apply parses_seq_inv in H;
  destruct H as (u & v & cu & cv & ? & ? & Hu & Hv); subst.

Lemma dirs_groups (w : string) (c : captures) :
  parses DIRS w c -> c = [] /\ In w ["UP"; "DOWN"; "LEFT"; "RIGHT"].
Proof.
  unfold DIRS. intros H. apply parses_alts in H.
  destruct H as (a & Hin & Ha). cbn [In] in Hin.
  destruct Hin as [<-|[<-|[<-|[<-|[]]]]];
    apply parses_lit in Ha; destruct Ha as [-> ->];
    split; try reflexivity; cbn; auto.
Qed.

Lemma dir_steps_groups (w : string) (c : captures) :
  parses DIR_STEPS w c ->
  exists direction steps,
    c = [(2, steps); (1, direction)]
    /\ In direction ["UP"; "DOWN"; "LEFT"; "RIGHT"]
    /\ steps <> "" /\ all_chars OpenAI.is_digit steps = true
    /\ String.length steps <= String.length w.
Proof.
  unfold DIR_STEPS. intros H.
  seq_inv H u1 v1 cu1 cv1 H1 H.
  seq_inv H u2 v2 cu2 cv2 H2 H.
  apply parses_group_inv in H1. destruct H1 as (c1 & -> & H1).
  apply dirs_groups in H1. destruct H1 as [-> Hdir].
  apply parses_plus_class in H2. destruct H2 as (-> & _ & _).
  apply parses_group_inv in H. destruct H as (c3 & -> & H).
  apply parses_plus_class in H. destruct H as (-> & Hne & Hd).
  exists u1, v2. repeat split; auto.
  rewrite !string_length_app. lia.
Qed.

Lemma move_steps_groups (w : string) (c : captures) :
  parses MOVE_STEPS w c ->
  exists direction,
    In direction ["UP"; "DOWN"; "LEFT"; "RIGHT"]
    /\ (c = [(1, direction)]
        \/ exists steps,
             c = [(2, steps); (1, direction)]
             /\ steps <> "" /\ all_chars OpenAI.is_digit steps = true
             /\ String.length steps <= String.length w).
Proof.
  unfold MOVE_STEPS. intros H.
  seq_inv H u1 v1 cu1 cv1 H1 H.
  seq_inv H u2 v2 cu2 cv2 H2 H.
  seq_inv H u3 v3 cu3 cv3 H3 H.
  apply parses_lit in H1. destruct H1 as [_ ->].
  apply parses_plus_class in H2. destruct H2 as (-> & _ & _).
  apply parses_group_inv in H3. destruct H3 as (c1 & -> & H3).
  apply dirs_groups in H3. destruct H3 as [-> Hdir].
  exists u3. split; [exact Hdir|].
  apply parses_alt_inv in H. destruct H as [H|H].
  - seq_inv H u4 v4 cu4 cv4 H4 H.
    apply parses_plus_class in H4. destruct H4 as (-> & _ & _).
    apply parses_group_inv in H. destruct H as (c3 & -> & H).
    apply parses_plus_class in H. destruct H as (-> & Hne & Hd).
    right. exists v4. repeat split; auto.
    rewrite !string_length_app. lia.
  - apply parses_eps_inv in H. destruct H as [_ ->]. now left.
Qed.

Lemma press_button_groups (w : string) (c : captures) :
  parses PRESS_BUTTON w c ->
  exists b, c = [(1, b)] /\ In b ActionDeprecated.VALID_BUTTONS.
Proof.
  unfold PRESS_BUTTON. intros H.
  seq_inv H u1 v1 cu1 cv1 H1 H.
  seq_inv H u2 v2 cu2 cv2 H2 H.
  apply parses_lit in H1. destruct H1 as [_ ->].
  apply parses_plus_class in H2. destruct H2 as (-> & _ & _).
  apply parses_group_inv in H. destruct H as (c3 & -> & H).
  apply parses_alts in H. destruct H as (a & Hin & Ha).
  exists v2. cbn [In] in Hin.
  destruct Hin as [<-|[<-|[<-|[<-|[<-|[<-|[<-|[<-|[]]]]]]]]];
    apply parses_lit in Ha; destruct Ha as [-> ->];
    (split; [reflexivity | now apply mem_In]).
Qed.

(** [_normalize_action] returns a button or up to three copies of a
    direction; it raises only [ValueError], from [int] on a count of more
    than 4300 digits. *)
Lemma normalize_action_normalized (action_str : string) :
  (exists v, _normalize_action action_str = Ret v /\ normalized v)
  \/ (_normalize_action action_str = Raise ValueError
      /\ (4300 < Z.of_nat (String.length action_str))%Z).
Proof.
  unfold _normalize_action.
  set (a := strip (upper action_str)).
  assert (Hlen : String.length a <= String.length action_str).
  { unfold a. pose proof (strip_length (upper action_str)) as H.
    now rewrite upper_length in H. }
  destruct (re_match DIR_STEPS a) as [[m rest]|] eqn:Hds.
  { apply re_match_sound in Hds. destruct Hds as (w & Ha & Hw).
    apply dir_steps_groups in Hw.
    destruct Hw as (direction & steps & -> & Hdir & Hne & Hd & Hl).
    cbn [group Nat.eqb].
    destruct (int_of_text_digits steps Hne Hd)
      as [(n & -> & Hn & _)|[-> Hlong]]; cbn [obind].
    - left. eexists. split; [reflexivity|].
      right. exists direction, (Z.to_nat (Z.min n 3)).
      repeat split; [exact Hdir | lia].
    - right. split; [reflexivity|].
      rewrite Ha, string_length_app in Hlen. lia. }
  destruct (mem a ["UP"; "DOWN"; "LEFT"; "RIGHT"]) eqn:Hd.
  { left. eexists. split; [reflexivity|]. left. exists a.
    split; [reflexivity|]. apply mem_In in Hd. cbn in Hd |- *. intuition. }
  destruct (mem a ["A"; "B"; "START"; "SELECT"]) eqn:Hb.
  { left. eexists. split; [reflexivity|]. left. exists a.
    split; [reflexivity|]. apply mem_In in Hb. cbn in Hb |- *. intuition. }
  destruct (re_match MOVE_STEPS a) as [[m rest]|] eqn:Hms.
  { apply re_match_sound in Hms. destruct Hms as (w & Ha & Hw).
    apply move_steps_groups in Hw.
    destruct Hw as (direction & Hdir & [->|(steps & -> & Hne & Hdg & Hl)]);
      cbn [group Nat.eqb obind].
    - left. eexists. split; [reflexivity|]. left. exists direction.
      split; [reflexivity|]. cbn in Hdir |- *. intuition.
    - destruct (int_of_text_digits steps Hne Hdg)
        as [(n & -> & Hn & _)|[-> Hlong]]; cbn [obind].
      + left. destruct (1 <? Z.min n 3)%Z.
        * eexists. split; [reflexivity|].
          right. exists direction, (Z.to_nat (Z.min n 3)).
          repeat split; [exact Hdir | lia].
        * eexists. split; [reflexivity|]. left. exists direction.
          split; [reflexivity|]. cbn in Hdir |- *. intuition.
      + right. split; [reflexivity|].
        rewrite Ha, string_length_app in Hlen. lia. }
  left.
  destruct (re_match PRESS_BUTTON a) as [[m rest]|] eqn:Hpb.
  { apply re_match_sound in Hpb. destruct Hpb as (w & _ & Hw).
    apply press_button_groups in Hw. destruct Hw as (b & -> & Hb').
    cbn [group Nat.eqb]. eexists. split; [reflexivity|]. left. now exists b. }
  eexists. split; [reflexivity|]. left. exists "A". split; [reflexivity|].
  now apply mem_In.
Qed.

Lemma Forall_repeat_value {A : Type} (P : A -> Prop) (x : A) (n : nat) :
  P x -> Forall P (repeat x n).
Proof. intros H. induction n; cbn; auto. Qed.

Lemma normalized_extend (validated : list value) (v : value) :
  Forall is_button validated -> normalized v ->
  Forall is_button (extend_or_append validated v).
Proof.
  intros Hv [(b & -> & Hb)|(d & n & -> & Hd & _)]; cbn;
    apply Forall_app; split; auto.
  - constructor; [now exists b | constructor].
  - apply Forall_repeat_value. exists d. split; [reflexivity|].
    cbn in Hd |- *. intuition.
Qed.

Lemma normalize_all_buttons (parsed validated : list value) :
  Forall is_button validated ->
  (exists l, normalize_all parsed validated = Ret l /\ Forall is_button l)
  \/ normalize_all parsed validated = Raise ValueError.
Proof.
  revert validated. induction parsed as [|act rest IH]; intros validated Hv;
    cbn [normalize_all].
  - left. now exists validated.
  - destruct (normalize_action_normalized (py_str act))
      as [(v & -> & Hn)|[-> _]]; cbn [obind].
    + apply IH. now apply normalized_extend.
    + now right.
Qed.

Lemma Forall_firstn {A : Type} (P : A -> Prop) (n : nat) (l : list A) :
  Forall P l -> Forall P (firstn n l).
Proof.
  intros H. revert n. induction H; intros [|n]; cbn; auto.
Qed.

(** X3.  Reading the oracle's reply: for every reply that is a string,
    whether several actions are allowed or not, [_parse_actions] returns
    a list of at most three actions, each one of the eight buttons,
    unless it raises.  It raises in two cases only: [ValueError] from
    [int] when the reply, read as one action, carries a count of more
    than 4300 digits; and, when several actions are allowed, the
    exception of [json.loads] when this is not a [ValueError]. *)
Theorem parse_actions_gives_buttons (json_loads : string -> outcome value)
  (response : string) (allow_multi : bool) :
  match _parse_actions json_loads (VStr response) allow_multi with
  | Ret actions => length actions <= 3 /\ Forall is_button actions
  | Raise e =>
      (e = ValueError /\ (4300 < Z.of_nat (String.length response))%Z)
      \/ (allow_multi = true /\ e <> ValueError
          /\ exists text, json_loads text = Raise e)
  end.
Proof.
  unfold _parse_actions.
  destruct (negb (truthy (VStr response))).
  { split; [cbn; lia|].
    constructor; [|constructor]. exists "A". split; [reflexivity|].
    now apply mem_In. }
  assert (Hsingle :
            match
              (result <-? _normalize_action response ;;
               match result with
               | VList l => Ret l
               | _ => Ret [result]
               end)
            with
            | Ret actions => length actions <= 3 /\ Forall is_button actions
            | Raise e =>
                (e = ValueError
                 /\ (4300 < Z.of_nat (String.length response))%Z)
                \/ (allow_multi = true /\ e <> ValueError
                    /\ exists text, json_loads text = Raise e)
            end).
  { destruct (normalize_action_normalized response)
      as [(v & -> & [(b & -> & Hb)|(d & n & -> & Hd & Hn)])|[-> Hlong]];
      cbn [obind].
    - split; [cbn; lia|]. constructor; [now exists b | constructor].
    - split; [now rewrite repeat_length|].
      apply Forall_repeat_value. exists d. split; [reflexivity|].
      cbn in Hd |- *. intuition.
    - left. now split. }
  destruct allow_multi; cbn [obind]; [|exact Hsingle].
  unfold parse_multi.
  match goal with
  | |- context [json_loads ?c] => destruct (json_loads c) as [parsed|e] eqn:Ej
  end.
  2:{ destruct e; cbn [obind]; try exact Hsingle;
        right; (split; [reflexivity|]); (split; [discriminate|]);
        eexists; exact Ej. }
  destruct parsed as [| | | |[|p parsed]|]; cbn [obind]; try exact Hsingle.
  destruct (normalize_all_buttons (firstn 3 (p :: parsed)) [])
    as [(l & -> & Hl)| ->]; [constructor| |]; cbn [obind].
  - split; [apply firstn_le_length | now apply Forall_firstn].
  - exact Hsingle.
Qed.

(** A reply that asks for no step is read as no action at all. *)
Example parse_actions_no_step (json_loads : string -> outcome value) :
  _parse_actions json_loads (VStr "RIGHT 0") false = Ret [].
Proof. reflexivity. Qed.

(** What [json.loads] raises on a reply nested too deeply is passed on. *)
Example parse_actions_passes_recursion_error (response : string) :
  response <> "" ->
  _parse_actions (fun _ => Raise RecursionError) (VStr response) true
  = Raise RecursionError.
Proof.
  intros H. unfold _parse_actions. destruct response; [congruence|].
  reflexivity.
Qed.

End ReplyProperties.

Section DecimalFacts.
Import PyStr Re.

Ltac digit_step IH :=
  cbn [NilEmpty.string_of_uint OpenAI.digits_value];
  match goal with
  | |- context [OpenAI.is_digit ?c] => change (OpenAI.is_digit c) with true
  end;
  cbv iota;
  match goal with
  | |- context [Z.of_nat ?e] =>
      let v := eval vm_compute in (Z.of_nat e) in change (Z.of_nat e) with v
  end.

Lemma digits_value_acc (d : Decimal.uint) :
  forall p : positive,
    OpenAI.digits_value (NilEmpty.string_of_uint d) (Zpos p)
    = Some (Zpos (Pos.of_uint_acc d p)).
Proof.
  induction d as [|d IH|d IH|d IH|d IH|d IH|d IH|d IH|d IH|d IH|d IH];
    intros p; [reflexivity|..];
    digit_step IH; cbn [Pos.of_uint_acc]; rewrite <- IH; f_equal; lia.
Qed.

Lemma digits_value_zero (d : Decimal.uint) :
  OpenAI.digits_value (NilEmpty.string_of_uint d) 0
  = Some (Z.of_N (Pos.of_uint d)).
Proof.
  induction d as [|d IH|d IH|d IH|d IH|d IH|d IH|d IH|d IH|d IH|d IH];
    [reflexivity|..]; digit_step IH; cbn [Pos.of_uint Z.of_N];
    try exact IH;
    match goal with
    | |- OpenAI.digits_value _ ?a = _ =>
        let v := eval vm_compute in a in change a with v
    end;
    apply digits_value_acc.
Qed.

Lemma uint_digits (d : Decimal.uint) :
  all_chars OpenAI.is_digit (NilEmpty.string_of_uint d) = true.
Proof.
  induction d; cbn [NilEmpty.string_of_uint all_chars]; [reflexivity|..];
    rewrite IHd; reflexivity.
Qed.

Lemma pos_digits (p : positive) :
  exists c r,
    NilZero.string_of_uint (Pos.to_uint p) = String c r
    /\ NilEmpty.string_of_uint (Pos.to_uint p) = String c r
    /\ all_chars OpenAI.is_digit (String c r) = true.
Proof.
  pose proof (Unsigned.to_uint_nonnil p) as Hnn.
  pose proof (uint_digits (Pos.to_uint p)) as Hd.
  destruct (Pos.to_uint p) eqn:E; [congruence|..];
    cbn [NilZero.string_of_uint NilEmpty.string_of_uint] in *;
    eexists _, _; repeat split; exact Hd.
Qed.

(** The decimal numeral of a number that is not negative is a run of
    digits that is not empty. *)
Lemma str_of_Z_digits (z : Z) :
  (0 <= z)%Z ->
  str_of_Z z <> "" /\ all_chars OpenAI.is_digit (str_of_Z z) = true.
Proof.
  intros Hz. unfold str_of_Z. destruct z as [|p|p]; [now split| |lia].
  cbn [Z.to_int NilZero.string_of_int].
  destruct (pos_digits p) as (c & r & -> & _ & Hd). now split.
Qed.

Lemma digits_no_space (s : string) :
  all_chars OpenAI.is_digit s = true ->
  all_chars (fun c => negb (is_space c)) s = true.
Proof.
  apply all_chars_impl. intros c Hc. now rewrite (digit_not_space c Hc).
Qed.

(** [int(str(z)) == z] *)
Lemma int_of_str (z : Z) : OpenAI.py_int (VStr (str_of_Z z)) = Ret z.
Proof.
  unfold OpenAI.py_int, OpenAI.parse_int, str_of_Z.
  destruct z as [|p|p]; [reflexivity|..];
    cbn [Z.to_int NilZero.string_of_int];
    destruct (pos_digits p) as (c & r & -> & E & Hd).
  - rewrite (strip_no_space _ (digits_no_space _ Hd)).
    assert (Hv : OpenAI.digits_value (String c r) 0 = Some (Zpos p)).
    { rewrite <- E, digits_value_zero, Unsigned.of_to. reflexivity. }
    assert (Hc : OpenAI.is_digit c = true).
    { cbn in Hd. now apply andb_prop in Hd. }
    destruct c as [[] [] [] [] [] [] [] []]; try discriminate Hc;
      destruct r; rewrite Hv; reflexivity.
  - rewrite strip_no_space.
    2:{ change (all_chars (fun c => negb (is_space c)) (String c r) = true).
        exact (digits_no_space _ Hd). }
    assert (Hv : OpenAI.digits_value (String c r) 0 = Some (Zpos p)).
    { rewrite <- E, digits_value_zero, Unsigned.of_to. reflexivity. }
    rewrite Hv. reflexivity.
Qed.

(** [int] of the numeral of [z]: [z] itself, unless the numeral has more
    than 4300 digits. *)
Lemma int_of_text_str (z : Z) :
  (0 <= z)%Z ->
  int_of_text (str_of_Z z)
  = if (4300 <? Z.of_nat (String.length (str_of_Z z)))%Z
    then Raise ValueError else Ret z.
Proof.
  intros Hz. unfold int_of_text, int_max_str_digits.
  destruct (str_of_Z_digits z Hz) as [_ Hd].
  rewrite (digit_count_all _ Hd), int_of_str. reflexivity.
Qed.

End DecimalFacts.

Section MoveProperties.
Import PyStr Re.

Lemma star_loop_stop {A : Type}
  (step : string -> captures -> (string -> captures -> option A) -> option A)
  (k : string -> captures -> option A) (n : nat) (s : string) (c : captures) :
  (forall k', step s c k' = None) -> star_loop step k n s c = k s c.
Proof.
  intros H. destruct n; cbn [star_loop]; [reflexivity|]. now rewrite H.
Qed.

Lemma run_class_cons {A : Type} (p : ascii -> bool) (d : ascii) (s : string)
  (c : captures) (k : string -> captures -> option A) :
  run (Class p) (String d s) c k = if p d then k s c else None.
Proof. reflexivity. Qed.

Lemma run_class_nil {A : Type} (p : ascii -> bool) (c : captures)
  (k : string -> captures -> option A) :
  run (Class p) "" c k = None.
Proof. reflexivity. Qed.

(** A greedy repetition of a class takes a whole run of the class. *)
Lemma star_loop_class_whole {A : Type} (p : ascii -> bool) (s : string) :
  all_chars p s = true ->
  forall (k : string -> captures -> option A) (n : nat) (c : captures) (x : A),
    String.length s < n ->
    k "" c = Some x ->
    star_loop (fun s c k' => run (Class p) s c k') k n s c = Some x.
Proof.
  induction s as [|d s IH]; intros Hp k n c x Hn Hk.
  - destruct n; [cbn in Hn; lia|]. cbn [star_loop]. cbv beta.
    rewrite run_class_nil. exact Hk.
  - destruct n; [cbn in Hn; lia|]. cbn [star_loop]. cbv beta.
    rewrite run_class_cons.
    cbn [all_chars] in Hp. apply andb_prop in Hp. destruct Hp as [Hd Hs].
    rewrite Hd.
    assert (Hlt : (String.length s <? String.length (String d s))%nat = true).
    { apply Nat.ltb_lt. cbn. lia. }
    rewrite Hlt.
    rewrite (IH Hs k n c x); [reflexivity | cbn in Hn; lia | exact Hk].
Qed.

Lemma substring_whole (s : string) :
  substring 0 (String.length s - 0) s = s.
Proof.
  rewrite Nat.sub_0_r. induction s as [|c s IH]; cbn; [reflexivity|].
  now rewrite IH.
Qed.

Lemma rstrip_app (a b : string) :
  b <> "" -> rstrip b = b -> rstrip (a ++ b) = (a ++ b)%string.
Proof.
  intros Hne Hb. induction a as [|x a IH]; cbn [append rstrip]; [exact Hb|].
  rewrite IH. destruct (a ++ b)%string eqn:E; [|reflexivity].
  destruct a; cbn in E; congruence.
Qed.

Lemma upper_digits (s : string) :
  all_chars OpenAI.is_digit s = true -> upper s = s.
Proof.
  unfold upper. induction s as [|c s IH]; cbn [all_chars map_string];
    [reflexivity|].
  intros H. apply andb_prop in H. destruct H as [Hc Hs]. rewrite (IH Hs).
  f_equal. destruct c as [[] [] [] [] [] [] [] []]; try discriminate Hc;
    reflexivity.
Qed.

Lemma move_directive_normal (pre ds : string) :
  lstrip pre = pre -> pre <> "" -> upper pre = pre ->
  ds <> "" -> all_chars OpenAI.is_digit ds = true ->
  upper (strip (pre ++ ds)) = (pre ++ ds)%string.
Proof.
  intros Hl Hne Hu Hd Hds. unfold strip.
  assert (Hls : lstrip (pre ++ ds) = (pre ++ ds)%string).
  { destruct pre as [|x pre]; [congruence|]. cbn in Hl |- *.
    destruct (is_space x); [|reflexivity].
    exfalso. assert (Hlen : String.length (lstrip pre)
                            <= String.length pre).
    { clear. induction pre as [|y pre IH]; cbn; [lia|].
      destruct (is_space y); cbn; lia. }
    rewrite Hl in Hlen. cbn in Hlen. lia. }
  rewrite Hls, rstrip_app; [|exact Hd|].
  - pose proof (upper_digits ds Hds) as Hud.
    unfold upper in *. now rewrite map_string_app, Hu, Hud.
  - apply rstrip_no_space. now apply digits_no_space.
Qed.

(** Rules to follow the matcher along a word that is known. *)

Lemma run_alt_l {A : Type} (a b : regex) (s : string) (c : captures)
  (k : string -> captures -> option A) (x : A) :
  run a s c k = Some x -> run (Alt a b) s c k = Some x.
Proof. intros H. cbn [run]. now rewrite H. Qed.

Lemma run_alt_r {A : Type} (a b : regex) (s : string) (c : captures)
  (k : string -> captures -> option A) (x : A) :
  run a s c k = None -> run b s c k = Some x -> run (Alt a b) s c k = Some x.
Proof. intros Ha H. cbn [run]. now rewrite Ha. Qed.

Lemma run_lit_i_ok {A : Type} (t w rest : string) (c : captures)
  (k : string -> captures -> option A) (x : A) :
  upper w = upper t -> String.length w = String.length t ->
  k rest c = Some x -> run (lit_i t) (w ++ rest) c k = Some x.
Proof.
  revert w. induction t as [|y t IH]; intros [|z w] Hu Hl Hk;
    cbn in Hl; try discriminate; cbn [lit_i run append].
  - exact Hk.
  - unfold upper in Hu. cbn in Hu. injection Hu as Hz Hu.
    rewrite Hz, Ascii.eqb_refl. apply IH; auto.
Qed.

Lemma run_group_ok {A : Type} (i : nat) (a : regex) (s : string)
  (c : captures) (k : string -> captures -> option A) (x : A) :
  run a s c
    (fun s' c' =>
       k s' ((i, substring 0 (String.length s - String.length s') s) :: c'))
  = Some x ->
  run (Group i a) s c k = Some x.
Proof. intros H. exact H. Qed.

Lemma star_loop_class_app {A : Type} (p : ascii -> bool) (w : string) :
  all_chars p w = true ->
  forall (y : ascii) (r : string) (k : string -> captures -> option A)
         (n : nat) (c : captures) (x : A),
    p y = false ->
    String.length w < n ->
    k (String y r) c = Some x ->
    star_loop (fun s c k' => run (Class p) s c k') k n (w ++ String y r) c
    = Some x.
Proof.
  induction w as [|d w IH]; intros Hp y r k n c x Hy Hn Hk.
  - destruct n; [cbn in Hn; lia|]. cbn [star_loop append]. cbv beta.
    rewrite run_class_cons, Hy. exact Hk.
  - destruct n; [cbn in Hn; lia|]. cbn [star_loop append]. cbv beta.
    rewrite run_class_cons.
    cbn [all_chars] in Hp. apply andb_prop in Hp. destruct Hp as [Hd Hw].
    rewrite Hd.
    assert (Hlt : (String.length (w ++ String y r)
                   <? String.length (String d (w ++ String y r)))%nat = true).
    { apply Nat.ltb_lt. cbn. lia. }
    rewrite Hlt.
    rewrite (IH Hw y r k n c x); [reflexivity | exact Hy | cbn in Hn; lia
                                 | exact Hk].
Qed.

(** [p+] in front of a character that is not of the class. *)
Lemma run_plus_class_app {A : Type} (p : ascii -> bool) (d : ascii)
  (w : string) (y : ascii) (r : string) (c : captures)
  (k : string -> captures -> option A) (x : A) :
  all_chars p (String d w) = true -> p y = false ->
  k (String y r) c = Some x ->
  run (plus (Class p)) (String d w ++ String y r) c k = Some x.
Proof.
  intros Hp Hy Hk. cbn [all_chars] in Hp. apply andb_prop in Hp.
  destruct Hp as [Hd Hw].
  unfold plus. cbn [run append]. rewrite Hd.
  apply star_loop_class_app; auto.
  rewrite string_length_app. cbn. lia.
Qed.

(** [p+] on a whole run of the class. *)
Lemma run_plus_class_whole {A : Type} (p : ascii -> bool) (s : string)
  (c : captures) (k : string -> captures -> option A) (x : A) :
  s <> "" -> all_chars p s = true -> k "" c = Some x ->
  run (plus (Class p)) s c k = Some x.
Proof.
  intros Hne Hp Hk. destruct s as [|d s]; [congruence|].
  cbn [all_chars] in Hp. apply andb_prop in Hp. destruct Hp as [Hd Hs].
  unfold plus. cbn [run]. rewrite Hd.
  apply star_loop_class_whole; auto.
Qed.

Lemma substring_whole' (s : string) :
  substring 0 (String.length s - String.length "") s = s.
Proof. apply substring_whole. Qed.

Lemma run_directions_i {A : Type} (direction rest : string) (c : captures)
  (k : string -> captures -> option A) (x : A) :
  In direction ["UP"; "DOWN"; "LEFT"; "RIGHT"] ->
  k rest c = Some x ->
  run (alts [lit_i "UP"; lit_i "DOWN"; lit_i "LEFT"; lit_i "RIGHT"])
    (direction ++ rest) c k = Some x.
Proof.
  intros Hdir Hk. cbn [alts]. cbn [In] in Hdir.
  destruct Hdir as [<-|[<-|[<-|[<-|[]]]]].
  - apply run_alt_l. now apply (run_lit_i_ok "UP" "UP" rest).
  - apply run_alt_r; [reflexivity|].
    apply run_alt_l. now apply (run_lit_i_ok "DOWN" "DOWN" rest).
  - apply run_alt_r; [reflexivity|]. apply run_alt_r; [reflexivity|].
    apply run_alt_l. now apply (run_lit_i_ok "LEFT" "LEFT" rest).
  - apply run_alt_r; [reflexivity|]. apply run_alt_r; [reflexivity|].
    apply run_alt_r; [reflexivity|].
    now apply (run_lit_i_ok "RIGHT" "RIGHT" rest).
Qed.

Lemma move_pattern_matches (direction ds : string) :
  In direction ["UP"; "DOWN"; "LEFT"; "RIGHT"] ->
  ds <> "" -> all_chars OpenAI.is_digit ds = true ->
  re_match ActionOpenAI.MOVE_PATTERN ("MOVE " ++ direction ++ " " ++ ds)
  = Some ([(2, ds); (1, direction)], "").
Proof.
  intros Hdir Hne Hd.
  assert (Hsp : exists d0 ds', ds = String d0 ds' /\ is_space d0 = false).
  { destruct ds as [|d0 ds']; [congruence|]. exists d0, ds'.
    split; [reflexivity|]. apply digit_not_space.
    cbn in Hd. now apply andb_prop in Hd. }
  destruct Hsp as (d0 & ds' & Eds & Hsp).
  assert (Hdir0 : exists x0 t, direction = String x0 t /\ is_space x0 = false).
  { cbn [In] in Hdir. destruct Hdir as [<-|[<-|[<-|[<-|[]]]]];
      eexists _, _; split; reflexivity. }
  destruct Hdir0 as (x0 & t & Edir & Hx0).
  unfold re_match, ActionOpenAI.MOVE_PATTERN.
  change (run (Seq ?a ?b) ?s ?c ?k)
    with (run a s c (fun s' c' => run b s' c' k)).
  apply (run_lit_i_ok "MOVE" "MOVE" (" " ++ direction ++ " " ++ ds));
    [reflexivity | reflexivity |].
  change (run (Seq ?a ?b) ?s ?c ?k)
    with (run a s c (fun s' c' => run b s' c' k)).
  rewrite Edir.
  apply (run_plus_class_app is_space " " "" x0 (t ++ " " ++ ds));
    [reflexivity | exact Hx0 |].
  rewrite <- Edir.
  change (String x0 (t ++ " " ++ ds))%string
    with (String x0 t ++ " " ++ ds)%string.
  rewrite <- Edir.
  change (run (Seq ?a ?b) ?s ?c ?k)
    with (run a s c (fun s' c' => run b s' c' k)).
  apply run_group_ok. apply run_directions_i; [exact Hdir|].
  rewrite substring_prefix.
  change (run (Seq ?a ?b) ?s ?c ?k)
    with (run a s c (fun s' c' => run b s' c' k)).
  rewrite Eds.
  apply (run_plus_class_app is_space " " "" d0 ds');
    [reflexivity | exact Hsp |].
  rewrite <- Eds.
  apply run_group_ok. apply run_plus_class_whole; [exact Hne | exact Hd |].
  now rewrite substring_whole'.
Qed.

(** X4.  The guardrail on long paths: [MOVE <direction> <n>] is parsed as
    [n] presses of the direction, but never more than eight; [n = 0]
    gives no press at all.  A count written with more than 4300 digits is
    refused by [int]: the parser raises [ValueError]. *)
Theorem move_directive_is_capped (direction : string) (n : Z) :
  In direction ["UP"; "DOWN"; "LEFT"; "RIGHT"] ->
  (0 <= n)%Z ->
  ActionOpenAI._parse_action ("MOVE " ++ direction ++ " " ++ str_of_Z n)
  = if (4300 <? Z.of_nat (String.length (str_of_Z n)))%Z
    then Raise ValueError
    else Ret (repeat direction (Z.to_nat (Z.min n 8))).
Proof.
  intros Hdir Hn.
  destruct (str_of_Z_digits n Hn) as [Hne Hd].
  unfold ActionOpenAI._parse_action.
  assert (Ha : upper (strip ("MOVE " ++ direction ++ " " ++ str_of_Z n))
               = ("MOVE " ++ direction ++ " " ++ str_of_Z n)%string).
  { cbn [In] in Hdir. destruct Hdir as [<-|[<-|[<-|[<-|[]]]]].
    - now apply (move_directive_normal "MOVE UP ").
    - now apply (move_directive_normal "MOVE DOWN ").
    - now apply (move_directive_normal "MOVE LEFT ").
    - now apply (move_directive_normal "MOVE RIGHT "). }
  cbv zeta. rewrite Ha.
  assert (Hv : mem ("MOVE " ++ direction ++ " " ++ str_of_Z n)
                 ActionOpenAI.VALID_BUTTONS = false) by reflexivity.
  rewrite Hv, (move_pattern_matches direction (str_of_Z n) Hdir Hne Hd).
  cbn [group Nat.eqb]. rewrite (int_of_text_str n Hn).
  destruct (4300 <? Z.of_nat (String.length (str_of_Z n)))%Z; reflexivity.
Qed.

Lemma move_directive_is_capped_witness :
  ActionOpenAI._parse_action ("MOVE " ++ "LEFT" ++ " " ++ str_of_Z 12)
  = Ret (repeat "LEFT" 8).
Proof.
  apply (move_directive_is_capped "LEFT" 12);
    [right; right; left; reflexivity | lia].
Defined.

(** The count [10 ^ 4300] has 4301 digits. *)
Example move_count_too_long :
  ActionOpenAI._parse_action
    ("MOVE UP 1" ++ string_of_list_ascii (repeat "0"%char 4300))
  = Raise ValueError.
Proof. vm_compute. reflexivity. Qed.

(** X5.  A button that the memory queue accepted reaches the emulator as
    it was queued: the decision that carries it is turned by either action
    module into exactly that one button. *)
Theorem queued_button_is_pressed_as_queued
  (actions : value) (t reason summary : string) :
  In t (Deprecated._normalize_primitives actions) ->
  ActionDeprecated.action_step
    (VDict [("action", VStr t); ("reason", VStr reason)]) = [t]
  /\ ActionOpenAI.action_step
       (VDict [("action", VStr t); ("reason", VStr reason)])
       (VDict [("summary", VStr summary)]) = Ret [t].
Proof.
  intros Hin. unfold Deprecated._normalize_primitives in Hin.
  assert (Ht : In t Deprecated._ALLOWED_BTNS).
  { destruct (negb (truthy actions)); [contradiction|].
    apply filter_In in Hin. destruct Hin as [_ Hm]. now apply mem_In. }
  cbn [In Deprecated._ALLOWED_BTNS] in Ht.
  destruct Ht as [<-|[<-|[<-|[<-|[<-|[<-|[<-|[]]]]]]]];
    split; reflexivity.
Qed.

Lemma queued_button_is_pressed_as_queued_witness :
  In "UP" (Deprecated._normalize_primitives (VList [VStr " up "; VStr "x"]))
  /\ ActionDeprecated.action_step
       (VDict [("action", VStr "UP"); ("reason", VStr "queued")]) = ["UP"].
Proof.
  split; [left; reflexivity|].
  apply (queued_button_is_pressed_as_queued
           (VList [VStr " up "; VStr "x"]) "UP" "queued" "");
    left; reflexivity.
Defined.

End MoveProperties.

(* ===================================================================== *)
(** ** Properties of the walkable directions *)
(* ===================================================================== *)

Section MapGridProperties.
Import PyNum MapGrid.

Lemma scan_partition (px py tiles width height : value)
  (todo : list (string * Z * Z)) :
  forall walkable0 blocked0 walkable blocked,
    scan px py tiles width height todo walkable0 blocked0
    = Ret (walkable, blocked) ->
    Permutation (walkable ++ blocked)
      (walkable0 ++ blocked0 ++ map (fun d => fst (fst d)) todo).
Proof.
  induction todo as [|[[name dx] dy] rest IH];
    intros w0 b0 w b H; cbn [scan map fst] in *.
  - injection H as <- <-. now rewrite app_nil_r.
  - destruct (direction_walkable px py tiles width height dx dy)
      as [[|]|e]; cbn [obind] in H; [| |discriminate].
    + apply IH in H. rewrite H. rewrite <- !app_assoc. cbn [app].
      apply Permutation_app_head. apply Permutation_middle.
    + apply IH in H. rewrite H. rewrite <- !app_assoc. cbn [app].
      reflexivity.
Qed.

(** X6.  When [_calculate_walkable_from_map] returns, either it found no
    coordinates or no grid and both lists are empty, or each of the four
    directions stands in exactly one of the two lists. *)
Theorem calculated_directions_partition (observation : value)
  (walkable blocked : list string) :
  _calculate_walkable_from_map observation = Ret (walkable, blocked) ->
  (walkable = [] /\ blocked = [])
  \/ Permutation (walkable ++ blocked) ["UP"; "DOWN"; "LEFT"; "RIGHT"].
Proof.
  unfold _calculate_walkable_from_map. intros H.
  destruct (Deprecated.Planning._get_coords observation) as [[px py]|].
  2:{ injection H as <- <-. now left. }
  destruct (_extract_map_grid observation) as [[tiles width] height].
  destruct (negb (truthy tiles) || py_eq width (VInt 0)
            || py_eq height (VInt 0)).
  { injection H as <- <-. now left. }
  right. apply scan_partition in H. exact H.
Qed.

Lemma calculated_directions_partition_witness :
  _calculate_walkable_from_map corner_obs
  = Ret (["DOWN"], ["UP"; "LEFT"; "RIGHT"])
  /\ ((["DOWN"] = [] /\ ["UP"; "LEFT"; "RIGHT"] = [])
      \/ Permutation (["DOWN"] ++ ["UP"; "LEFT"; "RIGHT"])
           ["UP"; "DOWN"; "LEFT"; "RIGHT"]).
Proof.
  split; [reflexivity|].
  apply (calculated_directions_partition corner_obs). reflexivity.
Defined.

Lemma scan_keeps_blocked (px py tiles width height : value)
  (todo : list (string * Z * Z)) :
  forall walkable0 blocked0 walkable blocked name,
    scan px py tiles width height todo walkable0 blocked0
    = Ret (walkable, blocked) ->
    In name blocked0 -> In name blocked.
Proof.
  induction todo as [|[[n dx] dy] rest IH];
    intros w0 b0 w b name H Hin; cbn [scan] in H.
  - now injection H as <- <-.
  - destruct (direction_walkable px py tiles width height dx dy)
      as [[|]|e]; cbn [obind] in H; [| |discriminate].
    + eapply IH; eauto.
    + eapply IH; [exact H|]. apply in_or_app. now left.
Qed.

Lemma scan_blocks (px py tiles width height : value)
  (todo : list (string * Z * Z)) :
  forall walkable0 blocked0 walkable blocked name dx dy,
    scan px py tiles width height todo walkable0 blocked0
    = Ret (walkable, blocked) ->
    In (name, dx, dy) todo ->
    direction_walkable px py tiles width height dx dy = Ret false ->
    In name blocked.
Proof.
  induction todo as [|[[n dx'] dy'] rest IH];
    intros w0 b0 w b name dx dy H Hin Hd; cbn [scan] in H; [contradiction|].
  destruct Hin as [E|Hin].
  - injection E as -> -> ->. rewrite Hd in H. cbn [obind] in H.
    eapply scan_keeps_blocked; [exact H|]. apply in_or_app. right. now left.
  - destruct (direction_walkable px py tiles width height dx' dy')
      as [[|]|e]; cbn [obind] in H; [| |discriminate]; eapply IH; eauto.
Qed.

Lemma off_grid_direction (px py W H dx dy : Z) (tiles : value) :
  (px + dx < 0 \/ W <= px + dx \/ py + dy < 0 \/ H <= py + dy)%Z ->
  direction_walkable (VInt px) (VInt py) tiles (VInt W) (VInt H) dx dy
  = Ret false.
Proof.
  intros Hout. unfold direction_walkable, add, lt, ge, arith, compare.
  cbn [as_int obind].
  destruct (px + dx <? 0)%Z eqn:E1; [reflexivity|].
  destruct (px + dx >=? W)%Z eqn:E2; [reflexivity|].
  destruct (py + dy <? 0)%Z eqn:E3; [reflexivity|].
  destruct (py + dy >=? H)%Z eqn:E4; [reflexivity|].
  exfalso. lia.
Qed.

(** A grid that was extracted has a positive width and height. *)
Lemma extract_map_grid_positive (observation tiles : value) (W H : Z) :
  _extract_map_grid observation = (tiles, VInt W, VInt H) ->
  truthy tiles = true -> (0 < W /\ 0 < H)%Z.
Proof.
  unfold _extract_map_grid. intros Hg Ht.
  repeat match type of Hg with
         | context [obind (get ?a ?b ?c) _] =>
             destruct (get a b c) as [?v|?e]; cbn [obind] in Hg
         end;
    try (injection Hg as <- _ _; discriminate Ht).
  match type of Hg with
  | context [truthy ?t] => destruct (truthy t)
  end; [|injection Hg as <- _ _; discriminate Ht].
  unfold gt, compare in Hg.
  match type of Hg with
  | context [as_int ?w] => destruct (as_int w) as [w'|] eqn:Ew
  end; cbn [as_int obind] in Hg;
    [|injection Hg as <- _ _; discriminate Ht].
  destruct (w' >? 0)%Z eqn:Hw; cbn [obind] in Hg;
    [|injection Hg as <- _ _; discriminate Ht].
  match type of Hg with
  | context [as_int ?h] => destruct (as_int h) as [h'|] eqn:Eh
  end; cbn [as_int obind] in Hg;
    [|injection Hg as <- _ _; discriminate Ht].
  destruct (h' >? 0)%Z eqn:Hh; cbn [obind] in Hg;
    [|injection Hg as <- _ _; discriminate Ht].
  injection Hg as _ -> ->. cbn in Ew, Eh. injection Ew as <-.
  injection Eh as <-. lia.
Qed.

(** X7.  A neighbour tile outside the grid is never walkable: with the
    player at integer coordinates on a grid of [W] by [H] tiles, every
    direction that leaves the grid is reported blocked. *)
Theorem off_grid_neighbour_is_blocked (observation tiles : value)
  (px py W H : Z) (walkable blocked : list string)
  (name : string) (dx dy : Z) :
  Deprecated.Planning._get_coords observation = Some (VInt px, VInt py) ->
  _extract_map_grid observation = (tiles, VInt W, VInt H) ->
  truthy tiles = true ->
  _calculate_walkable_from_map observation = Ret (walkable, blocked) ->
  In (name, dx, dy) directions ->
  (px + dx < 0 \/ W <= px + dx \/ py + dy < 0 \/ H <= py + dy)%Z ->
  In name blocked.
Proof.
  intros Hc Hg Ht Hcalc Hin Hout.
  destruct (extract_map_grid_positive _ _ _ _ Hg Ht) as [HW0 HH0].
  assert (HW : W <> 0%Z) by lia. assert (HH : H <> 0%Z) by lia.
  unfold _calculate_walkable_from_map in Hcalc.
  rewrite Hc, Hg, Ht in Hcalc. cbn [negb orb py_eq] in Hcalc.
  apply Z.eqb_neq in HW, HH. rewrite HW, HH in Hcalc. cbn [orb] in Hcalc.
  eapply scan_blocks; [exact Hcalc | exact Hin |].
  now apply off_grid_direction.
Qed.

Lemma off_grid_neighbour_is_blocked_witness :
  In "LEFT" ["UP"; "LEFT"; "RIGHT"].
Proof.
  apply (off_grid_neighbour_is_blocked corner_obs
           (VList
              [VDict [("behavior", VStr "NORMAL"); ("collision", VInt 0)];
               VDict [("behavior", VStr "WALL"); ("collision", VInt 1)];
               VDict [("behavior", VStr ""); ("collision", VInt 0)];
               VList [VInt 7; VStr "Barrier"; VInt 0]])
           0 0 2 2 ["DOWN"] ["UP"; "LEFT"; "RIGHT"] "LEFT" (-1) 0);
    [reflexivity | reflexivity | reflexivity | reflexivity
    | right; right; left; reflexivity | lia].
Defined.

End MapGridProperties.

(* ===================================================================== *)
(** ** Rules for invariants *)
(* ===================================================================== *)

Section HoareRules.
Import Hoare.
Context {S : Type}.
Variable P : S -> Prop.

Lemma preserves_ret {A : Type} (a : A) : preserves P (@ret S A a).
Proof. intros s H. exact H. Qed.

Lemma preserves_raise {A : Type} (e : exn) : preserves P (@raise S A e).
Proof. intros s H. exact H. Qed.

Lemma preserves_lift {A : Type} (o : outcome A) : preserves P (@lift S A o).
Proof. intros s H. exact H. Qed.

Lemma preserves_gets {A : Type} (f : S -> A) : preserves P (gets f).
Proof. intros s H. exact H. Qed.

Lemma preserves_modify (f : S -> S) :
  (forall s, P s -> P (f s)) -> preserves P (modify f).
Proof. intros Hf s H. now apply Hf. Qed.

Lemma preserves_bind {A B : Type} (m : @M S A) (k : A -> @M S B) :
  preserves P m -> (forall a, preserves P (k a)) -> preserves P (bind m k).
Proof.
  intros Hm Hk s H. unfold bind. specialize (Hm s H).
  destruct (m s) as [[a|e] s']; cbn in Hm |- *; [now apply Hk | exact Hm].
Qed.

Lemma preserves_when (b : bool) (m : @M S unit) :
  preserves P m -> preserves P (when b m).
Proof. intros Hm. destruct b; [exact Hm | apply preserves_ret]. Qed.

Lemma preserves_try_except {A : Type} (m : @M S A) (h : exn -> @M S A) :
  preserves P m -> (forall e, preserves P (h e)) ->
  preserves P (try_except m h).
Proof.
  intros Hm Hh s H. unfold try_except. specialize (Hm s H).
  destruct (m s) as [[a|e] s']; cbn in Hm |- *; [exact Hm | now apply Hh].
Qed.

Lemma preserves_for_each {A : Type} (l : list A) (body : A -> @M S unit) :
  (forall a, In a l -> preserves P (body a)) ->
  preserves P (MemoryDeprecated.for_each l body).
Proof.
  induction l as [|a l IH]; intros Hb; cbn [MemoryDeprecated.for_each].
  - apply preserves_ret.
  - apply preserves_bind; [apply Hb; now left|].
    intros _. apply IH. intros b Hin. apply Hb. now right.
Qed.

End HoareRules.

(* ===================================================================== *)
(** ** Facts about [split] and the keys of tiles *)
(* ===================================================================== *)

Section KeyFacts.
Import PyStr PyNum MemoryDeprecated.

Lemma prefix_char (c x : ascii) (s : string) :
  prefix (String c "") (String x s) = Ascii.eqb c x.
Proof.
  change (prefix (String c "") (String x s))
    with (if ascii_dec c x then prefix "" s else false).
  destruct (ascii_dec c x) as [->|Hne].
  - rewrite Ascii.eqb_refl. now destruct s.
  - symmetry. now apply Ascii.eqb_neq.
Qed.

(** [a.split(c)] for an [a] without [c]; [(a + c + b).split(c)]. *)
Lemma split_from_none (c : ascii) (a : string) :
  all_chars (fun x => negb (Ascii.eqb c x)) a = true ->
  forall cur, split_from (String c "") 0 cur a = [(cur ++ a)%string].
Proof.
  induction a as [|x a IH]; intros Ha cur; cbn [split_from].
  - now rewrite string_app_nil_r.
  - cbn [all_chars] in Ha. apply andb_prop in Ha. destruct Ha as [Hx Ha].
    rewrite prefix_char. apply negb_true_iff in Hx. rewrite Hx.
    rewrite (IH Ha). now rewrite string_app_assoc.
Qed.

Lemma split_from_first (c : ascii) (a b : string) :
  all_chars (fun x => negb (Ascii.eqb c x)) a = true ->
  forall cur,
    split_from (String c "") 0 cur (a ++ String c b)
    = (cur ++ a)%string :: split_from (String c "") 0 "" b.
Proof.
  induction a as [|x a IH]; intros Ha cur; cbn [split_from append].
  - rewrite prefix_char, Ascii.eqb_refl. cbn. now rewrite string_app_nil_r.
  - cbn [all_chars] in Ha. apply andb_prop in Ha. destruct Ha as [Hx Ha].
    rewrite prefix_char. apply negb_true_iff in Hx. rewrite Hx.
    rewrite (IH Ha). now rewrite string_app_assoc.
Qed.

Lemma digits_no_underscore (s : string) :
  all_chars OpenAI.is_digit s = true ->
  all_chars (fun x => negb (Ascii.eqb "_" x)) s = true.
Proof.
  apply all_chars_impl. intros c Hc.
  destruct c as [[] [] [] [] [] [] [] []]; try discriminate Hc; reflexivity.
Qed.

Lemma str_of_Z_no_underscore (z : Z) :
  all_chars (fun x => negb (Ascii.eqb "_" x)) (str_of_Z z) = true.
Proof.
  unfold str_of_Z. destruct z as [|p|p]; [reflexivity|..];
    cbn [Z.to_int NilZero.string_of_int];
    destruct (pos_digits p) as (c & r & -> & _ & Hd).
  - now apply digits_no_underscore.
  - change (negb (Ascii.eqb "_" "-")
            && all_chars (fun x => negb (Ascii.eqb "_" x)) (String c r) = true).
    now rewrite (digits_no_underscore _ Hd).
Qed.

(** The key of a tile names its coordinates: what [find_tiles_of_type]
    reads from a key is what [update_explored_map] wrote. *)
Lemma decode_tile_key (x y : Z) : decode_key (tile_key x y) = Ret (x, y).
Proof.
  unfold decode_key, tile_key, split.
  change (str_of_Z x ++ "_" ++ str_of_Z y)%string
    with (str_of_Z x ++ String "_" (str_of_Z y))%string.
  rewrite (split_from_first "_" _ _ (str_of_Z_no_underscore x)).
  rewrite (split_from_none "_" _ (str_of_Z_no_underscore y)).
  cbn [append]. now rewrite !int_of_str.
Qed.

Lemma tile_key_inj (x y x' y' : Z) :
  tile_key x y = tile_key x' y' -> x = x' /\ y = y'.
Proof.
  intros H. pose proof (decode_tile_key x y) as D.
  rewrite H, decode_tile_key in D. now injection D as -> ->.
Qed.

End KeyFacts.

(* ===================================================================== *)
(** ** Properties of the explored map *)
(* ===================================================================== *)

Section ExploredMapProperties.
Import Hoare PyStr PyNum MemoryDeprecated.

Ltac pres_step :=
  match goal with
  | |- preserves _ (ret _) => apply preserves_ret
  | |- preserves _ (raise _) => apply preserves_raise
  | |- preserves _ (lift _) => apply preserves_lift
  | |- preserves _ (gets _) => apply preserves_gets
  | |- preserves _ (modify _) => apply preserves_modify; intros ?e ?He
  | |- preserves _ (when _ _) => apply preserves_when
  | |- preserves _ (bind _ _) => apply preserves_bind; [|intros ?]
  | |- preserves _ (for_each _ _) => apply preserves_for_each; intros ? ?
  | |- preserves _ (if ?b then _ else _) => destruct b
  | |- preserves _ (match ?x with _ => _ end) => destruct x
  end.

Lemma py_eq_hashable_refl (v : value) : hashable v = true -> py_eq v v = true.
Proof.
  destruct v as [|b|z|s|l|d]; cbn; try discriminate; intros _.
  - reflexivity.
  - now destruct b.
  - apply Z.eqb_refl.
  - apply String.eqb_refl.
Qed.


Lemma well_keyed_set_entry (map_name : value) (entry : MapEntry)
  (e : ExploredMap) :
  well_keyed e ->
  Forall (fun kv => tile_keyed (fst kv)) (tiles entry) ->
  well_keyed (set_entry map_name entry e).
Proof.
  unfold well_keyed. intros He Hen.
  induction He as [|[k old] e Hk He IH]; cbn [set_entry].
  - now repeat constructor.
  - destruct (py_eq k map_name); constructor; auto.
Qed.

Lemma well_keyed_find (map_name : value) (entry : MapEntry) (e : ExploredMap) :
  well_keyed e -> find_entry map_name e = Some entry ->
  Forall (fun kv => tile_keyed (fst kv)) (tiles entry).
Proof.
  unfold well_keyed. intros He.
  induction He as [|[k old] e Hk He IH]; cbn [find_entry]; [discriminate|].
  destruct (py_eq k map_name); [|exact IH].
  now intros [= <-].
Qed.

Lemma Forall_assoc_set {V : Type} (P : string * V -> Prop) (k : string)
  (v : V) (l : list (string * V)) :
  Forall P l -> P (k, v) -> Forall P (assoc_set k v l).
Proof.
  intros Hl Hkv. induction Hl as [|[k' v'] l Hx Hl IH]; cbn [assoc_set].
  - now repeat constructor.
  - destruct (k' =? k); constructor; auto.
Qed.

Lemma store_tile_well_keyed (map_name : value) (x y : Z) (symbol : string) :
  preserves well_keyed (store_tile map_name (tile_key x y) symbol).
Proof.
  unfold store_tile. apply preserves_modify. intros e He.
  destruct (find_entry map_name e) as [stored|] eqn:E; [|exact He].
  apply well_keyed_set_entry; [exact He|]. cbn [tiles].
  apply Forall_assoc_set; [now apply (well_keyed_find map_name _ e)|].
  now exists x, y.
Qed.

Lemma explore_tile_well_keyed (map_name tiles_seen width : value) (y x : Z) :
  preserves well_keyed (explore_tile map_name tiles_seen width y x).
Proof.
  unfold explore_tile.
  repeat first [ apply store_tile_well_keyed | pres_step ].
Qed.

(** Whatever the observation, and whether the call returns or raises,
    [update_explored_map] writes only keys of the form ["x_y"]. *)
Lemma update_explored_map_well_keyed (observation : value) :
  preserves well_keyed (update_explored_map observation).
Proof.
  unfold update_explored_map.
  repeat first [ apply explore_tile_well_keyed | pres_step ].
  - apply well_keyed_set_entry; [exact He | constructor].
  - destruct (find_entry _ e) as [stored|] eqn:E; [|exact He].
    apply well_keyed_set_entry; [exact He|]. cbn [tiles].
    now apply (well_keyed_find _ _ e He E).
Qed.

Lemma explored_after_well_keyed (observations : list value) :
  well_keyed (explored_after observations).
Proof.
  unfold explored_after.
  assert (H : forall e, well_keyed e ->
                well_keyed
                  (fold_left (fun e o => snd (update_explored_map o e))
                     observations e)).
  { induction observations as [|o os IH]; intros e He; cbn [fold_left];
      [exact He|].
    apply IH. now apply update_explored_map_well_keyed. }
  apply H. constructor.
Qed.

(** On well-formed keys the loop of [find_tiles_of_type] returns, with the
    coordinates of every tile of the types asked for. *)
Lemma collect_well_keyed (tile_types : list string)
  (items : list (string * string)) :
  Forall (fun kv => tile_keyed (fst kv)) items ->
  exists found,
    collect tile_types items = Ret found
    /\ forall x y symbol,
         In (tile_key x y, symbol) items -> mem symbol tile_types = true ->
         In (x, y) found.
Proof.
  induction 1 as [|[k v] items Hk _ IH]; cbn [collect].
  - exists []. split; [reflexivity|]. intros x y s [].
  - destruct IH as (found & Hc & Hall).
    destruct Hk as (x0 & y0 & Hk). cbn [fst] in Hk. subst k.
    destruct (mem v tile_types) eqn:Hm.
    + rewrite decode_tile_key, Hc. cbn [obind].
      exists ((x0, y0) :: found). split; [reflexivity|].
      intros x y s [E|Hin] Hs.
      * injection E as E <-. apply tile_key_inj in E. destruct E as [-> ->].
        now left.
      * right. eapply Hall; eauto.
    + exists found. split; [exact Hc|].
      intros x y s [E|Hin] Hs.
      * injection E as _ <-. congruence.
      * eapply Hall; eauto.
Qed.

(** X8.  [find_tiles_of_type] never fails on the module's own store: after
    any calls of [update_explored_map] from the empty store, whatever
    they were given and however they ended, it returns for every map name
    that can be a key and every list of tile types, and leaves the store
    as it is. *)
Theorem find_tiles_of_type_returns (observations : list value)
  (map_name : value) (tile_types : list string) :
  hashable map_name = true ->
  exists found,
    find_tiles_of_type map_name tile_types (explored_after observations)
    = (Ret found, explored_after observations).
Proof.
  intros Hh. unfold find_tiles_of_type, get_explored_map, bind, gets, ret,
    raise, lift. rewrite Hh.
  destruct (find_entry map_name (explored_after observations))
    as [entry|] eqn:E.
  - destruct (collect_well_keyed tile_types (tiles entry)) as (found & -> & _).
    + eapply well_keyed_find; [apply explored_after_well_keyed | exact E].
    + now exists found.
  - now exists [].
Qed.

Lemma find_tiles_of_type_returns_witness :
  exists found,
    find_tiles_of_type (VStr "HOUSE 1F") ["D"]
      (explored_after [VStr "no map"; house_obs])
    = (Ret found, explored_after [VStr "no map"; house_obs]).
Proof.
  apply (find_tiles_of_type_returns [VStr "no map"; house_obs]
           (VStr "HOUSE 1F") ["D"]).
  reflexivity.
Defined.

End ExploredMapProperties.

Section ExploredTiles.
Import Hoare PyStr PyNum MemoryDeprecated.

Lemma In_assoc_set_same {V : Type} (k : string) (v : V) (l : list (string * V)) :
  In (k, v) (assoc_set k v l).
Proof.
  induction l as [|[k' v'] l IH]; cbn [assoc_set]; [now left|].
  destruct (k' =? k); [now left | now right].
Qed.

Lemma In_assoc_set_other {V : Type} (k k' : string) (v v' : V)
  (l : list (string * V)) :
  k' <> k -> In (k, v) l -> In (k, v) (assoc_set k' v' l).
Proof.
  intros Hne. induction l as [|[k0 v0] l IH]; cbn [assoc_set]; [intros []|].
  intros [E|Hin].
  - injection E as -> ->.
    destruct (k =? k') eqn:Ek; [|now left].
    apply String.eqb_eq in Ek. congruence.
  - destruct (k0 =? k'); right; auto.
Qed.


Section Cells.

Variable name : string.
Variable ts : list value.
Variable w : Z.












End Cells.







End ExploredTiles.

(* ===================================================================== *)
(** ** Properties of the movement memory and of the entry positions *)
(* ===================================================================== *)

Section MovementMemoryProperties.
Import Hoare PyStr Deprecated MemoryDeprecated.











Ltac keep_step :=
  match goal with
  | |- preserves _ (ret _) => apply preserves_ret
  | |- preserves _ (gets _) => apply preserves_gets
  | |- preserves _ (modify _) => apply preserves_modify; intros ?m ?Hm
  | |- preserves _ (when _ _) => apply preserves_when
  | |- preserves _ (bind _ _) => apply preserves_bind; [|intros ?]
  | |- preserves _ (match ?x with _ => _ end) => destruct x
  end.











End MovementMemoryProperties.

(* ===================================================================== *)
(** ** Working through the long-term plan *)
(* ===================================================================== *)

Section PlanRunProperties.
Import Deprecated MemoryDeprecated.

Lemma index_of_id_app (goal_id : string) (done rest : list Goal) :
  forall i,
    ~ In goal_id (map id done) ->
    index_of_id goal_id i (done ++ rest)
    = index_of_id goal_id (i + length done) rest.
Proof.
  induction done as [|g done IH]; intros i Hnot; cbn [app length].
  - now rewrite Nat.add_0_r.
  - cbn [index_of_id]. cbn [map In] in Hnot.
    destruct (id g =? goal_id) eqn:E.
    + apply String.eqb_eq in E. exfalso. apply Hnot. now left.
    + rewrite IH; [f_equal; lia|]. intros H. apply Hnot. now right.
Qed.

Lemma mark_completed_app (done : list Goal) (g : Goal) (rest : list Goal) :
  mark_completed (length done) (done ++ g :: rest)
  = done ++ set_status "completed" g :: rest.
Proof.
  induction done as [|g0 done IH]; cbn [length app mark_completed].
  - reflexivity.
  - now rewrite IH.
Qed.

Lemma skipn_app_cons (done : list Goal) (g : Goal) (rest : list Goal) :
  skipn (S (length done)) (done ++ g :: rest) = rest.
Proof.
  induction done as [|g0 done IH]; [reflexivity|]. exact IH.
Qed.

Lemma nth_error_app_cons (done : list Goal) (g : Goal) (rest : list Goal) :
  nth_error (done ++ g :: rest) (length done) = Some g.
Proof.
  induction done as [|g0 done IH]; [reflexivity|]. exact IH.
Qed.

(** Completing, in order, the goals that are left: [done] is the part of
    the plan before the current goal. *)
Lemma complete_each_rest (rest : list Goal) :
  forall (done : list Goal) (m : MemoryModule),
    long_term_plan m = done ++ rest ->
    current_goal m
    = match rest with
      | [] => None
      | _ :: _ => Some (InPlan (length done))
      end ->
    Forall (fun g => status g = "pending") rest ->
    NoDup (map id (done ++ rest)) ->
    let m' := snd (complete_each (map id rest) m) in
    fst (complete_each (map id rest) m) = Ret tt
    /\ long_term_plan m' = done ++ map (set_status "completed") rest
    /\ current_goal m' = None.
Proof.
  induction rest as [|g rest IH]; intros done m Hplan Hcur Hpend Hnd;
    cbv zeta; cbn [map complete_each].
  - cbn. rewrite Hplan, Hcur. auto.
  - assert (Hstep :
              exists m1,
                complete_current_goal (id g) m = (Ret tt, m1)
                /\ long_term_plan m1
                   = (done ++ [set_status "completed" g]) ++ rest
                /\ current_goal m1
                   = match rest with
                     | [] => None
                     | _ :: _ =>
                         Some (InPlan
                                 (length
                                    (done ++ [set_status "completed" g])))
                     end).
    { unfold complete_current_goal, get_active_goal, bind, gets, modify, ret.
      rewrite Hcur. cbn [goal_of deref]. rewrite Hplan.
      rewrite nth_error_app_cons, String.eqb_refl. cbn [negb].
      rewrite !Hplan. rewrite index_of_id_app.
      2:{ rewrite map_app in Hnd. apply NoDup_remove_2 in Hnd.
          intros H. apply Hnd. apply in_or_app. now left. }
      cbn [index_of_id Nat.add]. rewrite String.eqb_refl.
      rewrite mark_completed_app, skipn_app_cons.
      inversion Hpend as [|g' rest' Hg Hrest]; subst.
      rewrite length_app, Nat.add_1_r.
      destruct rest as [|g1 rest1]; cbn [first_pending_from].
      - eexists. split; [reflexivity|]. cbn. now rewrite <- app_assoc.
      - inversion Hrest as [|g'' rest'' Hg1 _]; subst. rewrite Hg1.
        cbn [String.eqb]. eexists. split; [reflexivity|]. cbn.
        now rewrite <- app_assoc. }
    destruct Hstep as (m1 & Hs & Hp1 & Hc1).
    unfold bind. rewrite Hs.
    inversion Hpend as [|g' rest' Hg Hrest]; subst.
    destruct (IH (done ++ [set_status "completed" g]) m1 Hp1 Hc1 Hrest)
      as (Hr & Hp & Hc).
    { rewrite <- app_assoc. cbn [app]. rewrite !map_app in *. exact Hnd. }
    cbv zeta in Hp, Hc. rewrite Hr. split; [reflexivity|].
    split; [|exact Hc]. rewrite Hp, <- app_assoc. reflexivity.
Qed.

Lemma initialize_pending (g : Goal) (plan : list Goal) (m : MemoryModule) :
  status g = "pending" ->
  initialize_long_term_plan (g :: plan) m
  = (Ret tt,
     set_current_goal (Some (InPlan 0)) (set_long_term_plan (g :: plan) m)).
Proof.
  intros Hg. unfold initialize_long_term_plan, modify.
  cbn [first_pending_from]. now rewrite Hg.
Qed.

(** X13.  A plan worked through in order is completed: after
    [initialize_long_term_plan] with a plan of pending goals with distinct
    ids, completing the goals one after the other in the order of the
    plan marks every goal completed and leaves no current goal, so that
    [get_active_goal] returns [None]. *)
Theorem plan_in_order_is_completed (m : MemoryModule) (plan : list Goal) :
  plan <> [] ->
  Forall (fun g => status g = "pending") plan ->
  NoDup (map id plan) ->
  let run :=
    initialize_long_term_plan plan ;;; complete_each (map id plan) in
  fst (run m) = Ret tt
  /\ long_term_plan (snd (run m)) = map (set_status "completed") plan
  /\ get_active_goal (snd (run m)) = (Ret None, snd (run m)).
Proof.
  intros Hne Hpend Hnd. cbv zeta.
  destruct plan as [|g plan]; [congruence|].
  assert (Hrun :
            (initialize_long_term_plan (g :: plan) ;;;
             complete_each (map id (g :: plan))) m
            = complete_each (map id (g :: plan))
                (set_current_goal (Some (InPlan 0))
                   (set_long_term_plan (g :: plan) m))).
  { unfold bind. rewrite initialize_pending; [reflexivity|].
    now inversion Hpend. }
  rewrite !Hrun.
  destruct (complete_each_rest (g :: plan) []
              (set_current_goal (Some (InPlan 0))
                 (set_long_term_plan (g :: plan) m)))
    as (Hr & Hp & Hc); [reflexivity | reflexivity | exact Hpend | exact Hnd |].
  cbv zeta in Hp, Hc. cbn [app] in Hp.
  split; [exact Hr|]. split; [exact Hp|].
  unfold get_active_goal. rewrite Hc, Hp.
  assert (Hnone : forall l i,
             first_pending_from i (map (set_status "completed") l) = None).
  { induction l as [|x l IHl]; intros i; [reflexivity|].
    cbn [map first_pending_from set_status status String.eqb]. apply IHl. }
  now rewrite Hnone.
Qed.

Lemma plan_in_order_is_completed_witness :
  let plan := Planning.DEFAULT_EMERALD_LT_PLAN in
  let run :=
    initialize_long_term_plan plan ;;; complete_each (map id plan) in
  long_term_plan (snd (run (Runs.fresh_memory [])))
  = map (set_status "completed") plan.
Proof.
  cbv zeta.
  apply (plan_in_order_is_completed (Runs.fresh_memory [])
           Planning.DEFAULT_EMERALD_LT_PLAN).
  - discriminate.
  - repeat constructor.
  - vm_compute. repeat constructor; cbn; intuition discriminate.
Defined.

End PlanRunProperties.

(* ===================================================================== *)
(** ** The explored map only grows *)
(* ===================================================================== *)

Section ExploredMapGrows.
Import Hoare PyStr PyNum MemoryDeprecated.

Variable map_name : value.
Variable key : string.

Lemma In_assoc_set_key {V : Type} (k k' : string) (v v' : V)
  (l : list (string * V)) :
  In (k, v) l -> exists v0, In (k, v0) (assoc_set k' v' l).
Proof.
  intros H. destruct (String.eqb_spec k k') as [->|Hne].
  - exists v'. apply In_assoc_set_same.
  - exists v. apply In_assoc_set_other; [congruence | exact H].
Qed.

(** A new map does not hide a map that is there. *)
Lemma find_entry_new (name : value) (new : MapEntry) (e : ExploredMap)
  (x : MapEntry) :
  find_entry name e = None ->
  find_entry map_name e = Some x ->
  find_entry map_name (set_entry name new e) = Some x.
Proof.
  induction e as [|[k old] e IH]; cbn [find_entry set_entry];
    [discriminate|].
  destruct (py_eq k name) eqn:En; [discriminate|]. intros Hn.
  cbn [find_entry]. destruct (py_eq k map_name); [auto | now apply IH].
Qed.

(** Replacing the entry of a map by one that knows every tile it knew
    keeps what is known of every map. *)
Lemma knows_set_entry (name : value) (stored new : MapEntry)
  (e : ExploredMap) :
  find_entry name e = Some stored ->
  (forall s, In (key, s) (tiles stored) -> exists s', In (key, s') (tiles new)) ->
  knows map_name key e ->
  knows map_name key (set_entry name new e).
Proof.
  intros Hs Hnew (x & s & Hx & Hin). revert Hs Hx.
  induction e as [|[k old] e IH]; cbn [find_entry set_entry];
    [discriminate|].
  destruct (py_eq k name) eqn:En.
  - intros [= ->]. unfold knows. cbn [find_entry].
    destruct (py_eq k map_name) eqn:Em.
    + intros [= <-]. destruct (Hnew s Hin) as (s' & Hs').
      now exists new, s'.
    + intros Hx. now exists x, s.
  - intros Hs. unfold knows. cbn [find_entry].
    destruct (py_eq k map_name) eqn:Em.
    + intros [= <-]. now exists old, s.
    + intros Hx. now apply IH.
Qed.

Lemma store_tile_knows (name : value) (key' symbol : string) :
  preserves (knows map_name key) (store_tile name key' symbol).
Proof.
  unfold store_tile. apply preserves_modify. intros e He.
  destruct (find_entry name e) as [stored|] eqn:E; [|exact He].
  apply (knows_set_entry name stored); [exact E| |exact He].
  cbn [tiles]. intros s Hs. now apply (In_assoc_set_key key key' s).
Qed.

Ltac keep :=
  match goal with
  | |- preserves _ (ret _) => apply preserves_ret
  | |- preserves _ (raise _) => apply preserves_raise
  | |- preserves _ (lift _) => apply preserves_lift
  | |- preserves _ (gets _) => apply preserves_gets
  | |- preserves _ (when _ _) => apply preserves_when
  | |- preserves _ (bind _ _) => apply preserves_bind; [|intros ?]
  | |- preserves _ (for_each _ _) => apply preserves_for_each; intros ? ?
  | |- preserves _ (if ?b then _ else _) => destruct b
  | |- preserves _ (match ?x with _ => _ end) => destruct x
  end.

Lemma explore_tile_knows (name tiles_seen width : value) (y x : Z) :
  preserves (knows map_name key) (explore_tile name tiles_seen width y x).
Proof.
  unfold explore_tile. repeat first [ apply store_tile_knows | keep ].
Qed.

(** The part of [update_explored_map] after the entry of the map is
    there. *)
Lemma update_tiles_knows (name tiles_seen width height : value) :
  preserves (knows map_name key)
    (when (truthy tiles_seen && truthy width && truthy height)
       (modify (fun e =>
          match find_entry name e with
          | Some stored =>
              set_entry name (mkMapEntry (tiles stored) width height) e
          | None => e
          end) ;;;
        ys <- lift (range height) ;;
        for_each ys (fun y =>
          xs <- lift (range width) ;;
          for_each xs (fun x => explore_tile name tiles_seen width y x)))).
Proof.
  apply preserves_when. apply preserves_bind.
  - apply preserves_modify. intros e He.
    destruct (find_entry name e) as [stored|] eqn:E; [|exact He].
    apply (knows_set_entry name stored); [exact E| |exact He].
    cbn [tiles]. intros s Hs. now exists s.
  - intros _. repeat first [ apply explore_tile_knows | keep ].
Qed.

Lemma update_explored_map_knows (observation : value) :
  preserves (knows map_name key) (update_explored_map observation).
Proof.
  unfold update_explored_map.
  destruct observation as [| | | | |o]; try apply preserves_ret.
  destruct (dict_get o "state" (VDict [])) as [| | | | |st];
    try apply preserves_ret.
  destruct (negb (truthy (dict_get st "map" (VDict []))));
    [apply preserves_ret|].
  apply preserves_bind; [apply preserves_lift|]. intros name.
  apply preserves_bind; [apply preserves_lift|]. intros current_map.
  destruct (negb (truthy (py_or name current_map))); [apply preserves_ret|].
  apply preserves_bind; [destruct (hashable _); keep|]. intros _.
  intros e He. unfold bind at 1. unfold gets at 1.
  unfold bind at 1. unfold lift at 1.
  destruct (get (dict_get st "map" (VDict [])) "width" (VInt 0))
    as [w0|err]; [|exact He].
  unfold bind at 1. unfold lift at 1.
  destruct (get (dict_get st "map" (VDict [])) "height" (VInt 0))
    as [h0|err]; [|exact He].
  unfold bind at 1.
  assert (H1 : exists e1,
             when match find_entry (py_or name current_map) e with
                  | Some _ => false
                  | None => true
                  end
               (modify (set_entry (py_or name current_map)
                          (mkMapEntry [] w0 h0))) e = (Ret tt, e1)
             /\ knows map_name key e1).
  { destruct (find_entry (py_or name current_map) e) eqn:E.
    - exists e. now split.
    - eexists. split; [reflexivity|].
      destruct He as (x & s & Hx & Hin). exists x, s.
      split; [|exact Hin]. now apply find_entry_new. }
  destruct H1 as (e1 & -> & He1).
  match goal with
  | |- knows _ _ (snd (?c e1)) =>
      cut (preserves (knows map_name key) c);
        [intros Hrest; exact (Hrest e1 He1)|]
  end.
  apply preserves_bind; [apply preserves_lift|]. intros tiles_seen.
  apply preserves_bind; [apply preserves_lift|]. intros width.
  apply preserves_bind; [apply preserves_lift|]. intros height.
  apply update_tiles_knows.
Qed.

(** X27.  The explored map does not forget: a tile that is known on a
    map stays known on it after every call of [update_explored_map],
    whatever the observation and whether the call returns or raises; its
    symbol may change. *)
Theorem explored_map_never_forgets (observation : value)
  (e : ExploredMap) :
  knows map_name key e ->
  knows map_name key (snd (update_explored_map observation e)).
Proof. apply update_explored_map_knows. Qed.

End ExploredMapGrows.

Lemma explored_map_never_forgets_witness :
  MemoryDeprecated.knows (VStr "HOUSE 1F") "1_0"
    (snd (MemoryDeprecated.update_explored_map (VStr "no map")
            (snd (MemoryDeprecated.update_explored_map
                    MemoryDeprecated.house_obs [])))).
Proof.
  apply (explored_map_never_forgets (VStr "HOUSE 1F") "1_0" (VStr "no map")
           (snd (MemoryDeprecated.update_explored_map
                   MemoryDeprecated.house_obs []))).
  eexists _, "D". split; [reflexivity|]. cbn. auto.
Defined.

(* ===================================================================== *)
(** ** The goal tracker of [agent/openai/memory.py] *)
(* ===================================================================== *)

Section OpenAITrackerProperties.
Import OpenAI.

Lemma set_status_completed (g : Goal) :
  status g = "completed" -> Deprecated.set_status "completed" g = g.
Proof.
  destruct g as [i t s c mo]. unfold status. cbn. now intros ->.
Qed.

Lemma index_of_id_shift (goal_id : string) (plan : list Goal) :
  forall i,
    Deprecated.index_of_id goal_id (S i) plan
    = option_map S (Deprecated.index_of_id goal_id i plan).
Proof.
  induction plan as [|g plan IH]; intros i; cbn [Deprecated.index_of_id];
    [reflexivity|].
  destruct (Deprecated.id g =? goal_id); [reflexivity | apply IH].
Qed.

Lemma first_not_completed_shift (plan : list Goal) :
  forall i,
    first_not_completed (S i) plan
    = option_map S (first_not_completed i plan).
Proof.
  induction plan as [|g plan IH]; intros i; cbn [first_not_completed];
    [reflexivity|].
  destruct (negb (status g =? "completed")); [reflexivity | apply IH].
Qed.

(** Marking the goal with the active goal's id, after the active goal
    itself was marked, changes nothing: the first goal with that id is the
    active goal or a goal before it, which is completed. *)
Lemma mark_in_lt_plan_again (plan : list Goal) :
  forall (current : nat) (g : Goal),
    first_not_completed 0 plan = Some current ->
    nth_error plan current = Some g ->
    match Deprecated.index_of_id (id g) 0
            (Deprecated.mark_completed current plan) with
    | Some i =>
        Deprecated.mark_completed i (Deprecated.mark_completed current plan)
    | None => Deprecated.mark_completed current plan
    end = Deprecated.mark_completed current plan.
Proof.
  induction plan as [|g0 plan IH]; intros current g Hf Hn;
    [destruct current; discriminate|].
  cbn [first_not_completed] in Hf.
  destruct current as [|current].
  - cbn in Hn. injection Hn as ->.
    cbn [Deprecated.mark_completed Deprecated.index_of_id].
    unfold id. cbn [Deprecated.id Deprecated.set_status].
    rewrite String.eqb_refl. cbn [Deprecated.mark_completed].
    reflexivity.
  - destruct (status g0 =? "completed") eqn:Hs; cbn [negb] in Hf;
      [|discriminate].
    apply String.eqb_eq in Hs.
    rewrite first_not_completed_shift in Hf.
    destruct (first_not_completed 0 plan) as [c|] eqn:Hc; [|discriminate].
    injection Hf as <-. cbn [nth_error] in Hn.
    specialize (IH c g eq_refl Hn).
    cbn [Deprecated.mark_completed Deprecated.index_of_id].
    destruct (Deprecated.id g0 =? id g).
    + cbn [Deprecated.mark_completed]. now rewrite set_status_completed.
    + rewrite index_of_id_shift.
      destruct (Deprecated.index_of_id (id g) 0
                  (Deprecated.mark_completed c plan)) as [i|];
        cbn [option_map Deprecated.mark_completed]; [|reflexivity].
      now rewrite IH.
Qed.

Lemma complete_active (m : MemoryModule) (current : nat) (g : Goal) :
  first_not_completed 0 (long_term_plan m) = Some current ->
  nth_error (long_term_plan m) current = Some g ->
  complete current (id g) m
  = (Ret tt,
     set_current_goal VNone
       (set_long_term_plan
          (Deprecated.mark_completed current (long_term_plan m)) m)).
Proof.
  intros Hf Hn. unfold complete, mark_in_lt_plan, bind, modify.
  cbn [long_term_plan set_long_term_plan].
  pose proof (mark_in_lt_plan_again _ _ _ Hf Hn) as H.
  destruct (Deprecated.index_of_id (id g) 0
              (Deprecated.mark_completed current (long_term_plan m)))
    as [i|]; [|reflexivity].
  unfold set_long_term_plan, set_current_goal. cbn. now rewrite H.
Qed.

Section Outcomes.
Variable m : MemoryModule.
Variable Q : outcome unit * MemoryModule -> Prop.
Hypothesis Q_raise : forall e, Q (Raise e, m).

Lemma bind_lift_outcome {A : Type} (o : outcome A) (k : A -> MemM unit) :
  (forall a, o = Ret a -> Q (k a m)) -> Q (bind (lift o) k m).
Proof.
  intros H. unfold bind, lift. destruct o as [a|e]; [now apply H|].
  apply Q_raise.
Qed.

Lemma bind_gets_outcome {A : Type} (f : MemoryModule -> A)
  (k : A -> MemM unit) :
  Q (k (f m) m) -> Q (bind (gets f) k m).
Proof. intros H. exact H. Qed.

Lemma bind_ret_outcome {A : Type} (a : A) (k : A -> MemM unit) :
  Q (k a m) -> Q (bind (ret a) k m).
Proof. intros H. exact H. Qed.

End Outcomes.

(** X14.  One call of the tracker completes at most one goal, the active
    one: [update_goal_status] either leaves the memory as it is (also
    when it raises), or it returns, the first goal of the plan that was
    not completed is completed now, every other goal is as before, and
    the current goal is cleared. *)
Theorem tracker_completes_only_active_goal (observation : value)
  (m : MemoryModule) :
  snd (update_goal_status observation m) = m
  \/ exists current g,
       first_not_completed 0 (long_term_plan m) = Some current
       /\ nth_error (long_term_plan m) current = Some g
       /\ update_goal_status observation m
          = (Ret tt,
             set_current_goal VNone
               (set_long_term_plan
                  (Deprecated.mark_completed current (long_term_plan m))
                  m)).
Proof.
  set (Q := fun r : outcome unit * MemoryModule =>
              snd r = m
              \/ exists current g,
                   first_not_completed 0 (long_term_plan m) = Some current
                   /\ nth_error (long_term_plan m) current = Some g
                   /\ r = (Ret tt,
                           set_current_goal VNone
                             (set_long_term_plan
                                (Deprecated.mark_completed current
                                   (long_term_plan m)) m))).
  change (Q (update_goal_status observation m)).
  assert (Qr : forall e, Q (Raise e, m)) by (intros e; now left).
  assert (Qt : Q (ret tt m)) by now left.
  unfold update_goal_status. cbv zeta.
  apply bind_lift_outcome; [exact Qr|]. intros summary _.
  apply bind_lift_outcome; [exact Qr|]. intros ke _.
  apply bind_lift_outcome; [exact Qr|]. intros sum_sp _.
  unfold state_get at 1. apply bind_gets_outcome.
  apply bind_lift_outcome; [exact Qr|]. intros loc _.
  apply bind_lift_outcome; [exact Qr|]. intros raw_ke _.
  apply bind_lift_outcome; [exact Qr|]. intros ke_location _.
  apply bind_lift_outcome; [exact Qr|]. intros obs_loc _.
  unfold state_get at 1. apply bind_gets_outcome.
  assert (Hparty :
            forall (party : value) (k : Z -> MemM unit),
              (forall z, Q (k z m)) ->
              Q (bind
                   match party with
                   | VList l => ret (Z.of_nat (length l))
                   | _ =>
                       pc <- state_get "party_count" ;;
                       lift (py_int (py_or pc (VInt 0)))
                   end k m)).
  { intros party k Hk.
    destruct party; try apply Hk;
      unfold bind, state_get, gets, lift;
      match goal with
      | |- context [py_int ?v] => destruct (py_int v); [apply Hk|apply Qr]
      end. }
  apply Hparty. intros party_count.
  unfold state_get at 1. apply bind_gets_outcome.
  apply bind_lift_outcome; [exact Qr|]. intros ke_map_id _.
  unfold get_active_goal at 1. apply bind_gets_outcome.
  apply bind_gets_outcome.
  destruct (first_not_completed 0 (long_term_plan m)) as [current|] eqn:Hf;
    [|exact Qt].
  destruct (nth_error (long_term_plan m) current) as [g|] eqn:Hn;
    [|exact Qt].
  assert (Qd : Q (complete current (id g) m)).
  { right. exists current, g. repeat split; try assumption.
    now apply complete_active. }
  assert (Qf : forall text, Q (fallback current g text m)).
  { intros text. unfold fallback. destruct (existsb _ _); assumption. }
  apply bind_lift_outcome; [exact Qr|]. intros scene_type _.
  repeat match goal with
         | |- Q ((if ?b then _ else _) m) => destruct b
         | |- Q (bind (lift ?o) _ m) =>
             apply bind_lift_outcome; [exact Qr|]; intros ? _
         | |- Q (complete _ _ m) => exact Qd
         | |- Q (fallback _ _ _ m) => apply Qf
         | |- Q (ret tt m) => exact Qt
         end.
Qed.

End OpenAITrackerProperties.

(* ===================================================================== *)
(** ** The predicted map *)
(* ===================================================================== *)

Section PredictionProperties.
Import PyStr MemoryOpenAI.

Lemma all_chars_app (p : ascii -> bool) (a b : string) :
  all_chars p (a ++ b) = all_chars p a && all_chars p b.
Proof.
  induction a as [|x a IH]; cbn [append all_chars]; [reflexivity|].
  now rewrite IH, andb_assoc.
Qed.




Lemma split_rows_free (c : ascii) (s : string) :
  forall cur,
    all_chars (fun x => negb (Ascii.eqb c x)) cur = true ->
    Forall (fun r => all_chars (fun x => negb (Ascii.eqb c x)) r = true)
      (split_from (String c "") 0 cur s).
Proof.
  induction s as [|x s IH]; intros cur Hcur; cbn [split_from].
  - now repeat constructor.
  - rewrite prefix_char. destruct (Ascii.eqb c x) eqn:E.
    + constructor; [exact Hcur|]. now apply IH.
    + apply IH. rewrite all_chars_app, Hcur. cbn. now rewrite E.
Qed.




(** *** Lists updated by index *)









(** *** The grid of a map *)
















End PredictionProperties.

(* ===================================================================== *)
(** ** Visited tiles *)
(* ===================================================================== *)

Section VisitedProperties.
Import PyStr MemoryOpenAI.





Lemma set_module_same (s : Memory) : set_module (module s) s = s.
Proof. now destruct s. Qed.

Lemma set_state_same (m : OpenAI.MemoryModule) :
  OpenAI.set_state (OpenAI.state m) m = m.
Proof. now destruct m. Qed.





Section OnState.
Variable plan : list OpenAI.Goal.
Variable cur : value.
Variable nh : bool.
Variable q : list string.
Variable cache : list (string * value).





End OnState.



End VisitedProperties.

(* ===================================================================== *)
(** ** Map snapshots *)
(* ===================================================================== *)

Section SnapshotProperties.
Import PyStr MemoryOpenAI.



(** A map stored without a location name goes under ["unknown_area"],
    where an observation without a location does not look: such an
    observation gets the map of the location the state holds. *)
Example nameless_map_is_not_found :
  let s := mkMem (OpenAI.mkMemory [("location", VStr "Littleroot Town")]
                    [] VNone false [])
             [("littleroot_town", VStr "old map")] [] in
  let s' := snd (store_map_snapshot VNone (VStr "new map") s) in
  map_cache s' = [("littleroot_town", VStr "old map");
                  ("unknown_area", VStr "new map")]
  /\ get_best_map_for_observation (VDict []) s' = (Ret (VStr "old map"), s').
Proof. split; reflexivity. Qed.

End SnapshotProperties.

(* ===================================================================== *)
(** ** The short-term plan *)
(* ===================================================================== *)

Section ShortTermPlanProperties.
Import PyStr MemoryOpenAI.

Section OnState.
Variable plan : list OpenAI.Goal.
Variable nh : bool.
Variable q : list string.
Variable cache : list (string * value).




End OnState.


End ShortTermPlanProperties.

(* ===================================================================== *)
(** ** Properties of the reading of the reply in [agent/openai] *)
(* ===================================================================== *)

Section OpenAIReplyProperties.
Import PyStr Re ReplyOpenAI.














(** The later parts of a reply are queued before the rest of its first
    [MOVE]. *)
Example reply_queue_order :
  interpret_reply (fun _ l => hd "" l) "Action: move up 3, a" (VStr "MAP") 0
  = ([["A"]; ["UP"; "UP"]], Ret (VStr "UP")).
Proof. vm_compute. reflexivity. Qed.

(** A batch queued from the later parts stays queued when the count of
    the first part is too long for [int]. *)
Example reply_count_too_long :
  interpret_reply (fun _ l => hd "" l)
    ("MOVE UP 1" ++ string_of_list_ascii (repeat "0"%char 4300) ++ ", B")
    (VStr "MAP") 0
  = ([["B"]], Raise ValueError).
Proof. vm_compute. reflexivity. Qed.

End OpenAIReplyProperties.

(* ===================================================================== *)
(** ** Properties of the key elements *)
(* ===================================================================== *)

Section KeyElementsProperties.
Import PyStr KeyElements.

(** *** [strip] *)

Lemma lstrip_shape (s : string) :
  lstrip s = ""
  \/ exists c t, lstrip s = String c t /\ is_space c = false.
Proof.
  induction s as [|c s IH]; cbn [lstrip]; [now left|].
  destruct (is_space c) eqn:E; [exact IH|]. right. now exists c, s.
Qed.

Lemma rstrip_idem (s : string) : rstrip (rstrip s) = rstrip s.
Proof.
  induction s as [|c s IH]; [reflexivity|]. cbn [rstrip].
  destruct (rstrip s) as [|x r] eqn:E.
  - destruct (is_space c) eqn:Ec; [reflexivity|].
    cbn [rstrip]. now rewrite Ec.
  - cbn [rstrip]. cbn [rstrip] in IH.
    destruct (rstrip r) as [|y r'] eqn:Er.
    + destruct (is_space x); [discriminate IH|]. now rewrite IH.
    + now rewrite IH.
Qed.

Lemma lstrip_rstrip_head (c : ascii) (t : string) :
  is_space c = false -> lstrip (rstrip (String c t)) = rstrip (String c t).
Proof.
  intros Hc. cbn [rstrip].
  destruct (rstrip t); [rewrite Hc|]; cbn [lstrip]; now rewrite Hc.
Qed.

Lemma strip_idem (s : string) : strip (strip s) = strip s.
Proof.
  unfold strip. destruct (lstrip_shape s) as [->|(c & t & -> & Hc)].
  - reflexivity.
  - rewrite lstrip_rstrip_head by exact Hc. apply rstrip_idem.
Qed.

Lemma all_chars_lstrip (p : ascii -> bool) (s : string) :
  all_chars p s = true -> all_chars p (lstrip s) = true.
Proof.
  induction s as [|c s IH]; [reflexivity|]. cbn [lstrip all_chars].
  intros H. destruct (is_space c); [|exact H].
  apply andb_prop in H. now apply IH.
Qed.

Lemma all_chars_rstrip (p : ascii -> bool) (s : string) :
  all_chars p s = true -> all_chars p (rstrip s) = true.
Proof.
  induction s as [|c s IH]; [reflexivity|]. cbn [rstrip all_chars].
  intros H. apply andb_prop in H. destruct H as [Hc Hs].
  specialize (IH Hs). destruct (rstrip s).
  - destruct (is_space c); [reflexivity|]. cbn. now rewrite Hc.
  - cbn [all_chars] in IH |- *. now rewrite Hc, IH.
Qed.

Lemma all_chars_strip (p : ascii -> bool) (s : string) :
  all_chars p s = true -> all_chars p (strip s) = true.
Proof. intros H. now apply all_chars_rstrip, all_chars_lstrip. Qed.

(** *** [replace], [split] and [in] for one character *)

Lemma replace_char_gone (old new : ascii) (s : string) :
  old <> new ->
  all_chars (fun c => negb (Ascii.eqb old c))
    (replace s (String old "") (String new "")) = true.
Proof.
  intros Hne. unfold replace.
  induction s as [|x s IH]; [reflexivity|]. cbn [replace_from].
  rewrite prefix_char. destruct (Ascii.eqb old x) eqn:E.
  - cbn [String.length Nat.sub append all_chars]. rewrite IH.
    apply Ascii.eqb_neq in Hne. now rewrite Hne.
  - cbn [all_chars]. now rewrite E, IH.
Qed.

Lemma split_from_chars (p : ascii -> bool) (c : ascii) (s : string) :
  forall cur,
    all_chars p cur = true -> all_chars p s = true ->
    Forall (fun r => all_chars p r = true)
      (PyStr.split_from (String c "") 0 cur s).
Proof.
  induction s as [|x s IH]; intros cur Hcur Hs; cbn [PyStr.split_from].
  - now repeat constructor.
  - cbn [all_chars] in Hs. apply andb_prop in Hs. destruct Hs as [Hx Hs].
    rewrite prefix_char. destruct (Ascii.eqb c x).
    + constructor; [exact Hcur|]. now apply IH.
    + apply IH; [|exact Hs]. rewrite all_chars_app, Hcur. cbn.
      now rewrite Hx.
Qed.

Lemma contains_char_false (c : ascii) (s : string) :
  contains (String c "") s = false ->
  all_chars (fun x => negb (Ascii.eqb c x)) s = true.
Proof.
  induction s as [|x s IH]; [reflexivity|]. cbn [contains all_chars].
  rewrite prefix_char. intros H. apply orb_false_elim in H.
  destruct H as [Hx Hs]. now rewrite Hx, IH.
Qed.

(** [s.split(c, 1)]: the whole of [s], or what stands before and after
    the first [c]. *)
Lemma split_once_char (c : ascii) (s : string) :
  forall cur,
    split_once_from (String c "") cur s = [(cur ++ s)%string]
    \/ exists a b,
         s = (a ++ String c b)%string
         /\ all_chars (fun x => negb (Ascii.eqb c x)) a = true
         /\ split_once_from (String c "") cur s = [(cur ++ a)%string; b].
Proof.
  induction s as [|x s IH]; intros cur; cbn [split_once_from].
  - left. now rewrite string_app_nil_r.
  - rewrite prefix_char. destruct (Ascii.eqb c x) eqn:E.
    + apply Ascii.eqb_eq in E. subst x. right. exists "", s.
      cbn. now rewrite string_app_nil_r.
    + destruct (IH (cur ++ String x "")%string)
        as [H|(a & b & -> & Ha & H)].
      * left. rewrite H. now rewrite string_app_assoc.
      * right. exists (String x a), b. cbn [append all_chars].
        rewrite E, Ha, H. now rewrite string_app_assoc.
Qed.

(** *** The parts of the text *)

Lemma parts_of_clean (raw : string) :
  Forall (fun p => p <> "" /\ clean p) (parts_of raw).
Proof.
  unfold parts_of, PyStr.split.
  assert (H : Forall
                (fun r =>
                   all_chars (fun c => negb (Ascii.eqb "," c)
                                       && negb (Ascii.eqb ";" c)) r = true)
                (PyStr.split_from "," 0 "" (replace raw ";" ","))).
  { pose proof (split_rows_free "," (replace raw ";" ",") "" eq_refl) as H1.
    pose proof (split_from_chars (fun c => negb (Ascii.eqb ";" c)) ","
                  (replace raw ";" ",") "" eq_refl
                  (replace_char_gone ";" "," raw ltac:(discriminate))) as H2.
    induction H1 as [|r rows Hr _ IH]; [constructor|].
    inversion H2 as [|r' rows' Hr2 Hrows2]; subst.
    constructor; [|now apply IH].
    clear - Hr Hr2. induction r as [|x r IH]; [reflexivity|].
    cbn [all_chars] in *. apply andb_prop in Hr, Hr2.
    destruct Hr as [Hx Hr], Hr2 as [Hx2 Hr2]. now rewrite Hx, Hx2, IH. }
  induction H as [|r rows Hr _ IH]; [constructor|].
  cbn [map filter]. destruct (strip r =? "") eqn:E; cbn [negb]; [exact IH|].
  constructor; [|exact IH]. split; [now apply String.eqb_neq|].
  split; [apply strip_idem | now apply all_chars_strip].
Qed.

Lemma add_part_clean (out : list (string * value)) (p : string) :
  p <> "" -> clean p ->
  Forall clean_entry out -> Forall clean_entry (add_part out p).
Proof.
  intros Hne [Hs Hp] Hout. unfold add_part.
  destruct (contains "=" p) eqn:E.
  - unfold split_once.
    destruct (split_once_char "=" p "") as [->|(a & b & -> & Ha & ->)];
      [exact Hout|].
    rewrite all_chars_app in Hp. cbn [all_chars] in Hp.
    apply andb_prop in Hp. destruct Hp as [Hpa Hpb].
    apply andb_prop in Hpb. destruct Hpb as [_ Hpb].
    cbn [append]. apply Forall_assoc_set; [exact Hout|].
    split; cbn [fst snd].
    + split; [apply strip_idem | now apply all_chars_strip].
    + right. exists (strip b). split; [reflexivity|]. split.
      * split; [apply strip_idem | now apply all_chars_strip].
      * now apply all_chars_strip.
  - apply Forall_assoc_set; [exact Hout|]. split; cbn [fst snd].
    + now split.
    + left. split; [reflexivity|]. split; [exact Hne|].
      now apply contains_char_false.
Qed.

(** X21.  The keys read from a text are clean: when the key elements are
    not already a dictionary, every key of the dictionary
    [_normalize_key_elements] returns has no blank around it and holds
    none of [,], [;] and [=]; it is bound to [True], and then is not
    empty, or to a text without blanks around it and without [,] and
    [;]. *)
Theorem key_elements_are_clean (key_elements : value) :
  is_dict key_elements = false ->
  Forall clean_entry (_normalize_key_elements key_elements).
Proof.
  intros Hd. unfold _normalize_key_elements.
  assert (H : Forall clean_entry
                (if negb (truthy key_elements) then []
                 else fold_left add_part (parts_of (py_str key_elements))
                        [])).
  { destruct (negb (truthy key_elements)); [constructor|].
    pose proof (parts_of_clean (py_str key_elements)) as Hp.
    assert (G : forall parts out,
               Forall (fun p => p <> "" /\ clean p) parts ->
               Forall clean_entry out ->
               Forall clean_entry (fold_left add_part parts out)).
    { induction parts as [|p parts IH]; intros out Hparts Hout;
        [exact Hout|].
      inversion Hparts as [|p' parts' [Hne Hc] Hrest]; subst.
      cbn [fold_left]. apply IH; [exact Hrest|].
      now apply add_part_clean. }
    apply G; [exact Hp | constructor]. }
  destruct key_elements; try exact H. discriminate Hd.
Qed.

Lemma key_elements_are_clean_witness :
  _normalize_key_elements (VStr " Location = Route 101 ; Party=1,, dialog ")
  = [("Location", VStr "Route 101"); ("Party", VStr "1");
     ("dialog", VBool true)]
  /\ Forall clean_entry
       (_normalize_key_elements
          (VStr " Location = Route 101 ; Party=1,, dialog ")).
Proof.
  split; [reflexivity|].
  apply (key_elements_are_clean
           (VStr " Location = Route 101 ; Party=1,, dialog ")).
  reflexivity.
Defined.

End KeyElementsProperties.

(* ===================================================================== *)
(** ** Properties of the movement preview *)
(* ===================================================================== *)

Section MovementPreviewProperties.
Import PyStr MovementPreview.

Lemma well_formed_walkable (p : Preview) (d : string)
  (kind : option string) :
  In d DIRECTIONS -> well_formed p ->
  well_formed
    (mkPreview (walkable p ++ [d]) (blocked p) (mark d kind (special p))).
Proof.
  intros Hd (Hw & Hb & Hs). unfold well_formed. cbn [walkable blocked special].
  split; [|split; [exact Hb|]].
  - apply Forall_app. split; [exact Hw|].
    constructor; [exact Hd | constructor].
  - assert (Hs' : Forall (fun kv : string * string =>
                            In (fst kv) (walkable p ++ [d])) (special p)).
    { eapply Forall_impl; [|exact Hs]. intros kv H.
      apply in_or_app. now left. }
    destruct kind as [kind|]; [|exact Hs']. cbn [mark].
    apply Forall_assoc_set; [exact Hs'|]. cbn [fst].
    apply in_or_app. right. now left.
Qed.

Lemma well_formed_blocked (p : Preview) (d : string) :
  In d DIRECTIONS -> well_formed p ->
  well_formed (mkPreview (walkable p) (blocked p ++ [d]) (special p)).
Proof.
  intros Hd (Hw & Hb & Hs). unfold well_formed. cbn [walkable blocked special].
  split; [exact Hw|]. split; [|exact Hs].
  apply Forall_app. split; [exact Hb|].
  constructor; [exact Hd | constructor].
Qed.

Lemma well_formed_empty : well_formed (mkPreview [] [] []).
Proof. repeat split; constructor. Qed.

Lemma from_walkable_dict_well_formed (items : list (string * value)) :
  forall walkable0 special0 walkable1 special1,
    well_formed (mkPreview walkable0 [] special0) ->
    from_walkable_dict items walkable0 special0 = Ret (walkable1, special1) ->
    well_formed (mkPreview walkable1 [] special1).
Proof.
  induction items as [|[direction tile_info] items IH];
    intros w0 s0 w1 s1 Hwf H; cbn [from_walkable_dict] in H.
  - now injection H as <- <-.
  - destruct (mem (upper direction) DIRECTIONS) eqn:E;
      [|now apply (IH w0 s0)].
    apply mem_In in E.
    destruct tile_info as [| | | | |d];
      try (apply (IH (w0 ++ [upper direction]) s0); [|exact H];
           exact (well_formed_walkable (mkPreview w0 [] s0) _ None E Hwf)).
    destruct (str_upper _) as [behavior|e]; [|discriminate H].
    cbn [obind] in H.
    apply (IH (w0 ++ [upper direction])
             (mark (upper direction) (special_of_behavior behavior) s0));
      [|exact H].
    exact (well_formed_walkable (mkPreview w0 [] s0) _ _ E Hwf).
Qed.

Lemma preview_line_well_formed (line : string) (acc : Preview) :
  well_formed acc -> well_formed (preview_line line acc).
Proof.
  intros Hwf. unfold preview_line.
  destruct (contains ":" line); [|exact Hwf].
  destruct (split (strip line) ":") as [|p0 [|p1 parts]]; try exact Hwf.
  destruct (mem (strip p0) DIRECTIONS) eqn:E; [|exact Hwf].
  apply mem_In in E.
  destruct (contains "WALKABLE" (strip p1));
    [now apply well_formed_walkable|].
  destruct (contains "BLOCKED" (strip p1)); [|exact Hwf].
  now apply well_formed_blocked.
Qed.

Lemma read_preview_well_formed (lines : list string) :
  forall in_preview acc,
    well_formed acc -> well_formed (read_preview in_preview lines acc).
Proof.
  induction lines as [|line lines IH]; intros in_preview acc Hwf;
    cbn [read_preview]; [exact Hwf|].
  destruct (contains "MOVEMENT PREVIEW:" line); [now apply IH|].
  destruct in_preview; [|now apply IH].
  destruct ((strip line =? "") || startswith line "---"); [exact Hwf|].
  apply IH. now apply preview_line_well_formed.
Qed.

Lemma read_neighbors_well_formed (rows : list (list string))
  (p_y p_x : nat) (todo : list (string * Z * Z)) :
  Forall (fun t => In (fst (fst t)) DIRECTIONS) todo ->
  forall acc,
    well_formed acc -> well_formed (read_neighbors rows p_y p_x todo acc).
Proof.
  induction 1 as [|[[d dy] dx] todo Hd _ IH]; intros acc Hwf;
    cbn [read_neighbors]; [exact Hwf|].
  cbn [fst] in Hd. apply IH.
  destruct (tok_at rows p_y p_x dy dx) as [tok|];
    [|now apply well_formed_blocked].
  destruct (mem tok ["."; "D"]); [|now apply well_formed_blocked].
  destruct (tok =? "D").
  - exact (well_formed_walkable acc d (Some "door") Hd Hwf).
  - exact (well_formed_walkable acc d None Hd Hwf).
Qed.

Lemma neighbors_directions :
  Forall (fun t : string * Z * Z => In (fst (fst t)) DIRECTIONS) neighbors.
Proof.
  unfold neighbors.
  repeat (apply Forall_cons; [now apply mem_In|]). apply Forall_nil.
Qed.

Lemma calculated_names_directions (observation : value)
  (walkable_calc blocked_calc : list string) :
  MapGrid._calculate_walkable_from_map observation
  = Ret (walkable_calc, blocked_calc) ->
  Forall (fun d => In d DIRECTIONS) (walkable_calc ++ blocked_calc).
Proof.
  unfold MapGrid._calculate_walkable_from_map. intros H.
  destruct (Deprecated.Planning._get_coords observation) as [[px py]|].
  2:{ injection H as <- <-. constructor. }
  destruct (MapGrid._extract_map_grid observation) as [[tiles width] height].
  destruct (negb (truthy tiles) || py_eq width (VInt 0)
            || py_eq height (VInt 0)).
  { injection H as <- <-. constructor. }
  apply scan_partition in H. cbn [app] in H.
  apply Forall_forall. intros d Hd.
  exact (Permutation_in d H Hd).
Qed.

(** X22.  The preview names directions only: whichever of its four
    sources answers and whatever the state formatter returns, when
    [_analyze_movement_preview] returns, its walkable and its blocked
    list hold only [UP], [DOWN], [LEFT] and [RIGHT], and every direction
    it marks as special is one of its walkable directions. *)
Theorem movement_preview_names_directions
  (format_state_for_llm format_state_for_llm_map : value -> outcome string)
  (observation : value) (p : Preview) :
  _analyze_movement_preview format_state_for_llm format_state_for_llm_map
    observation = Ret p ->
  well_formed p.
Proof.
  unfold _analyze_movement_preview. intros H.
  destruct (get observation "state" (VDict [])) as [state|e];
    [|discriminate H]. cbn [obind] in H.
  destruct (negb (truthy state)).
  { injection H as <-. apply well_formed_empty. }
  destruct (get state "walkable" (VDict [])) as [walkable_dict|e];
    [|discriminate H]. cbn [obind] in H.
  assert (Hfirst :
            forall first,
              match walkable_dict with
              | VDict (item :: items) =>
                  from_walkable_dict (item :: items) [] []
              | _ => Ret ([], [])
              end = Ret first ->
              well_formed (mkPreview (fst first) [] (snd first))).
  { intros [w1 s1] Hf. cbn [fst snd].
    destruct walkable_dict as [| | | | |[|item items]];
      try (injection Hf as <- <-; apply well_formed_empty).
    exact (from_walkable_dict_well_formed _ _ _ _ _ well_formed_empty Hf). }
  destruct (match walkable_dict with
            | VDict (item :: items) =>
                from_walkable_dict (item :: items) [] []
            | _ => Ret ([], [])
            end) as [[walkable1 special1]|e]; [|discriminate H].
  cbn [obind] in H. specialize (Hfirst _ eq_refl). cbn [fst snd] in Hfirst.
  destruct walkable1 as [|d walkable1].
  2:{ injection H as <-. exact Hfirst. }
  assert (Hs : special1 = []).
  { destruct Hfirst as (_ & _ & Hs). cbn [walkable special] in Hs.
    destruct special1 as [|kv special1]; [reflexivity|].
    inversion Hs as [|? ? Hin _]. destruct Hin. }
  subst special1.
  destruct (MapGrid._calculate_walkable_from_map observation)
    as [[walkable_calc blocked_calc]|e] eqn:Ecalc.
  - apply calculated_names_directions in Ecalc.
    apply Forall_app in Ecalc. destruct Ecalc as [Hw Hb].
    assert (Hc : well_formed (mkPreview walkable_calc blocked_calc [])).
    { repeat split; try assumption. constructor. }
    destruct walkable_calc as [|d0 walkable_calc];
      [destruct blocked_calc as [|d0 blocked_calc]|];
      try (injection H as <-; exact Hc).
    clear Hc Hw Hb.
    revert H.
    set (third := match format_state_for_llm state with
                  | Ret formatted_state =>
                      read_preview false
                        (split formatted_state (String "010" ""))
                        (mkPreview [] [] [])
                  | Raise _ => mkPreview [] [] []
                  end).
    assert (Ht : well_formed third).
    { unfold third. destruct (format_state_for_llm state);
        [apply read_preview_well_formed|]; apply well_formed_empty. }
    assert (Hf : well_formed
                   (from_ascii_map format_state_for_llm_map observation
                      third)).
    { unfold from_ascii_map.
      destruct (_build_map_context _ _) as [map_lines|]; [|exact Ht].
      destruct (find_p 0 (grid_rows false map_lines)) as [[p_y p_x]|];
        [|exact Ht].
      apply read_neighbors_well_formed; [|exact Ht].
      apply neighbors_directions. }
    destruct (walkable third); [destruct (blocked third)|];
      intros [= <-]; assumption.
  - revert H.
    set (third := match format_state_for_llm state with
                  | Ret formatted_state =>
                      read_preview false
                        (split formatted_state (String "010" ""))
                        (mkPreview [] [] [])
                  | Raise _ => mkPreview [] [] []
                  end).
    assert (Ht : well_formed third).
    { unfold third. destruct (format_state_for_llm state);
        [apply read_preview_well_formed|]; apply well_formed_empty. }
    assert (Hf : well_formed
                   (from_ascii_map format_state_for_llm_map observation
                      third)).
    { unfold from_ascii_map.
      destruct (_build_map_context _ _) as [map_lines|]; [|exact Ht].
      destruct (find_p 0 (grid_rows false map_lines)) as [[p_y p_x]|];
        [|exact Ht].
      apply read_neighbors_well_formed; [|exact Ht].
      apply neighbors_directions. }
    destruct (walkable third); [destruct (blocked third)|];
      intros [= <-]; assumption.
Qed.

Lemma movement_preview_names_directions_witness :
  well_formed (mkPreview ["DOWN"; "LEFT"; "RIGHT"] ["UP"] [("RIGHT", "door")]).
Proof.
  apply (movement_preview_names_directions
           (fun _ => Raise ValueError)
           (fun _ => Ret "x
--- MAP: HOUSE ---
# # # #
# . P D
# # . #
Legend: P=you
--- END")
           (VDict
              [("state",
                VDict
                  [("player",
                    VDict
                      [("position",
                        VDict [("x", VInt 2); ("y", VInt 1)])])])])).
  vm_compute. reflexivity.
Defined.

End MovementPreviewProperties.

(* ===================================================================== *)
(** ** Properties of the target of a navigation goal *)
(* ===================================================================== *)

Section TargetProperties.
Import PyNum PyStr Target.

Lemma dist_int (t : Z * Z) (x y : Z) :
  dist t (VInt x, VInt y) = Ret (Z.abs (fst t - x) + Z.abs (snd t - y))%Z.
Proof. reflexivity. Qed.

(** What [far_from] keeps is what is farther than one tile from the
    entry. *)
Lemma far_from_spec (entry : value * value) (targets : list (Z * Z)) :
  forall kept,
    far_from entry targets = Ret kept ->
    forall t,
      In t kept <->
      In t targets /\ exists d, dist t entry = Ret d /\ (1 < d)%Z.
Proof.
  induction targets as [|t0 targets IH]; intros kept H t;
    cbn [far_from] in H.
  - injection H as <-. cbn. tauto.
  - destruct (dist t0 entry) as [d0|e] eqn:E0; [|discriminate H].
    cbn [obind] in H.
    destruct (far_from entry targets) as [rest|e]; [|discriminate H].
    cbn [obind] in H. injection H as <-.
    specialize (IH rest eq_refl t).
    destruct (1 <? d0)%Z eqn:Ed; cbn [In]; rewrite IH.
    + split.
      * intros [Heq|[Hin Hd]].
        -- subst t. split; [now left|].
           exists d0. split; [exact E0 | now apply Z.ltb_lt].
        -- split; [now right | exact Hd].
      * intros [[Heq|Hin] Hd]; [now left|]. right. now split.
    + split.
      * intros [Hin Hd]. split; [now right | exact Hd].
      * intros [[Heq|Hin] (d & Hd & Hlt)]; [|split; [exact Hin|]; now exists d].
        subst t. rewrite E0 in Hd. injection Hd as <-.
        apply Z.ltb_ge in Ed. lia.
Qed.

Lemma filter_away_entry_spec (entry_coords : option (value * value))
  (targets kept : list (Z * Z)) :
  filter_away_entry entry_coords targets = Ret kept ->
  forall t,
    In t kept <->
    In t targets
    /\ forall entry, entry_coords = Some entry ->
                     exists d, dist t entry = Ret d /\ (1 < d)%Z.
Proof.
  unfold filter_away_entry. intros H t.
  destruct targets as [|t0 targets].
  - injection H as <-. cbn. tauto.
  - destruct entry_coords as [entry|].
    + rewrite (far_from_spec entry (t0 :: targets) kept H t).
      split.
      * intros [Hin Hd]. split; [exact Hin|]. now intros e [= <-].
      * intros [Hin Hd]. split; [exact Hin|]. now apply Hd.
    + injection H as <-. split; [|tauto].
      intros Hin. split; [exact Hin|]. discriminate.
Qed.

(** [nearest] returns the first of the tiles at the least distance. *)
Lemma nearest_spec (x y : Z) (targets : list (Z * Z)) :
  forall best best_d,
    best_d = (Z.abs (fst best - x) + Z.abs (snd best - y))%Z ->
    exists r,
      nearest (VInt x, VInt y) best best_d targets = Ret r
      /\ (r = best \/ In r targets)
      /\ (forall t, t = best \/ In t targets ->
                    (Z.abs (fst r - x) + Z.abs (snd r - y)
                     <= Z.abs (fst t - x) + Z.abs (snd t - y))%Z).
Proof.
  induction targets as [|t0 targets IH]; intros best best_d Hd;
    cbn [nearest].
  - exists best. split; [reflexivity|]. split; [now left|].
    intros t [->|[]]. lia.
  - rewrite dist_int. cbn [obind].
    destruct (_ <? best_d)%Z eqn:E.
    + destruct (IH t0 _ eq_refl) as (r & Hr & Hin & Hmin).
      exists r. split; [exact Hr|]. split.
      * right. destruct Hin as [->|Hin]; [now left | now right].
      * intros t [->|[<-|Ht]].
        -- apply Z.ltb_lt in E. specialize (Hmin t0 (or_introl eq_refl)). lia.
        -- apply Hmin. now left.
        -- apply Hmin. now right.
    + destruct (IH best best_d Hd) as (r & Hr & Hin & Hmin).
      exists r. split; [exact Hr|]. split.
      * destruct Hin as [->|Hin]; [now left | right; now right].
      * intros t [->|[<-|Ht]].
        -- apply Hmin. now left.
        -- apply Z.ltb_ge in E.
           specialize (Hmin best (or_introl eq_refl)). lia.
        -- apply Hmin. now right.
Qed.

(** A step in the direction of a tile that is not the player's own
    brings the player one tile nearer. *)
Lemma direction_of_approaches (dx dy : Z) :
  (dx, dy) <> (0, 0)%Z ->
  let (sx, sy) := step_of (direction_of dx dy) in
  (Z.abs (dx - sx) + Z.abs (dy - sy) = Z.abs dx + Z.abs dy - 1)%Z.
Proof.
  intros Hne. unfold direction_of.
  destruct (Z.abs dy <? Z.abs dx)%Z eqn:E.
  - apply Z.ltb_lt in E.
    destruct (0 <? dx)%Z eqn:Ex; cbn.
    + apply Z.ltb_lt in Ex. lia.
    + apply Z.ltb_ge in Ex. lia.
  - apply Z.ltb_ge in E.
    assert (dy <> 0%Z).
    { intros ->. apply Hne. f_equal. lia. }
    destruct (0 <? dy)%Z eqn:Ey; cbn.
    + apply Z.ltb_lt in Ey. lia.
    + apply Z.ltb_ge in Ey. lia.
Qed.

Lemma pick_spec (targets stairs : list (Z * Z))
  (entry_coords : option (value * value)) (x y : Z) (door_only : bool)
  (tg : Target) :
  pick targets stairs entry_coords (Some (VInt x, VInt y)) door_only
  = Ret (Some tg) ->
  In (tile tg) targets
  /\ (forall entry, entry_coords = Some entry ->
                    exists d, dist (tile tg) entry = Ret d /\ (1 < d)%Z)
  /\ distance tg
     = (Z.abs (fst (tile tg) - x) + Z.abs (snd (tile tg) - y))%Z
  /\ direction tg = direction_of (fst (tile tg) - x) (snd (tile tg) - y)
  /\ (forall t,
         In t targets ->
         (forall entry, entry_coords = Some entry ->
                        exists d, dist t entry = Ret d /\ (1 < d)%Z) ->
         (distance tg <= Z.abs (fst t - x) + Z.abs (snd t - y))%Z).
Proof.
  unfold pick. intros H.
  destruct (filter_away_entry entry_coords targets) as [kept|e] eqn:Ef;
    [|discriminate H]. cbn [obind] in H.
  pose proof (filter_away_entry_spec _ _ _ Ef) as Hkept.
  destruct kept as [|t0 kept]; [discriminate H|].
  unfold closest_of in H. rewrite dist_int in H. cbn [obind] in H.
  destruct (nearest_spec x y kept t0 _ eq_refl) as (r & Hr & Hin & Hmin).
  rewrite Hr in H. cbn [obind as_int fst snd] in H.
  injection H as <-. cbn [tile distance direction].
  assert (Hr_in : In r (t0 :: kept)).
  { destruct Hin as [->|Hin]; [now left | now right]. }
  apply Hkept in Hr_in. destruct Hr_in as [Hr_t Hr_far].
  repeat split; try assumption; try reflexivity.
  intros t Ht Hfar. apply Hmin.
  assert (Hk : In t (t0 :: kept)) by (apply Hkept; now split).
  destruct Hk as [<-|Hk]; [now left | now right].
Qed.

(** X23.  The target of a navigation goal: when the planner names a
    target for a player at integer coordinates, the target is one of the
    stairs or doors the memory has seen, farther than one tile from the
    place where the map was entered, and no such tile of the list it was
    taken from is nearer to the player; the distance told is the
    distance in tiles, and unless the player stands on the target, one
    step in the direction told brings the player one tile nearer. *)
Theorem target_is_nearest_and_approached (goal_text : string)
  (stairs doors : list (Z * Z)) (entry_coords : option (value * value))
  (x y : Z) (tg : Target) :
  target_of goal_text stairs doors entry_coords (Some (VInt x, VInt y))
  = Ret (Some tg) ->
  exists targets,
    (targets = stairs \/ targets = doors)
    /\ In (tile tg) targets
    /\ (forall entry, entry_coords = Some entry ->
                      exists d, dist (tile tg) entry = Ret d /\ (1 < d)%Z)
    /\ (forall t,
           In t targets ->
           (forall entry, entry_coords = Some entry ->
                          exists d, dist t entry = Ret d /\ (1 < d)%Z) ->
           (distance tg <= Z.abs (fst t - x) + Z.abs (snd t - y))%Z)
    /\ distance tg
       = (Z.abs (fst (tile tg) - x) + Z.abs (snd (tile tg) - y))%Z
    /\ (tile tg <> (x, y) ->
        let (sx, sy) := step_of (direction tg) in
        (Z.abs (fst (tile tg) - (x + sx)) + Z.abs (snd (tile tg) - (y + sy))
         = distance tg - 1)%Z).
Proof.
  unfold target_of. intros H.
  assert (G : forall targets door_only,
             pick targets stairs entry_coords (Some (VInt x, VInt y))
               door_only = Ret (Some tg) ->
             In (tile tg) targets
             /\ (forall entry, entry_coords = Some entry ->
                               exists d, dist (tile tg) entry = Ret d
                                         /\ (1 < d)%Z)
             /\ (forall t,
                    In t targets ->
                    (forall entry, entry_coords = Some entry ->
                                   exists d, dist t entry = Ret d
                                             /\ (1 < d)%Z) ->
                    (distance tg
                     <= Z.abs (fst t - x) + Z.abs (snd t - y))%Z)
             /\ distance tg
                = (Z.abs (fst (tile tg) - x)
                   + Z.abs (snd (tile tg) - y))%Z
             /\ (tile tg <> (x, y) ->
                 let (sx, sy) := step_of (direction tg) in
                 (Z.abs (fst (tile tg) - (x + sx))
                  + Z.abs (snd (tile tg) - (y + sy))
                  = distance tg - 1)%Z)).
  { intros targets door_only Hp. apply pick_spec in Hp.
    destruct Hp as (Hin & Hfar & Hd & Hdir & Hmin).
    repeat split; try assumption.
    intros Hne. rewrite Hdir, Hd.
    pose proof (direction_of_approaches (fst (tile tg) - x)
                  (snd (tile tg) - y)) as Ha.
    destruct (step_of _) as [sx sy].
    replace (fst (tile tg) - (x + sx))%Z
      with (fst (tile tg) - x - sx)%Z by lia.
    replace (snd (tile tg) - (y + sy))%Z
      with (snd (tile tg) - y - sy)%Z by lia.
    apply Ha. intros [= Hx Hy]. apply Hne.
    destruct (tile tg) as [tx ty]. cbn [fst snd] in *. f_equal; lia. }
  destruct (contains "upstairs" (lower goal_text)
            || contains "downstairs" (lower goal_text)).
  - destruct stairs as [|s stairs'].
    + exists doors. split; [now right|]. now apply (G doors false).
    + exists (s :: stairs'). split; [now left|].
      now apply (G (s :: stairs') false).
  - destruct (contains "exit" (lower goal_text)
              || contains "leave" (lower goal_text)); [|discriminate H].
    exists doors. split; [now right|]. now apply (G doors true).
Qed.

Lemma target_is_nearest_and_approached_witness :
  target_of "Exit the house" [(1, 1)%Z] [(4, 7)%Z; (9, 2)%Z; (5, 3)%Z]
    (Some (VInt 4, VInt 6)) (Some (VInt 6, VInt 3))
  = Ret (Some (mkTarget (5, 3)%Z "door" "LEFT" 1))
  /\ exists targets : list (Z * Z),
       (targets = [(1, 1)%Z] \/ targets = [(4, 7)%Z; (9, 2)%Z; (5, 3)%Z])
       /\ In (5, 3)%Z targets.
Proof.
  split; [reflexivity|].
  destruct (target_is_nearest_and_approached "Exit the house" [(1, 1)%Z]
              [(4, 7)%Z; (9, 2)%Z; (5, 3)%Z] (Some (VInt 4, VInt 6)) 6 3
              (mkTarget (5, 3)%Z "door" "LEFT" 1) eq_refl)
    as (targets & Ht & Hin & _).
  now exists targets.
Defined.

End TargetProperties.

(* ===================================================================== *)
(** ** Properties of [update] in [agent/openai/memory.py] *)
(* ===================================================================== *)

Section OpenAIUpdateProperties.
Import PyStr PyNum MemoryOpenAI UpdateOpenAI.

Lemma logs_ret {A : Type} (a : A) : logs_at_most 0 (@ret Memory A a).
Proof. intros s. cbn. split; [lia | reflexivity]. Qed.

Lemma logs_raise {A : Type} (e : exn) : logs_at_most 0 (@raise Memory A e).
Proof. intros s. cbn. split; [lia | reflexivity]. Qed.

Lemma logs_lift {A : Type} (o : outcome A) : logs_at_most 0 (@lift Memory A o).
Proof. intros s. cbn. split; [lia | reflexivity]. Qed.

Lemma logs_gets {A : Type} (f : Memory -> A) : logs_at_most 0 (gets f).
Proof. intros s. cbn. split; [lia | reflexivity]. Qed.

Lemma logs_on_module {A : Type} (c : OpenAI.MemM A) :
  logs_at_most 0 (on_module c).
Proof.
  intros s. unfold on_module. destruct (c (module s)) as [r m'].
  cbn. split; [lia | reflexivity].
Qed.

Lemma logs_record_event (key : string) : logs_at_most 1 (_record_event key).
Proof.
  intros s. unfold _record_event, modify. cbn.
  rewrite length_app. cbn. split; [lia | reflexivity].
Qed.

Lemma logs_weaken {A : Type} (j k : nat) (c : MemM A) :
  j <= k -> logs_at_most j c -> logs_at_most k c.
Proof. intros Hjk H s. destruct (H s) as [Hl Hc]. split; [lia | exact Hc]. Qed.

Lemma logs_bind {A B : Type} (j k : nat) (m : MemM A) (f : A -> MemM B) :
  logs_at_most j m -> (forall a, logs_at_most k (f a)) ->
  logs_at_most (j + k) (bind m f).
Proof.
  intros Hm Hf s. unfold bind. destruct (Hm s) as [Hl Hc].
  destruct (m s) as [[a|e] s1]; cbn [snd] in *.
  - destruct (Hf a s1) as [Hl1 Hc1]. split; [lia | congruence].
  - split; [lia | exact Hc].
Qed.

Lemma logs_when (k : nat) (b : bool) (m : MemM unit) :
  logs_at_most k m -> logs_at_most k (when b m).
Proof.
  intros Hm. destruct b; [exact Hm|].
  apply (logs_weaken 0); [lia | apply logs_ret].
Qed.

Lemma logs_try_except {A : Type} (j k : nat) (m : MemM A)
  (h : exn -> MemM A) :
  logs_at_most j m -> (forall e, logs_at_most k (h e)) ->
  logs_at_most (j + k) (try_except m h).
Proof.
  intros Hm Hh s. unfold try_except. destruct (Hm s) as [Hl Hc].
  destruct (m s) as [[a|e] s1]; cbn [snd] in *.
  - split; [lia | exact Hc].
  - destruct (Hh e s1) as [Hl1 Hc1]. split; [lia | congruence].
Qed.

Lemma length_last_n {A : Type} (n : nat) (l : list A) :
  0 < n -> n <= length l -> length (last_n n l) = n.
Proof.
  intros Hn Hl. unfold last_n. destruct n; [lia|].
  rewrite length_skipn. lia.
Qed.

Lemma trim_bound (max_entries : nat) (s : Memory) :
  0 < max_entries -> length (entries (trim max_entries s)) <= max_entries.
Proof.
  intros Hm. unfold trim.
  destruct (max_entries <? length (entries s))%nat eqn:E.
  - apply Nat.ltb_lt in E. cbn [entries].
    rewrite length_last_n; lia.
  - apply Nat.ltb_ge in E. exact E.
Qed.

Lemma logs_trim (max_entries : nat) :
  logs_at_most 0 (modify (trim max_entries)).
Proof.
  intros s. unfold modify, trim. cbn [snd].
  destruct (max_entries <? length (entries s))%nat eqn:E;
    [|split; [lia | reflexivity]].
  cbn [entries map_cache]. split; [|reflexivity].
  unfold last_n. destruct max_entries; [lia|].
  rewrite length_skipn. lia.
Qed.

Ltac logs0 :=
  first [ apply logs_lift | apply logs_gets | apply logs_ret
        | apply logs_raise | apply logs_on_module ].

(** A step that logs nothing, then the rest. *)
Ltac logs_next :=
  match goal with
  | |- logs_at_most ?k (bind _ _) =>
      apply (logs_bind 0 k); [logs0 | intros ?]
  end.

Lemma logs_set_and_record (v : value) (key event : string) :
  logs_at_most 1 (state_set key v ;;; _record_event event).
Proof.
  apply (logs_bind 0 1); [apply logs_on_module|].
  intros _. apply logs_record_event.
Qed.

(** [track] logs at most three events: a location, a badge, a blocker. *)
Lemma logs_track (observation last_action : value) :
  logs_at_most 3 (track observation last_action).
Proof.
  unfold track. do 4 logs_next.
  apply (logs_bind 1 2).
  { apply logs_when. do 2 logs_next. apply logs_when.
    apply logs_set_and_record. }
  intros _. logs_next.
  apply (logs_bind 1 1).
  { apply logs_when. do 2 logs_next.
    destruct (as_int _); [apply logs_set_and_record|].
    apply (logs_weaken 0); [lia | apply logs_raise]. }
  intros _. logs_next.
  apply (logs_bind 1 0).
  { apply logs_when. do 4 logs_next. apply logs_when.
    match goal with
    | |- logs_at_most _ (match ?x with _ => _ end) => destruct x
    end; try (apply (logs_weaken 0); [lia | apply logs_raise]).
    apply logs_set_and_record. }
  intros _. logs_next.
  apply (logs_bind 0 0).
  { match goal with
    | |- logs_at_most _ (if ?x then _ else _) => destruct x
    end; logs0. }
  intros has_lead. apply (logs_bind 0 0).
  { apply logs_when. do 3 logs_next.
    match goal with
    | |- logs_at_most _ (match ?x with _ => _ end) => destruct x
    end; logs0. }
  intros _. apply (logs_bind 0 0); [logs0|]. intros _.
  apply logs_when. logs0.
Qed.

(** X24.  [update] never raises and keeps the log short: whatever the
    observation and the state, it returns, adds at most three events to
    the log and leaves the map cache alone; and when nothing failed on
    the way, the log has at most [max_entries] entries afterwards, for a
    [max_entries] that is not zero. *)
Theorem update_returns_and_trims (max_entries : nat)
  (observation last_action : value) (s : Memory) :
  let s' := snd (update max_entries observation last_action s) in
  fst (update max_entries observation last_action s) = Ret tt
  /\ length (entries s') <= length (entries s) + 3
  /\ map_cache s' = map_cache s
  /\ (0 < max_entries ->
      fst (update_body max_entries observation last_action s) = Ret tt ->
      length (entries s') <= max_entries).
Proof.
  cbv zeta.
  assert (Hlogs : logs_at_most 3
                    (update max_entries observation last_action)).
  { unfold update, update_body.
    apply (logs_try_except 3 0); [|intros e; apply logs_ret].
    apply (logs_bind 3 0); [apply logs_track|].
    intros _. apply logs_trim. }
  destruct (Hlogs s) as [Hl Hc].
  split; [|split; [exact Hl|split; [exact Hc|]]].
  - unfold update, try_except.
    destruct (update_body max_entries observation last_action s)
      as [[[]|e] s1]; reflexivity.
  - intros Hm. unfold update, try_except, update_body, bind.
    destruct (track observation last_action s) as [[[]|e] s1];
      cbn [fst snd modify]; [|discriminate].
    intros _. now apply trim_bound.
Qed.

Lemma update_returns_and_trims_witness :
  let s := mkMem (OpenAI.mkMemory [("badges", VInt 0); ("blockers", VList [])]
                    [] VNone false [])
             [] ["location"; "badge"] in
  let s' := snd (update 2
                   (VDict [("summary", VStr "You won the BADGE!");
                           ("key_elements",
                            VDict [("Location", VStr "Gym")])])
                   VNone s) in
  entries s' = ["location"; "badge"]
  /\ length (entries s') <= 2.
Proof.
  cbv zeta. split; [reflexivity|].
  apply (update_returns_and_trims 2
           (VDict [("summary", VStr "You won the BADGE!");
                   ("key_elements", VDict [("Location", VStr "Gym")])])
           VNone
           (mkMem (OpenAI.mkMemory
                     [("badges", VInt 0); ("blockers", VList [])]
                     [] VNone false [])
              [] ["location"; "badge"])).
  - lia.
  - reflexivity.
Defined.

(** With [max_entries = 0] nothing is trimmed: [entries[-0:]] is the
    whole list. *)
Example update_without_limit :
  entries
    (snd (update 0 (VDict [("key_elements",
                            VDict [("Location", VStr "Gym")])])
            VNone
            (mkMem (OpenAI.mkMemory [] [] VNone false []) [] ["badge"])))
  = ["badge"; "location"].
Proof. reflexivity. Qed.

End OpenAIUpdateProperties.

(* ===================================================================== *)
(** ** Completing a goal and normalising an action string *)
(* ===================================================================== *)

Section CompleteGoalProperties.
Import PyStr MemoryOpenAI.



End CompleteGoalProperties.
Section NormalizeActionProperties.
Import PyStr MemoryOpenAI.

Lemma is_space_upper_char (c : ascii) :
  is_space (upper_char c) = is_space c.
Proof.
  destruct c as [[] [] [] [] [] [] [] []]; vm_compute; reflexivity.
Qed.

Lemma lstrip_upper (s : string) : lstrip (upper s) = upper (lstrip s).
Proof.
  unfold upper. induction s as [|c s IH]; [reflexivity|].
  cbn [map_string lstrip]. rewrite is_space_upper_char.
  destruct (is_space c); [exact IH | reflexivity].
Qed.

Lemma rstrip_upper (s : string) : rstrip (upper s) = upper (rstrip s).
Proof.
  unfold upper. induction s as [|c s IH]; [reflexivity|].
  cbn [map_string rstrip]. rewrite IH, is_space_upper_char.
  destruct (rstrip s); cbn [map_string]; [|reflexivity].
  now destruct (is_space c).
Qed.

Lemma strip_upper (s : string) : strip (upper s) = upper (strip s).
Proof. unfold strip. now rewrite lstrip_upper, rstrip_upper. Qed.

Lemma upper_strip_fixed (t : string) :
  upper (strip (upper (strip t))) = upper (strip t).
Proof. now rewrite strip_upper, strip_idem, upper_idem. Qed.

(** X26.  Normalising an action string twice is normalising it once; and
    a single button, whatever its case and the blanks around it, becomes
    [PRESS <button>], which the action module reads as that one
    button. *)
Theorem normalize_action_string_stable (s : value) (r : string) :
  _normalize_action_string s = Ret r ->
  _normalize_action_string (VStr r) = Ret r
  /\ (forall t, s = VStr t -> In (upper (strip t)) btns ->
                r = ("PRESS " ++ upper (strip t))%string
                /\ ActionOpenAI._parse_action r = Ret [upper (strip t)]).
Proof.
  unfold _normalize_action_string at 1. intros H.
  assert (Hempty : _normalize_action_string (VStr "") = Ret "")
    by reflexivity.
  assert (Hbtn : forall b,
             In b btns ->
             _normalize_action_string (VStr ("PRESS " ++ b)) = Ret ("PRESS " ++ b)%string
             /\ ActionOpenAI._parse_action ("PRESS " ++ b) = Ret [b]).
  { intros b Hb. cbn [In btns] in Hb.
    destruct Hb as [<-|[<-|[<-|[<-|[<-|[<-|[<-|[<-|[]]]]]]]]];
      split; vm_compute; reflexivity. }
  destruct (py_or s (VStr "")) as [| | |t| |] eqn:Es; try discriminate H.
  set (u := upper (strip t)) in *.
  assert (Hu : upper (strip u) = u) by apply upper_strip_fixed.
  assert (Hpass : forall t', s = VStr t' -> upper (strip t') = u).
  { intros t' ->. unfold py_or in Es.
    destruct (truthy (VStr t')) eqn:Et; injection Es as <-; [reflexivity|].
    destruct t'; [reflexivity | discriminate Et]. }
  assert (Hsame :
            u <> "" ->
            _normalize_action_string (VStr u)
            = (if u =? "" then Ret ""
               else if startswith u "MOVE " then Ret u
               else if startswith u "PRESS " || startswith u "INTERACT"
                       || startswith u "MENU"
               then Ret u
               else if mem u btns then Ret ("PRESS " ++ u)%string
               else Ret u)).
  { intros Hne. unfold _normalize_action_string.
    assert (Hor : py_or (VStr u) (VStr "") = VStr u).
    { unfold py_or. destruct u; [congruence | reflexivity]. }
    now rewrite Hor, Hu. }
  destruct (u =? "") eqn:E0.
  { injection H as <-. split; [exact Hempty|].
    intros t' Hs Hin. rewrite (Hpass t' Hs) in Hin.
    apply String.eqb_eq in E0. rewrite E0 in Hin.
    cbn in Hin. intuition discriminate. }
  assert (Hne : u <> "") by now apply String.eqb_neq.
  specialize (Hsame Hne).
  destruct (startswith u "MOVE ") eqn:E1.
  { injection H as <-. split; [exact Hsame|].
    intros t' Hs Hin. rewrite (Hpass t' Hs) in Hin. exfalso.
    cbn [In btns] in Hin.
    destruct Hin as [Hb|[Hb|[Hb|[Hb|[Hb|[Hb|[Hb|[Hb|[]]]]]]]]];
      rewrite <- Hb in E1; discriminate E1. }
  destruct (startswith u "PRESS " || startswith u "INTERACT"
            || startswith u "MENU") eqn:E2.
  { injection H as <-. split; [exact Hsame|].
    intros t' Hs Hin. rewrite (Hpass t' Hs) in Hin. exfalso.
    cbn [In btns] in Hin.
    destruct Hin as [Hb|[Hb|[Hb|[Hb|[Hb|[Hb|[Hb|[Hb|[]]]]]]]]];
      rewrite <- Hb in E2; discriminate E2. }
  destruct (mem u btns) eqn:E3.
  - injection H as <-. apply mem_In in E3.
    destruct (Hbtn u E3) as [Hn Hp]. split; [exact Hn|].
    intros t' Hs _. rewrite (Hpass t' Hs). now split.
  - injection H as <-. split; [exact Hsame|].
    intros t' Hs Hin. rewrite (Hpass t' Hs) in Hin.
    apply mem_In in Hin. congruence.
Qed.

Lemma normalize_action_string_stable_witness :
  _normalize_action_string (VStr " start ") = Ret "PRESS START"
  /\ _normalize_action_string (VStr "PRESS START") = Ret "PRESS START".
Proof.
  split; [reflexivity|].
  apply (normalize_action_string_stable (VStr " start ") "PRESS START").
  reflexivity.
Defined.

End NormalizeActionProperties.
